(** * TALON: transcript identity resolution and novel-entity registry

    A shallow embedding of the Python sources
    - [transcript.py] (class [Transcript]),
    - [initialize_talon_database.py] (GTF import, vertex/edge allocation),
    - [archived/talon.py] (read identification and database update),
    together with the properties stated about them.

    Python objects that are mutated in place are modelled by explicit state
    passing; a Python exception is a [Raise] outcome that keeps the state
    reached when it was raised. *)

From Stdlib Require Import ZArith String Ascii List Lia Bool Sorted.
From stdpp Require Import base option list gmap strings pretty.
Import ListNotations.
Local Open Scope string_scope.
Local Open Scope list_scope.
Local Open Scope Z_scope.

(** ** Python base layer: exceptions, [str], outcomes with state *)

Module Py.

(** The exceptions the modelled code can raise. [OperationalError] and
    [SqlIntegrityError] are the errors of the sqlite3 module. [NonTermination]
    is not an exception: it marks a [while] loop that never ends, so that the
    call does not return; no handler is ever wrapped around such a loop. *)
Inductive exn : Type :=
| ValueError (msg : string)
| KeyError (key : string)
| IndexError
| AttributeError
| TypeError
| UnboundLocalError (name : string)
| OperationalError (msg : string)
| SqlIntegrityError
| NonTermination.

(** Outcome of a call: a value, or a raised exception. *)
Inductive result (A : Type) : Type :=
| Ok (a : A)
| Raise (e : exn).
Arguments Ok {A} a.
Arguments Raise {A} e.

Definition is_ok {A} (r : result A) : bool :=
  match r with Ok _ => true | Raise _ => false end.

(** [str(n)] for an integer: decimal digits, leading minus sign. *)
Definition str (n : Z) : string := pretty n.

(** [sep.join(parts)] *)
Fixpoint join (sep : string) (parts : list string) : string :=
  match parts with
  | [] => ""
  | [p] => p
  | p :: rest => p +:+ sep +:+ join sep rest
  end.

(** A computation over a mutable store [S]: the store is returned on both
    outcomes, since what Python mutated before a [raise] stays mutated. *)
Definition M (S A : Type) : Type := S -> result A * S.

Definition ret {S A} (a : A) : M S A := fun s => (Ok a, s).
Definition raise {S A} (e : exn) : M S A := fun s => (Raise e, s).
Definition bind {S A B} (m : M S A) (k : A -> M S B) : M S B :=
  fun s => match m s with
           | (Ok a, s') => k a s'
           | (Raise e, s') => (Raise e, s')
           end.
Definition get {S} : M S S := fun s => (Ok s, s).
Definition put {S} (s : S) : M S unit := fun _ => (Ok tt, s).
Definition modify {S} (f : S -> S) : M S unit := fun s => (Ok tt, f s).

(** Run a state-free callee that may raise. *)
Definition call {S A} (r : result A) : M S A := fun s => (r, s).

(** [for x in l: body(x)]; an exception leaves the loop. *)
Fixpoint for_each {S A} (body : A -> M S unit) (l : list A) : M S unit :=
  match l with
  | [] => ret tt
  | x :: rest => bind (body x) (fun _ => for_each body rest)
  end.

(** [try: m except: pass] at statement level: any exception is swallowed,
    the mutations made before it remain. *)
Definition try_pass {S} (m : M S unit) : M S unit :=
  fun s => (Ok tt, snd (m s)).

End Py.

Import Py.

Declare Scope py_scope.
Delimit Scope py_scope with py.
Notation "x <- c1 ;; c2" := (Py.bind c1 (fun x => c2))
  (at level 100, c1 at next level, right associativity) : py_scope.
Notation "c1 ;;; c2" := (Py.bind c1 (fun _ => c2))
  (at level 100, right associativity) : py_scope.

(** ** transcript.py *)

Module TranscriptPy.

(** What a slot of the Python list [self.exons] can hold: an integer, or a
    nested two-element list (which is what
    [self.exons.append([start, end])] would store). *)
Inductive pyitem : Type :=
| PInt (z : Z)
| PNested (first second : pyitem).

Definition is_flat (x : pyitem) : bool :=
  match x with PInt _ => true | PNested _ _ => false end.

(** class Transcript: the attributes set by [__init__]. *)
Record Transcript : Type := mkTranscript {
  chromosome : string;
  start : Z;
  end_ : Z;
  strand : string;
  exons : list pyitem;
  identifier : string;
  name : option string;
  gene_id : option string
}.

Definition set_exons (t : Transcript) (ex : list pyitem) : Transcript :=
  mkTranscript (chromosome t) (start t) (end_ t) (strand t) ex
               (identifier t) (name t) (gene_id t).

(** Transcript.__init__ *)
Definition init (identifier : string) (name : option string)
    (chromosome : string) (start end_ : Z) (strand : string)
    (gene_id : option string) : Transcript :=
  mkTranscript chromosome start end_ strand [] identifier name gene_id.

Definition add_exon_msg (exon_start exon_end : Z) : string :=
  "Exon start (" +:+ str exon_start +:+ ")" +:+
  "is supposed to be before the exon end (" +:+ str exon_end +:+ ")".

(** Transcript.add_exon: [exon = [exon_start, exon_end]; self.exons += exon].
    [+=] on a list extends it by the elements of the right-hand list. *)
Definition add_exon (exon_start exon_end : Z) : M Transcript unit :=
  fun self =>
    if exon_start >? exon_end then
      (Raise (ValueError (add_exon_msg exon_start exon_end)), self)
    else
      let exon := [PInt exon_start; PInt exon_end] in
      (Ok tt, set_exons self (exons self ++ exon)).

End TranscriptPy.

(** ** initialize_talon_database.py *)

Module InitDb.

(** *** Vertex and edge allocation while a transcript is processed *)

(** A database gene identifier as [add_transcripts] passes it on: the integer
    issued for the gene, or the string ["NULL"]. *)
Inductive gene_ref : Type :=
| GeneId (n : Z)
| GeneNull.

Definition str_gene (g : gene_ref) : string :=
  match g with GeneId n => str n | GeneNull => "NULL" end.

(** The tuple stored for a vertex:
    [(vertex_id, gene_id, genome_build, chromosome, pos, strand)]. *)
Definition vertex_tuple : Type := Z * gene_ref * string * string * Z * string.

(** The tuple stored for an edge: [(edge_id, vertex_1, vertex_2, edge_type)]. *)
Definition edge_tuple : Type := Z * Z * Z * string.

(** Value of a slot of the [vertices] / [edges] dictionaries. Both keep their
    running counter in the same dictionary, under the key ["counter"]. *)
Inductive slot (T : Type) : Type :=
| Counter (n : Z)
| Entry (t : T).
Arguments Counter {T} n.
Arguments Entry {T} t.

Definition vertex_id_of (t : vertex_tuple) : Z :=
  let '(vertex_id, _, _, _, _, _) := t in vertex_id.
Definition edge_id_of (t : edge_tuple) : Z :=
  let '(edge_id, _, _, _) := t in edge_id.

(** [d["counter"]] read as an integer. *)
Definition read_counter {T} (d : gmap string (slot T)) : result Z :=
  match d !! "counter" with
  | None => Raise (KeyError "counter")
  | Some (Counter n) => Ok n
  | Some (Entry _) => Raise TypeError
  end.

Definition vertex_query (gene_id : gene_ref) (genome_build chromosome : string)
    (pos : Z) (strand : string) : string :=
  join "," [str_gene gene_id; genome_build; chromosome; str pos; strand].

(** create_vertex; the cursor argument [c] is not used by the function. The
    dictionary is both mutated and returned; the model threads it as the
    state. *)
Definition create_vertex (gene_id : gene_ref) (genome_build chromosome : string)
    (pos : Z) (strand : string) : M (gmap string (slot vertex_tuple)) Z :=
  fun vertices =>
    let query := vertex_query gene_id genome_build chromosome pos strand in
    match vertices !! query with
    | Some (Entry t) => (Ok (vertex_id_of t), vertices)
    | Some (Counter _) => (Raise TypeError, vertices)
    | None =>
        match read_counter vertices with
        | Raise e => (Raise e, vertices)
        | Ok n =>
            let vertex_id := n + 1 in
            let vertices := <["counter" := Counter (n + 1)]> vertices in
            let new_vertex :=
              (vertex_id, gene_id, genome_build, chromosome, pos, strand) in
            let keyname :=
              vertex_query gene_id genome_build chromosome pos strand in
            (Ok vertex_id, <[keyname := Entry new_vertex]> vertices)
        end
    end.

Definition edge_query (vertex_1 vertex_2 : Z) (edge_type : string) : string :=
  join "," [str vertex_1; str vertex_2; edge_type].

(** create_edge *)
Definition create_edge (vertex_1 vertex_2 : Z) (edge_type : string)
    : M (gmap string (slot edge_tuple)) Z :=
  fun edges =>
    let query := edge_query vertex_1 vertex_2 edge_type in
    match edges !! query with
    | Some (Entry t) => (Ok (edge_id_of t), edges)
    | Some (Counter _) => (Raise TypeError, edges)
    | None =>
        match read_counter edges with
        | Raise e => (Raise e, edges)
        | Ok n =>
            let edge_id := n + 1 in
            let edges := <["counter" := Counter (n + 1)]> edges in
            let new_edge := (edge_id, vertex_1, vertex_2, edge_type) in
            let keyname := edge_query vertex_1 vertex_2 edge_type in
            (Ok edge_id, <[keyname := Entry new_edge]> edges)
        end
    end.

(** Further calls of [create_vertex] / [create_edge], each given by its
    arguments, run one after the other on the dictionary. *)
Definition create_vertices
    (calls : list (gene_ref * string * string * Z * string))
    (vertices : gmap string (slot vertex_tuple))
    : gmap string (slot vertex_tuple) :=
  fold_left (fun vs '(g, b, c, p, s) => snd (create_vertex g b c p s vs))
            calls vertices.

Definition create_edges (calls : list (Z * Z * string))
    (edges : gmap string (slot edge_tuple)) : gmap string (slot edge_tuple) :=
  fold_left (fun es '(v1, v2, ty) => snd (create_edge v1 v2 ty es)) calls edges.

(** *** GTF parsing *)

(** Modelled from the spec: class [Edge] of edge.py, which is not among the
    sources. An edge is a genomic segment tagged with the set of transcript
    identifiers that use it; the attributes below are the ones this script
    reads ([identifier], [transcript_ids], [annotations], [chromosome],
    [start], [end]). *)
Record Edge : Type := mkEdge {
  identifier : string;
  edge_chromosome : string;
  edge_start : Z;
  edge_end : Z;
  transcript_ids : gset string;
  annotations : gmap string string
}.

(** [exon.transcript_ids.add(t)] *)
Definition add_transcript_id (t : string) (e : Edge) : Edge :=
  mkEdge (identifier e) (edge_chromosome e) (edge_start e) (edge_end e)
         ({[t]} ∪ transcript_ids e) (annotations e).

(** The collaborators of [read_gtf_file] that live in gene.py, edge.py and in
    the [Transcript] class this script runs against (it has [annotations] and
    a one-argument [add_exon], so it is not the class of transcript.py).
    Each may raise. A transcript's [gene_id] is [None] when the entry names
    no gene. *)
Class GtfModules (Gene Transcript : Type) : Type := {
  get_gene_from_gtf : list string -> result Gene;
  gene_identifier : Gene -> string;
  gene_add_transcript : Transcript -> Gene -> result Gene;
  get_transcript_from_gtf : list string -> result Transcript;
  transcript_identifier : Transcript -> string;
  transcript_gene_id : Transcript -> option string;
  transcript_add_exon : Edge -> Transcript -> result Transcript;
  create_edge_from_gtf : list string -> result Edge
}.

(** One line of the file after [strip] and [split("\t")]; a line that starts
    with [#] is skipped. *)
Inductive gtf_line : Type :=
| Header
| Fields (tab_fields : list string).

Section ReadGtf.
Context {Gene Transcript : Type} `{GtfModules Gene Transcript}.

(** The three dictionaries [read_gtf_file] fills. *)
Record gtf_state : Type := mkGtf {
  genes : gmap string Gene;
  transcripts : gmap string Transcript;
  exons : gmap string Edge
}.

Definition set_genes (g : gmap string Gene) (st : gtf_state) : gtf_state :=
  mkGtf g (transcripts st) (exons st).
Definition set_transcripts (t : gmap string Transcript) (st : gtf_state)
    : gtf_state :=
  mkGtf (genes st) t (exons st).
Definition set_exons (e : gmap string Edge) (st : gtf_state) : gtf_state :=
  mkGtf (genes st) (transcripts st) e.

(** [list(s)[0]] for a set [s]: some member (the iteration order of a Python
    set is unspecified), [IndexError] when the set is empty. *)
Definition first_of_set (s : gset string) : result string :=
  match elements s with
  | [] => Raise IndexError
  | x :: _ => Ok x
  end.

(** The test [location_exon_id not in exons] of the exon branch. *)
Definition not_in (k : string) (d : gmap string Edge) : bool :=
  bool_decide (d !! k = None).

(** Body of [if entry_type == "gene"]. *)
Definition gene_entry (tab_fields : list string) : M gtf_state unit :=
  (gene <- call (get_gene_from_gtf tab_fields) ;;
   let native_id := gene_identifier gene in
   modify (fun st => set_genes (<[native_id := gene]> (genes st)) st))%py.

(** Body of [elif entry_type == "transcript"]. *)
Definition transcript_entry (tab_fields : list string) : M gtf_state unit :=
  (transcript <- call (get_transcript_from_gtf tab_fields) ;;
   let gene_id := transcript_gene_id transcript in
   st <- get ;;
   match gene_id with
   | Some gene_id =>
       match genes st !! gene_id with
       | Some g =>
           g' <- call (gene_add_transcript transcript g) ;;
           modify (fun st => set_genes (<[gene_id := g']> (genes st)) st)
       | None => ret tt
       end
   | None => ret tt
   end ;;;
   let native_id := transcript_identifier transcript in
   modify (fun st =>
             set_transcripts (<[native_id := transcript]> (transcripts st)) st))%py.

(** Body of [elif entry_type == "exon"]. *)
Definition exon_entry (tab_fields : list string) : M gtf_state unit :=
  (exon <- call (create_edge_from_gtf tab_fields) ;;
   let location_exon_id := identifier exon in
   modify (fun st => set_exons (<[location_exon_id := exon]> (exons st)) st) ;;;
   transcript_id <- call (first_of_set (transcript_ids exon)) ;;
   gene_id <- call (match annotations exon !! "gene_id" with
                    | Some g => Ok g
                    | None => Raise (KeyError "gene_id")
                    end) ;;
   st <- get ;;
   exon <- (if not_in location_exon_id (exons st) then
              modify (fun st =>
                        set_exons (<[location_exon_id := exon]> (exons st)) st) ;;;
              ret exon
            else
              match exons st !! location_exon_id with
              | None => raise (KeyError location_exon_id)
              | Some stored =>
                  let exon := add_transcript_id transcript_id stored in
                  modify (fun st =>
                            set_exons (<[location_exon_id := exon]> (exons st)) st) ;;;
                  ret exon
              end) ;;
   st <- get ;;
   match transcripts st !! transcript_id with
   | Some currTranscript =>
       t' <- call (transcript_add_exon exon currTranscript) ;;
       modify (fun st =>
                 set_transcripts (<[transcript_id := t']> (transcripts st)) st)
   | None => ret tt
   end)%py.

(** Body of the [for line in gtf] loop. *)
Definition gtf_step (line : gtf_line) : M gtf_state unit :=
  match line with
  | Header => ret tt
  | Fields tab_fields =>
      match tab_fields !! 2%nat with
      | None => raise IndexError
      | Some entry_type =>
          if String.eqb entry_type "gene" then gene_entry tab_fields
          else if String.eqb entry_type "transcript" then
            transcript_entry tab_fields
          else if String.eqb entry_type "exon" then exon_entry tab_fields
          else ret tt
      end
  end.

(** read_gtf_file, on the lines of the file. *)
Definition read_gtf_file (lines : list gtf_line) : result gtf_state :=
  match for_each gtf_step lines (mkGtf ∅ ∅ ∅) with
  | (Ok _, st) => Ok st
  | (Raise e, _) => Raise e
  end.

(** The identifier an exon line registers, if the line is one. *)
Definition registers (line : gtf_line) : option string :=
  match line with
  | Header => None
  | Fields f =>
      match f !! 2%nat with
      | Some ty =>
          if String.eqb ty "exon" then
            match create_edge_from_gtf f with
            | Ok e => Some (identifier e)
            | Raise _ => None
            end
          else None
      | None => None
      end
  end.

End ReadGtf.

End InitDb.

(** ** Python dictionaries whose iteration order is observed *)

(** A [dict] keeps its keys in insertion order; [d[k] = v] replaces the value
    of a present key where it stands and appends an absent one. The staging
    tables of talon.py are turned into row lists with [.values()], so their
    order is part of the behaviour. *)
Module OD.
Section Dict.
Context {K V : Type} `{EqDecision K}.

Fixpoint get (k : K) (d : list (K * V)) : option V :=
  match d with
  | [] => None
  | (k', v) :: rest => if decide (k = k') then Some v else get k rest
  end.

Fixpoint set (k : K) (v : V) (d : list (K * V)) : list (K * V) :=
  match d with
  | [] => [(k, v)]
  | (k', v') :: rest =>
      if decide (k = k') then (k, v) :: rest else (k', v') :: set k v rest
  end.

Definition keys (d : list (K * V)) : list K := map fst d.
Definition values (d : list (K * V)) : list V := map snd d.

End Dict.
End OD.

(** ** archived/talon.py: data model *)

Module Talon.

(** A field of a staged row or of a database row. *)
Inductive value : Type :=
| VInt (n : Z)
| VStr (s : string)
| VNone.

Global Instance value_eq_dec : EqDecision value.
Proof. solve_decision. Defined.

Definition row : Type := list value.

(** The dictionary built by [get_counters]. *)
Record Counter : Type := mkCounter {
  c_genes : Z;
  c_transcripts : Z;
  c_vertices : Z;
  c_edges : Z;
  c_datasets : Z;
  c_observed : Z
}.

(** The dictionary [novel_ids] created in [main]: one staging table per
    category, identifier -> row. *)
Record NovelIds : Type := mkNovel {
  n_datasets : list (value * row);
  n_genes : list (value * row);
  n_transcripts : list (value * row);
  n_edges : list (value * row);
  n_vertices : list (value * row);
  n_observed : list (value * row)
}.

Definition empty_novel_ids : NovelIds := mkNovel [] [] [] [] [] [].

(** Modelled from the spec: class [Vertex] of vertex.py (not among the
    sources): a genomic point (chromosome, position, strand, owning gene).
    The field order is that of the constructor call in [read_vertices]. *)
Record Vertex : Type := mkVertex {
  vertex_identifier : Z;
  vertex_chromosome : string;
  vertex_position : Z;
  vertex_strand : string;
  vertex_gene_id : option Z
}.

(** Modelled from the spec: class [Edge] of edge.py (not among the sources):
    a genomic segment between two vertices, owned by a gene and tagged with
    the transcript identifiers that use it. *)
Record Edge : Type := mkEdge {
  edge_identifier : Z;
  edge_chromosome : string;
  edge_start : Z;
  edge_end : Z;
  edge_strand : string;
  edge_gene_id : option Z;
  edge_v1 : option Z;
  edge_v2 : option Z;
  edge_transcript_ids : gset string
}.

(** Modelled from the spec: class [EdgeTree] of edgetree.py (not among the
    sources). talon.py reads its [edges] dictionary (identifier -> edge); the
    per-chromosome interval index answers coordinate queries over the same
    edges and is not kept separately. *)
Record EdgeTree : Type := mkEdgeTree {
  edges : gmap Z Edge
}.

(** Modelled from the spec: class [Gene] of gene.py (not among the sources):
    (identifier, chromosome, strand, min/max position). *)
Record Gene : Type := mkGene {
  gene_identifier : Z;
  gene_chromosome : string;
  gene_start : Z;
  gene_end : Z;
  gene_strand : string
}.

(** Modelled from the spec: class [GeneTree] of genetree.py (not among the
    sources). talon.py reads its [genes] dictionary (identifier -> gene). *)
Record GeneTree : Type := mkGeneTree {
  genes : gmap Z Gene
}.

(** Modelled from the spec: the [Transcript] class talon.py runs against
    (not the class of transcript.py): identifier, gene, chromosome, start,
    end, strand and the exons and introns of its edge path. The edge lists
    hold the edges as they were when the transcript was assembled. *)
Record Transcript : Type := mkTranscript {
  t_identifier : Z;
  t_gene_id : option Z;
  t_chromosome : string;
  t_start : Z;
  t_end : Z;
  t_strand : string;
  t_exons : list Edge;
  t_introns : list Edge;
  t_n_exons : Z
}.

(** Modelled from the spec: class [SamTranscript] of sam_transcript.py (not
    among the sources): one accepted input read. The last five attributes
    are the ones [identify_sam_transcripts] assigns. *)
Record SamTranscript : Type := mkSam {
  sam_identifier : string;
  sam_chromosome : string;
  sam_start : Z;
  sam_end : Z;
  sam_strand : string;
  sam_n_exons : Z;
  sam_dataset : string;
  sam_gene_ID : option Z;
  sam_transcript_ID : option Z;
  sam_novel : option string;
  sam_diff_5 : option Z;
  sam_diff_3 : option Z
}.

(** What [find_transcript_match] hands back as [transcript_match]: the string
    ["none"] it starts from, or a transcript object. *)
Inductive match_ref : Type :=
| NoneString
| Matched (t : Transcript).

(** One element of [edge_matches]: an edge object (the edges of a full
    match), an edge identifier, or [None]. *)
Inductive edge_match : Type :=
| MatchObject (e : Edge)
| MatchId (m : Z)
| MatchNone.

(** Everything that lives in memory during a run and is mutated by
    [identify_sam_transcripts]. *)
Record run_state : Type := mkRun {
  gene_tree : GeneTree;
  transcripts : gmap Z Transcript;
  exon_tree : EdgeTree;
  intron_tree : EdgeTree;
  vertices : gmap string (gmap Z (list Vertex));
  counter : Counter;
  novel_ids : NovelIds;
  abundance : list (Z * list (string * Z))
}.

Definition set_gene_tree (x : GeneTree) (st : run_state) : run_state :=
  mkRun x (transcripts st) (exon_tree st) (intron_tree st) (vertices st)
        (counter st) (novel_ids st) (abundance st).
Definition set_transcripts (x : gmap Z Transcript) (st : run_state) : run_state :=
  mkRun (gene_tree st) x (exon_tree st) (intron_tree st) (vertices st)
        (counter st) (novel_ids st) (abundance st).
Definition set_exon_tree (x : EdgeTree) (st : run_state) : run_state :=
  mkRun (gene_tree st) (transcripts st) x (intron_tree st) (vertices st)
        (counter st) (novel_ids st) (abundance st).
Definition set_intron_tree (x : EdgeTree) (st : run_state) : run_state :=
  mkRun (gene_tree st) (transcripts st) (exon_tree st) x (vertices st)
        (counter st) (novel_ids st) (abundance st).
Definition set_vertices (x : gmap string (gmap Z (list Vertex)))
    (st : run_state) : run_state :=
  mkRun (gene_tree st) (transcripts st) (exon_tree st) (intron_tree st) x
        (counter st) (novel_ids st) (abundance st).
Definition set_counter (x : Counter) (st : run_state) : run_state :=
  mkRun (gene_tree st) (transcripts st) (exon_tree st) (intron_tree st)
        (vertices st) x (novel_ids st) (abundance st).
Definition set_novel_ids (x : NovelIds) (st : run_state) : run_state :=
  mkRun (gene_tree st) (transcripts st) (exon_tree st) (intron_tree st)
        (vertices st) (counter st) x (abundance st).
Definition set_abundance (x : list (Z * list (string * Z)))
    (st : run_state) : run_state :=
  mkRun (gene_tree st) (transcripts st) (exon_tree st) (intron_tree st)
        (vertices st) (counter st) (novel_ids st) x.

Definition set_c_genes (n : Z) (c : Counter) : Counter :=
  mkCounter n (c_transcripts c) (c_vertices c) (c_edges c) (c_datasets c)
            (c_observed c).
Definition set_c_transcripts (n : Z) (c : Counter) : Counter :=
  mkCounter (c_genes c) n (c_vertices c) (c_edges c) (c_datasets c)
            (c_observed c).
Definition set_c_vertices (n : Z) (c : Counter) : Counter :=
  mkCounter (c_genes c) (c_transcripts c) n (c_edges c) (c_datasets c)
            (c_observed c).
Definition set_c_edges (n : Z) (c : Counter) : Counter :=
  mkCounter (c_genes c) (c_transcripts c) (c_vertices c) n (c_datasets c)
            (c_observed c).
Definition set_c_observed (n : Z) (c : Counter) : Counter :=
  mkCounter (c_genes c) (c_transcripts c) (c_vertices c) (c_edges c)
            (c_datasets c) n.

Definition set_n_genes (x : list (value * row)) (n : NovelIds) : NovelIds :=
  mkNovel (n_datasets n) x (n_transcripts n) (n_edges n) (n_vertices n)
          (n_observed n).
Definition set_n_transcripts (x : list (value * row)) (n : NovelIds) : NovelIds :=
  mkNovel (n_datasets n) (n_genes n) x (n_edges n) (n_vertices n)
          (n_observed n).
Definition set_n_edges (x : list (value * row)) (n : NovelIds) : NovelIds :=
  mkNovel (n_datasets n) (n_genes n) (n_transcripts n) x (n_vertices n)
          (n_observed n).
Definition set_n_vertices (x : list (value * row)) (n : NovelIds) : NovelIds :=
  mkNovel (n_datasets n) (n_genes n) (n_transcripts n) (n_edges n) x
          (n_observed n).
Definition set_n_observed (x : list (value * row)) (n : NovelIds) : NovelIds :=
  mkNovel (n_datasets n) (n_genes n) (n_transcripts n) (n_edges n)
          (n_vertices n) x.

Definition set_sam_gene_ID (g : option Z) (r : SamTranscript) : SamTranscript :=
  mkSam (sam_identifier r) (sam_chromosome r) (sam_start r) (sam_end r)
        (sam_strand r) (sam_n_exons r) (sam_dataset r) g (sam_transcript_ID r)
        (sam_novel r) (sam_diff_5 r) (sam_diff_3 r).
Definition set_sam_transcript_ID (t : option Z) (r : SamTranscript)
    : SamTranscript :=
  mkSam (sam_identifier r) (sam_chromosome r) (sam_start r) (sam_end r)
        (sam_strand r) (sam_n_exons r) (sam_dataset r) (sam_gene_ID r) t
        (sam_novel r) (sam_diff_5 r) (sam_diff_3 r).
Definition set_sam_novel (x : string) (r : SamTranscript) : SamTranscript :=
  mkSam (sam_identifier r) (sam_chromosome r) (sam_start r) (sam_end r)
        (sam_strand r) (sam_n_exons r) (sam_dataset r) (sam_gene_ID r)
        (sam_transcript_ID r) (Some x) (sam_diff_5 r) (sam_diff_3 r).
Definition set_sam_diffs (d5 d3 : Z) (r : SamTranscript) : SamTranscript :=
  mkSam (sam_identifier r) (sam_chromosome r) (sam_start r) (sam_end r)
        (sam_strand r) (sam_n_exons r) (sam_dataset r) (sam_gene_ID r)
        (sam_transcript_ID r) (sam_novel r) (Some d5) (Some d3).

Definition opt_value (o : option Z) : value :=
  match o with Some n => VInt n | None => VNone end.

(** *** Collaborators outside the sources *)

(** The functions of transcript_match_tracker.py, vertex.py and
    sam_transcript.py that talon.py calls and whose results the properties
    below do not look into. The tracker is created from the query; its
    methods read the edge trees and the transcript table. *)
Class Collaborators : Type := {
  MatchTracker : Type;
  new_tracker : SamTranscript -> MatchTracker;
  match_all_edges : EdgeTree -> EdgeTree -> MatchTracker -> MatchTracker;
  compute_match_sets : gmap Z Transcript -> MatchTracker -> MatchTracker;
  full_matches : MatchTracker -> list Z;
  partial_matches : MatchTracker -> list Z;
  get_best_full_match :
    gmap Z Transcript -> MatchTracker -> Transcript * (option Z * option Z);
  get_best_partial_match : gmap Z Transcript -> MatchTracker -> Transcript;
  get_best_edge_matches : MatchTracker -> list (option Z);
  get_difference : Z * Z -> Z * Z -> string -> Z * Z;
  search_for_gene :
    SamTranscript -> gmap string (gmap Z (list Vertex)) -> option Z;
  get_all_edges : SamTranscript -> list (Z * Z);
  get_length : SamTranscript -> Z
}.

(** Modelled from the spec: [Transcript.get_all_edges] (the class is not among
    the sources): the ordered edge path alternating exon / intron. *)
Fixpoint interleave {A} (xs ys : list A) : list A :=
  match xs, ys with
  | x :: xs', y :: ys' => x :: y :: interleave xs' ys'
  | _, [] => xs
  | [], _ => ys
  end.

Definition transcript_get_all_edges (t : Transcript) : list Edge :=
  interleave (t_exons t) (t_introns t).

(** Modelled from the spec: [Transcript.get_edge_path]: path = ordered
    edge-id list, written like the [path] column (comma separated). *)
Definition get_edge_path (t : Transcript) : string :=
  join "," (map (fun e => str (edge_identifier e)) (transcript_get_all_edges t)).

(** Modelled from the spec: [Transcript.get_5prime_vertex] and
    [get_3prime_vertex]: the first vertex of the first edge and the second
    vertex of the last one. *)
Definition get_5prime_vertex (t : Transcript) : option Z :=
  match t_exons t with
  | [] => None
  | e :: _ => edge_v1 e
  end.
Definition get_3prime_vertex (t : Transcript) : option Z :=
  match last (t_exons t) with
  | None => None
  | Some e => edge_v2 e
  end.

(** Modelled from the spec: [Vertex.fetch_vertex(vertices, chromosome, pos,
    gene_id)], i.e. lookup_vertex(chromosome, position, gene) -> Vertex | none,
    over the structure chromosome -> position -> list of vertices that
    [read_vertices] builds. *)
Definition fetch_vertex (vertices : gmap string (gmap Z (list Vertex)))
    (chromosome : string) (pos : Z) (gene_id : option Z) : option Vertex :=
  match vertices !! chromosome with
  | None => None
  | Some by_pos =>
      match by_pos !! pos with
      | None => None
      | Some vs => find (fun v => bool_decide (vertex_gene_id v = gene_id)) vs
      end
  end.

(** Insertion of a vertex as in [read_vertices]: a new chromosome gets an
    empty dictionary, a known position has the vertex appended to its list. *)
Definition add_vertex (v : Vertex)
    (vertices : gmap string (gmap Z (list Vertex)))
    : gmap string (gmap Z (list Vertex)) :=
  let curr_chrom := vertex_chromosome v in
  let by_pos := default ∅ (vertices !! curr_chrom) in
  let pos := vertex_position v in
  let entry := match by_pos !! pos with
               | Some vs => vs ++ [v]
               | None => [v]
               end in
  <[curr_chrom := <[pos := entry]> by_pos]> vertices.

(** Modelled from the spec: [Gene.create_novel_gene(chromosome, start, end,
    strand, counter)]: mint a novel gene id ([counter.genes += 1]) spanning
    the read's coordinates. *)
Definition create_novel_gene (chromosome : string) (start end_ : Z)
    (strand : string) (c : Counter) : Gene * Counter :=
  let c := set_c_genes (c_genes c + 1) c in
  (mkGene (c_genes c) chromosome start end_ strand, c).

(** Modelled from the spec: [GeneTree.add_gene]: insert the gene into the Gene
    Locus Index. *)
Definition add_gene (g : Gene) (t : GeneTree) : GeneTree :=
  mkGeneTree (<[gene_identifier g := g]> (genes t)).

(** Modelled from the spec: [Edge.create_novel_edge(chromosome, start, end,
    strand, gene_id, transcript_ID, counter)]: mint a novel edge id under the
    given gene; its endpoint vertices are filled in by [try_vertex_update]. *)
Definition create_novel_edge (chromosome : string) (start end_ : Z)
    (strand : string) (gene_id : option Z) (transcript_ID : option Z)
    (c : Counter) : Edge * Counter :=
  let c := set_c_edges (c_edges c + 1) c in
  (mkEdge (c_edges c) chromosome start end_ strand gene_id None None
          (match transcript_ID with
           | Some t => {[str t]}
           | None => ∅
           end), c).

(** Modelled from the spec: one endpoint of [Vertex.try_vertex_update]: look
    up or mint the vertex via the Interval Index (dedup by coordinate+gene);
    a minted vertex is registered in the index and in the staging table, whose
    row layout [(vertex_ID, gene_id, chromosome, position, strand)] is the
    one [batch_add_vertices_and_locations] reads. *)
Definition lookup_or_mint_vertex (chromosome : string) (pos : Z)
    (strand : string) (gene_id : option Z)
    (vs : gmap string (gmap Z (list Vertex))) (n : NovelIds) (c : Counter)
    : Z * gmap string (gmap Z (list Vertex)) * NovelIds * Counter :=
  match fetch_vertex vs chromosome pos gene_id with
  | Some v => (vertex_identifier v, vs, n, c)
  | None =>
      let c := set_c_vertices (c_vertices c + 1) c in
      let id := c_vertices c in
      let v := mkVertex id chromosome pos strand gene_id in
      let tuple := [VInt id; opt_value gene_id; VStr chromosome; VInt pos;
                    VStr strand] in
      (id, add_vertex v vs,
       set_n_vertices (OD.set (VInt id) tuple (n_vertices n)) n, c)
  end.

Definition set_edge_vertices (v1 v2 : option Z) (e : Edge) : Edge :=
  mkEdge (edge_identifier e) (edge_chromosome e) (edge_start e) (edge_end e)
         (edge_strand e) (edge_gene_id e) v1 v2 (edge_transcript_ids e).

(** Modelled from the spec: [Vertex.try_vertex_update(edge, vertices,
    novel_ids, counter)]: both endpoints are looked up or minted; for a
    minus-strand edge the order of the two vertices is reversed. *)
Definition try_vertex_update (e : Edge)
    (vs : gmap string (gmap Z (list Vertex))) (n : NovelIds) (c : Counter)
    : Edge * gmap string (gmap Z (list Vertex)) * NovelIds * Counter :=
  let '(a, vs, n, c) :=
    lookup_or_mint_vertex (edge_chromosome e) (edge_start e) (edge_strand e)
                          (edge_gene_id e) vs n c in
  let '(b, vs, n, c) :=
    lookup_or_mint_vertex (edge_chromosome e) (edge_end e) (edge_strand e)
                          (edge_gene_id e) vs n c in
  let e := if String.eqb (edge_strand e) "-"
           then set_edge_vertices (Some b) (Some a) e
           else set_edge_vertices (Some a) (Some b) e in
  (e, vs, n, c).

(** [edge_obj.transcript_ids.add(t)] *)
Definition add_transcript_id (t : string) (e : Edge) : Edge :=
  mkEdge (edge_identifier e) (edge_chromosome e) (edge_start e) (edge_end e)
         (edge_strand e) (edge_gene_id e) (edge_v1 e) (edge_v2 e)
         ({[t]} ∪ edge_transcript_ids e).

(** Modelled from the spec: [EdgeTree.add_edge]: insert_edge(e) into the
    Interval Index, under the edge's identifier. *)
Definition add_edge (e : Edge) (t : EdgeTree) : EdgeTree :=
  mkEdgeTree (<[edge_identifier e := e]> (edges t)).

(** Modelled from the spec: [Transcript.create_novel_transcript(chromosome,
    start, end, strand, gene_id, counter, exons, introns)]: a Transcript with
    id [counter.transcripts += 1] and the given edge lists. *)
Definition create_novel_transcript (chromosome : string) (start end_ : Z)
    (strand : string) (gene_id : option Z) (c : Counter)
    (exons introns : list Edge) : Transcript * Counter :=
  let c := set_c_transcripts (c_transcripts c + 1) c in
  (mkTranscript (c_transcripts c) gene_id chromosome start end_ strand
                exons introns (Z.of_nat (List.length exons)), c).

(** Modelled from the spec: the Gene Locus Index query
    find_gene_by_overlap(chromosome, start, end, strand) of genetree.py (not
    among the sources): among the known genes on the same chromosome and
    strand whose span overlaps the read's span, the one whose overlap is
    largest, ties broken by the lowest gene identifier. *)
Definition overlap_length (g : Gene) (start end_ : Z) : Z :=
  Z.min (gene_end g) end_ - Z.max (gene_start g) start + 1.

Definition better_gene (start end_ : Z) (g best : Gene) : bool :=
  (overlap_length best start end_ <? overlap_length g start end_)
  || ((overlap_length best start end_ =? overlap_length g start end_)
      && (gene_identifier g <? gene_identifier best)).

Definition find_gene_by_overlap (t : GeneTree) (chromosome : string)
    (start end_ : Z) (strand : string) : option Z :=
  let candidates :=
    filter (fun g => String.eqb (gene_chromosome g) chromosome
                     && String.eqb (gene_strand g) strand
                     && (0 <? overlap_length g start end_))
           (map snd (map_to_list (genes t))) in
  gene_identifier <$>
    fold_right (fun g best =>
                  match best with
                  | None => Some g
                  | Some b => if better_gene start end_ g b then Some g else Some b
                  end) None candidates.

(** *** Read identification *)

Section Identify.
Context `{Collaborators}.

(** find_transcript_match *)
Definition find_transcript_match (query_transcript : SamTranscript)
    (transcripts : gmap Z Transcript) (exon_tree intron_tree : EdgeTree)
    : match_ref * string * list edge_match * (option Z * option Z) :=
  let transcript_match := NoneString in
  let match_type := "none" in
  let diff : option Z * option Z := (None, None) in
  let tracker := new_tracker query_transcript in
  let tracker := match_all_edges exon_tree intron_tree tracker in
  let tracker := compute_match_sets transcripts tracker in
  if (0 <? List.length (full_matches tracker))%nat then
    let '(transcript_match, diff) := get_best_full_match transcripts tracker in
    let match_type := "full" in
    let edge_matches :=
      map MatchObject (transcript_get_all_edges transcript_match) in
    (Matched transcript_match, match_type, edge_matches, diff)
  else
    let '(transcript_match, match_type) :=
      if (0 <? List.length (partial_matches tracker))%nat then
        (Matched (get_best_partial_match transcripts tracker), "partial")
      else (transcript_match, match_type) in
    let edge_matches :=
      map (fun m => match m with Some i => MatchId i | None => MatchNone end)
          (get_best_edge_matches tracker) in
    (transcript_match, match_type, edge_matches, diff).

(** The tracker as [find_transcript_match] leaves it before it reads the
    match sets. *)
Definition tracker_of (query : SamTranscript) (transcripts : gmap Z Transcript)
    (exon_tree intron_tree : EdgeTree) : MatchTracker :=
  compute_match_sets transcripts
    (match_all_edges exon_tree intron_tree (new_tracker query)).

(** Local variables of the loop of [make_novel_transcript]. [mv_edge_obj] is
    the variable [edge_obj], unbound before its first assignment; with the
    object it records where the object lives (which tree, which key), since
    adding a transcript identifier to it changes the tree entry too. *)
Record mnt_locals : Type := mkLocals {
  mv_exons : list Edge;
  mv_introns : list Edge;
  mv_i : nat;
  mv_edge_obj : option (bool * Z * Edge)
}.

Definition tree_of (is_exon : bool) (st : run_state) : EdgeTree :=
  if is_exon then exon_tree st else intron_tree st.
Definition set_tree_of (is_exon : bool) (t : EdgeTree) (st : run_state)
    : run_state :=
  if is_exon then set_exon_tree t st else set_intron_tree t st.

Definition is_none (m : edge_match) : bool :=
  match m with MatchNone => true | _ => false end.

(** [novel_list.append(edge_obj); i += 1] *)
Definition mnt_append (is_exon : bool) (home : bool * Z * Edge)
    (loc : mnt_locals) : mnt_locals :=
  let e := snd home in
  if is_exon
  then mkLocals (mv_exons loc ++ [e]) (mv_introns loc) (S (mv_i loc)) (Some home)
  else mkLocals (mv_exons loc) (mv_introns loc ++ [e]) (S (mv_i loc)) (Some home).

(** Body of the [for sam_edge, edge_match in zip(...)] loop. *)
Definition mnt_body (sam_transcript : SamTranscript) (gene_id : option Z)
    (novel_transcript_id dataset : string) (loc : mnt_locals)
    (p : (Z * Z) * edge_match) : M run_state mnt_locals :=
  fun st =>
    let '((edge_start, edge_end), edge_match) := p in
    let is_exon := Nat.even (mv_i loc) in
    let edge_type := if is_exon then "exon" else "intron" in
    let edge_tree := tree_of is_exon st in
    let match_gene_id : option Z := None in
    let '(edge_obj, match_gene_id) :=
      match edge_match with
      | MatchId m =>
          match edges edge_tree !! m with
          | Some e => (Some (is_exon, m, e), edge_gene_id e)
          | None => (mv_edge_obj loc, match_gene_id)
          end
      | _ => (mv_edge_obj loc, match_gene_id)
      end in
    if negb (bool_decide (match_gene_id = gene_id)) || is_none edge_match then
      let '(edge_obj, c) :=
        create_novel_edge (sam_chromosome sam_transcript) edge_start edge_end
                          (sam_strand sam_transcript) gene_id
                          (sam_transcript_ID sam_transcript) (counter st) in
      let '(edge_obj, vs, n, c) :=
        try_vertex_update edge_obj (vertices st) (novel_ids st) c in
      let tuple := [VInt (edge_identifier edge_obj);
                    opt_value (edge_v1 edge_obj);
                    opt_value (edge_v2 edge_obj);
                    VStr edge_type; VStr dataset] in
      let n := set_n_edges
                 (OD.set (VInt (edge_identifier edge_obj)) tuple (n_edges n)) n in
      let edge_obj := add_transcript_id novel_transcript_id edge_obj in
      let st := set_counter c (set_novel_ids n (set_vertices vs st)) in
      let st := set_tree_of is_exon (add_edge edge_obj (tree_of is_exon st)) st in
      (Ok (mnt_append is_exon (is_exon, edge_identifier edge_obj, edge_obj) loc),
       st)
    else
      match edge_obj with
      | None => (Raise (UnboundLocalError "edge_obj"), st)
      | Some (home, key, e) =>
          let e := add_transcript_id novel_transcript_id e in
          let t := tree_of home st in
          let st := set_tree_of home (mkEdgeTree (<[key := e]> (edges t))) st in
          (Ok (mnt_append is_exon (home, key, e) loc), st)
      end.

(** A loop that carries local variables. *)
Fixpoint fold_loop {S A L} (body : L -> A -> M S L) (l : list A) (loc : L)
    : M S L :=
  match l with
  | [] => ret loc
  | x :: rest => bind (body loc x) (fun loc' => fold_loop body rest loc')
  end.

(** make_novel_transcript; returns the new transcript and the read with its
    [transcript_ID] assigned. *)
Definition make_novel_transcript (sam_transcript : SamTranscript)
    (edge_matches : list edge_match)
    : M run_state (Transcript * SamTranscript) :=
  (st <- get ;;
   let chromosome := sam_chromosome sam_transcript in
   let strand := sam_strand sam_transcript in
   let gene_id := sam_gene_ID sam_transcript in
   let novel_transcript_id := str (c_transcripts (counter st) + 1) in
   let dataset := sam_dataset sam_transcript in
   loc <- fold_loop
            (mnt_body sam_transcript gene_id novel_transcript_id dataset)
            (combine (get_all_edges sam_transcript) edge_matches)
            (mkLocals [] [] 0 None) ;;
   match head (mv_exons loc), last (mv_exons loc) with
   | Some first_exon, Some last_exon =>
       let start := edge_start first_exon in
       let end_ := edge_end last_exon in
       st <- get ;;
       let '(annot_transcript, c) :=
         create_novel_transcript chromosome start end_ strand gene_id
                                 (counter st) (mv_exons loc) (mv_introns loc) in
       put (set_counter c st) ;;;
       ret (annot_transcript,
            set_sam_transcript_ID (Some (t_identifier annot_transcript))
                                  sam_transcript)
   | _, _ => raise IndexError
   end)%py.






(** What matching and novel-transcript creation never touch: the observation
    counter, the staged observations and the abundance mapping. *)
Definition same_bookkeeping (st st' : run_state) : Prop :=
  c_observed (counter st') = c_observed (counter st) /\
  n_observed (novel_ids st') = n_observed (novel_ids st) /\
  abundance st' = abundance st.

(** Every staged observation is keyed by [str n] for an [n] the observation
    counter has reached. It holds for the empty table [main] starts from. *)
Definition observed_wf (st : run_state) : Prop :=
  forall k, In k (OD.keys (n_observed (novel_ids st))) ->
            exists n, k = VStr (str n) /\ n <= c_observed (counter st).

(** The row staged for one read; [start_v] and [end_v] are the start and end
    vertex fields. *)
Definition observed_row (obs_id : string) (annot_transcript : Transcript)
    (sam_transcript : SamTranscript) (dataset : string) (start_v end_v : Z)
    (diff_5 diff_3 : Z) : row :=
  [VStr obs_id;
   opt_value (t_gene_id annot_transcript);
   VInt (t_identifier annot_transcript);
   VStr (sam_identifier sam_transcript);
   VStr dataset;
   VInt start_v;
   VInt end_v;
   VInt diff_5;
   VInt diff_3;
   VInt (get_length sam_transcript)].

(** [Vertex.fetch_vertex(...).identifier] *)
Definition fetch_vertex_identifier
    (vertices : gmap string (gmap Z (list Vertex))) (chromosome : string)
    (pos : Z) (gene_id : option Z) : result Z :=
  match fetch_vertex vertices chromosome pos gene_id with
  | Some v => Ok (vertex_identifier v)
  | None => Raise AttributeError
  end.

(** get_transcript_start_and_end_diffs; returns the read with [diff_5] and
    [diff_3] assigned. *)
Definition get_transcript_start_and_end_diffs (sam_transcript : SamTranscript)
    (annot_transcript : Transcript) (dataset : string)
    : M run_state SamTranscript :=
  (st <- get ;;
   let obs_id := str (c_observed (counter st) + 1) in
   put (set_counter (set_c_observed (c_observed (counter st) + 1) (counter st))
                    st) ;;;
   let a := (sam_start sam_transcript, sam_end sam_transcript) in
   let b := (t_start annot_transcript, t_end annot_transcript) in
   let '(diff_5, diff_3) := get_difference a b (sam_strand sam_transcript) in
   let sam_transcript := set_sam_diffs diff_5 diff_3 sam_transcript in
   let chromosome := t_chromosome annot_transcript in
   let strand := sam_strand sam_transcript in
   let gene_id := sam_gene_ID sam_transcript in
   st <- get ;;
   first_vertex <- call (fetch_vertex_identifier (vertices st) chromosome
                           (t_start annot_transcript) gene_id) ;;
   last_vertex <- call (fetch_vertex_identifier (vertices st) chromosome
                          (t_end annot_transcript) gene_id) ;;
   observed <-
     (if String.eqb strand "+" then
        ret (observed_row obs_id annot_transcript sam_transcript dataset
                          first_vertex last_vertex diff_5 diff_3)
      else if String.eqb strand "-" then
        ret (observed_row obs_id annot_transcript sam_transcript dataset
                          last_vertex first_vertex diff_5 diff_3)
      else raise (UnboundLocalError "observed")) ;;
   modify (fun st =>
             set_novel_ids
               (set_n_observed
                  (OD.set (VStr obs_id) observed (n_observed (novel_ids st)))
                  (novel_ids st)) st) ;;;
   ret sam_transcript)%py.

(** Lines 339-367 of [identify_sam_transcripts]: the gene of a read without
    a full match. Returns the read with [gene_ID] assigned. *)
Definition assign_gene (sam_transcript : SamTranscript) (best_match : match_ref)
    (dataset : string) : M run_state SamTranscript :=
  (st <- get ;;
   let gene_match_id :=
     if sam_n_exons sam_transcript =? 1 then
       match best_match with
       | Matched bm => t_gene_id bm
       | NoneString => None
       end
     else search_for_gene sam_transcript (vertices st) in
   match gene_match_id with
   | None =>
       let chromosome := sam_chromosome sam_transcript in
       let start := sam_start sam_transcript in
       let end_ := sam_end sam_transcript in
       let strand := sam_strand sam_transcript in
       let '(gene_obj, c) :=
         create_novel_gene chromosome start end_ strand (counter st) in
       let sam_transcript :=
         set_sam_gene_ID (Some (gene_identifier gene_obj)) sam_transcript in
       let gene_tuple := [VInt (gene_identifier gene_obj); VStr dataset] in
       let n := set_n_genes
                  (OD.set (VInt (gene_identifier gene_obj)) gene_tuple
                          (n_genes (novel_ids st))) (novel_ids st) in
       put (set_gene_tree (add_gene gene_obj (gene_tree st))
              (set_novel_ids n (set_counter c st))) ;;;
       ret sam_transcript
   | Some gene_match_id =>
       match genes (gene_tree st) !! gene_match_id with
       | None => raise (KeyError (str gene_match_id))
       | Some gene_obj =>
           ret (set_sam_gene_ID (Some (gene_identifier gene_obj)) sam_transcript)
       end
   end)%py.

(** Lines 318-382: match the read, or create its novel gene and transcript.
    Returns the read and the transcript assigned to it. *)
Definition resolve (sam_transcript : SamTranscript) (dataset : string)
    : M run_state (SamTranscript * Transcript) :=
  (st <- get ;;
   let '(best_match, match_type, edge_matches, diff) :=
     find_transcript_match sam_transcript (transcripts st) (exon_tree st)
                           (intron_tree st) in
   if String.eqb match_type "full" then
     match best_match with
     | NoneString => raise AttributeError
     | Matched bm =>
         let sam_transcript := set_sam_gene_ID (t_gene_id bm) sam_transcript in
         let sam_transcript :=
           set_sam_transcript_ID (Some (t_identifier bm)) sam_transcript in
         ret (set_sam_novel "Seen_previously" sam_transcript, bm)
     end
   else
     let sam_transcript := set_sam_novel "Novel" sam_transcript in
     sam_transcript <- assign_gene sam_transcript best_match dataset ;;
     r <- make_novel_transcript sam_transcript edge_matches ;;
     let '(annot_transcript, sam_transcript) := r in
     let start_vertex := get_5prime_vertex annot_transcript in
     let end_vertex := get_3prime_vertex annot_transcript in
     let n_exons := t_n_exons annot_transcript in
     let novel_tuple := [VInt (t_identifier annot_transcript);
                         opt_value (t_gene_id annot_transcript);
                         VStr (get_edge_path annot_transcript);
                         opt_value start_vertex; opt_value end_vertex;
                         VInt n_exons; VStr dataset] in
     modify (fun st =>
               set_novel_ids
                 (set_n_transcripts
                    (OD.set (VInt (t_identifier annot_transcript)) novel_tuple
                            (n_transcripts (novel_ids st))) (novel_ids st)) st) ;;;
     modify (fun st =>
               set_transcripts
                 (<[t_identifier annot_transcript := annot_transcript]>
                    (transcripts st)) st) ;;;
     ret (sam_transcript, annot_transcript))%py.

(** Lines 387-395: one more observation of transcript [id] in [dataset]. *)
Definition add_abundance (id : Z) (dataset : string)
    (abundance : list (Z * list (string * Z))) : list (Z * list (string * Z)) :=
  match OD.get id abundance with
  | Some by_dataset =>
      match OD.get dataset by_dataset with
      | Some n => OD.set id (OD.set dataset (n + 1) by_dataset) abundance
      | None => OD.set id (OD.set dataset 1 by_dataset) abundance
      end
  | None => OD.set id (OD.set dataset 1 []) abundance
  end.

(** The count [abundance[id][dataset]], 0 when there is no such entry. *)
Definition abundance_count (id : Z) (dataset : string)
    (abundance : list (Z * list (string * Z))) : Z :=
  match OD.get id abundance with
  | Some by_dataset => default 0 (OD.get dataset by_dataset)
  | None => 0
  end.

(** Number of reads of a list that were assigned transcript [id]. *)
Definition assigned_to (id : Z) (reads : list SamTranscript) : Z :=
  Z.of_nat (List.length
              (List.filter (fun r => bool_decide (sam_transcript_ID r = Some id))
                           reads)).

(** Body of the [for sam_transcript in sam_transcripts] loop. *)
Definition identify_one (dataset : string) (sam_transcript : SamTranscript)
    : M run_state SamTranscript :=
  (r <- resolve sam_transcript dataset ;;
   let '(sam_transcript, annot_transcript) := r in
   sam_transcript <-
     get_transcript_start_and_end_diffs sam_transcript annot_transcript
                                        dataset ;;
   modify (fun st =>
             set_abundance
               (add_abundance (t_identifier annot_transcript) dataset
                              (abundance st)) st) ;;;
   ret sam_transcript)%py.

(** [for x in l], collecting the objects as the body leaves them. *)
Fixpoint map_loop {S A B} (body : A -> M S B) (l : list A) : M S (list B) :=
  match l with
  | [] => ret []
  | x :: rest =>
      bind (body x) (fun y => bind (map_loop body rest) (fun ys => ret (y :: ys)))
  end.

(** identify_sam_transcripts; returns the reads as the loop left them. *)
Definition identify_sam_transcripts (sam_transcripts : list SamTranscript)
    (dataset : string) : M run_state (list SamTranscript) :=
  map_loop (identify_one dataset) sam_transcripts.

End Identify.

(** *** The database and its connection *)

(** The durable store. The table [counters] (category, count) is kept apart
    from the other tables, whose rows are lists of fields. Table names are
    compared as strings. *)
Record database : Type := mkDb {
  counters : list (string * Z);
  tables : gmap string (list row)
}.

(** What the store checks when a row is inserted (column count, primary key,
    ...): [accepts table rows r] tells whether row [r] may be added to
    [table] holding [rows]. The schema is not part of talon.py. *)
Class Schema : Type := {
  accepts : string -> list row -> row -> bool
}.

(** The statements [update_database] sends through its cursor. *)
Inductive statement : Type :=
| Insert (table : string) (batch : list row)
| Update (category : string) (count : Z)
| SelectCounters
| SelectCount (table : string)
| Commit.

(** A connection: the committed database, the state of the open transaction
    and the statements issued so far, oldest first. *)
Record connection : Type := mkConn {
  durable : database;
  working : database;
  issued : list statement
}.

(** sqlite3.connect *)
Definition connect (db : database) : connection := mkConn db db [].

Definition log (s : statement) : M connection unit :=
  modify (fun c => mkConn (durable c) (working c) (issued c ++ [s])).

Definition set_working (db : database) (c : connection) : connection :=
  mkConn (durable c) db (issued c).

(** [m] never changes the component [proj] of the connection. *)
Definition keeps {T A} (proj : connection -> T) (m : M connection A) : Prop :=
  forall c, proj (snd (m c)) = proj c.

Section Store.
Context `{Schema}.

(** Rows of one [executemany] are inserted one after the other; the first
    rejected row raises, the rows before it stay in the transaction. *)
Fixpoint insert_rows (table : string) (batch : list row) (rows : list row)
    : result unit * list row :=
  match batch with
  | [] => (Ok tt, rows)
  | r :: rest =>
      if accepts table rows r then insert_rows table rest (rows ++ [r])
      else (Raise SqlIntegrityError, rows)
  end.

(** cursor.executemany('INSERT INTO table ... VALUES (?, ...)', batch) *)
Definition executemany (table : string) (batch : list row)
    : M connection unit :=
  (log (Insert table batch) ;;;
   c <- get ;;
   match tables (working c) !! table with
   | None => raise (OperationalError ("no such table: " +:+ table))
   | Some rows =>
       let '(r, rows') := insert_rows table batch rows in
       put (set_working (mkDb (counters (working c))
                              (<[table := rows']> (tables (working c)))) c) ;;;
       call r
   end)%py.

(** cursor.execute('UPDATE "counters" SET "count" = ? WHERE "category" = c') *)
Definition execute_update (category : string) (count : Z) : M connection unit :=
  (log (Update category count) ;;;
   modify (fun c =>
     set_working
       (mkDb (map (fun '(cat, n) =>
                     if String.eqb cat category then (cat, count) else (cat, n))
                  (counters (working c)))
             (tables (working c))) c))%py.

(** Number of rows of a table; the table [counters] can be counted too. *)
Definition count_rows (db : database) (table_name : string) : option Z :=
  if String.eqb table_name "counters"
  then Some (Z.of_nat (List.length (counters db)))
  else (fun rows => Z.of_nat (List.length rows)) <$> tables db !! table_name.

(** conn.commit() *)
Definition commit : M connection unit :=
  (log Commit ;;;
   modify (fun c => mkConn (working c) (working c) (issued c)))%py.

(** [t[i]] on a tuple. *)
Definition item (i : nat) (t : row) : result value :=
  match t !! i with
  | Some v => Ok v
  | None => Raise IndexError
  end.

(** [t[-k]] on a tuple, [k >= 1]. *)
Definition item_back (k : nat) (t : row) : result value :=
  if (List.length t <? k)%nat then Raise IndexError
  else item (List.length t - k) t.

(** [l[index:index + batch_size]] for a positive [batch_size]. *)
Definition slice {A} (index batch_size : nat) (l : list A) : list A :=
  firstn batch_size (skipn index l).

(** The values [index] takes in
    [index = 0; while index < len(l): ...; index += batch_size]. *)
Fixpoint indices_from (fuel index batch_size len : nat) : list nat :=
  match fuel with
  | O => []
  | S fuel' =>
      if (index <? len)%nat
      then index :: indices_from fuel' (index + batch_size) batch_size len
      else []
  end.

(** The loop ends only if [batch_size] is positive (or the list is empty). *)
Definition loop_indices (batch_size : Z) (len : nat) : result (list nat) :=
  if (len =? 0)%nat then Ok []
  else if batch_size <=? 0 then Raise NonTermination
  else Ok (indices_from len 0 (Z.to_nat batch_size) len).

(** [result] as a monad, for the loops that build the row lists. *)
Fixpoint map_result {A B} (f : A -> result B) (l : list A) : result (list B) :=
  match l with
  | [] => Ok []
  | x :: rest =>
      match f x with
      | Raise e => Raise e
      | Ok y => match map_result f rest with
                | Raise e => Raise e
                | Ok ys => Ok (y :: ys)
                end
      end
  end.

(** The [while index < len(...)] loop shared by the batch functions: [body]
    receives each value of [index]. In Python a non-positive [batch_size]
    makes the loop run forever; the model then reports [NonTermination]
    without listing the statements of the endless loop. *)
Definition batch_loop (batch_size : Z) (len : nat)
    (body : nat -> M connection unit) : M connection unit :=
  (idx <- call (loop_indices batch_size len) ;;
   for_each body idx)%py.

(** batch_add_genes *)
Definition batch_add_genes (novel_ids : NovelIds) (batch_size : Z)
    : M connection unit :=
  (let novel_tuples := OD.values (n_genes novel_ids) in
   rows <- call (map_result
                   (fun nt =>
                      match item 0 nt, item_back 1 nt with
                      | Ok id, Ok ds =>
                          Ok ([id], [id; VStr "talon_run"; ds;
                                     VStr "gene_status"; VStr "NOVEL"])
                      | Raise e, _ | _, Raise e => Raise e
                      end) novel_tuples) ;;
   let gene_entries := map fst rows in
   let gene_annotations := map snd rows in
   let bs := Z.to_nat batch_size in
   batch_loop batch_size (List.length gene_entries)
     (fun index =>
        let gene_batch := slice index bs gene_entries in
        let annot_batch := slice index bs gene_annotations in
        try_pass (executemany "genes" gene_batch) ;;;
        try_pass (executemany "gene_annotations" annot_batch)))%py.

(** batch_add_transcripts *)
Definition batch_add_transcripts (novel_ids : NovelIds) (batch_size : Z)
    : M connection unit :=
  (let novel_tuples := OD.values (n_transcripts novel_ids) in
   rows <- call (map_result
                   (fun nt =>
                      match item 0 nt, item 6 nt with
                      | Ok id, Ok ds =>
                          Ok (firstn 6 nt,
                              [id; VStr "talon_run"; ds;
                               VStr "transcript_status"; VStr "NOVEL"])
                      | Raise e, _ | _, Raise e => Raise e
                      end) novel_tuples) ;;
   let transcript_entries := map fst rows in
   let transcript_annotations := map snd rows in
   let bs := Z.to_nat batch_size in
   batch_loop batch_size (List.length transcript_entries)
     (fun index =>
        let transcript_batch := slice index bs transcript_entries in
        let annot_batch := slice index bs transcript_annotations in
        try_pass (executemany "transcripts" transcript_batch) ;;;
        try_pass (executemany "transcript_annotations" annot_batch)))%py.

(** batch_add_edges *)
Definition batch_add_edges (novel_ids : NovelIds) (batch_size : Z)
    : M connection unit :=
  (let edge_tuples := OD.values (n_edges novel_ids) in
   rows <- call (map_result
                   (fun entry =>
                      match item_back 2 entry with
                      | Raise e => Raise e
                      | Ok ty =>
                          if bool_decide (ty = VStr "exon") then
                            match item 0 entry, item_back 1 entry with
                            | Ok id, Ok ds =>
                                Ok (firstn 4 entry,
                                    [[id; VStr "talon_run"; ds;
                                      VStr "exon_status"; VStr "NOVEL"]])
                            | Raise e, _ | _, Raise e => Raise e
                            end
                          else Ok (firstn 4 entry, [])
                      end) edge_tuples) ;;
   let edge_entries := map fst rows in
   let exon_annotations := concat (map snd rows) in
   let bs := Z.to_nat batch_size in
   batch_loop batch_size (List.length edge_entries)
     (fun index =>
        let batch := slice index bs edge_entries in
        try_pass (executemany "edge" batch)) ;;;
   batch_loop batch_size (List.length exon_annotations)
     (fun index =>
        let annot_batch := slice index bs exon_annotations in
        try_pass (executemany "exon_annotations" annot_batch)))%py.

(** batch_add_vertices_and_locations; the two inserts of a batch share one
    [try], so a failing vertex insert skips the location insert. *)
Definition batch_add_vertices_and_locations (novel_ids : NovelIds)
    (genome_build : string) (batch_size : Z) : M connection unit :=
  (let novel_tuples := OD.values (n_vertices novel_ids) in
   rows <- call (map_result
                   (fun nt =>
                      match item 0 nt, item 2 nt, item 3 nt, item 4 nt with
                      | Ok id, Ok chrom, Ok pos, Ok strand =>
                          Ok (firstn 2 nt,
                              [id; VStr genome_build; chrom; pos; strand])
                      | Raise e, _, _, _ | _, Raise e, _, _
                      | _, _, Raise e, _ | _, _, _, Raise e => Raise e
                      end) novel_tuples) ;;
   let vertex_entries := map fst rows in
   let location_entries := map snd rows in
   let bs := Z.to_nat batch_size in
   batch_loop batch_size (List.length vertex_entries)
     (fun index =>
        let vertex_batch := slice index bs vertex_entries in
        let location_batch := slice index bs location_entries in
        try_pass (executemany "vertex" vertex_batch ;;;
                  executemany "location" location_batch)))%py.

(** batch_add_observed *)
Definition batch_add_observed (novel_ids : NovelIds) (batch_size : Z)
    : M connection unit :=
  let observed := OD.values (n_observed novel_ids) in
  let bs := Z.to_nat batch_size in
  batch_loop batch_size (List.length observed)
    (fun index =>
       let batch := slice index bs observed in
       try_pass (executemany "observed" batch)).

(** add_datasets *)
Definition add_datasets (novel_ids : NovelIds) (counter : Counter)
    : M connection unit :=
  let datasets := OD.values (n_datasets novel_ids) in
  try_pass (executemany "dataset" datasets).

(** update_counter *)
Definition update_counter (counter : Counter) : M connection unit :=
  (execute_update "genes" (c_genes counter) ;;;
   execute_update "transcripts" (c_transcripts counter) ;;;
   execute_update "edge" (c_edges counter) ;;;
   execute_update "vertex" (c_vertices counter) ;;;
   execute_update "dataset" (c_datasets counter) ;;;
   execute_update "observed" (c_observed counter))%py.

(** batch_add_abundance *)
Definition batch_add_abundance (abundance_dict : list (Z * list (string * Z)))
    (batch_size : Z) : M connection unit :=
  let abundances :=
    concat (map (fun '(transcript_id, dataset_abundances) =>
                   map (fun '(dataset, n) =>
                          [VInt transcript_id; VStr dataset; VInt n])
                       dataset_abundances) abundance_dict) in
  let bs := Z.to_nat batch_size in
  batch_loop batch_size (List.length abundances)
    (fun index =>
       let batch := slice index bs abundances in
       try_pass (executemany "abundance" batch)).

Definition integrity_msg (table_name : string) : string :=
  "Database counter for '" +:+ table_name +:+
  "' does not match the number of entries in the table." +:+
  " Discarding changes to database and exiting...".

(** Body of the loop of [check_database_integrity]. *)
Definition check_category (entry : string * Z) : M connection unit :=
  (let '(table_name, curr_counter) := entry in
   log (SelectCount table_name) ;;;
   c <- get ;;
   match count_rows (working c) table_name with
   | None => raise (OperationalError ("no such table: " +:+ table_name))
   | Some actual_count =>
       if bool_decide (actual_count <> curr_counter)
       then raise (ValueError (integrity_msg table_name))
       else ret tt
   end)%py.

(** check_database_integrity *)
Definition check_database_integrity : M connection unit :=
  (log SelectCounters ;;;
   c <- get ;;
   for_each check_category (counters (working c)))%py.

(** The writes of [update_database], lines 572-595. *)
Definition stage_all (counter : Counter) (novel_ids : NovelIds)
    (abundances : list (Z * list (string * Z))) (batch_size : Z)
    (genome_build : string) : M connection unit :=
  (batch_add_genes novel_ids batch_size ;;;
   batch_add_transcripts novel_ids batch_size ;;;
   batch_add_edges novel_ids batch_size ;;;
   batch_add_vertices_and_locations novel_ids genome_build batch_size ;;;
   batch_add_observed novel_ids batch_size ;;;
   add_datasets novel_ids counter ;;;
   update_counter counter ;;;
   batch_add_abundance abundances batch_size)%py.

(** update_database. The arguments [datasets] and [transcripts] are not used
    by the function. The connection is returned so that what became durable
    can be read off it. *)
Definition update_database (db : database) (counter : Counter)
    (novel_ids : NovelIds) (abundances : list (Z * list (string * Z)))
    (batch_size : Z) (genome_build : string) : result unit * connection :=
  (stage_all counter novel_ids abundances batch_size genome_build ;;;
   check_database_integrity ;;;
   commit)%py (connect db).

(** The table named [table_name] exists and holds [m] rows, read off the
    contents of the database: [m] is the length of the list of rows stored
    under that name, or of the list of counters for the table [counters]
    itself. *)
Definition has_rows (db : database) (table_name : string) (m : Z) : Prop :=
  (table_name = "counters" /\ m = Z.of_nat (List.length (counters db))) \/
  (table_name <> "counters" /\
   exists rows, tables db !! table_name = Some rows /\
                m = Z.of_nat (List.length rows)).

(** A row (category, count) of [counters] agrees with the table it names:
    that table holds exactly [count] rows. *)
Definition category_matches (db : database) (entry : string * Z) : Prop :=
  has_rows db (fst entry) (snd entry).

(** The step of [update_database] a statement belongs to: 0 genes,
    1 transcripts, 2 edges, 3 vertices and locations, 4 observed, 5 datasets,
    6 counter updates, 7 abundance, 8 integrity check, 9 commit. *)
Definition phase (s : statement) : nat :=
  match s with
  | Insert table _ =>
      if String.eqb table "genes" || String.eqb table "gene_annotations"
      then 0
      else if String.eqb table "transcripts"
              || String.eqb table "transcript_annotations" then 1
      else if String.eqb table "edge" || String.eqb table "exon_annotations"
      then 2
      else if String.eqb table "vertex" || String.eqb table "location" then 3
      else if String.eqb table "observed" then 4
      else if String.eqb table "dataset" then 5
      else if String.eqb table "abundance" then 7
      else 10
  | Update _ _ => 6
  | SelectCounters => 8
  | SelectCount _ => 8
  | Commit => 9
  end%nat.

(** Statements ordered by the step they belong to. *)
Definition by_phase (a b : statement) : Prop := (phase a <= phase b)%nat.

(** [m] only appends statements, all of steps [p..q], in step order. *)
Definition emits {A} (p q : nat) (m : M connection A) : Prop :=
  forall c, exists new,
    issued (snd (m c)) = issued c ++ new /\
    Forall (fun s => (p <= phase s <= q)%nat) new /\
    StronglySorted by_phase new.

End Store.

End Talon.

(** ** Concrete collaborators and inputs used to run the code *)

Module Demo.
Import Talon.

(** A small match tracker for single-exon reads: a known transcript is a full
    match when it has one exon and the read's chromosome, strand and
    coordinates; the edge match of the read's exon is the known exon with the
    same coordinates, if any. There are no partial matches. *)
Record tracker : Type := mkTracker {
  tr_query : SamTranscript;
  tr_edge_matches : list (option Z);
  tr_full : list Z
}.

Definition same_span (q : SamTranscript) (chromosome : string) (start end_ : Z)
    (strand : string) : bool :=
  String.eqb (sam_chromosome q) chromosome && (sam_start q =? start)
  && (sam_end q =? end_) && String.eqb (sam_strand q) strand.

Definition demo_match_all_edges (exon_tree intron_tree : EdgeTree)
    (tr : tracker) : tracker :=
  let q := tr_query tr in
  let hits :=
    filter (fun e => same_span q (edge_chromosome e) (edge_start e) (edge_end e)
                               (edge_strand e))
           (map snd (map_to_list (edges exon_tree))) in
  mkTracker q [edge_identifier <$> head hits] (tr_full tr).

Definition demo_compute_match_sets (transcripts : gmap Z Transcript)
    (tr : tracker) : tracker :=
  let q := tr_query tr in
  let hits :=
    filter (fun t => same_span q (t_chromosome t) (t_start t) (t_end t)
                               (t_strand t)
                     && (t_n_exons t =? 1))
           (map snd (map_to_list transcripts)) in
  mkTracker q (tr_edge_matches tr) (map t_identifier hits).

Definition no_transcript : Transcript :=
  mkTranscript 0 None "" 0 0 "" [] [] 0.

Definition demo_best_full (transcripts : gmap Z Transcript) (tr : tracker)
    : Transcript * (option Z * option Z) :=
  match tr_full tr with
  | [] => (no_transcript, (None, None))
  | i :: rest =>
      let best := fold_right Z.min i rest in
      (default no_transcript (transcripts !! best), (Some 0, Some 0))
  end.

#[export] Instance demo_collaborators : Collaborators := {|
  MatchTracker := tracker;
  new_tracker := fun q => mkTracker q [] [];
  match_all_edges := demo_match_all_edges;
  compute_match_sets := demo_compute_match_sets;
  full_matches := tr_full;
  partial_matches := fun _ => [];
  get_best_full_match := demo_best_full;
  get_best_partial_match := fun _ _ => no_transcript;
  get_best_edge_matches := tr_edge_matches;
  get_difference := fun a b _ => (fst a - fst b, snd a - snd b);
  search_for_gene := fun _ _ => None;
  get_all_edges := fun q => [(sam_start q, sam_end q)];
  get_length := fun q => sam_end q - sam_start q + 1
|}.

(** A store that refuses a row already present in the table. *)
#[export] Instance demo_schema : Schema := {|
  accepts := fun _ rows r => negb (bool_decide (r ∈ rows))
|}.

Definition read (name : string) (chromosome : string) (start end_ : Z)
    (strand : string) (dataset : string) : SamTranscript :=
  mkSam name chromosome start end_ strand 1 dataset None None None None None.

(** One known gene, number 7, on chr1:100-200 (+) with its two vertices and
    no transcript; all counters agree with it. *)
Definition gene7 : Gene := mkGene 7 "chr1" 100 200 "+".

Definition known_state : run_state :=
  mkRun (mkGeneTree {[7 := gene7]}) ∅ (mkEdgeTree ∅) (mkEdgeTree ∅)
        (add_vertex (mkVertex 2 "chr1" 200 "+" (Some 7))
           (add_vertex (mkVertex 1 "chr1" 100 "+" (Some 7)) ∅))
        (mkCounter 7 0 2 0 1 0) empty_novel_ids [].

(** An empty registry: nothing known, all counters at zero. *)
Definition empty_state : run_state :=
  mkRun (mkGeneTree ∅) ∅ (mkEdgeTree ∅) (mkEdgeTree ∅) ∅
        (mkCounter 0 0 0 0 0 0) empty_novel_ids [].

(** A database with the tables talon.py writes to, all empty, and counters at
    zero. *)
Definition empty_tables : gmap string (list row) :=
  list_to_map
    (map (fun t => (t, []))
         ["genes"; "gene_annotations"; "transcripts"; "transcript_annotations";
          "edge"; "exon_annotations"; "vertex"; "location"; "observed";
          "dataset"; "abundance"]).

Definition empty_db : database :=
  mkDb [("genes", 0); ("transcripts", 0); ("vertex", 0); ("edge", 0);
        ("dataset", 0); ("observed", 0)] empty_tables.




(** A toy GTF dialect: the fields of a line are chromosome, source, entry
    type, identifier, and for transcripts and exons the parent transcript
    or gene identifiers. *)
Definition field (i : nat) (f : list string) : result string :=
  match f !! i with
  | Some x => Ok x
  | None => Raise (ValueError "GTF entry lacks a field")
  end.

#[export] Instance demo_gtf : InitDb.GtfModules string (string * list string) := {|
  InitDb.get_gene_from_gtf := field 3;
  InitDb.gene_identifier := fun g => g;
  InitDb.gene_add_transcript := fun _ g => Ok g;
  InitDb.get_transcript_from_gtf := fun f =>
    match field 3 f, field 4 f with
    | Ok t, Ok g => Ok (t, [g])
    | Raise e, _ | _, Raise e => Raise e
    end;
  InitDb.transcript_identifier := fst;
  InitDb.transcript_gene_id := fun t => head (snd t);
  InitDb.transcript_add_exon := fun e t =>
    Ok (fst t, snd t ++ [InitDb.identifier e]);
  InitDb.create_edge_from_gtf := fun f =>
    match field 0 f, field 3 f, field 4 f, field 5 f with
    | Ok chrom, Ok id, Ok t, Ok g =>
        Ok (InitDb.mkEdge id chrom 0 0 {[t]} {["gene_id" := g]})
    | Raise e, _, _, _ | _, Raise e, _, _
    | _, _, Raise e, _ | _, _, _, Raise e => Raise e
    end
|}.

Definition exon_line (id transcript : string) : list string :=
  ["chr1"; "HAVANA"; "exon"; id; transcript; "G1"].

(** Two exon lines with the same exon identifier and different transcripts,
    and what [read_gtf_file] returns for them. *)
Definition two_exon_lines : list InitDb.gtf_line :=
  [InitDb.Fields (exon_line "E1" "T1"); InitDb.Fields (exon_line "E1" "T2")].

Definition two_exon_result : InitDb.gtf_state :=
  match InitDb.read_gtf_file two_exon_lines with
  | Ok st => st
  | Raise _ => InitDb.mkGtf ∅ ∅ ∅
  end.

(** A single-exon read inside the known gene 7. *)
Definition overlapping_read : SamTranscript := read "read7" "chr1" 120 180 "+" "d1".

(** Counters that announce three genes while nothing is staged. *)
Definition three_genes : Counter := mkCounter 3 0 0 0 0 0.

(** A run over three reads at two loci, and the update of an empty database
    with what the run staged, in batches of two. *)
Definition demo_run : run_state :=
  snd (identify_sam_transcripts
         [read "read1" "chr2" 1000 2000 "+" "d1";
          read "read2" "chr2" 1000 2000 "+" "d1";
          read "read3" "chr2" 5000 6000 "-" "d1"] "d1" empty_state).

Definition demo_update : result unit * connection :=
  update_database empty_db (counter demo_run) (novel_ids demo_run)
                  (abundance demo_run) 2 "hg38".

(** A minus-strand read at a new locus, and its novel transcript. *)
Definition minus_read : SamTranscript := read "read3" "chr2" 5000 6000 "-" "d1".

Definition minus_resolved : result (SamTranscript * Transcript) * run_state :=
  resolve minus_read "d1" empty_state.

Definition minus_sam : SamTranscript :=
  match fst minus_resolved with Ok (s, _) => s | Raise _ => minus_read end.
Definition minus_annot : Transcript :=
  match fst minus_resolved with Ok (_, t) => t | Raise _ => no_transcript end.

(** A thousand reads with the same coordinates at a new locus. *)
Definition thousand_reads : list SamTranscript :=
  repeat (read "read1" "chr2" 1000 2000 "+" "d1") 1000.

Definition thousand_run : result (list SamTranscript) * run_state :=
  identify_sam_transcripts thousand_reads "d1" empty_state.

Definition thousand_out : list SamTranscript :=
  match fst thousand_run with Ok l => l | Raise _ => [] end.

End Demo.

(** ** Python strings: [startswith], [in], [split] *)

Module PyStr.

(** The double quote character. *)
Definition dquote : ascii := "034"%char.

(** [s.startswith(p)] *)
Fixpoint startswith (p s : string) : bool :=
  match p, s with
  | EmptyString, _ => true
  | String _ _, EmptyString => false
  | String a p', String b s' => Ascii.eqb a b && startswith p' s'
  end.

(** [s.find(sub)]: the index of the first occurrence of [sub] in [s]. *)
Fixpoint str_find (sub s : string) : option nat :=
  if startswith sub s then Some 0%nat
  else match s with
       | EmptyString => None
       | String _ s' => S <$> str_find sub s'
       end.

(** [sub in s] *)
Definition str_in (sub s : string) : bool :=
  match str_find sub s with Some _ => true | None => false end.

(** [s[:n]] and [s[n:]] *)
Fixpoint str_take (n : nat) (s : string) : string :=
  match n, s with
  | S n', String c s' => String c (str_take n' s')
  | _, _ => EmptyString
  end.

Fixpoint str_drop (n : nat) (s : string) : string :=
  match n, s with
  | S n', String _ s' => str_drop n' s'
  | _, _ => s
  end.

(** [s.split(sep)] for a non-empty separator: cut at the first occurrence of
    [sep], go on after it. Every cut removes at least one character, so
    [fuel = len(s)] cuts are enough. *)
Fixpoint split_from (fuel : nat) (sep s : string) : list string :=
  match str_find sep s with
  | None => [s]
  | Some n =>
      match fuel with
      | O => [s]
      | S fuel' =>
          str_take n s ::
          split_from fuel' sep (str_drop (n + String.length sep) s)
      end
  end.

Definition split (sep s : string) : list string :=
  split_from (String.length s) sep s.

(** [l[i]] and [l[-1]] on a list of strings. *)
Definition item (i : nat) (l : list string) : result string :=
  match l !! i with
  | Some x => Ok x
  | None => Raise IndexError
  end.

Definition item_last (l : list string) : result string :=
  match last l with
  | Some x => Ok x
  | None => Raise IndexError
  end.

(** [(description.split(key)[1]).split(q)[1]], where [q] is the string made
    of one double quote. *)
Definition quoted_after (key description : string) : result string :=
  match item 1 (split key description) with
  | Raise e => Raise e
  | Ok rest => item 1 (split (String dquote "") rest)
  end.

(** Whether the character [c] occurs in [s]. *)
Fixpoint has_char (c : ascii) (s : string) : bool :=
  match s with
  | EmptyString => false
  | String a rest => Ascii.eqb a c || has_char c rest
  end.

End PyStr.

(** ** transcript.py: entries of a GTF file *)

Module TranscriptGtf.
Import PyStr TranscriptPy.

Section WithInt.
(** The builtin [int] applied to a string. *)
Variable int : string -> result Z.

(** [int(l[i])] *)
Definition int_item (i : nat) (l : list string) : result Z :=
  match item i l with
  | Raise e => Raise e
  | Ok x => int x
  end.

Definition mismatch_msg (transcript_id identifier : string) : string :=
  "Transcript ID assigned to exon does not match " +:+
  "transcript it is being assigned to (" +:+
  transcript_id +:+ " != " +:+ identifier +:+ ")".

(** Transcript.add_exon_from_gtf *)
Definition add_exon_from_gtf (exon_info : list string) : M Transcript unit :=
  (description <- call (item_last exon_info) ;;
   start <- call (int_item 3 exon_info) ;;
   end_ <- call (int_item 4 exon_info) ;;
   if negb (str_in "transcript_id" description) then
     raise (ValueError "GTF exon entry lacks a transcript_id field")
   else
     transcript_id <- call (quoted_after "transcript_id " description) ;;
     self <- get ;;
     if negb (String.eqb transcript_id (identifier self)) then
       raise (ValueError (mismatch_msg transcript_id (identifier self)))
     else add_exon start end_)%py.

(** The optional quoted value of [key]: [None] unless [key] occurs in the
    description. *)
Definition optional_value (key description : string) : result (option string) :=
  if str_in key description then
    match quoted_after (key +:+ " ") description with
    | Ok v => Ok (Some v)
    | Raise e => Raise e
    end
  else Ok None.

(** get_transcript_from_gtf *)
Definition get_transcript_from_gtf (transcript_info : list string)
    : result Transcript :=
  match item 0 transcript_info with
  | Raise e => Raise e
  | Ok chromosome =>
  match item_last transcript_info with
  | Raise e => Raise e
  | Ok description =>
  match int_item 3 transcript_info with
  | Raise e => Raise e
  | Ok start =>
  match int_item 4 transcript_info with
  | Raise e => Raise e
  | Ok end_ =>
  match item 6 transcript_info with
  | Raise e => Raise e
  | Ok strand =>
      if negb (str_in "transcript_id" description) then
        Raise (ValueError "GTF entry lacks a transcript_id field")
      else
        match quoted_after "transcript_id " description with
        | Raise e => Raise e
        | Ok transcript_id =>
        match optional_value "transcript_name" description with
        | Raise e => Raise e
        | Ok name =>
        match optional_value "gene_id" description with
        | Raise e => Raise e
        | Ok gene_id =>
            Ok (init transcript_id name chromosome start end_ strand gene_id)
        end end end
  end end end end end.

End WithInt.

(** The description gives [key] the quoted value [v]: its first occurrence
    of [key] followed by a space is followed by [v] in double quotes, and [v]
    holds neither a double quote nor the key. *)
Definition gives (key description v : string) : Prop :=
  exists pre post,
    description =
      pre +:+ key +:+ " " +:+ String dquote (v +:+ String dquote post) /\
    str_find (key +:+ " ") (pre +:+ key) = None /\
    str_find (String dquote "") v = None /\
    str_find (key +:+ " ") v = None.

(** The optional attribute [key] of a description: absent, or given. *)
Definition gives_optional (key description : string) (o : option string)
    : Prop :=
  match o with
  | None => str_in key description = false
  | Some v => gives key description v
  end.

End TranscriptGtf.

(** ** archived/talon.py: reading the database, summaries *)

Module TalonRead.
Import Talon.

(** [str(x)] for a database field. *)
Definition str_value (v : value) : string :=
  match v with
  | VInt n => str n
  | VStr s => s
  | VNone => "None"
  end.

(** [cursor.fetchone()[0]] after
    [SELECT "count" FROM "counters" WHERE "category" = category]: the count
    of the first row of that category; without such a row [fetchone()] is
    [None], and subscripting it is a TypeError. *)
Definition fetch_count (db : database) (category : string) : result Z :=
  match List.find (fun entry => String.eqb (fst entry) category) (counters db) with
  | Some entry => Ok (snd entry)
  | None => Raise TypeError
  end.

(** get_counters, on the database the cursor reads. *)
Definition get_counters (db : database) : result Counter :=
  match fetch_count db "genes" with
  | Raise e => Raise e
  | Ok genes =>
  match fetch_count db "transcripts" with
  | Raise e => Raise e
  | Ok transcripts =>
  match fetch_count db "vertex" with
  | Raise e => Raise e
  | Ok vertices =>
  match fetch_count db "edge" with
  | Raise e => Raise e
  | Ok edges =>
  match fetch_count db "dataset" with
  | Raise e => Raise e
  | Ok datasets =>
  match fetch_count db "observed" with
  | Raise e => Raise e
  | Ok observed =>
      Ok (mkCounter genes transcripts vertices edges datasets observed)
  end end end end end end.

(** The categories [get_counters] reads. *)
Definition counter_categories : list string :=
  ["genes"; "transcripts"; "vertex"; "edge"; "dataset"; "observed"].

Definition has_category (db : database) (category : string) : bool :=
  existsb (fun entry => String.eqb (fst entry) category) (counters db).

(** A row fetched by the query of [read_vertices], read by column name. *)
Record vertex_row : Type := mkVertexRow {
  row_vertex_ID : Z;
  row_chromosome : string;
  row_position : Z;
  row_strand : string;
  row_gene_ID : option Z
}.

(** [Vertex.Vertex(v["vertex_ID"], curr_chrom, pos, v["strand"], v["gene_ID"])] *)
Definition vertex_of_row (v : vertex_row) : Vertex :=
  mkVertex (row_vertex_ID v) (row_chromosome v) (row_position v)
           (row_strand v) (row_gene_ID v).

(** read_vertices, on the rows [db_vertices] its query fetched. *)
Definition read_vertices (db_vertices : list vertex_row)
    : gmap string (gmap Z (list Vertex)) :=
  fold_left (fun vertex_dict v => add_vertex (vertex_of_row v) vertex_dict)
            db_vertices ∅.

(** [vertex_dict[chromosome][pos]], the empty list when there is no entry. *)
Definition vertices_at (vertex_dict : gmap string (gmap Z (list Vertex)))
    (chromosome : string) (pos : Z) : list Vertex :=
  default [] (vertex_dict !! chromosome ≫= fun by_pos => by_pos !! pos).

(** [repr] of a transcript identifier used as a dictionary key. *)
Definition repr_id (x : option Z) : string :=
  match x with Some n => str n | None => "None" end.

(** Body of the loop of [compute_abundances]:
    [try: d[transcript_id] += 1 except: d[transcript_id] = 1]. *)
Definition count_read (abundance_dict : list (option Z * Z))
    (sam_transcript : SamTranscript) : list (option Z * Z) :=
  let transcript_id := sam_transcript_ID sam_transcript in
  match OD.get transcript_id abundance_dict with
  | Some n => OD.set transcript_id (n + 1) abundance_dict
  | None => OD.set transcript_id 1 abundance_dict
  end.

(** compute_abundances *)
Definition compute_abundances (sam_transcripts : list SamTranscript)
    (dataset : string) : result (list (option Z * string * Z)) :=
  let abundance_dict := fold_left count_read sam_transcripts [] in
  map_result (fun x => match OD.get x abundance_dict with
                       | Some n => Ok (x, dataset, n)
                       | None => Raise (KeyError (repr_id x))
                       end)
             (OD.keys abundance_dict).

(** Number of reads of a list whose [transcript_ID] is [t]. *)
Definition reads_of (t : option Z) (reads : list SamTranscript) : Z :=
  Z.of_nat (List.length
              (List.filter (fun r => bool_decide (sam_transcript_ID r = t))
                           reads)).

(** One half of [get_transcript_info]:
    [try: a = status[ID][0]; b = status[ID][1] except: a = "NA"; b = "NA"]. *)
Definition status_pair (status : gmap string (list value)) (ID : string)
    : value * value :=
  match status !! ID with
  | None => (VStr "NA", VStr "NA")
  | Some entry =>
      match entry !! 0%nat, entry !! 1%nat with
      | Some annotated, Some discovery_dataset => (annotated, discovery_dataset)
      | _, _ => (VStr "NA", VStr "NA")
      end
  end.

(** get_transcript_info *)
Definition get_transcript_info (transcript_ID gene_ID : string)
    (gene_status transcript_status : gmap string (list value)) : list value :=
  let '(gene_annotated, gene_discovery_dataset) :=
    status_pair gene_status gene_ID in
  let '(transcript_annotated, transcript_discovery_dataset) :=
    status_pair transcript_status transcript_ID in
  [gene_annotated; gene_discovery_dataset; transcript_annotated;
   transcript_discovery_dataset].

(** The rows of [SELECT * FROM table WHERE attribute = name]; [attribute] is
    the fourth column of the annotation tables. *)
Definition select_attribute (db : database) (table name : string)
    : result (list row) :=
  match tables db !! table with
  | None => Raise (OperationalError ("no such table: " +:+ table))
  | Some rows =>
      Ok (filter (fun r => bool_decide (r !! 3%nat = Some (VStr name))) rows)
  end.

(** Body of the loop of [get_annotation_status_dict]. *)
Definition status_step (annotation_status : gmap string (list value))
    (res : row) : result (gmap string (list value)) :=
  match item 0 res with
  | Raise e => Raise e
  | Ok id =>
  let ID := str_value id in
  match item_back 1 res with
  | Raise e => Raise e
  | Ok annotation =>
  match item 2 res with
  | Raise e => Raise e
  | Ok source =>
      match annotation_status !! ID with
      | None => Ok (<[ID := [annotation; source]]> annotation_status)
      | Some entry =>
          match item 0 entry with
          | Raise e => Raise e
          | Ok known =>
              if bool_decide (known = VStr "KNOWN") then Ok annotation_status
              else Ok (<[ID := [annotation; source]]> annotation_status)
          end
      end
  end end end.

Fixpoint status_loop (annot_status : list row)
    (annotation_status : gmap string (list value))
    : result (gmap string (list value)) :=
  match annot_status with
  | [] => Ok annotation_status
  | res :: rest =>
      match status_step annotation_status res with
      | Raise e => Raise e
      | Ok d => status_loop rest d
      end
  end.

(** get_annotation_status_dict *)
Definition get_annotation_status_dict (db : database) (cat_type : string)
    : result (gmap string (list value)) :=
  match select_attribute db (cat_type +:+ "_annotations")
                         (cat_type +:+ "_status") with
  | Raise e => Raise e
  | Ok annot_status => status_loop annot_status ∅
  end.

(** The rows of one identifier, and the row that decides its status: the
    first one whose value is ["KNOWN"], the last one when there is none. *)
Definition rows_of (ID : string) (rows : list row) : list row :=
  filter (fun r => bool_decide (str_value <$> r !! 0%nat = Some ID)) rows.

Definition is_known (r : row) : bool :=
  bool_decide (last r = Some (VStr "KNOWN")).

Definition deciding_row (mine : list row) : option row :=
  match List.find is_known mine with
  | Some r => Some r
  | None => last mine
  end.

(** [[result[-1], result[2]]] *)
Definition status_entry (r : row) : list value :=
  match last r, r !! 2%nat with
  | Some annotation, Some source => [annotation; source]
  | _, _ => []
  end.

(** The rows of [counters] once the count of [category] is set to [count]. *)
Definition set_count (category : string) (count : Z) (cs : list (string * Z))
    : list (string * Z) :=
  map (fun '(cat, n) => if String.eqb cat category then (cat, count) else (cat, n))
      cs.

(** The sum of the counts of an abundance dictionary. *)
Definition total (d : list (option Z * Z)) : Z :=
  fold_right Z.add 0 (map snd d).

(** What the loop of [compute_abundances] maintains: the keys are distinct,
    a transcript has an entry exactly when it has reads, the entry is the
    number of its reads, and the entries add up to the number of reads. *)
Definition counted (d : list (option Z * Z)) (reads : list SamTranscript) : Prop :=
  NoDup (OD.keys d) /\
  (forall t, OD.get t d =
             if reads_of t reads =? 0 then None else Some (reads_of t reads)) /\
  total d = Z.of_nat (List.length reads).

(** A row that has at least its first three columns. *)
Definition wide (r : row) : Prop := (3 <= List.length r)%nat.

(** The dictionary holds, for every identifier, the entry of the row that
    decides its status among the rows gone through. *)
Definition decided (d : gmap string (list value)) (rows : list row) : Prop :=
  forall ID, d !! ID = status_entry <$> deciding_row (rows_of ID rows).

(** The rows [get_annotation_status_dict] goes through. *)
Definition status_rows (cat_type : string) (table : list row) : list row :=
  filter (fun r => bool_decide (r !! 3%nat = Some (VStr (cat_type +:+ "_status"))))
         table.

(** What [get_transcript_info] reports for the rows of one identifier. *)
Definition status_or_na (mine : list row) : list value :=
  match deciding_row mine with
  | Some r => status_entry r
  | None => [VStr "NA"; VStr "NA"]
  end.

End TalonRead.

(** ** initialize_talon_database.py: filtering, grouping, populating *)

Module Populate.
Import InitDb PyStr.

(** The order in which Python 2 goes through a dictionary is not specified.
    It is a parameter here: any way of listing every key of a dictionary
    once. *)
Class DictOrder : Type := {
  dict_keys : forall {V : Type}, gmap string V -> list string;
  dict_keys_perm : forall {V : Type} (d : gmap string V),
    dict_keys d ≡ₚ (map_to_list d).*1
}.

(** The attributes and methods of the [Gene] and [Transcript] objects (of
    gene.py and of the [Transcript] class this script runs against) that the
    functions below read. An annotation value may be [None]. *)
Class GtfObjects (Gene Transcript : Type) : Type := {
  gene_chromosome : Gene -> string;
  gene_annotations : Gene -> gmap string (option string);
  transcript_chromosome : Transcript -> string;
  transcript_annotations : Transcript -> gmap string (option string);
  transcript_exons : Transcript -> list Edge;
  transcript_strand : Transcript -> string;
  transcript_get_length : Transcript -> result Z
}.

(** The sqlite3 module raises [sqlite3.InterfaceError] for a parameter it
    cannot bind (one that is not a number, a string or [None]). Which value
    of [exn] stands for it is left open. *)
Class SqliteErrors : Type := {
  interface_error : exn
}.

(** A loop whose body may raise, over the variables [S] it updates. *)
Fixpoint fold_result {A S : Type} (body : S -> A -> result S) (l : list A)
    (s : S) : result S :=
  match l with
  | [] => Ok s
  | x :: rest =>
      match body s x with
      | Raise e => Raise e
      | Ok s' => fold_result body rest s'
      end
  end.

(** An annotation value as a database field. *)
Definition field_of (o : option string) : Talon.value :=
  match o with
  | Some s => Talon.VStr s
  | None => Talon.VNone
  end.

(** A database-issued gene identifier, or ["NULL"], as a database field. *)
Definition gene_field (g : gene_ref) : Talon.value :=
  match g with
  | GeneId n => Talon.VInt n
  | GeneNull => Talon.VStr "NULL"
  end.

(** The key [create_vertex] stores a tuple under. *)
Definition vertex_key (t : vertex_tuple) : string :=
  let '(_, gene_id, genome_build, chromosome, pos, strand) := t in
  vertex_query gene_id genome_build chromosome pos strand.

(** The key [create_edge] stores a tuple under. *)
Definition edge_key (t : edge_tuple) : string :=
  let '(_, vertex_1, vertex_2, edge_type) := t in
  edge_query vertex_1 vertex_2 edge_type.

(** [str] of an integer is made of digits and a possible minus sign. *)
Definition digit_or_dash (c : ascii) : bool :=
  let n := nat_of_ascii c in
  ((48 <=? n) && (n <=? 57))%nat || (n =? 45)%nat.

(** A string of such characters. *)
Fixpoint numeric (s : string) : bool :=
  match s with
  | EmptyString => true
  | String c rest => digit_or_dash c && numeric rest
  end.

(** A dictionary of [create_vertex] or [create_edge] that started as
    [{"counter": n0}]: the counter has reached some [n]; every entry is
    stored under the key of its own tuple, with an identifier in
    [n0+1 .. n]; distinct keys hold distinct identifiers; and there are
    exactly [n - n0] entries. *)
Definition allocated {T} (id_of : T -> Z) (key_of : T -> string) (n0 : Z)
    (d : gmap string (slot T)) : Prop :=
  exists n,
    d !! "counter" = Some (Counter n) /\
    (forall q t, d !! q = Some (Entry t) ->
       q = key_of t /\ n0 < id_of t <= n) /\
    (forall q q' t t', d !! q = Some (Entry t) -> d !! q' = Some (Entry t') ->
       id_of t = id_of t' -> q = q') /\
    (forall q m, d !! q = Some (Counter m) -> q = "counter") /\
    Z.of_nat (size d) = n - n0 + 1.

(** [allocated] for the two dictionaries. *)
Definition allocated_vertices : Z -> gmap string (slot vertex_tuple) -> Prop :=
  allocated vertex_id_of vertex_key.
Definition allocated_edges : Z -> gmap string (slot edge_tuple) -> Prop :=
  allocated edge_id_of edge_key.

(** Every entry of [d] is an entry of [d'], with the same tuple. *)
Definition extends {T} (d d' : gmap string (slot T)) : Prop :=
  forall q t, d !! q = Some (Entry t) -> d' !! q = Some (Entry t).

(** The identifier registered for a vertex key. *)
Definition vertex_at (vs : gmap string (slot vertex_tuple)) (gene_id : gene_ref)
    (genome_build strand : string) (at_ : string * Z) : option Z :=
  match vs !! vertex_query gene_id genome_build (fst at_) (snd at_) strand with
  | Some (Entry t) => Some (vertex_id_of t)
  | _ => None
  end.

(** The identifier registered for an edge key. *)
Definition edge_at (es : gmap string (slot edge_tuple)) (e : Z * Z * string)
    : option Z :=
  let '(vertex_1, vertex_2, edge_type) := e in
  match es !! edge_query vertex_1 vertex_2 edge_type with
  | Some (Entry t) => Some (edge_id_of t)
  | _ => None
  end.

(** The two ends of every exon, in the order of the exons. *)
Definition boundaries (exons : list Edge) : list (string * Z) :=
  flat_map (fun e => [(edge_chromosome e, edge_start e);
                      (edge_chromosome e, edge_end e)]) exons.

(** The count [get_counters] would read for a category in the open
    transaction. *)
Definition count_of (category : string) (c : Talon.connection) : result Z :=
  TalonRead.fetch_count (Talon.working c) category.

(** The rows of a table in the open transaction. *)
Definition table_of (table : string) (c : Talon.connection)
    : option (list Talon.row) :=
  Talon.tables (Talon.working c) !! table.

(** The counter of a category agrees with the number of rows of the table
    of the same name: what [check_database_integrity] of talon.py checks. *)
Definition in_step (db : Talon.database) (category : string) : Prop :=
  exists n, TalonRead.fetch_count db category = Ok n /\
            Talon.count_rows db category = Some n.

(** The categories whose counter [populate_db] moves. *)
Definition counted_categories : list string :=
  ["genes"; "transcripts"; "vertex"; "edge"].

(** The four counted categories are in step. *)
Definition all_in_step (db : Talon.database) : Prop :=
  forall category, category ∈ counted_categories -> in_step db category.

Section WithObjects.
Context {Gene Transcript : Type} `{GtfModules Gene Transcript}
        `{GtfObjects Gene Transcript} `{DictOrder} `{Talon.Schema}
        `{SqliteErrors}.

(** *** filter_by_length and organize_by_chromosome *)

(** Body of the loop of [filter_by_length]; the two dictionaries being
    filled are [(filtered_genes, filtered_transcripts)]. *)
Definition filter_step (genes : gmap string Gene)
    (transcripts : gmap string Transcript) (min_length : Z)
    (filtered : gmap string Gene * gmap string Transcript)
    (transcript_id : string)
    : result (gmap string Gene * gmap string Transcript) :=
  let '(filtered_genes, filtered_transcripts) := filtered in
  match transcripts !! transcript_id with
  | None => Raise (KeyError transcript_id)
  | Some curr_transcript =>
      match transcript_get_length curr_transcript with
      | Raise e => Raise e
      | Ok length =>
          if min_length <=? length then
            let filtered_transcripts :=
              <[transcript_id := curr_transcript]> filtered_transcripts in
            let gene_id := transcript_gene_id curr_transcript in
            match gene_id with
            | Some gene_id =>
                match genes !! gene_id with
                | Some gene =>
                    Ok (<[gene_id := gene]> filtered_genes, filtered_transcripts)
                | None => Ok (filtered_genes, filtered_transcripts)
                end
            | None => Ok (filtered_genes, filtered_transcripts)
            end
          else Ok (filtered_genes, filtered_transcripts)
      end
  end.

(** filter_by_length *)
Definition filter_by_length (genes : gmap string Gene)
    (transcripts : gmap string Transcript) (min_length : Z)
    : result (gmap string Gene * gmap string Transcript) :=
  fold_result (filter_step genes transcripts min_length)
              (dict_keys transcripts) (∅, ∅).

(** Body of either loop of [organize_by_chromosome], for an object [x] of
    chromosome [chromosome] stored under [ID]. *)
Definition organize_step {T : Type} (chromosome : string) (ID : string) (x : T)
    (by_chrom : gmap string (gmap string T)) : gmap string (gmap string T) :=
  let by_chrom :=
    match by_chrom !! chromosome with
    | None => <[chromosome := {[ID := x]}]> by_chrom
    | Some _ => by_chrom
    end in
  <[chromosome := <[ID := x]> (default ∅ (by_chrom !! chromosome))]> by_chrom.

Definition organize_loop {T : Type} (chromosome_of : T -> string)
    (objects : gmap string T) : result (gmap string (gmap string T)) :=
  fold_result (fun by_chrom ID =>
                 match objects !! ID with
                 | None => Raise (KeyError ID)
                 | Some x => Ok (organize_step (chromosome_of x) ID x by_chrom)
                 end)
              (dict_keys objects) ∅.

(** organize_by_chromosome *)
Definition organize_by_chromosome (genes : gmap string Gene)
    (transcripts : gmap string Transcript)
    : result (gmap string (gmap string Gene) *
              gmap string (gmap string Transcript)) :=
  match organize_loop gene_chromosome genes with
  | Raise e => Raise e
  | Ok gene_dict =>
      match organize_loop transcript_chromosome transcripts with
      | Raise e => Raise e
      | Ok transcript_dict => Ok (gene_dict, transcript_dict)
      end
  end.

(** *** Reading a counter, inserting one row *)

(** [c.execute('SELECT "count" FROM "counters" WHERE "category" = ...');
    int(c.fetchone()[0])] *)
Definition fetch_counter (category : string) : M Talon.connection Z :=
  (c <- get ;; call (TalonRead.fetch_count (Talon.working c) category))%py.

(** [c.execute('INSERT OR IGNORE INTO table ... VALUES (?, ...)', vals)]: a
    row the store rejects is skipped. The statement is logged as an insert
    of one row. *)
Definition execute_insert_or_ignore (table : string) (vals : Talon.row)
    : M Talon.connection unit :=
  (Talon.log (Talon.Insert table [vals]) ;;;
   c <- get ;;
   match Talon.tables (Talon.working c) !! table with
   | None => raise (OperationalError ("no such table: " +:+ table))
   | Some rows =>
       if Talon.accepts table rows vals then
         put (Talon.set_working
                (Talon.mkDb (Talon.counters (Talon.working c))
                            (<[table := rows ++ [vals]]>
                               (Talon.tables (Talon.working c)))) c)
       else ret tt
   end)%py.

(** *** process_transcript *)

(** add_exon_annotations_to_db *)
Definition add_exon_annotations_to_db (exon : Edge) (exon_id : Z)
    (annot_name : string) : M Talon.connection unit :=
  let ignore := ["gene_id"; "gene_name"] in
  let attributes := annotations exon in
  match attributes !! "source" with
  | None => raise (KeyError "source")
  | Some source =>
      for_each
        (fun att =>
           if bool_decide (att ∈ ignore) || str_in "gene" att
              || str_in "transcript" att
           then ret tt
           else
             match attributes !! att with
             | None => raise (KeyError att)
             | Some value =>
                 let vals := [Talon.VInt exon_id; Talon.VStr annot_name;
                              Talon.VStr source; Talon.VStr att;
                              Talon.VStr value] in
                 execute_insert_or_ignore "exon_annotations" vals
             end)
        (dict_keys attributes)
  end.

(** First loop of [process_transcript]: a vertex for the left and for the
    right end of every exon; returns [transcript_vertices]. *)
Fixpoint exon_vertices (gene_id : gene_ref) (genome_build strand : string)
    (exons : list Edge) : M (gmap string (slot vertex_tuple)) (list Z) :=
  match exons with
  | [] => ret []
  | exon :: rest =>
      (let left := edge_start exon in
       let right := edge_end exon in
       v1 <- create_vertex gene_id genome_build (edge_chromosome exon) left
                           strand ;;
       v2 <- create_vertex gene_id genome_build (edge_chromosome exon) right
                           strand ;;
       vs <- exon_vertices gene_id genome_build strand rest ;;
       ret (v1 :: v2 :: vs))%py
  end.

(** The pairs [(l[i], l[i+1])] for [i] in [range(0, len(l) - 1)]. *)
Definition consecutive (l : list Z) : list (Z * Z) := combine l (tail l).

(** Variables of the second loop of [process_transcript]. *)
Record edge_locals : Type := mkEdgeLocals {
  el_edges : gmap string (slot edge_tuple);
  el_prev_edge_type : option string;
  el_exon_index : nat;
  el_transcript_edges : list Z
}.

(** The type of the next edge: [edge_type] is assigned only when the
    previous type is [None], ["intron"] or ["exon"], and otherwise keeps the
    value it had, which is the previous type. *)
Definition next_edge_type (prev_edge_type : option string) : string :=
  match prev_edge_type with
  | None => "exon"
  | Some p =>
      if String.eqb p "intron" then "exon"
      else if String.eqb p "exon" then "intron"
      else p
  end.

(** Body of the second loop of [process_transcript]. *)
Definition edge_step (exons : list Edge) (annot_name : string)
    (loc : edge_locals) (pair : Z * Z) : M Talon.connection edge_locals :=
  let '(vertex_1, vertex_2) := pair in
  let edge_type := next_edge_type (el_prev_edge_type loc) in
  match create_edge vertex_1 vertex_2 edge_type (el_edges loc) with
  | (Raise e, _) => raise e
  | (Ok edge_id, edges) =>
      let transcript_edges := el_transcript_edges loc ++ [edge_id] in
      if String.eqb edge_type "exon" then
        match exons !! el_exon_index loc with
        | None => raise IndexError
        | Some exon =>
            (add_exon_annotations_to_db exon edge_id annot_name ;;;
             ret (mkEdgeLocals edges (Some edge_type) (S (el_exon_index loc))
                               transcript_edges))%py
        end
      else
        ret (mkEdgeLocals edges (Some edge_type) (el_exon_index loc)
                          transcript_edges)
  end.

(** process_transcript; the cursor is the connection the annotations of the
    exons are written through. *)
Definition process_transcript (transcript : Transcript) (gene_id : gene_ref)
    (genome_build annot_name : string)
    (vertices : gmap string (slot vertex_tuple))
    (edges : gmap string (slot edge_tuple))
    : M Talon.connection
        (string * gmap string (slot vertex_tuple) * gmap string (slot edge_tuple)) :=
  let exons := transcript_exons transcript in
  let strand := transcript_strand transcript in
  match exon_vertices gene_id genome_build strand exons vertices with
  | (Raise e, _) => raise e
  | (Ok transcript_vertices, vertices) =>
      let '(transcript_vertices, exons) :=
        if String.eqb strand "-"
        then (rev transcript_vertices, rev exons)
        else (transcript_vertices, exons) in
      (loc <- Talon.fold_loop (edge_step exons annot_name)
                              (consecutive transcript_vertices)
                              (mkEdgeLocals edges None 0 []) ;;
       let transcript_path := join "," (map str (el_transcript_edges loc)) in
       ret (transcript_path, vertices, el_edges loc))%py
  end.

(** *** add_genes *)

(** bulk_update_genes *)
Definition bulk_update_genes (genes : list Talon.row) (gene_counter : Z)
    : M Talon.connection unit :=
  (Talon.executemany "genes" genes ;;;
   Talon.execute_update "genes" gene_counter)%py.

(** bulk_update_gene_annotations *)
Definition bulk_update_gene_annotations (bulk_annotations : list Talon.row)
    : M Talon.connection unit :=
  Talon.executemany "gene_annotations" bulk_annotations.

(** Variables of the loop of [add_genes]. *)
Record gene_locals : Type := mkGeneLocals {
  gl_bulk_genes : list Talon.row;
  gl_bulk_annotations : list Talon.row;
  gl_gene_id_map : gmap string Z;
  gl_gene_counter : Z
}.

(** The annotation rows of one object: a row per attribute. *)
Definition annotation_rows (db_id : Z) (annot_name : string)
    (source : option string) (attributes : gmap string (option string))
    (keys : list string) : list Talon.row :=
  omap (fun att =>
          (fun value => [Talon.VInt db_id; Talon.VStr annot_name;
                         field_of source; Talon.VStr att; field_of value])
          <$> attributes !! att) keys.

(** Body of the loop of [add_genes]. *)
Definition add_gene_step (genes : gmap string Gene) (annot_name : string)
    (loc : gene_locals) (gene_id : string) : result gene_locals :=
  match genes !! gene_id with
  | None => Raise (KeyError gene_id)
  | Some gene =>
      let db_gene_id := gl_gene_counter loc + 1 in
      let gene_counter := gl_gene_counter loc + 1 in
      let bulk_genes := gl_bulk_genes loc ++ [[Talon.VInt db_gene_id]] in
      let attributes := gene_annotations gene in
      let native_gene_id := gene_identifier gene in
      let gene_id_map := <[native_gene_id := db_gene_id]> (gl_gene_id_map loc) in
      match attributes !! "source" with
      | None => Raise (KeyError "source")
      | Some source =>
          let bulk_annotations :=
            gl_bulk_annotations loc ++
            annotation_rows db_gene_id annot_name source attributes
                            (dict_keys attributes) in
          Ok (mkGeneLocals bulk_genes bulk_annotations gene_id_map gene_counter)
      end
  end.

(** add_genes *)
Definition add_genes (genes : gmap string Gene) (annot_name : string)
    : M Talon.connection (gmap string Z) :=
  (gene_counter <- fetch_counter "genes" ;;
   loc <- call (fold_result (add_gene_step genes annot_name) (dict_keys genes)
                            (mkGeneLocals [] [] ∅ gene_counter)) ;;
   bulk_update_genes (gl_bulk_genes loc) (gl_gene_counter loc) ;;;
   bulk_update_gene_annotations (gl_bulk_annotations loc) ;;;
   ret (gl_gene_id_map loc))%py.

(** *** add_transcripts *)

(** bulk_update_transcripts *)
Definition bulk_update_transcripts (transcripts : list Talon.row) (counter : Z)
    : M Talon.connection unit :=
  (Talon.executemany "transcripts" transcripts ;;;
   Talon.execute_update "transcripts" counter)%py.

(** bulk_update_transcript_annotations *)
Definition bulk_update_transcript_annotations (bulk_annotations : list Talon.row)
    : M Talon.connection unit :=
  Talon.executemany "transcript_annotations" bulk_annotations.

(** [d.values()] *)
Definition dict_values {V : Type} (d : gmap string V) : list V :=
  omap (fun k => d !! k) (dict_keys d).

(** [x[i]] for a value of the [vertices] or [edges] dictionary: an integer
    cannot be subscripted. *)
Definition tuple_of {T : Type} (x : slot T) : result T :=
  match x with
  | Entry t => Ok t
  | Counter _ => Raise TypeError
  end.

(** [UPDATE "counters" SET "count" = counter WHERE "category" = category],
    where [counter] is what [pop("counter")] returned; a tuple cannot be
    bound as the parameter. *)
Definition update_popped {T : Type} (category : string) (counter : slot T)
    : M Talon.connection unit :=
  match counter with
  | Counter n => Talon.execute_update category n
  | Entry _ => raise interface_error
  end.

(** The parameters [executemany] binds one after the other when it is given
    [d.values()]: the tuples up to the first value that is not one, and
    whether there is such a value. *)
Fixpoint leading_tuples {T : Type} (values : list (slot T)) : list T * bool :=
  match values with
  | [] => ([], false)
  | Entry t :: rest =>
      let '(tuples, stopped) := leading_tuples rest in (t :: tuples, stopped)
  | Counter _ :: _ => ([], true)
  end.

(** bulk_update_vertices *)
Definition bulk_update_vertices (vertices : gmap string (slot vertex_tuple))
    : M Talon.connection unit :=
  match vertices !! "counter" with
  | None => raise (KeyError "counter")
  | Some counter =>
      let vertices := delete "counter" vertices in
      (tuples <- call (Talon.map_result tuple_of (dict_values vertices)) ;;
       let vertex_list :=
         map (fun '(vertex_id, gene_id, _, _, _, _) =>
                [Talon.VInt vertex_id; gene_field gene_id]) tuples in
       let location_list :=
         map (fun '(vertex_id, _, genome_build, chromosome, pos, strand) =>
                [Talon.VInt vertex_id; Talon.VStr genome_build;
                 Talon.VStr chromosome; Talon.VInt pos; Talon.VStr strand])
             tuples in
       Talon.executemany "vertex" vertex_list ;;;
       Talon.executemany "location" location_list ;;;
       update_popped "vertex" counter)%py
  end.

(** bulk_update_edges. The values of the dictionary are handed to
    [executemany] as they are: the rows before a value that is not a tuple
    are inserted, then the sqlite3 module raises its ValueError. *)
Definition bulk_update_edges (edges : gmap string (slot edge_tuple))
    : M Talon.connection unit :=
  match edges !! "counter" with
  | None => raise (KeyError "counter")
  | Some counter =>
      let edges := delete "counter" edges in
      let '(tuples, stopped) := leading_tuples (dict_values edges) in
      let edge_list :=
        map (fun '(edge_id, v1, v2, edge_type) =>
               [Talon.VInt edge_id; Talon.VInt v1; Talon.VInt v2;
                Talon.VStr edge_type]) tuples in
      (Talon.executemany "edge" edge_list ;;;
       (if stopped : bool
        then raise (ValueError "parameters are of unsupported type")
        else ret tt) ;;;
       update_popped "edge" counter)%py
  end.

(** Variables of the loop of [add_transcripts]. *)
Record transcript_locals : Type := mkTranscriptLocals {
  tl_bulk_transcripts : list Talon.row;
  tl_bulk_annotations : list Talon.row;
  tl_vertices : gmap string (slot vertex_tuple);
  tl_edges : gmap string (slot edge_tuple);
  tl_counter : Z
}.

(** [db_gene_id] of a transcript: the identifier issued for its gene, or
    ["NULL"] when the annotation names no gene. *)
Definition db_gene_id_of (gene_id_map : gmap string Z)
    (native_gene_id : option string) : result gene_ref :=
  match native_gene_id with
  | None => Ok GeneNull
  | Some native =>
      if String.eqb native "NULL" then Ok GeneNull
      else match gene_id_map !! native with
           | Some db_gene_id => Ok (GeneId db_gene_id)
           | None => Raise (KeyError native)
           end
  end.

(** Body of the loop of [add_transcripts]. *)
Definition add_transcript_step (transcripts : gmap string Transcript)
    (annot_name : string) (gene_id_map : gmap string Z) (genome_build : string)
    (loc : transcript_locals) (transcript_id : string)
    : M Talon.connection transcript_locals :=
  match transcripts !! transcript_id with
  | None => raise (KeyError transcript_id)
  | Some transcript =>
      let db_transcript_id := tl_counter loc + 1 in
      let counter := tl_counter loc + 1 in
      let attributes := transcript_annotations transcript in
      match attributes !! "source" with
      | None => raise (KeyError "source")
      | Some source =>
      match attributes !! "gene_id" with
      | None => raise (KeyError "gene_id")
      | Some native_gene_id =>
          (db_gene_id <- call (db_gene_id_of gene_id_map native_gene_id) ;;
           r <- process_transcript transcript db_gene_id genome_build annot_name
                                   (tl_vertices loc) (tl_edges loc) ;;
           let '(transcript_path, vertices, edges) := r in
           let bulk_transcripts :=
             tl_bulk_transcripts loc ++
             [[Talon.VInt db_transcript_id; gene_field db_gene_id;
               Talon.VStr transcript_path]] in
           let ignore := ["gene_id"; "gene_name"] in
           let kept :=
             List.filter (fun att => negb (bool_decide (att ∈ ignore)
                                           || str_in "gene" att))
                         (dict_keys attributes) in
           let bulk_annotations :=
             tl_bulk_annotations loc ++
             annotation_rows db_transcript_id annot_name source attributes kept in
           ret (mkTranscriptLocals bulk_transcripts bulk_annotations vertices
                                   edges counter))%py
      end end
  end.

(** add_transcripts *)
Definition add_transcripts (transcripts : gmap string Transcript)
    (annot_name : string) (gene_id_map : gmap string Z) (genome_build : string)
    : M Talon.connection unit :=
  (v_counter <- fetch_counter "vertex" ;;
   let vertices : gmap string (slot vertex_tuple) :=
     {["counter" := Counter v_counter]} in
   e_counter <- fetch_counter "edge" ;;
   let edges : gmap string (slot edge_tuple) :=
     {["counter" := Counter e_counter]} in
   counter <- fetch_counter "transcripts" ;;
   loc <- Talon.fold_loop
            (add_transcript_step transcripts annot_name gene_id_map genome_build)
            (dict_keys transcripts)
            (mkTranscriptLocals [] [] vertices edges counter) ;;
   bulk_update_transcripts (tl_bulk_transcripts loc) (tl_counter loc) ;;;
   bulk_update_transcript_annotations (tl_bulk_annotations loc) ;;;
   bulk_update_vertices (tl_vertices loc) ;;;
   bulk_update_edges (tl_edges loc))%py.

(** *** populate_db *)

(** Body of the loop of [populate_db]. *)
Definition populate_chromosome (annot_name : string)
    (chrom_genes : gmap string (gmap string Gene))
    (chrom_transcripts : gmap string (gmap string Transcript))
    (genome_build : string) (chromosome : string) : M Talon.connection unit :=
  match chrom_genes !! chromosome with
  | None => raise (KeyError chromosome)
  | Some genes =>
      match chrom_transcripts !! chromosome with
      | None => raise (KeyError chromosome)
      | Some transcripts =>
          (gene_id_map <- add_genes genes annot_name ;;
           add_transcripts transcripts annot_name gene_id_map genome_build ;;;
           Talon.commit)%py
      end
  end.

(** populate_db; the argument [edges] is not used by the function. The
    connection is returned so that what became durable can be read off it. *)
Definition populate_db (db : Talon.database) (annot_name : string)
    (chrom_genes : gmap string (gmap string Gene))
    (chrom_transcripts : gmap string (gmap string Transcript))
    (genome_build : string) : result unit * Talon.connection :=
  for_each (populate_chromosome annot_name chrom_genes chrom_transcripts
                                genome_build)
           (dict_keys chrom_genes) (Talon.connect db).

(** A transcript that is long enough. *)
Definition long_enough (min_length : Z) (t : Transcript) : Prop :=
  exists n, transcript_get_length t = Ok n /\ min_length <= n.

(** What the loop of [filter_by_length] maintains, [done] being the keys
    gone through: the kept transcripts are the long enough ones among
    them, the kept genes are the genes named by a kept transcript. *)
Definition filtered_inv (genes : gmap string Gene)
    (transcripts : gmap string Transcript) (min_length : Z)
    (filtered : gmap string Gene * gmap string Transcript)
    (done : list string) : Prop :=
  (forall id t, snd filtered !! id = Some t <->
     id ∈ done /\ transcripts !! id = Some t /\ long_enough min_length t) /\
  (forall g gene, fst filtered !! g = Some gene <->
     genes !! g = Some gene /\
     exists id t, snd filtered !! id = Some t /\ transcript_gene_id t = Some g).

(** [by_chrom[chromosome][ID]], if there is such an entry. *)
Definition grouped {T} (by_chrom : gmap string (gmap string T))
    (chromosome ID : string) : option T :=
  by_chrom !! chromosome ≫= fun group => group !! ID.

(** What a loop of [organize_by_chromosome] maintains, [done] being the
    keys gone through: an object is filed under its chromosome and its
    identifier, and no group is empty. *)
Definition organized_inv {T} (chromosome_of : T -> string)
    (objects : gmap string T) (by_chrom : gmap string (gmap string T))
    (done : list string) : Prop :=
  (forall c i x, grouped by_chrom c i = Some x <->
     i ∈ done /\ objects !! i = Some x /\ chromosome_of x = c) /\
  (forall c group, by_chrom !! c = Some group -> group <> ∅).

(** What writing exon annotations may change: rows of the table
    [exon_annotations] of the open transaction, and the log. *)
Definition annotated (c c' : Talon.connection) : Prop :=
  Talon.durable c' = Talon.durable c /\
  Talon.counters (Talon.working c') = Talon.counters (Talon.working c) /\
  (forall t, t <> "exon_annotations" ->
     Talon.tables (Talon.working c') !! t = Talon.tables (Talon.working c) !! t) /\
  is_Some (Talon.tables (Talon.working c') !! "exon_annotations").

(** The pairs of a loop with their edge types, the first one being an exon
    when [is_exon] holds. *)
Fixpoint typed_pairs (pairs : list (Z * Z)) (is_exon : bool)
    : list (Z * Z * string) :=
  match pairs with
  | [] => []
  | (x, y) :: rest =>
      (x, y, if is_exon then "exon" else "intron") ::
      typed_pairs rest (negb is_exon)
  end.

(** How many of the pairs are exons. *)
Fixpoint exon_count (pairs : list (Z * Z)) (is_exon : bool) : nat :=
  match pairs with
  | [] => 0
  | _ :: rest => (if is_exon then 1 else 0) + exon_count rest (negb is_exon)
  end%nat.

(** The exon boundaries in the order [process_transcript] links them. *)
Definition ordered_boundaries (transcript : Transcript) : list (string * Z) :=
  if String.eqb (transcript_strand transcript) "-"
  then rev (boundaries (transcript_exons transcript))
  else boundaries (transcript_exons transcript).

End WithObjects.

End Populate.

(** ** initialize_talon_database.py: the lines [read_gtf_file] acts on *)

Module GtfLines.
Import InitDb.

(** The entry types [read_gtf_file] has a branch for. *)
Definition entry_types : list string := ["gene"; "transcript"; "exon"].

(** Whether the loop of [read_gtf_file] does anything for a line: the line
    is not a header, and its third field is one of the three entry types or
    is missing. *)
Definition is_read (line : gtf_line) : bool :=
  match line with
  | Header => false
  | Fields tab_fields =>
      match tab_fields !! 2%nat with
      | None => true
      | Some entry_type => bool_decide (entry_type ∈ entry_types)
      end
  end.

End GtfLines.

(** ** Example inputs for the GTF reader, the summaries and [populate_db] *)

Module Examples.
Import PyStr.

(** [int] on a string of decimal digits. *)
Fixpoint digits_value (s : string) (acc : Z) : option Z :=
  match s with
  | EmptyString => Some acc
  | String c rest =>
      let n := nat_of_ascii c in
      if ((48 <=? n) && (n <=? 57))%nat
      then digits_value rest (10 * acc + Z.of_nat (n - 48))
      else None
  end.

Definition int (s : string) : result Z :=
  match s with
  | EmptyString => Raise (ValueError "invalid literal for int()")
  | _ =>
      match digits_value s 0 with
      | Some n => Ok n
      | None => Raise (ValueError "invalid literal for int()")
      end
  end.

(** [s] between double quotes. *)
Definition quoted (s : string) : string :=
  String dquote (s +:+ String dquote "").

(** The description of a transcript entry, cut before and after the value
    of [transcript_id]. *)
Definition before_transcript_id : string :=
  "gene_id " +:+ quoted "G1" +:+ "; ".
Definition after_transcript_id : string :=
  "; transcript_name " +:+ quoted "N1" +:+ ";".
Definition transcript_description : string :=
  before_transcript_id +:+ "transcript_id " +:+ quoted "T1" +:+
  after_transcript_id.

Definition transcript_entry : list string :=
  ["chr1"; "HAVANA"; "transcript"; "12010"; "13670"; "."; "+"; ".";
   transcript_description].

(** An entry that stops after its first field, and one whose description
    names no transcript. *)
Definition short_entry : list string := ["chr1"].

Definition gene_only_description : string := "gene_id " +:+ quoted "G1" +:+ ";".

Definition anonymous_entry : list string :=
  ["chr1"; "HAVANA"; "transcript"; "12010"; "13670"; "."; "+"; ".";
   gene_only_description].

(** An exon entry of transcript T1, and two transcripts to add it to. *)
Definition exon_entry : list string :=
  ["chr1"; "HAVANA"; "exon"; "12010"; "12057"; "."; "+"; ".";
   transcript_description].

Definition transcript_T1 : TranscriptPy.Transcript :=
  TranscriptPy.init "T1" (Some "N1") "chr1" 12010 13670 "+" (Some "G1").
Definition transcript_T2 : TranscriptPy.Transcript :=
  TranscriptPy.init "T2" None "chr1" 12010 13670 "+" (Some "G1").

(** Annotation tables in which gene 1 is first novel, then known, then novel
    again, gene 2 is novel, and transcript 5 is known. *)
Definition status_row (ID : Z) (attribute value : string) : Talon.row :=
  [Talon.VInt ID; Talon.VStr "demo"; Talon.VStr "HAVANA"; Talon.VStr attribute;
   Talon.VStr value].

Definition gene_annotation_rows : list Talon.row :=
  [status_row 1 "gene_status" "NOVEL"; status_row 1 "gene_name" "DDX11L1";
   status_row 1 "gene_status" "KNOWN"; status_row 2 "gene_status" "NOVEL";
   status_row 1 "gene_status" "NOVEL"].

Definition transcript_annotation_rows : list Talon.row :=
  [status_row 5 "transcript_status" "KNOWN"].

Definition annotated_db : Talon.database :=
  Talon.mkDb []
    (<["gene_annotations" := gene_annotation_rows]>
       (<["transcript_annotations" := transcript_annotation_rows]> ∅)).

(** The objects of a small annotation, built directly rather than read from
    a file. *)
Record gene : Type := mkGene {
  g_identifier : string;
  g_chromosome : string;
  g_annotations : gmap string (option string)
}.

Record transcript : Type := mkTranscript {
  t_identifier : string;
  t_gene_id : option string;
  t_chromosome : string;
  t_strand : string;
  t_exons : list InitDb.Edge;
  t_annotations : gmap string (option string)
}.

(** The length of a transcript: the bases of its exons. *)
Definition exon_bases (t : transcript) : Z :=
  fold_right Z.add 0
    (map (fun e => InitDb.edge_end e - InitDb.edge_start e + 1) (t_exons t)).

#[export] Instance example_gtf : InitDb.GtfModules gene transcript := {|
  InitDb.get_gene_from_gtf := fun _ => Raise (ValueError "not read from a file");
  InitDb.gene_identifier := g_identifier;
  InitDb.gene_add_transcript := fun _ g => Ok g;
  InitDb.get_transcript_from_gtf :=
    fun _ => Raise (ValueError "not read from a file");
  InitDb.transcript_identifier := t_identifier;
  InitDb.transcript_gene_id := t_gene_id;
  InitDb.transcript_add_exon := fun e t =>
    Ok (mkTranscript (t_identifier t) (t_gene_id t) (t_chromosome t)
                     (t_strand t) (t_exons t ++ [e]) (t_annotations t));
  InitDb.create_edge_from_gtf :=
    fun _ => Raise (ValueError "not read from a file")
|}.

#[export] Instance example_objects : Populate.GtfObjects gene transcript := {|
  Populate.gene_chromosome := g_chromosome;
  Populate.gene_annotations := g_annotations;
  Populate.transcript_chromosome := t_chromosome;
  Populate.transcript_annotations := t_annotations;
  Populate.transcript_exons := t_exons;
  Populate.transcript_strand := t_strand;
  Populate.transcript_get_length := fun t => Ok (exon_bases t)
|}.

(** The keys in the order in which the map lists them. *)
#[export] Instance example_order : Populate.DictOrder := {|
  Populate.dict_keys := fun V d => (map_to_list d).*1;
  Populate.dict_keys_perm := fun V d => reflexivity _
|}.

#[export] Instance example_errors : Populate.SqliteErrors := {|
  Populate.interface_error :=
    ValueError "Error binding parameter 0 - probably unsupported type."
|}.

Definition exon (id chromosome : string) (start end_ : Z) : InitDb.Edge :=
  InitDb.mkEdge id chromosome start end_ ∅
                {["source" := "HAVANA"; "exon_number" := id]}.

(** Gene G1 on chr1 with the two-exon transcript T1 on the minus strand,
    gene G2 on chr2 with the short one-exon transcript T2. *)
Definition gene_G1 : gene :=
  mkGene "G1" "chr1" {["source" := Some "HAVANA"; "gene_name" := Some "DDX11L1"]}.
Definition gene_G2 : gene :=
  mkGene "G2" "chr2" {["source" := Some "HAVANA"]}.

Definition long_T1 : transcript :=
  mkTranscript "T1" (Some "G1") "chr1" "-"
               [exon "1" "chr1" 100 200; exon "2" "chr1" 300 400]
               {["source" := Some "HAVANA"; "gene_id" := Some "G1";
                 "transcript_name" := Some "DDX11L1-001"]}.
Definition short_T2 : transcript :=
  mkTranscript "T2" (Some "G2") "chr2" "+" [exon "1" "chr2" 500 520]
               {["source" := Some "HAVANA"; "gene_id" := Some "G2"]}.

Definition example_genes : gmap string gene :=
  <["G1" := gene_G1]> {["G2" := gene_G2]}.
Definition example_transcripts : gmap string transcript :=
  <["T1" := long_T1]> {["T2" := short_T2]}.

(** The groups of chromosome chr1. *)
Definition chr1_genes : gmap string (gmap string gene) :=
  {["chr1" := {["G1" := gene_G1]}]}.
Definition chr1_transcripts : gmap string (gmap string transcript) :=
  {["chr1" := {["T1" := long_T1]}]}.

(** A file with a header, a CDS entry and an exon entry; and a file whose
    second line stops after two fields. The entries are in the dialect of
    [Demo.demo_gtf]. *)
Definition mixed_lines : list InitDb.gtf_line :=
  [InitDb.Header;
   InitDb.Fields ["chr1"; "HAVANA"; "CDS"; "C1"; "T1"; "G1"];
   InitDb.Fields (Demo.exon_line "E1" "T1")].

Definition truncated_lines : list InitDb.gtf_line :=
  [InitDb.Fields (Demo.exon_line "E1" "T1");
   InitDb.Fields ["chr1"; "HAVANA"];
   InitDb.Header].

Definition one_exon_result : InitDb.gtf_state :=
  match @InitDb.read_gtf_file _ _ Demo.demo_gtf
          [InitDb.Fields (Demo.exon_line "E1" "T1")] with
  | Ok st => st
  | Raise _ => InitDb.mkGtf ∅ ∅ ∅
  end.

(** Five gene rows, to be sent in batches of two. *)
Definition five_rows : list Talon.row :=
  map (fun n => [Talon.VInt n]) [1; 2; 3; 4; 5].

End Examples.

(** ** Properties of transcript.py *)

Module TranscriptPyProps.
Import TranscriptPy.

Lemma add_exon_raises (s e : Z) (t : Transcript) :
  s > e ->
  add_exon s e t = (Raise (ValueError (add_exon_msg s e)), t).
Proof.
  intros Hgt. unfold add_exon.
  destruct (Z.gtb_spec s e) as [_ | Hle]; [reflexivity | lia].
Qed.

Lemma add_exon_extends (s e : Z) (t : Transcript) :
  s <= e ->
  add_exon s e t = (Ok tt, set_exons t (exons t ++ [PInt s; PInt e])).
Proof.
  intros Hle. unfold add_exon.
  destruct (Z.gtb_spec s e) as [Hgt | _]; [lia | reflexivity].
Qed.

(** C9. For all integers [s], [e] and every transcript, exactly one of two
    things happens. Either [s > e]: [add_exon s e] raises [ValueError] and
    the transcript (its [exons] list included) is unchanged. Or [s <= e]:
    it returns normally, only [exons] changes, and [exons] is the old list
    followed by the two integers [s] and [e] as separate elements; the
    length grows by 2 and the new list is flat (all integers, no nested
    pair) exactly when the old one was. *)
Theorem add_exon_spec (s e : Z) (t : Transcript) :
  (s > e /\
   add_exon s e t = (Raise (ValueError (add_exon_msg s e)), t))
  \/
  (s <= e /\
   add_exon s e t = (Ok tt, set_exons t (exons t ++ [PInt s; PInt e])) /\
   exons (snd (add_exon s e t)) = exons t ++ [PInt s; PInt e] /\
   List.length (exons (snd (add_exon s e t))) = (List.length (exons t) + 2)%nat /\
   forallb is_flat (exons (snd (add_exon s e t))) = forallb is_flat (exons t)).
Proof.
  destruct (Z_gt_le_dec s e) as [Hgt | Hle].
  - left. split; [exact Hgt | apply add_exon_raises; exact Hgt].
  - right. rewrite (add_exon_extends s e t Hle). cbn [snd set_exons exons].
    repeat split.
    + exact Hle.
    + rewrite length_app. reflexivity.
    + rewrite forallb_app. cbn. apply andb_true_r.
Qed.

End TranscriptPyProps.

(** ** Properties of initialize_talon_database.py: allocation *)

Module InitDbProps.
Import InitDb.

(** A comma-joined key of two or more parts contains a comma, so it is never
    the reserved key ["counter"]. *)
Fixpoint has_comma (s : string) : bool :=
  match s with
  | EmptyString => false
  | String c rest => if Ascii.eqb c ","%char then true else has_comma rest
  end.

Lemma has_comma_app (a b : string) :
  has_comma (a +:+ b) = has_comma a || has_comma b.
Proof.
  induction a as [|c a IH]; [reflexivity|].
  change (String c a +:+ b) with (String c (a +:+ b)). cbn [has_comma].
  destruct (Ascii.eqb c ","%char); [reflexivity | exact IH].
Qed.

Lemma join_has_comma (p q : string) (rest : list string) :
  has_comma (join "," (p :: q :: rest)) = true.
Proof.
  cbn [join]. rewrite !has_comma_app.
  change (has_comma ",") with true. rewrite orb_true_l. apply orb_true_r.
Qed.

Lemma vertex_query_not_counter g b c p s : vertex_query g b c p s <> "counter".
Proof.
  intros H. pose proof (join_has_comma (str_gene g) b [c; str p; s]) as Hc.
  unfold vertex_query in H. rewrite H in Hc. discriminate.
Qed.

Lemma edge_query_not_counter v1 v2 ty : edge_query v1 v2 ty <> "counter".
Proof.
  intros H. pose proof (join_has_comma (str v1) (str v2) [ty]) as Hc.
  unfold edge_query in H. rewrite H in Hc. discriminate.
Qed.

Lemma read_counter_some {T} (d : gmap string (slot T)) n :
  d !! "counter" = Some (Counter n) -> read_counter d = Ok n.
Proof. intros H. unfold read_counter. rewrite H. reflexivity. Qed.

(** First call on a key that is not registered yet. *)
Lemma create_vertex_fresh g b c p s (vs : gmap string (slot vertex_tuple)) n :
  vs !! "counter" = Some (Counter n) ->
  vs !! vertex_query g b c p s = None ->
  create_vertex g b c p s vs =
    (Ok (n + 1),
     <[vertex_query g b c p s := Entry (n + 1, g, b, c, p, s)]>
       (<["counter" := Counter (n + 1)]> vs)).
Proof.
  intros Hc Hq. unfold create_vertex. rewrite Hq.
  rewrite (read_counter_some _ _ Hc). reflexivity.
Qed.

(** Any call on a registered key returns the stored identifier and leaves the
    dictionary, its counter included, as it is. *)
Lemma create_vertex_known g b c p s (vs : gmap string (slot vertex_tuple)) t :
  vs !! vertex_query g b c p s = Some (Entry t) ->
  create_vertex g b c p s vs = (Ok (vertex_id_of t), vs).
Proof. intros Hq. unfold create_vertex. rewrite Hq. reflexivity. Qed.

Lemma create_edge_fresh v1 v2 ty (es : gmap string (slot edge_tuple)) n :
  es !! "counter" = Some (Counter n) ->
  es !! edge_query v1 v2 ty = None ->
  create_edge v1 v2 ty es =
    (Ok (n + 1),
     <[edge_query v1 v2 ty := Entry (n + 1, v1, v2, ty)]>
       (<["counter" := Counter (n + 1)]> es)).
Proof.
  intros Hc Hq. unfold create_edge. rewrite Hq.
  rewrite (read_counter_some _ _ Hc). reflexivity.
Qed.

Lemma create_edge_known v1 v2 ty (es : gmap string (slot edge_tuple)) t :
  es !! edge_query v1 v2 ty = Some (Entry t) ->
  create_edge v1 v2 ty es = (Ok (edge_id_of t), es).
Proof. intros Hq. unfold create_edge. rewrite Hq. reflexivity. Qed.

(** A registered key stays registered, with the same tuple, through every
    later call. *)
Lemma create_vertex_keeps g b c p s (vs : gmap string (slot vertex_tuple)) q t :
  vs !! q = Some (Entry t) ->
  snd (create_vertex g b c p s vs) !! q = Some (Entry t).
Proof.
  intros Hq. unfold create_vertex.
  destruct (vs !! vertex_query g b c p s) as [[n|t']|] eqn:Hk; try exact Hq.
  destruct (read_counter vs) as [n|e] eqn:Hc; [|exact Hq]. cbn [snd].
  rewrite lookup_insert_ne by congruence.
  rewrite lookup_insert_ne; [exact Hq|].
  intros <-. unfold read_counter in Hc. rewrite Hq in Hc. discriminate.
Qed.

Lemma create_vertices_keep calls (vs : gmap string (slot vertex_tuple)) q t :
  vs !! q = Some (Entry t) -> create_vertices calls vs !! q = Some (Entry t).
Proof.
  revert vs. induction calls as [|[[[[g b] c] p] s] calls IH]; intros vs Hq.
  - exact Hq.
  - cbn [create_vertices fold_left]. apply IH. apply create_vertex_keeps. exact Hq.
Qed.

Lemma create_edge_keeps v1 v2 ty (es : gmap string (slot edge_tuple)) q t :
  es !! q = Some (Entry t) ->
  snd (create_edge v1 v2 ty es) !! q = Some (Entry t).
Proof.
  intros Hq. unfold create_edge.
  destruct (es !! edge_query v1 v2 ty) as [[n|t']|] eqn:Hk; try exact Hq.
  destruct (read_counter es) as [n|e] eqn:Hc; [|exact Hq]. cbn [snd].
  rewrite lookup_insert_ne by congruence.
  rewrite lookup_insert_ne; [exact Hq|].
  intros <-. unfold read_counter in Hc. rewrite Hq in Hc. discriminate.
Qed.

Lemma create_edges_keep calls (es : gmap string (slot edge_tuple)) q t :
  es !! q = Some (Entry t) -> create_edges calls es !! q = Some (Entry t).
Proof.
  revert es. induction calls as [|[[v1 v2] ty] calls IH]; intros es Hq.
  - exact Hq.
  - cbn [create_edges fold_left]. apply IH. apply create_edge_keeps. exact Hq.
Qed.

(** C8. Allocation is idempotent under the dedup key. Take a [vertices]
    dictionary whose counter is [n] and in which the key
    [(gene_id, genome_build, chromosome, position, strand)] is not yet
    registered. Two successive calls of [create_vertex] with that key both
    return the identifier [n + 1]; the first call moves the counter to
    [n + 1], the second leaves the whole dictionary untouched, so the counter
    was incremented exactly once and no second identifier was allocated.
    Also after any number of further calls with any keys, a call with that
    key returns [n + 1] again. The same holds for [create_edge] and the key
    [(v1, v2, edge_type)]. *)
Theorem create_twice_idempotent :
  (forall g b c p s (vs : gmap string (slot vertex_tuple)) n,
     vs !! "counter" = Some (Counter n) ->
     vs !! vertex_query g b c p s = None ->
     let '(r1, vs1) := create_vertex g b c p s vs in
     let '(r2, vs2) := create_vertex g b c p s vs1 in
     r1 = Ok (n + 1) /\ r2 = Ok (n + 1) /\
     read_counter vs1 = Ok (n + 1) /\ read_counter vs2 = Ok (n + 1) /\
     vs2 = vs1 /\
     forall calls,
       fst (create_vertex g b c p s (create_vertices calls vs1)) = Ok (n + 1))
  /\
  (forall v1 v2 ty (es : gmap string (slot edge_tuple)) n,
     es !! "counter" = Some (Counter n) ->
     es !! edge_query v1 v2 ty = None ->
     let '(r1, es1) := create_edge v1 v2 ty es in
     let '(r2, es2) := create_edge v1 v2 ty es1 in
     r1 = Ok (n + 1) /\ r2 = Ok (n + 1) /\
     read_counter es1 = Ok (n + 1) /\ read_counter es2 = Ok (n + 1) /\
     es2 = es1 /\
     forall calls,
       fst (create_edge v1 v2 ty (create_edges calls es1)) = Ok (n + 1)).
Proof.
  split.
  - intros g b c p s vs n Hc Hq.
    rewrite (create_vertex_fresh g b c p s vs n Hc Hq).
    erewrite create_vertex_known by apply lookup_insert_eq.
    assert (Hcnt : read_counter
              (<[vertex_query g b c p s := Entry (n + 1, g, b, c, p, s)]>
                 (<["counter" := Counter (n + 1)]> vs)) = Ok (n + 1)).
    { apply read_counter_some. rewrite lookup_insert_ne
        by apply vertex_query_not_counter. apply lookup_insert_eq. }
    cbn [vertex_id_of]. repeat split; try assumption.
    intros calls.
    rewrite (create_vertex_known g b c p s _ (n + 1, g, b, c, p, s));
      [reflexivity|].
    apply create_vertices_keep. apply lookup_insert_eq.
  - intros v1 v2 ty es n Hc Hq.
    rewrite (create_edge_fresh v1 v2 ty es n Hc Hq).
    erewrite create_edge_known by apply lookup_insert_eq.
    assert (Hcnt : read_counter
              (<[edge_query v1 v2 ty := Entry (n + 1, v1, v2, ty)]>
                 (<["counter" := Counter (n + 1)]> es)) = Ok (n + 1)).
    { apply read_counter_some. rewrite lookup_insert_ne
        by apply edge_query_not_counter. apply lookup_insert_eq. }
    cbn [edge_id_of]. repeat split; try assumption.
    intros calls.
    rewrite (create_edge_known v1 v2 ty _ (n + 1, v1, v2, ty)); [reflexivity|].
    apply create_edges_keep. apply lookup_insert_eq.
Qed.

End InitDbProps.

(** ** Properties of initialize_talon_database.py: GTF parsing *)

Module ReadGtfProps.
Import InitDb.

Lemma for_each_app {S A} (body : A -> M S unit) (l1 l2 : list A) (s : S) :
  for_each body (l1 ++ l2) s =
    match for_each body l1 s with
    | (Ok _, s') => for_each body l2 s'
    | (Raise e, s') => (Raise e, s')
    end.
Proof.
  revert s. induction l1 as [|x l1 IH]; intros s; cbn [for_each app].
  - reflexivity.
  - unfold bind. destruct (body x s) as [[[]|e] s']; [apply IH | reflexivity].
Qed.

Section WithModules.
Context {Gene Transcript : Type} `{GtfModules Gene Transcript}.

Lemma not_in_after_insert (k : string) (e : Edge) (d : gmap string Edge) :
  not_in k (<[k := e]> d) = false.
Proof.
  unfold not_in. apply bool_decide_eq_false. rewrite lookup_insert_eq. discriminate.
Qed.

Lemma first_of_set_member (s : gset string) (t : string) :
  first_of_set s = Ok t -> t ∈ s.
Proof.
  unfold first_of_set. destruct (elements s) as [|x l] eqn:E; [discriminate|].
  intros Heq. injection Heq as <-. apply elem_of_elements. rewrite E. left.
Qed.

Lemma add_transcript_id_member (t : string) (e : Edge) :
  t ∈ transcript_ids e -> add_transcript_id t e = e.
Proof.
  intros Hin. destruct e as [i c s e' tids ann]. unfold add_transcript_id.
  cbn in *. f_equal. apply subseteq_union_1_L, singleton_subseteq_l. exact Hin.
Qed.

(** The exon branch leaves in [exons] exactly the edge built from the current
    entry, on every path through the branch (also the raising ones). *)
Lemma exon_entry_exons (f : list string) (e : Edge) (st : gtf_state) :
  create_edge_from_gtf f = Ok e ->
  exons (snd (exon_entry f st)) = <[identifier e := e]> (exons st).
Proof.
  intros Hc. unfold exon_entry, bind, call, modify, get, ret, raise.
  rewrite Hc. cbn [snd fst].
  destruct (first_of_set (transcript_ids e)) as [tid|] eqn:Ht; [|reflexivity].
  destruct (annotations e !! "gene_id") as [g|]; [|reflexivity].
  cbn [set_exons exons]. rewrite not_in_after_insert.
  rewrite lookup_insert_eq.
  rewrite (add_transcript_id_member tid e (first_of_set_member _ _ Ht)).
  cbn [set_exons exons transcripts]. rewrite insert_insert_eq.
  destruct (transcripts st !! tid) as [cur|]; [|reflexivity].
  destruct (transcript_add_exon e cur); reflexivity.
Qed.

Lemma exon_entry_raises (f : list string) (x : exn) (st : gtf_state) :
  create_edge_from_gtf f = Raise x -> exon_entry f st = (Raise x, st).
Proof.
  intros Hc. unfold exon_entry, bind, call. rewrite Hc. reflexivity.
Qed.

Lemma gene_entry_exons (f : list string) (st : gtf_state) :
  exons (snd (gene_entry f st)) = exons st.
Proof.
  unfold gene_entry, bind, call, modify.
  destruct (get_gene_from_gtf f); reflexivity.
Qed.

Lemma transcript_entry_exons (f : list string) (st : gtf_state) :
  exons (snd (transcript_entry f st)) = exons st.
Proof.
  unfold transcript_entry, bind, call, modify, get, ret.
  destruct (get_transcript_from_gtf f) as [t|]; [|reflexivity].
  destruct (transcript_gene_id t) as [gene_id|]; [|reflexivity].
  destruct (genes st !! gene_id) as [g|]; [|reflexivity].
  destruct (gene_add_transcript t g); reflexivity.
Qed.

Lemma gtf_step_other (line : gtf_line) (k : string) (st : gtf_state) :
  registers line <> Some k ->
  exons (snd (gtf_step line st)) !! k = exons st !! k.
Proof.
  intros Hreg. destruct line as [|f]; [reflexivity|].
  cbn [gtf_step registers] in *.
  destruct (f !! 2%nat) as [ty|]; [|reflexivity].
  destruct (String.eqb ty "gene"); [by rewrite gene_entry_exons|].
  destruct (String.eqb ty "transcript"); [by rewrite transcript_entry_exons|].
  destruct (String.eqb ty "exon"); [|reflexivity].
  destruct (create_edge_from_gtf f) as [e|x] eqn:Hc.
  - rewrite (exon_entry_exons f e st Hc). apply lookup_insert_ne. congruence.
  - by rewrite (exon_entry_raises f x st Hc).
Qed.

Lemma for_each_other (lines : list gtf_line) (k : string) (st : gtf_state) :
  Forall (fun line => registers line <> Some k) lines ->
  exons (snd (for_each gtf_step lines st)) !! k = exons st !! k.
Proof.
  intros Hall. revert st. induction Hall as [|line lines Hl _ IH]; intros st.
  - reflexivity.
  - cbn [for_each]. unfold bind.
    pose proof (gtf_step_other line k st Hl) as Hstep.
    destruct (gtf_step line st) as [[[]|x] st']; cbn [snd] in *.
    + rewrite IH. exact Hstep.
    + exact Hstep.
Qed.

Lemma gtf_step_exon (f : list string) (e : Edge) (st : gtf_state) :
  f !! 2%nat = Some "exon" ->
  create_edge_from_gtf f = Ok e ->
  exons (snd (gtf_step (Fields f) st)) !! identifier e = Some e.
Proof.
  intros Hty Hc. cbn [gtf_step]. rewrite Hty.
  change (String.eqb "exon" "gene") with false.
  change (String.eqb "exon" "transcript") with false.
  change (String.eqb "exon" "exon") with true. cbv iota.
  rewrite (exon_entry_exons f e st Hc). apply lookup_insert_eq.
Qed.

(** C10. In the exon branch of [read_gtf_file] the entry is stored in
    [exons] before the membership test, so for every dictionary the test
    [location_exon_id not in exons] is false, and a transcript identifier is
    never merged into the set of an edge stored by an earlier entry: the
    edge the update fetches is the one just built from the current entry,
    and adding that entry's own transcript identifier to it changes nothing.
    The dictionary after the branch is the old one with the identifier mapped
    to the edge just built. Hence, when the file holds two exon entries [f1]
    and [f2] with the same exon identifier, [f2] after [f1], and no later
    exon entry registers that identifier, the returned dictionary maps the
    identifier to the edge built from [f2] alone: the transcript identifiers
    of [f1] are not in it unless [f2] lists them. *)
Theorem read_gtf_file_later_exon_wins
    (pre mid post : list gtf_line) (f1 f2 : list string) (e1 e2 : Edge)
    (final : gtf_state) :
  f1 !! 2%nat = Some "exon" -> create_edge_from_gtf f1 = Ok e1 ->
  f2 !! 2%nat = Some "exon" -> create_edge_from_gtf f2 = Ok e2 ->
  identifier e1 = identifier e2 ->
  Forall (fun line => registers line <> Some (identifier e2)) post ->
  read_gtf_file (pre ++ Fields f1 :: mid ++ Fields f2 :: post) = Ok final ->
  (forall d, not_in (identifier e2) (<[identifier e2 := e2]> d) = false) /\
  (forall (d : gmap string Edge) tid,
     first_of_set (transcript_ids e2) = Ok tid ->
     <[identifier e2 := e2]> d !! identifier e2 = Some e2 /\
     add_transcript_id tid e2 = e2) /\
  (forall st, exons (snd (exon_entry f2 st)) = <[identifier e2 := e2]> (exons st)) /\
  exons final !! identifier e2 = Some e2 /\
  transcript_ids <$> (exons final !! identifier e2) = Some (transcript_ids e2).
Proof.
  intros Hty1 Hc1 Hty2 Hc2 Hid Hpost Hrun.
  split; [intros d; apply not_in_after_insert|].
  split.
  { intros d tid Htid. split; [apply lookup_insert_eq|].
    apply add_transcript_id_member, first_of_set_member. exact Htid. }
  split; [intros st; apply exon_entry_exons; exact Hc2|].
  assert (Hfinal : exons final !! identifier e2 = Some e2).
  { unfold read_gtf_file in Hrun.
    replace (pre ++ Fields f1 :: mid ++ Fields f2 :: post)
      with ((pre ++ Fields f1 :: mid) ++ [Fields f2] ++ post) in Hrun
      by (rewrite <- !app_assoc; reflexivity).
    rewrite for_each_app in Hrun.
    destruct (for_each gtf_step (pre ++ Fields f1 :: mid) _) as [[[]|x] st0];
      [|discriminate].
    rewrite for_each_app in Hrun. cbn [for_each] in Hrun. unfold bind at 1 in Hrun.
    pose proof (gtf_step_exon f2 e2 st0 Hty2 Hc2) as Hstep.
    destruct (gtf_step (Fields f2) st0) as [[[]|x] st1]; cbn [snd] in Hstep;
      [|discriminate].
    cbn [ret] in Hrun. unfold ret in Hrun.
    pose proof (for_each_other post (identifier e2) st1 Hpost) as Hrest.
    destruct (for_each gtf_step post st1) as [[[]|x] st2]; [|discriminate].
    injection Hrun as <-. cbn [snd] in Hrest. rewrite Hrest. exact Hstep. }
  split; [exact Hfinal|]. rewrite Hfinal. reflexivity.
Qed.

End WithModules.
End ReadGtfProps.

(** ** Properties of archived/talon.py: the database update *)

Module UpdateProps.
Import Talon.

(** *** Generic facts about computations over a connection *)

Section Keeps.
Context {T : Type} (proj : connection -> T).

Lemma keeps_ret {A} (a : A) : keeps proj (ret a).
Proof. intros c. reflexivity. Qed.

Lemma keeps_raise {A} (e : exn) : keeps proj (@raise connection A e).
Proof. intros c. reflexivity. Qed.

Lemma keeps_call {A} (r : result A) : keeps proj (call r).
Proof. intros c. reflexivity. Qed.

Lemma keeps_get : keeps proj get.
Proof. intros c. reflexivity. Qed.

Lemma keeps_bind {A B} (m : M connection A) (k : A -> M connection B) :
  keeps proj m -> (forall a, keeps proj (k a)) -> keeps proj (bind m k).
Proof.
  intros Hm Hk c. unfold bind. specialize (Hm c).
  destruct (m c) as [[a|e] c']; cbn [snd] in *.
  - rewrite Hk. exact Hm.
  - exact Hm.
Qed.

Lemma keeps_try_pass (m : M connection unit) : keeps proj m -> keeps proj (try_pass m).
Proof. intros Hm c. unfold try_pass. cbn [snd]. apply Hm. Qed.

Lemma keeps_for_each {A} (body : A -> M connection unit) (l : list A) :
  (forall x, keeps proj (body x)) -> keeps proj (for_each body l).
Proof.
  intros Hb. induction l as [|x l IH]; cbn [for_each].
  - apply keeps_ret.
  - apply keeps_bind; [apply Hb | intros _; exact IH].
Qed.

End Keeps.

Ltac keeps_step :=
  first [ apply keeps_bind; [|intros ?]
        | apply keeps_for_each; intros ?
        | apply keeps_try_pass
        | apply keeps_ret | apply keeps_raise | apply keeps_call
        | apply keeps_get ].

Section Durable.
Context `{Schema}.

Lemma log_durable (s : statement) : keeps durable (log s).
Proof. intros c. reflexivity. Qed.

Lemma executemany_durable (table : string) (batch : list row) :
  keeps durable (executemany table batch).
Proof.
  intros c. unfold executemany, bind, log, modify, get, put, raise, call.
  cbn [snd fst working tables durable].
  destruct (tables (working c) !! table) as [rows|]; [|reflexivity].
  destruct (insert_rows table batch rows) as [[[]|e] rows']; reflexivity.
Qed.

Lemma execute_update_durable (category : string) (n : Z) :
  keeps durable (execute_update category n).
Proof. intros c. reflexivity. Qed.

Lemma batch_loop_keeps {T} (proj : connection -> T) (batch_size : Z)
    (len : nat) (body : nat -> M connection unit) :
  (forall i, keeps proj (body i)) -> keeps proj (batch_loop batch_size len body).
Proof.
  intros Hb. unfold batch_loop. repeat keeps_step. apply Hb.
Qed.

Ltac durable_tac :=
  repeat first
    [ apply executemany_durable | apply execute_update_durable
    | apply log_durable
    | apply batch_loop_keeps; intros ?
    | keeps_step ].

Lemma stage_all_durable counter novel_ids abundances batch_size genome_build :
  keeps durable (stage_all counter novel_ids abundances batch_size genome_build).
Proof.
  unfold stage_all, batch_add_genes, batch_add_transcripts, batch_add_edges,
    batch_add_vertices_and_locations, batch_add_observed, add_datasets,
    update_counter, batch_add_abundance.
  durable_tac.
Qed.

(** *** The integrity check *)

Lemma check_category_conn (entry : string * Z) (c : connection) :
  snd (check_category entry c) =
    mkConn (durable c) (working c) (issued c ++ [SelectCount (fst entry)]).
Proof.
  destruct entry as [table_name n].
  unfold check_category, bind, log, modify, get, raise, ret. cbn [snd fst working].
  destruct (count_rows (working c) table_name) as [m|]; [|reflexivity].
  destruct (bool_decide (m <> n)); reflexivity.
Qed.

Lemma check_category_working (entry : string * Z) (c : connection) :
  working (snd (check_category entry c)) = working c.
Proof. rewrite check_category_conn. reflexivity. Qed.

Lemma check_category_durable (entry : string * Z) :
  keeps durable (check_category entry).
Proof. intros c. rewrite check_category_conn. reflexivity. Qed.

(** [count_rows] is the live row count. *)
Lemma count_rows_has_rows (db : database) (table_name : string) (m : Z) :
  count_rows db table_name = Some m <-> has_rows db table_name m.
Proof.
  unfold count_rows, has_rows.
  destruct (String.eqb table_name "counters") eqn:E.
  - apply String.eqb_eq in E. split.
    + intros [= <-]. left. split; [exact E | reflexivity].
    + intros [[_ ->] | [Hne _]]; [reflexivity | contradiction].
  - apply String.eqb_neq in E. split.
    + intros Hm. right. split; [exact E|].
      destruct (tables db !! table_name) as [rows|]; [|discriminate].
      injection Hm as <-. exists rows. split; reflexivity.
    + intros [[Heq _] | [_ (rows & -> & ->)]]; [contradiction | reflexivity].
Qed.

Lemma check_category_ok (entry : string * Z) (c : connection) :
  fst (check_category entry c) = Ok tt <-> category_matches (working c) entry.
Proof.
  destruct entry as [table_name n]. unfold category_matches. cbn [fst snd].
  rewrite <- count_rows_has_rows.
  unfold check_category, bind, log, modify, get, raise, ret. cbn [snd fst working].
  destruct (count_rows (working c) table_name) as [m|].
  - destruct (bool_decide_reflect (m <> n)) as [Hne|Heq]; cbn [fst].
    + split; [discriminate | intros [= ->]; contradiction].
    + split; [intros _; f_equal; lia | reflexivity].
  - cbn [fst]. split; discriminate.
Qed.

Lemma check_category_mismatch (table_name : string) (n m : Z) (c : connection) :
  has_rows (working c) table_name m -> m <> n ->
  fst (check_category (table_name, n) c) = Raise (ValueError (integrity_msg table_name)).
Proof.
  intros Hcount Hne. apply count_rows_has_rows in Hcount.
  unfold check_category, bind, log, modify, get, raise, ret. cbn [snd fst working].
  rewrite Hcount. rewrite bool_decide_true by exact Hne. reflexivity.
Qed.

Lemma category_matches_forall (db : database) (l : list (string * Z)) :
  Forall (category_matches db) l <->
  forall category count, In (category, count) l -> has_rows db category count.
Proof.
  rewrite List.Forall_forall. split.
  - intros Hall category count Hin. exact (Hall _ Hin).
  - intros Hall [category count] Hin. exact (Hall _ _ Hin).
Qed.

(** The loop of the check succeeds exactly when every listed category
    matches its table. *)
Lemma check_loop_ok (l : list (string * Z)) (c : connection) :
  fst (for_each check_category l c) = Ok tt <->
  Forall (category_matches (working c)) l.
Proof.
  revert c. induction l as [|entry l IH]; intros c; cbn [for_each].
  - split; [constructor | reflexivity].
  - unfold bind.
    pose proof (check_category_ok entry c) as Hok.
    pose proof (check_category_working entry c) as Hw.
    destruct (check_category entry c) as [[[]|e] c']; cbn [fst snd] in *.
    + rewrite IH, Hw. split.
      * intros Hall. constructor; [apply Hok; reflexivity | exact Hall].
      * intros Hall. inversion Hall; assumption.
    + split; [discriminate|]. intros Hall. inversion Hall as [|? ? Hm _].
      apply Hok in Hm. discriminate.
Qed.

(** The first category that disagrees with its table is the one the error
    names. *)
Lemma check_loop_first_mismatch (pre post : list (string * Z))
    (table_name : string) (n m : Z) (c : connection) :
  Forall (category_matches (working c)) pre ->
  has_rows (working c) table_name m -> m <> n ->
  fst (for_each check_category (pre ++ (table_name, n) :: post) c) =
    Raise (ValueError (integrity_msg table_name)).
Proof.
  revert c. induction pre as [|entry pre IH]; intros c Hpre Hcount Hne.
  - cbn [app for_each]. unfold bind.
    pose proof (check_category_mismatch table_name n m c Hcount Hne) as Hr.
    destruct (check_category (table_name, n) c) as [[[]|e] c']; cbn [fst] in *;
      [discriminate | exact Hr].
  - inversion Hpre as [|? ? Hm Hrest]; subst.
    cbn [app for_each]. unfold bind.
    pose proof (proj2 (check_category_ok entry c) Hm) as Hok.
    pose proof (check_category_working entry c) as Hw.
    destruct (check_category entry c) as [[[]|e] c']; cbn [fst snd] in *;
      [|discriminate].
    apply IH; [rewrite Hw; assumption | rewrite Hw; assumption | assumption].
Qed.

Lemma check_database_integrity_working : keeps working check_database_integrity.
Proof.
  unfold check_database_integrity. repeat keeps_step.
  - intros c. reflexivity.
  - intros c. apply check_category_working.
Qed.

Lemma check_database_integrity_durable : keeps durable check_database_integrity.
Proof.
  unfold check_database_integrity. repeat keeps_step.
  - intros c. reflexivity.
  - apply check_category_durable.
Qed.

Lemma check_database_integrity_result (c : connection) :
  fst (check_database_integrity c) =
  fst (for_each check_category (counters (working c))
         (mkConn (durable c) (working c) (issued c ++ [SelectCounters]))).
Proof. reflexivity. Qed.

(** How [update_database] ends, given how the writes ended. *)
Lemma update_database_unfold db counter novel_ids abundances batch_size
    genome_build :
  update_database db counter novel_ids abundances batch_size genome_build =
    match stage_all counter novel_ids abundances batch_size genome_build
            (connect db) with
    | (Ok _, c) =>
        match check_database_integrity c with
        | (Ok _, c') => commit c'
        | (Raise e, c') => (Raise e, c')
        end
    | (Raise e, c) => (Raise e, c)
    end.
Proof.
  unfold update_database, bind.
  destruct (stage_all _ _ _ _ _ _) as [[[]|e] c]; [|reflexivity].
  destruct (check_database_integrity c) as [[[]|e] c']; reflexivity.
Qed.

(** C1. Let [staged] be the connection after all the inserts and counter
    updates of [update_database], and [out] its final outcome. Nothing is
    durable while the writes are staged. The check compares, for each row
    (category, count) of the [counters] table, the live row count of the
    table named by the category with the count: the number of rows the
    staged database holds under that name. [update_database] returns
    normally exactly when the writes returned and, for every row of
    [counters], the named table exists and holds exactly [count] rows; then,
    and only then, the staged state is committed and becomes the durable
    one. In every other case the durable database is the one the function
    started from, so no staged write is kept. When the first category whose
    table holds a number of rows other than its count is [table_name], the
    error raised is the [ValueError] with the message of talon.py, which
    names [table_name] between quotes. *)
Theorem update_database_commits_iff_consistent
    (db : database) (counter : Counter) (novel_ids : NovelIds)
    (abundances : list (Z * list (string * Z))) (batch_size : Z)
    (genome_build : string) :
  let staged :=
    stage_all counter novel_ids abundances batch_size genome_build (connect db) in
  let out :=
    update_database db counter novel_ids abundances batch_size genome_build in
  let live (category : string) (m : Z) : Prop :=
    (category = "counters" /\
     m = Z.of_nat (List.length (counters (working (snd staged))))) \/
    (category <> "counters" /\
     exists rows,
       tables (working (snd staged)) !! category = Some rows /\
       m = Z.of_nat (List.length rows)) in
  durable (snd staged) = db /\
  working (snd out) = working (snd staged) /\
  (fst out = Ok tt <->
     fst staged = Ok tt /\
     forall category count,
       In (category, count) (counters (working (snd staged))) ->
       live category count) /\
  (fst out = Ok tt -> durable (snd out) = working (snd staged)) /\
  (fst out <> Ok tt -> durable (snd out) = db) /\
  (forall pre table_name n m post,
     fst staged = Ok tt ->
     counters (working (snd staged)) = pre ++ (table_name, n) :: post ->
     (forall category count, In (category, count) pre -> live category count) ->
     live table_name m ->
     m <> n ->
     fst out =
       Raise (ValueError
                ("Database counter for '" +:+ table_name +:+
                 "' does not match the number of entries in the table. Discarding changes to database and exiting..."))).
Proof.
  intros staged out live.
  assert (Hd : durable (snd staged) = db)
    by apply (stage_all_durable counter novel_ids abundances batch_size
                genome_build (connect db)).
  subst out. rewrite update_database_unfold.
  change live with (has_rows (working (snd staged))). clear live. fold staged.
  destruct staged as [[[]|e] c] eqn:Hst; cbn [fst snd] in *.
  - pose proof (check_database_integrity_working c) as Hw.
    pose proof (check_database_integrity_durable c) as Hdc.
    pose proof (check_database_integrity_result c) as Hr.
    pose proof (check_loop_ok (counters (working c))
                  (mkConn (durable c) (working c) (issued c ++ [SelectCounters])))
      as Hok.
    cbn [working] in Hok. rewrite category_matches_forall in Hok.
    destruct (check_database_integrity c) as [[[]|e] c'] eqn:Hchk;
      cbn [fst snd] in *.
    + unfold commit, bind, log, modify. cbn [fst snd working durable].
      split; [exact Hd|]. split; [exact Hw|]. split; [|split; [|split]].
      * split; [intros _|reflexivity].
        split; [reflexivity|]. apply Hok. symmetry. exact Hr.
      * intros _. exact Hw.
      * intros Hne. exfalso. apply Hne. reflexivity.
      * intros pre table_name n m post _ Hcnt Hpre Hcount Hne.
        rewrite Hcnt in Hr. apply category_matches_forall in Hpre.
        rewrite (check_loop_first_mismatch pre post table_name n m) in Hr
          by assumption.
        discriminate.
    + split; [exact Hd|]. split; [exact Hw|]. split; [|split; [|split]].
      * split; [discriminate|].
        intros [_ Hall]. apply Hok in Hall. rewrite <- Hr in Hall. discriminate.
      * discriminate.
      * intros _. rewrite Hdc. exact Hd.
      * intros pre table_name n m post _ Hcnt Hpre Hcount Hne.
        rewrite Hr, Hcnt. apply category_matches_forall in Hpre.
        transitivity (Raise (A := unit) (ValueError (integrity_msg table_name)));
          [|reflexivity].
        apply (check_loop_first_mismatch pre post table_name n m); assumption.
  - split; [exact Hd|]. split; [reflexivity|]. split; [|split; [|split]].
    + split; [discriminate|]. intros [Habs _]. discriminate.
    + discriminate.
    + intros _. exact Hd.
    + intros pre table_name n m post Habs. discriminate.
Qed.

End Durable.

(** *** The order of the statements *)

Section Order.
Context `{Schema}.

Lemma emits_silent {A} (p q : nat) (m : M connection A) :
  keeps issued m -> emits p q m.
Proof.
  intros Hk c. exists []. rewrite app_nil_r. split; [apply Hk|].
  split; constructor.
Qed.

Lemma sorted_app (l1 l2 : list statement) (q : nat) :
  StronglySorted by_phase l1 -> StronglySorted by_phase l2 ->
  Forall (fun s => (phase s <= q)%nat) l1 ->
  Forall (fun s => (q <= phase s)%nat) l2 ->
  StronglySorted by_phase (l1 ++ l2).
Proof.
  intros H1 H2 Hle Hge. induction H1 as [|a l1 Hs IH Ha]; cbn [app].
  - exact H2.
  - inversion Hle as [|? ? Haq Hrest]; subst.
    constructor; [apply IH; exact Hrest|].
    apply Forall_app. split; [exact Ha|].
    eapply List.Forall_impl; [|exact Hge]. intros b Hb. unfold by_phase.
    cbn beta in *. lia.
Qed.

Lemma emits_bind {A B} (p q q' r : nat) (m : M connection A)
    (k : A -> M connection B) :
  (p <= q)%nat -> (q <= q')%nat -> (q' <= r)%nat ->
  emits p q m -> (forall a, emits q' r (k a)) -> emits p r (bind m k).
Proof.
  intros Hpq Hqq Hqr Hm Hk c. unfold bind.
  destruct (Hm c) as (n1 & E1 & F1 & S1).
  destruct (m c) as [[a|e] c']; cbn [snd] in *.
  - destruct (Hk a c') as (n2 & E2 & F2 & S2).
    exists (n1 ++ n2). rewrite E2, E1, app_assoc. split; [reflexivity|]. split.
    + apply Forall_app. split.
      * eapply List.Forall_impl; [|exact F1]. cbn beta. intros; lia.
      * eapply List.Forall_impl; [|exact F2]. cbn beta. intros; lia.
    + apply (sorted_app n1 n2 q); try assumption.
      * eapply List.Forall_impl; [|exact F1]. cbn beta. intros; lia.
      * eapply List.Forall_impl; [|exact F2]. cbn beta. intros; lia.
  - exists n1. split; [exact E1|]. split; [|exact S1].
    eapply List.Forall_impl; [|exact F1]. cbn beta. intros; lia.
Qed.

Lemma emits_try_pass (p q : nat) (m : M connection unit) :
  emits p q m -> emits p q (try_pass m).
Proof. intros Hm c. unfold try_pass. cbn [snd]. apply Hm. Qed.

Lemma emits_for_each {A} (p : nat) (body : A -> M connection unit)
    (l : list A) :
  (forall x, emits p p (body x)) -> emits p p (for_each body l).
Proof.
  intros Hb. induction l as [|x l IH]; cbn [for_each].
  - apply emits_silent. intros c. reflexivity.
  - apply (emits_bind p p p p); auto.
Qed.

Lemma emits_log (s : statement) : emits (phase s) (phase s) (log s).
Proof.
  intros c. exists [s]. split; [reflexivity|]. split.
  - constructor; [lia | constructor].
  - constructor; constructor.
Qed.

Lemma emits_executemany (table : string) (batch : list row) :
  emits (phase (Insert table batch)) (phase (Insert table batch))
        (executemany table batch).
Proof.
  intros c. exists [Insert table batch]. split.
  - unfold executemany, bind, log, modify, get, put, raise, call.
    cbn [snd fst working tables issued].
    destruct (tables (working c) !! table) as [rows|]; [|reflexivity].
    destruct (insert_rows table batch rows) as [[[]|e] rows']; reflexivity.
  - split.
    + constructor; [lia | constructor].
    + constructor; constructor.
Qed.

Lemma emits_batch_loop (p : nat) (batch_size : Z) (len : nat)
    (body : nat -> M connection unit) :
  (forall i, emits p p (body i)) -> emits p p (batch_loop batch_size len body).
Proof.
  intros Hb. unfold batch_loop. apply (emits_bind p p p p); auto.
  - apply emits_silent. intros c. reflexivity.
  - intros idx. apply emits_for_each. exact Hb.
Qed.

Lemma emits_call_then {A B} (p : nat) (r : result A) (k : A -> M connection B) :
  (forall a, emits p p (k a)) -> emits p p (bind (call r) k).
Proof.
  intros Hk. apply (emits_bind p p p p); auto.
  apply emits_silent. intros c. reflexivity.
Qed.

Lemma emits_seq {B} (p : nat) (m : M connection unit) (k : M connection B) :
  emits p p m -> emits p p k -> emits p p (bind m (fun _ => k)).
Proof. intros Hm Hk. apply (emits_bind p p p p); auto. Qed.

Ltac emits_flat :=
  repeat lazymatch goal with
  | |- emits _ _ (executemany ?t ?b) => apply (emits_executemany t b)
  | |- emits _ _ (try_pass _) => apply emits_try_pass
  | |- emits _ _ (batch_loop _ _ _) => apply emits_batch_loop; intros ?
  | |- emits _ _ (for_each _ _) => apply emits_for_each; intros ?
  | |- emits _ _ (bind (call _) _) => apply emits_call_then; intros ?
  | |- emits _ _ (bind _ _) => apply emits_seq
  end.

Lemma emits_genes novel_ids batch_size :
  emits 0 0 (batch_add_genes novel_ids batch_size).
Proof. unfold batch_add_genes. emits_flat. Qed.

Lemma emits_transcripts novel_ids batch_size :
  emits 1 1 (batch_add_transcripts novel_ids batch_size).
Proof. unfold batch_add_transcripts. emits_flat. Qed.

Lemma emits_edges novel_ids batch_size :
  emits 2 2 (batch_add_edges novel_ids batch_size).
Proof. unfold batch_add_edges. emits_flat. Qed.

Lemma emits_vertices novel_ids genome_build batch_size :
  emits 3 3 (batch_add_vertices_and_locations novel_ids genome_build batch_size).
Proof. unfold batch_add_vertices_and_locations. emits_flat. Qed.

Lemma emits_observed novel_ids batch_size :
  emits 4 4 (batch_add_observed novel_ids batch_size).
Proof. unfold batch_add_observed. emits_flat. Qed.

Lemma emits_datasets novel_ids counter :
  emits 5 5 (add_datasets novel_ids counter).
Proof. unfold add_datasets. emits_flat. Qed.

Lemma emits_update (category : string) (n : Z) :
  emits 6 6 (execute_update category n).
Proof.
  intros c. exists [Update category n]. split; [reflexivity|]. split.
  - constructor; [cbn; lia | constructor].
  - constructor; constructor.
Qed.

Lemma emits_update_counter counter : emits 6 6 (update_counter counter).
Proof.
  unfold update_counter. do 5 (apply emits_seq; [apply emits_update|]).
  apply emits_update.
Qed.

Lemma emits_abundance abundances batch_size :
  emits 7 7 (batch_add_abundance abundances batch_size).
Proof. unfold batch_add_abundance. emits_flat. Qed.

Lemma emits_stage_all counter novel_ids abundances batch_size genome_build :
  emits 0 7 (stage_all counter novel_ids abundances batch_size genome_build).
Proof.
  unfold stage_all.
  apply (emits_bind 0 0 1 7); [lia..|apply emits_genes|intros _].
  apply (emits_bind 1 1 2 7); [lia..|apply emits_transcripts|intros _].
  apply (emits_bind 2 2 3 7); [lia..|apply emits_edges|intros _].
  apply (emits_bind 3 3 4 7); [lia..|apply emits_vertices|intros _].
  apply (emits_bind 4 4 5 7); [lia..|apply emits_observed|intros _].
  apply (emits_bind 5 5 6 7); [lia..|apply emits_datasets|intros _].
  apply (emits_bind 6 6 7 7); [lia..|apply emits_update_counter|intros _].
  apply emits_abundance.
Qed.

Lemma add_datasets_trace novel_ids counter (c : connection) :
  issued (snd (add_datasets novel_ids counter c)) =
    issued c ++ [Insert "dataset" (OD.values (n_datasets novel_ids))].
Proof.
  unfold add_datasets, try_pass, executemany, bind, log, modify, get, put,
    raise, call.
  cbn [snd fst working tables issued].
  destruct (tables (working c) !! "dataset") as [rows|]; [|reflexivity].
  destruct (insert_rows "dataset" _ rows) as [[[]|e] rows']; reflexivity.
Qed.

Lemma update_counter_trace counter (c : connection) :
  update_counter counter c =
    (Ok tt,
     mkConn (durable c) (working (snd (update_counter counter c)))
            (issued c ++ [Update "genes" (c_genes counter);
                          Update "transcripts" (c_transcripts counter);
                          Update "edge" (c_edges counter);
                          Update "vertex" (c_vertices counter);
                          Update "dataset" (c_datasets counter);
                          Update "observed" (c_observed counter)])).
Proof.
  unfold update_counter, execute_update, bind, log, modify.
  cbn [snd fst working issued durable set_working].
  rewrite <- !app_assoc. reflexivity.
Qed.

(** The writes that return have issued, in this order: the inserts for genes,
    for transcripts, for edges, for vertices and locations, for observed
    records, the one insert for datasets, the six counter updates, and the
    inserts for abundance. *)
Lemma stage_all_trace counter novel_ids abundances batch_size genome_build
    (c : connection) :
  fst (stage_all counter novel_ids abundances batch_size genome_build c) = Ok tt ->
  exists t_genes t_transcripts t_edges t_vertices t_observed t_abundance,
    issued (snd (stage_all counter novel_ids abundances batch_size
                           genome_build c)) =
      issued c ++ t_genes ++ t_transcripts ++ t_edges ++ t_vertices ++
      t_observed ++
      [Insert "dataset" (OD.values (n_datasets novel_ids))] ++
      [Update "genes" (c_genes counter);
       Update "transcripts" (c_transcripts counter);
       Update "edge" (c_edges counter);
       Update "vertex" (c_vertices counter);
       Update "dataset" (c_datasets counter);
       Update "observed" (c_observed counter)] ++
      t_abundance /\
    Forall (fun s => phase s = 0%nat) t_genes /\
    Forall (fun s => phase s = 1%nat) t_transcripts /\
    Forall (fun s => phase s = 2%nat) t_edges /\
    Forall (fun s => phase s = 3%nat) t_vertices /\
    Forall (fun s => phase s = 4%nat) t_observed /\
    Forall (fun s => phase s = 7%nat) t_abundance.
Proof.
  unfold stage_all, bind.
  destruct (emits_genes novel_ids batch_size c) as (t0 & E0 & F0 & _).
  destruct (batch_add_genes novel_ids batch_size c) as [[[]|e] c0];
    [|discriminate].
  destruct (emits_transcripts novel_ids batch_size c0) as (t1 & E1 & F1 & _).
  destruct (batch_add_transcripts novel_ids batch_size c0) as [[[]|e] c1];
    [|discriminate].
  destruct (emits_edges novel_ids batch_size c1) as (t2 & E2 & F2 & _).
  destruct (batch_add_edges novel_ids batch_size c1) as [[[]|e] c2];
    [|discriminate].
  destruct (emits_vertices novel_ids genome_build batch_size c2)
    as (t3 & E3 & F3 & _).
  destruct (batch_add_vertices_and_locations novel_ids genome_build batch_size c2)
    as [[[]|e] c3]; [|discriminate].
  destruct (emits_observed novel_ids batch_size c3) as (t4 & E4 & F4 & _).
  destruct (batch_add_observed novel_ids batch_size c3) as [[[]|e] c4];
    [|discriminate].
  pose proof (add_datasets_trace novel_ids counter c4) as E5.
  destruct (add_datasets novel_ids counter c4) as [[[]|e] c5]; [|discriminate].
  rewrite (update_counter_trace counter c5).
  set (c6 := mkConn _ _ _).
  destruct (emits_abundance abundances batch_size c6) as (t7 & E7 & F7 & _).
  destruct (batch_add_abundance abundances batch_size c6) as [[[]|e] c7];
    [|discriminate].
  intros _. cbn [snd] in *. exists t0, t1, t2, t3, t4, t7. split.
  - rewrite E7. subst c6. cbn [issued]. rewrite E5, E4, E3, E2, E1, E0.
    rewrite <- !app_assoc. reflexivity.
  - repeat split;
      (eapply List.Forall_impl; [|eassumption]; cbn beta; intros; lia).
Qed.

Lemma emits_check : emits 8 8 check_database_integrity.
Proof.
  unfold check_database_integrity.
  apply emits_seq; [apply (emits_log SelectCounters)|].
  apply (emits_bind 8 8 8 8); [lia..| |intros c0].
  - apply emits_silent. intros c. reflexivity.
  - apply emits_for_each. intros entry c. rewrite check_category_conn.
    eexists. split; [reflexivity|]. split.
    + constructor; [cbn; lia | constructor].
    + constructor; constructor.
Qed.

Lemma emits_commit : emits 9 9 commit.
Proof.
  intros c. exists [Commit]. split; [reflexivity|]. split.
  - constructor; [cbn; lia | constructor].
  - constructor; constructor.
Qed.

Lemma commit_conn (c : connection) :
  commit c = (Ok tt, mkConn (working c) (working c) (issued c ++ [Commit])).
Proof. reflexivity. Qed.

(** A check that passes has asked for the row count of every category, in
    the order of the [counters] table. *)
Lemma check_loop_trace (l : list (string * Z)) (c : connection) :
  fst (for_each check_category l c) = Ok tt ->
  issued (snd (for_each check_category l c)) =
    issued c ++ map (fun e => SelectCount (fst e)) l.
Proof.
  revert c. induction l as [|entry l IH]; intros c; cbn [for_each map].
  - intros _. cbn. rewrite app_nil_r. reflexivity.
  - unfold bind. pose proof (check_category_conn entry c) as Hc.
    destruct (check_category entry c) as [[[]|e] c']; cbn [fst snd] in *;
      [|discriminate].
    intros Hok. rewrite (IH c' Hok). subst c'. cbn [issued].
    rewrite <- app_assoc. reflexivity.
Qed.

Lemma check_database_integrity_trace (c : connection) :
  fst (check_database_integrity c) = Ok tt ->
  issued (snd (check_database_integrity c)) =
    issued c ++ SelectCounters ::
      map (fun e => SelectCount (fst e)) (counters (working c)).
Proof.
  intros Hok. unfold check_database_integrity, bind, log, modify, get in *.
  cbn [fst snd working] in *. rewrite (check_loop_trace _ _ Hok).
  cbn [issued]. rewrite <- app_assoc. reflexivity.
Qed.

Lemma phase_bound_not_commit (l : list statement) :
  Forall (fun s => (phase s <= 8)%nat) l -> ~ In Commit l.
Proof.
  intros Hall Hin. rewrite List.Forall_forall in Hall.
  specialize (Hall Commit Hin). cbn in Hall. lia.
Qed.

(** C2. The statements [update_database] issues come in the order of its
    steps: inserts into genes (and their annotations), then transcripts, then
    edges, then vertices and locations, then observed records, then datasets,
    then the counter updates, then abundance; the statements of the integrity
    check and the commit come after all of them. [staged] is the connection
    after the writes: everything issued up to there belongs to the eight
    write steps, everything issued afterwards belongs to the check or is the
    commit. When the writes return, what they issued is exactly: the inserts
    of the genes step, of the transcripts step, of the edges step, of the
    vertices and locations step, of the observed step, the one insert for
    datasets, the six counter updates and the inserts of the abundance step,
    in this order. A run that returns normally ends with the check of every category
    followed by the commit as the very last statement; a run that raises has
    issued no commit. *)
Theorem update_database_statement_order
    (db : database) (counter : Counter) (novel_ids : NovelIds)
    (abundances : list (Z * list (string * Z))) (batch_size : Z)
    (genome_build : string) :
  let staged :=
    stage_all counter novel_ids abundances batch_size genome_build (connect db) in
  let out :=
    update_database db counter novel_ids abundances batch_size genome_build in
  StronglySorted by_phase (issued (snd out)) /\
  Forall (fun s => (phase s <= 7)%nat) (issued (snd staged)) /\
  (fst staged = Ok tt ->
   exists t_genes t_transcripts t_edges t_vertices t_observed t_abundance,
     issued (snd staged) =
       t_genes ++ t_transcripts ++ t_edges ++ t_vertices ++ t_observed ++
       [Insert "dataset" (OD.values (n_datasets novel_ids))] ++
       [Update "genes" (c_genes counter);
        Update "transcripts" (c_transcripts counter);
        Update "edge" (c_edges counter);
        Update "vertex" (c_vertices counter);
        Update "dataset" (c_datasets counter);
        Update "observed" (c_observed counter)] ++
       t_abundance /\
     Forall (fun s => phase s = 0%nat) t_genes /\
     Forall (fun s => phase s = 1%nat) t_transcripts /\
     Forall (fun s => phase s = 2%nat) t_edges /\
     Forall (fun s => phase s = 3%nat) t_vertices /\
     Forall (fun s => phase s = 4%nat) t_observed /\
     Forall (fun s => phase s = 7%nat) t_abundance) /\
  (exists after,
     issued (snd out) = issued (snd staged) ++ after /\
     Forall (fun s => (8 <= phase s <= 9)%nat) after) /\
  (fst out = Ok tt ->
     issued (snd out) =
       issued (snd staged) ++
       SelectCounters ::
       map (fun e => SelectCount (fst e)) (counters (working (snd staged))) ++
       [Commit]) /\
  (fst out <> Ok tt -> ~ In Commit (issued (snd out))).
Proof.
  intros staged out.
  assert (Hsorted : StronglySorted by_phase (issued (snd out))).
  { subst out. unfold update_database.
    assert (He : emits 0 9
              (bind (stage_all counter novel_ids abundances batch_size genome_build)
                    (fun _ => bind check_database_integrity (fun _ => commit)))).
    { apply (emits_bind 0 7 8 9); [lia..|apply emits_stage_all|intros _].
      apply (emits_bind 8 8 9 9); [lia..|apply emits_check|intros _].
      apply emits_commit. }
    destruct (He (connect db)) as (new & E & _ & S). rewrite E. exact S. }
  assert (Hst : Forall (fun s => (phase s <= 7)%nat) (issued (snd staged))).
  { destruct (emits_stage_all counter novel_ids abundances batch_size
                genome_build (connect db)) as (new & E & F & _).
    fold staged in E. rewrite E. cbn [connect issued app].
    eapply List.Forall_impl; [|exact F]. cbn beta. intros; lia. }
  split; [exact Hsorted|]. split; [exact Hst|].
  split; [apply (stage_all_trace counter novel_ids abundances batch_size
                   genome_build (connect db))|].
  subst out. rewrite update_database_unfold. fold staged.
  destruct staged as [[[]|e] c]; cbn [fst snd] in *.
  - destruct (emits_check c) as (chk & Echk & Fchk & _).
    pose proof (check_database_integrity_trace c) as Htrace.
    pose proof (check_database_integrity_working c) as Hw.
    destruct (check_database_integrity c) as [[[]|e] c']; cbn [fst snd] in *.
    + rewrite commit_conn. cbn [fst snd issued]. split; [|split].
      * exists (chk ++ [Commit]). rewrite Echk, <- app_assoc.
        split; [reflexivity|]. apply Forall_app. split.
        -- eapply List.Forall_impl; [|exact Fchk]. cbn beta. intros; lia.
        -- constructor; [cbn; lia | constructor].
      * intros _. rewrite (Htrace eq_refl), <- app_assoc. reflexivity.
      * intros Hne. exfalso. apply Hne. reflexivity.
    + split; [|split].
      * exists chk. split; [exact Echk|].
        eapply List.Forall_impl; [|exact Fchk]. cbn beta. intros; lia.
      * discriminate.
      * intros _. apply phase_bound_not_commit. rewrite Echk.
        apply Forall_app. split.
        -- eapply List.Forall_impl; [|exact Hst]. cbn beta. intros; lia.
        -- eapply List.Forall_impl; [|exact Fchk]. cbn beta. intros; lia.
  - split; [|split].
    + exists []. rewrite app_nil_r. split; [reflexivity | constructor].
    + discriminate.
    + intros _. apply phase_bound_not_commit.
      eapply List.Forall_impl; [|exact Hst]. cbn beta. intros; lia.
Qed.

End Order.

End UpdateProps.

(** ** Properties of archived/talon.py: matching and gene assignment *)

Module MatchProps.
Import Talon.

Section WithCollaborators.
Context `{Collaborators}.

(** C3. For every query, with [tracker] the match tracker after
    [compute_match_sets], [find_transcript_match] returns exactly one of:
    - match type ["full"], the best full match and the deltas computed by
      [get_best_full_match], when [full_matches] is not empty;
    - match type ["partial"], the best partial match and the diff
      [[None, None]], when [full_matches] is empty and [partial_matches] is
      not;
    - match type ["none"], no transcript and the diff [[None, None]], when
      both sets are empty. *)
Theorem find_transcript_match_cases (query : SamTranscript)
    (transcripts : gmap Z Transcript) (exon_tree intron_tree : EdgeTree) :
  let tracker := tracker_of query transcripts exon_tree intron_tree in
  let out := find_transcript_match query transcripts exon_tree intron_tree in
  let transcript_match := fst (fst (fst out)) in
  let match_type := snd (fst (fst out)) in
  let diff := snd out in
  (full_matches tracker <> [] /\
   match_type = "full" /\
   transcript_match = Matched (fst (get_best_full_match transcripts tracker)) /\
   diff = snd (get_best_full_match transcripts tracker))
  \/
  (full_matches tracker = [] /\ partial_matches tracker <> [] /\
   match_type = "partial" /\
   transcript_match = Matched (get_best_partial_match transcripts tracker) /\
   diff = (None, None))
  \/
  (full_matches tracker = [] /\ partial_matches tracker = [] /\
   match_type = "none" /\
   transcript_match = NoneString /\
   diff = (None, None)).
Proof.
  intros tracker out transcript_match match_type diff.
  subst transcript_match match_type diff out. unfold find_transcript_match.
  fold (tracker_of query transcripts exon_tree intron_tree). fold tracker.
  destruct (full_matches tracker) as [|f fs] eqn:Hfull; cbn [List.length Nat.ltb Nat.leb].
  - destruct (partial_matches tracker) as [|q qs] eqn:Hpart;
      cbn [List.length Nat.ltb Nat.leb fst snd].
    + right. right. repeat split.
    + right. left. repeat split. discriminate.
  - left. destruct (get_best_full_match transcripts tracker) as [bm d].
    cbn [fst snd]. repeat split. discriminate.
Qed.

(** The outcome of minting a novel gene for a read: the gene counter goes up
    by one, the new identifier is the new counter value, the gene spans the
    read's coordinates and is in the gene index and in the staging table at
    once; nothing else changes. *)
Lemma assign_gene_mints (sam : SamTranscript) (best_match : match_ref)
    (dataset : string) (st : run_state) :
  (if sam_n_exons sam =? 1
   then match best_match with Matched bm => t_gene_id bm | NoneString => None end
   else search_for_gene sam (vertices st)) = None ->
  let id := c_genes (counter st) + 1 in
  let gene_obj := mkGene id (sam_chromosome sam) (sam_start sam) (sam_end sam)
                         (sam_strand sam) in
  assign_gene sam best_match dataset st =
    (Ok (set_sam_gene_ID (Some id) sam),
     set_gene_tree (add_gene gene_obj (gene_tree st))
       (set_novel_ids
          (set_n_genes (OD.set (VInt id) [VInt id; VStr dataset]
                               (n_genes (novel_ids st))) (novel_ids st))
          (set_counter (set_c_genes id (counter st)) st))).
Proof.
  intros Hnone id gene_obj. unfold assign_gene, bind, get, put, ret.
  rewrite Hnone. reflexivity.
Qed.

Lemma assign_gene_known (sam : SamTranscript) (best_match : match_ref)
    (dataset : string) (st : run_state) (g : Z) (gene_obj : Gene) :
  (if sam_n_exons sam =? 1
   then match best_match with Matched bm => t_gene_id bm | NoneString => None end
   else search_for_gene sam (vertices st)) = Some g ->
  genes (gene_tree st) !! g = Some gene_obj ->
  assign_gene sam best_match dataset st =
    (Ok (set_sam_gene_ID (Some (gene_identifier gene_obj)) sam), st).
Proof.
  intros Hsome Hg. unfold assign_gene, bind, get, put, ret.
  rewrite Hsome, Hg. reflexivity.
Qed.

(** C4 (amended). For a read without a full match.
    Single exon: when there is a best partial match and it has a gene [g]
    known to the gene index, the read gets the gene stored under [g] and
    nothing is minted; when there is no partial match, a novel gene is minted
    at once, without any overlap search: the gene counter goes up by one, the
    gene spans the read's coordinates and is inserted into the gene index
    immediately.
    More than one exon: the gene is the one [search_for_gene] finds by
    position, whatever the partial match is; when that search finds none, a
    novel gene is minted in the same way. *)
Theorem assign_gene_cases (sam : SamTranscript) (best_match : match_ref)
    (dataset : string) (st : run_state) :
  let id := c_genes (counter st) + 1 in
  let minted :=
    (Ok (set_sam_gene_ID (Some id) sam),
     set_gene_tree
       (add_gene (mkGene id (sam_chromosome sam) (sam_start sam) (sam_end sam)
                         (sam_strand sam)) (gene_tree st))
       (set_novel_ids
          (set_n_genes (OD.set (VInt id) [VInt id; VStr dataset]
                               (n_genes (novel_ids st))) (novel_ids st))
          (set_counter (set_c_genes id (counter st)) st))) in
  (forall bm g gene_obj,
     sam_n_exons sam = 1 -> best_match = Matched bm -> t_gene_id bm = Some g ->
     genes (gene_tree st) !! g = Some gene_obj ->
     assign_gene sam best_match dataset st =
       (Ok (set_sam_gene_ID (Some (gene_identifier gene_obj)) sam), st)) /\
  (sam_n_exons sam = 1 -> best_match = NoneString ->
     assign_gene sam best_match dataset st = minted /\
     c_genes (counter (snd minted)) = c_genes (counter st) + 1 /\
     genes (gene_tree (snd minted)) !! id =
       Some (mkGene id (sam_chromosome sam) (sam_start sam) (sam_end sam)
                    (sam_strand sam))) /\
  (forall g gene_obj,
     sam_n_exons sam <> 1 -> search_for_gene sam (vertices st) = Some g ->
     genes (gene_tree st) !! g = Some gene_obj ->
     assign_gene sam best_match dataset st =
       (Ok (set_sam_gene_ID (Some (gene_identifier gene_obj)) sam), st)) /\
  (sam_n_exons sam <> 1 -> search_for_gene sam (vertices st) = None ->
     assign_gene sam best_match dataset st = minted /\
     c_genes (counter (snd minted)) = c_genes (counter st) + 1 /\
     genes (gene_tree (snd minted)) !! id =
       Some (mkGene id (sam_chromosome sam) (sam_start sam) (sam_end sam)
                    (sam_strand sam))).
Proof.
  intros id minted. split; [|split; [|split]].
  - intros bm g gene_obj Hn Hbm Hg Hlook. subst best_match.
    apply (assign_gene_known _ _ _ _ g); [|exact Hlook].
    rewrite Hn. exact Hg.
  - intros Hn Hbm. subst best_match. split; [|split].
    + apply assign_gene_mints. rewrite Hn. reflexivity.
    + reflexivity.
    + cbn. apply lookup_insert_eq.
  - intros g gene_obj Hn Hs Hlook.
    apply (assign_gene_known _ _ _ _ g); [|exact Hlook].
    apply Z.eqb_neq in Hn. rewrite Hn. exact Hs.
  - intros Hn Hs. split; [|split].
    + apply assign_gene_mints. apply Z.eqb_neq in Hn. rewrite Hn. exact Hs.
    + reflexivity.
    + cbn. apply lookup_insert_eq.
Qed.

End WithCollaborators.
End MatchProps.

(** ** Properties of archived/talon.py: novel transcripts *)

Module NovelProps.
Import Talon.

(** *** What the helpers leave alone *)

Lemma lookup_or_mint_vertex_frame chromosome pos strand gene_id vs n c a vs' n' c' :
  lookup_or_mint_vertex chromosome pos strand gene_id vs n c = (a, vs', n', c') ->
  c' = set_c_vertices (c_vertices c') c /\ n' = set_n_vertices (n_vertices n') n.
Proof.
  unfold lookup_or_mint_vertex.
  destruct (fetch_vertex vs chromosome pos gene_id) as [v|]; intros [= <- <- <- <-].
  - destruct c, n. split; reflexivity.
  - destruct c, n. split; reflexivity.
Qed.

Lemma try_vertex_update_frame e vs n c e' vs' n' c' :
  try_vertex_update e vs n c = (e', vs', n', c') ->
  c' = set_c_vertices (c_vertices c') c /\
  n' = set_n_vertices (n_vertices n') n /\
  edge_identifier e' = edge_identifier e /\
  edge_gene_id e' = edge_gene_id e /\
  edge_start e' = edge_start e /\ edge_end e' = edge_end e.
Proof.
  unfold try_vertex_update.
  destruct (lookup_or_mint_vertex _ (edge_start e) _ _ vs n c)
    as [[[a vs1] n1] c1] eqn:E1.
  destruct (lookup_or_mint_vertex _ (edge_end e) _ _ vs1 n1 c1)
    as [[[b vs2] n2] c2] eqn:E2.
  apply lookup_or_mint_vertex_frame in E1 as [Hc1 Hn1].
  apply lookup_or_mint_vertex_frame in E2 as [Hc2 Hn2].
  intros [= <- <- <- <-]. split; [|split].
  - rewrite Hc2, Hc1. destruct c. reflexivity.
  - rewrite Hn2, Hn1. destruct n. reflexivity.
  - destruct (String.eqb (edge_strand e) "-"); repeat split.
Qed.

Lemma create_novel_edge_spec chromosome start end_ strand gene_id tid c :
  let '(e, c') := create_novel_edge chromosome start end_ strand gene_id tid c in
  edge_identifier e = c_edges c + 1 /\ edge_gene_id e = gene_id /\
  edge_start e = start /\ edge_end e = end_ /\
  c' = set_c_edges (c_edges c + 1) c.
Proof. cbn. repeat split. Qed.

Lemma same_bookkeeping_refl st : same_bookkeeping st st.
Proof. repeat split. Qed.

Lemma same_bookkeeping_trans st1 st2 st3 :
  same_bookkeeping st1 st2 -> same_bookkeeping st2 st3 -> same_bookkeeping st1 st3.
Proof.
  intros (A1 & A2 & A3) (B1 & B2 & B3). repeat split; congruence.
Qed.

Lemma tree_of_set_same b t st : tree_of b (set_tree_of b t st) = t.
Proof. destruct b; reflexivity. Qed.

Lemma tree_of_set_other b t st :
  tree_of (negb b) (set_tree_of b t st) = tree_of (negb b) st.
Proof. destruct b; reflexivity. Qed.

Lemma counter_set_tree b t st : counter (set_tree_of b t st) = counter st.
Proof. destruct b; reflexivity. Qed.

Lemma bookkeeping_set_tree b t st : same_bookkeeping st (set_tree_of b t st).
Proof. destruct b; repeat split. Qed.

Section WithCollaborators.
Context `{Collaborators}.

(** One round of the loop of [make_novel_transcript] for a read whose gene is
    [g]. The round never raises. It appends one edge [e] of gene [g] to the
    list of its kind and stores [e] in the tree of that kind under [key];
    the other tree is not touched. Either [e] is minted: its identifier is
    the edge counter plus one, and the counter moves there. Or [e] is the
    edge matched for this position, which the tree held under gene [g], with
    a transcript identifier added; then the edge counter stays. *)
Lemma mnt_body_step (sam : SamTranscript) (g : Z) (tid ds : string)
    (loc : mnt_locals) (p : (Z * Z) * edge_match) (st : run_state) :
  let b := Nat.even (mv_i loc) in
  exists key e st',
    mnt_body sam (Some g) tid ds loc p st =
      (Ok (mnt_append b (b, key, e) loc), st') /\
    edge_gene_id e = Some g /\
    edges (tree_of b st') = <[key := e]> (edges (tree_of b st)) /\
    tree_of (negb b) st' = tree_of (negb b) st /\
    ((key = edge_identifier e /\
      edge_identifier e = c_edges (counter st) + 1 /\
      c_edges (counter st') = c_edges (counter st) + 1 /\
      edge_start e = fst (fst p) /\ edge_end e = snd (fst p))
     \/
     (exists old, snd p = MatchId key /\
        edges (tree_of b st) !! key = Some old /\
        edge_gene_id old = Some g /\
        e = add_transcript_id tid old /\
        counter st' = counter st)) /\
    same_bookkeeping st st' /\
    gene_tree st' = gene_tree st /\ transcripts st' = transcripts st /\
    c_genes (counter st') = c_genes (counter st) /\
    c_transcripts (counter st') = c_transcripts (counter st).
Proof.
  intros b. destruct p as [[edge_start edge_end] em].
  assert (Hnovel :
    exists key e st',
      (let '(edge_obj, c) :=
         create_novel_edge (sam_chromosome sam) edge_start edge_end
                           (sam_strand sam) (Some g) (sam_transcript_ID sam)
                           (counter st) in
       let '(edge_obj, vs, n, c) :=
         try_vertex_update edge_obj (vertices st) (novel_ids st) c in
       let tuple := [VInt (edge_identifier edge_obj);
                     opt_value (edge_v1 edge_obj); opt_value (edge_v2 edge_obj);
                     VStr (if b then "exon" else "intron"); VStr ds] in
       let n := set_n_edges
                  (OD.set (VInt (edge_identifier edge_obj)) tuple (n_edges n)) n in
       let edge_obj := add_transcript_id tid edge_obj in
       let st := set_counter c (set_novel_ids n (set_vertices vs st)) in
       let st := set_tree_of b (add_edge edge_obj (tree_of b st)) st in
       (Ok (mnt_append b (b, edge_identifier edge_obj, edge_obj) loc), st))
      = (Ok (mnt_append b (b, key, e) loc), st') /\
      edge_gene_id e = Some g /\
      edges (tree_of b st') = <[key := e]> (edges (tree_of b st)) /\
      tree_of (negb b) st' = tree_of (negb b) st /\
      (key = edge_identifier e /\
       edge_identifier e = c_edges (counter st) + 1 /\
       c_edges (counter st') = c_edges (counter st) + 1 /\
       Talon.edge_start e = edge_start /\ Talon.edge_end e = edge_end) /\
      same_bookkeeping st st' /\
      gene_tree st' = gene_tree st /\ transcripts st' = transcripts st /\
      c_genes (counter st') = c_genes (counter st) /\
      c_transcripts (counter st') = c_transcripts (counter st)).
  { pose proof (create_novel_edge_spec (sam_chromosome sam) edge_start edge_end
                  (sam_strand sam) (Some g) (sam_transcript_ID sam) (counter st))
      as Hcne.
    destruct (create_novel_edge _ _ _ _ _ _ _) as [e0 c0].
    destruct Hcne as (Hid0 & Hg0 & Hs0 & He0 & Hc0).
    destruct (try_vertex_update e0 (vertices st) (novel_ids st) c0)
      as [[[e1 vs] n] c1] eqn:Etv.
    apply try_vertex_update_frame in Etv
      as (Hc1 & Hn1 & Hid1 & Hg1 & Hs1 & He1).
    eexists _, _, _. split; [reflexivity|].
    rewrite tree_of_set_same, tree_of_set_other, counter_set_tree.
    assert (Hce : c_edges c1 = c_edges (counter st) + 1)
      by (rewrite Hc1, Hc0; reflexivity).
    split; [cbn; congruence|]. split; [destruct b; reflexivity|].
    split; [destruct b; reflexivity|].
    split; [cbn; repeat split; congruence|].
    split.
    { eapply same_bookkeeping_trans; [|apply bookkeeping_set_tree].
      repeat split; cbn.
      - rewrite Hc1, Hc0. reflexivity.
      - rewrite Hn1. reflexivity. }
    destruct b; cbn; rewrite Hc1, Hc0; repeat split. }
  unfold mnt_body. fold b.
  destruct em as [obj|m|].
  - (* an edge object is never a key of the tree *)
    rewrite bool_decide_false by discriminate. cbn [negb orb].
    destruct Hnovel as (key & e & st' & Heq & Hrest).
    exists key, e, st'. split; [exact Heq|].
    destruct Hrest as (Hg' & Ht & Ho & Hn & Hrest').
    split; [exact Hg'|]. split; [exact Ht|]. split; [exact Ho|].
    split; [left; exact Hn|]. exact Hrest'.
  - destruct (edges (tree_of b st) !! m) as [old|] eqn:Hlook.
    + destruct (bool_decide_reflect (edge_gene_id old = Some g)) as [Hg|Hg];
        cbn [negb orb is_none].
      * (* reuse *)
        eexists m, (add_transcript_id tid old), _.
        split; [reflexivity|].
        rewrite tree_of_set_same, tree_of_set_other, counter_set_tree.
        split; [exact Hg|]. split; [reflexivity|]. split; [reflexivity|].
        split; [right; exists old; repeat split; assumption|].
        split; [apply bookkeeping_set_tree|].
        destruct b; repeat split.
      * destruct Hnovel as (key & e & st' & Heq & Hrest).
        exists key, e, st'. split; [exact Heq|].
        destruct Hrest as (Hg' & Ht & Ho & Hn & Hrest').
        split; [exact Hg'|]. split; [exact Ht|]. split; [exact Ho|].
        split; [left; exact Hn|]. exact Hrest'.
    + rewrite bool_decide_false by discriminate. cbn [negb orb].
      destruct Hnovel as (key & e & st' & Heq & Hrest).
      exists key, e, st'. split; [exact Heq|].
      destruct Hrest as (Hg' & Ht & Ho & Hn & Hrest').
      split; [exact Hg'|]. split; [exact Ht|]. split; [exact Ho|].
      split; [left; exact Hn|]. exact Hrest'.
  - cbn [is_none]. rewrite orb_true_r.
    destruct Hnovel as (key & e & st' & Heq & Hrest).
    exists key, e, st'. split; [exact Heq|].
    destruct Hrest as (Hg' & Ht & Ho & Hn & Hrest').
    split; [exact Hg'|]. split; [exact Ht|]. split; [exact Ho|].
    split; [left; exact Hn|]. exact Hrest'.
Qed.


Lemma add_transcript_id_fields tid e :
  edge_identifier (add_transcript_id tid e) = edge_identifier e /\
  edge_gene_id (add_transcript_id tid e) = edge_gene_id e.
Proof. split; reflexivity. Qed.




(** The loop never raises for a read that has a gene, whatever the trees
    hold, and it leaves the bookkeeping of observations alone. *)
Lemma fold_loop_runs (sam : SamTranscript) (g : Z) (tid ds : string)
    (ps : list ((Z * Z) * edge_match)) (st : run_state) (loc : mnt_locals) :
  ((0 < mv_i loc)%nat -> mv_exons loc <> []) ->
  exists loc' st',
    fold_loop (mnt_body sam (Some g) tid ds) ps loc st = (Ok loc', st') /\
    ((0 < mv_i loc')%nat -> mv_exons loc' <> []) /\
    mv_i loc' = (mv_i loc + List.length ps)%nat /\
    same_bookkeeping st st' /\
    gene_tree st' = gene_tree st /\ transcripts st' = transcripts st /\
    c_genes (counter st') = c_genes (counter st) /\
    c_transcripts (counter st') = c_transcripts (counter st).
Proof.
  revert st loc. induction ps as [|p ps IH]; intros st loc Hne.
  - exists loc, st. cbn. split; [reflexivity|]. split; [exact Hne|].
    split; [lia|]. split; [apply same_bookkeeping_refl|]. repeat split.
  - destruct (mnt_body_step sam g tid ds loc p st)
      as (key & e & st1 & Heq & _ & _ & _ & _ & Hbk1 & Hgt1 & Htr1 & Hcg1 & Hct1).
    set (loc1 := mnt_append (Nat.even (mv_i loc)) (Nat.even (mv_i loc), key, e) loc)
      in *.
    assert (Hi1 : mv_i loc1 = S (mv_i loc))
      by (subst loc1; unfold mnt_append; destruct (Nat.even (mv_i loc)); reflexivity).
    assert (Hne1 : (0 < mv_i loc1)%nat -> mv_exons loc1 <> []).
    { intros _. subst loc1. unfold mnt_append. cbn [snd].
      destruct (Nat.even (mv_i loc)) eqn:Hb; cbn [mv_exons].
      - intros Habs. apply app_eq_nil in Habs as [_ Habs]. discriminate.
      - apply Hne. destruct (mv_i loc); [discriminate | lia]. }
    destruct (IH st1 loc1 Hne1)
      as (loc2 & st2 & Heq2 & Hne2 & Hi2 & Hbk2 & Hgt2 & Htr2 & Hcg2 & Hct2).
    exists loc2, st2. cbn [fold_loop]. unfold bind. rewrite Heq, Heq2.
    split; [reflexivity|]. split; [exact Hne2|].
    split; [rewrite Hi2, Hi1; cbn; lia|].
    split; [eapply same_bookkeeping_trans; eassumption|].
    repeat split; congruence.
Qed.

Lemma nonempty_head_last {A} (l : list A) :
  l <> [] -> exists a b, head l = Some a /\ last l = Some b.
Proof.
  intros Hne. destruct l as [|a l]; [contradiction|].
  exists a. destruct (last (a :: l)) as [b|] eqn:Hl.
  - exists b. split; reflexivity.
  - apply last_None in Hl. discriminate.
Qed.

(** [make_novel_transcript] for a read that has a gene and at least one
    (edge, match) pair: it returns a transcript numbered by the transcript
    counter plus one, whose edge lists are the ones the loop collected. *)
Lemma make_novel_transcript_runs (sam : SamTranscript)
    (edge_matches : list edge_match) (st : run_state) (g : Z) :
  sam_gene_ID sam = Some g ->
  combine (get_all_edges sam) edge_matches <> [] ->
  exists loc st1 T st',
    fold_loop (mnt_body sam (Some g) (str (c_transcripts (counter st) + 1))
                        (sam_dataset sam))
              (combine (get_all_edges sam) edge_matches)
              (mkLocals [] [] 0 None) st = (Ok loc, st1) /\
    make_novel_transcript sam edge_matches st =
      (Ok (T, set_sam_transcript_ID (Some (t_identifier T)) sam), st') /\
    t_exons T = mv_exons loc /\ t_introns T = mv_introns loc /\
    t_gene_id T = Some g /\
    t_identifier T = c_transcripts (counter st) + 1 /\
    st' = set_counter (set_c_transcripts (c_transcripts (counter st1) + 1)
                                         (counter st1)) st1 /\
    same_bookkeeping st st' /\
    gene_tree st' = gene_tree st /\ transcripts st' = transcripts st /\
    c_genes (counter st') = c_genes (counter st).
Proof.
  intros Hg Hne.
  destruct (fold_loop_runs sam g (str (c_transcripts (counter st) + 1))
              (sam_dataset sam) (combine (get_all_edges sam) edge_matches) st
              (mkLocals [] [] 0 None))
    as (loc & st1 & Hfold & Hex & Hi & Hbk & Hgt & Htr & Hcg & Hct).
  { cbn. lia. }
  assert (Hexons : mv_exons loc <> []).
  { apply Hex. rewrite Hi. cbn.
    destruct (combine (get_all_edges sam) edge_matches); [contradiction | cbn; lia]. }
  destruct (nonempty_head_last _ Hexons) as (first_exon & last_exon & Hh & Hl).
  eexists loc, st1, _, _. split; [exact Hfold|].
  unfold make_novel_transcript, bind, get, put, ret. rewrite Hg, Hfold, Hh, Hl.
  cbn [create_novel_transcript]. split; [reflexivity|].
  cbn [t_exons t_introns t_gene_id t_identifier c_transcripts set_c_transcripts].
  split; [reflexivity|]. split; [reflexivity|]. split; [reflexivity|].
  split; [congruence|]. split; [reflexivity|].
  destruct Hbk as (B1 & B2 & B3). repeat split; cbn; congruence.
Qed.

Lemma make_novel_transcript_empty (sam : SamTranscript)
    (edge_matches : list edge_match) (st : run_state) :
  combine (get_all_edges sam) edge_matches = [] ->
  make_novel_transcript sam edge_matches st = (Raise IndexError, st).
Proof.
  intros Hnil. unfold make_novel_transcript, bind, get. rewrite Hnil. reflexivity.
Qed.



End WithCollaborators.

End NovelProps.

(** ** Properties of archived/talon.py: observations and abundance *)

Module ObservationProps.
Import Talon NovelProps.

(** *** Ordered dictionaries *)

Section Dict.
Context {K V : Type} `{EqDecision K}.

Lemma od_set_fresh (k : K) (v : V) (d : list (K * V)) :
  ~ In k (OD.keys d) -> OD.set k v d = d ++ [(k, v)].
Proof.
  induction d as [|[k' v'] d IH]; cbn; intros Hnot; [reflexivity|].
  destruct (decide (k = k')) as [-> | Hne].
  - exfalso. apply Hnot. left. reflexivity.
  - rewrite IH; [reflexivity|]. intros Hin. apply Hnot. right. exact Hin.
Qed.

Lemma od_get_set_eq (k : K) (v : V) (d : list (K * V)) :
  OD.get k (OD.set k v d) = Some v.
Proof.
  induction d as [|[k' v'] d IH]; cbn.
  - destruct (decide (k = k)); [reflexivity | contradiction].
  - destruct (decide (k = k')) as [-> | Hne]; cbn.
    + destruct (decide (k' = k')); [reflexivity | contradiction].
    + destruct (decide (k = k')); [contradiction | exact IH].
Qed.

Lemma od_get_set_ne (k k' : K) (v : V) (d : list (K * V)) :
  k <> k' -> OD.get k' (OD.set k v d) = OD.get k' d.
Proof.
  intros Hne. induction d as [|[k0 v0] d IH]; cbn.
  - destruct (decide (k' = k)); [congruence | reflexivity].
  - destruct (decide (k = k0)) as [-> | Hne0]; cbn.
    + destruct (decide (k' = k0)); [congruence | reflexivity].
    + destruct (decide (k' = k0)); [reflexivity | exact IH].
Qed.

Lemma od_keys_app (d1 d2 : list (K * V)) :
  OD.keys (d1 ++ d2) = OD.keys d1 ++ OD.keys d2.
Proof. unfold OD.keys. apply map_app. Qed.

End Dict.

Lemma str_inj (n m : Z) : str n = str m -> n = m.
Proof. unfold str. apply pretty_Z_inj. Qed.

Section WithCollaborators.
Context `{Collaborators}.

(** *** Matching and creation leave the observations alone *)

Lemma assign_gene_outcome (sam : SamTranscript) (best_match : match_ref)
    (ds : string) (st : run_state) :
  same_bookkeeping st (snd (assign_gene sam best_match ds st)) /\
  forall sam', fst (assign_gene sam best_match ds st) = Ok sam' ->
    exists g, sam' = set_sam_gene_ID (Some g) sam.
Proof.
  unfold assign_gene, bind, get, put, ret, raise.
  destruct (if sam_n_exons sam =? 1
            then match best_match with
                 | Matched bm => t_gene_id bm
                 | NoneString => None
                 end
            else search_for_gene sam (vertices st)) as [g|].
  - destruct (genes (gene_tree st) !! g) as [gene_obj|]; cbn [fst snd].
    + split; [apply same_bookkeeping_refl|]. intros sam' [= <-]. eexists. reflexivity.
    + split; [apply same_bookkeeping_refl|]. discriminate.
  - cbn [fst snd]. split; [repeat split|]. intros sam' [= <-]. eexists. reflexivity.
Qed.

(** Whatever [resolve] does, it leaves the observation counter, the staged
    observations and the abundance mapping as they were; when it returns,
    the read keeps its strand and carries the identifier of the transcript
    it was assigned. *)
Lemma resolve_outcome (sam : SamTranscript) (ds : string) (st : run_state)
    (r : result (SamTranscript * Transcript)) (st' : run_state) :
  resolve sam ds st = (r, st') ->
  same_bookkeeping st st' /\
  forall sam1 annot, r = Ok (sam1, annot) ->
    sam_strand sam1 = sam_strand sam /\
    sam_transcript_ID sam1 = Some (t_identifier annot).
Proof.
  unfold resolve. unfold bind at 1. unfold get at 1.
  destruct (find_transcript_match sam (transcripts st) (exon_tree st)
              (intron_tree st)) as [[[best_match match_type] edge_matches] diff].
  destruct (String.eqb match_type "full").
  - destruct best_match as [|bm]; unfold raise, ret; intros [= <- <-].
    + split; [apply same_bookkeeping_refl | discriminate].
    + split; [apply same_bookkeeping_refl|].
      intros sam1 annot [= <- <-]. split; reflexivity.
  - unfold bind at 1.
    destruct (assign_gene_outcome (set_sam_novel "Novel" sam) best_match ds st)
      as [Hbk1 Hok1].
    destruct (assign_gene (set_sam_novel "Novel" sam) best_match ds st)
      as [[sam_g|e] st_g]; cbn [fst snd] in *;
      [|intros [= <- <-]; split; [exact Hbk1 | discriminate]].
    destruct (Hok1 sam_g eq_refl) as [g ->].
    unfold bind at 1.
    destruct (combine (get_all_edges (set_sam_gene_ID (Some g)
                                        (set_sam_novel "Novel" sam)))
                      edge_matches) as [|p ps] eqn:Hcomb.
    + rewrite (make_novel_transcript_empty _ _ _ Hcomb).
      intros [= <- <-]. split; [exact Hbk1 | discriminate].
    + destruct (make_novel_transcript_runs
                  (set_sam_gene_ID (Some g) (set_sam_novel "Novel" sam))
                  edge_matches st_g g eq_refl)
        as (loc & st1 & T & st2 & _ & Hrun & _ & _ & _ & _ & _ & Hbk2 & _).
      { rewrite Hcomb. discriminate. }
      rewrite Hrun. unfold bind, modify, ret. intros [= <- <-].
      split.
      * eapply same_bookkeeping_trans; [exact Hbk1|].
        eapply same_bookkeeping_trans; [exact Hbk2|]. repeat split.
      * intros sam1 annot [= <- <-]. split; reflexivity.
Qed.

(** *** Recording the observation *)

Lemma strand_cases (s : string) :
  s = "+" \/ s = "-" ->
  (String.eqb s "+" = true /\ s = "+") \/
  (String.eqb s "+" = false /\ String.eqb s "-" = true /\ s = "-").
Proof. intros [-> | ->]; [left | right]; repeat split. Qed.

(** With both end vertices known and a strand that is ["+"] or ["-"],
    [get_transcript_start_and_end_diffs] returns; it moves the observation
    counter by one and stores one row under the new number. *)
Lemma get_diffs_ok (sam : SamTranscript) (annot : Transcript) (ds : string)
    (st : run_state) (v1 v2 : Vertex) :
  fetch_vertex (vertices st) (t_chromosome annot) (t_start annot)
               (sam_gene_ID sam) = Some v1 ->
  fetch_vertex (vertices st) (t_chromosome annot) (t_end annot)
               (sam_gene_ID sam) = Some v2 ->
  sam_strand sam = "+" \/ sam_strand sam = "-" ->
  let obs := c_observed (counter st) + 1 in
  let d := get_difference (sam_start sam, sam_end sam)
                          (t_start annot, t_end annot) (sam_strand sam) in
  let sam' := set_sam_diffs (fst d) (snd d) sam in
  let ends := if String.eqb (sam_strand sam) "+"
              then (vertex_identifier v1, vertex_identifier v2)
              else (vertex_identifier v2, vertex_identifier v1) in
  let row := observed_row (str obs) annot sam' ds (fst ends) (snd ends)
                          (fst d) (snd d) in
  get_transcript_start_and_end_diffs sam annot ds st =
    (Ok sam',
     set_novel_ids
       (set_n_observed (OD.set (VStr (str obs)) row (n_observed (novel_ids st)))
                       (novel_ids st))
       (set_counter (set_c_observed obs (counter st)) st)).
Proof.
  intros Hv1 Hv2 Hstrand obs d sam' ends row.
  unfold get_transcript_start_and_end_diffs, bind, get, put, call, modify, ret,
    raise, fetch_vertex_identifier.
  subst row ends sam' d.
  destruct (get_difference _ _ _) as [d5 d3]. cbn [fst snd vertices set_counter].
  cbn [sam_gene_ID set_sam_diffs sam_strand]. rewrite Hv1, Hv2.
  destruct (strand_cases _ Hstrand) as [[E _] | (E1 & E2 & _)].
  - rewrite E. reflexivity.
  - rewrite E1, E2. reflexivity.
Qed.

(** In every case the call leaves the abundance mapping alone, and a read it
    returns keeps its transcript identifier. *)
Lemma get_diffs_outcome (sam : SamTranscript) (annot : Transcript) (ds : string)
    (st : run_state) (r : result SamTranscript) (st' : run_state) :
  get_transcript_start_and_end_diffs sam annot ds st = (r, st') ->
  abundance st' = abundance st /\
  forall sam', r = Ok sam' -> sam_transcript_ID sam' = sam_transcript_ID sam.
Proof.
  unfold get_transcript_start_and_end_diffs, bind, get, put, call, modify, ret,
    raise, fetch_vertex_identifier.
  destruct (get_difference _ _ _) as [d5 d3]. cbn [fst snd vertices set_counter].
  destruct (fetch_vertex _ _ (t_start annot) _) as [v1|];
    [|intros [= <- <-]; split; [reflexivity | discriminate]].
  destruct (fetch_vertex _ _ (t_end annot) _) as [v2|];
    [|intros [= <- <-]; split; [reflexivity | discriminate]].
  destruct (String.eqb _ "+").
  - intros [= <- <-]. split; [reflexivity|]. intros sam' [= <-]. reflexivity.
  - destruct (String.eqb _ "-").
    + intros [= <- <-]. split; [reflexivity|]. intros sam' [= <-]. reflexivity.
    + intros [= <- <-]. split; [reflexivity | discriminate].
Qed.

Lemma observed_key_fresh (st : run_state) :
  observed_wf st ->
  ~ In (VStr (str (c_observed (counter st) + 1)))
       (OD.keys (n_observed (novel_ids st))).
Proof.
  intros Hwf Hin. destruct (Hwf _ Hin) as (n & Heq & Hle).
  injection Heq as Heq. apply str_inj in Heq. lia.
Qed.

(** C6. Take a read for which matching or creation returned (with a full,
    a partial or no match: [resolve] covers the three), whose transcript has
    both end vertices in the index and whose strand is ["+"] or ["-"]. Then
    the loop body returns and has produced exactly one observed record: the
    observation counter has moved by exactly one, and the staging table is
    the old one followed by one row keyed by the new number. The ten fields
    of the row are spelled out: the new number, the gene and the identifier
    of the assigned transcript, the read's identifier, the dataset, the two
    vertex fields, the two differences and the read's length. For ["+"] the
    sixth field is the vertex at the transcript start and the seventh the
    vertex at the transcript end; for ["-"] the two are swapped, and every
    other field is in the same place. *)
Theorem identify_one_records_one_observation (ds : string)
    (sam sam1 : SamTranscript) (annot : Transcript) (st st1 : run_state)
    (v1 v2 : Vertex) :
  observed_wf st ->
  resolve sam ds st = (Ok (sam1, annot), st1) ->
  fetch_vertex (vertices st1) (t_chromosome annot) (t_start annot)
               (sam_gene_ID sam1) = Some v1 ->
  fetch_vertex (vertices st1) (t_chromosome annot) (t_end annot)
               (sam_gene_ID sam1) = Some v2 ->
  sam_strand sam = "+" \/ sam_strand sam = "-" ->
  let obs := c_observed (counter st) + 1 in
  exists sam2 st2 d5 d3 row,
    identify_one ds sam st = (Ok sam2, st2) /\
    c_observed (counter st2) = obs /\
    n_observed (novel_ids st2) =
      n_observed (novel_ids st) ++ [(VStr (str obs), row)] /\
    (d5, d3) = get_difference (sam_start sam1, sam_end sam1)
                              (t_start annot, t_end annot) (sam_strand sam1) /\
    (sam_strand sam = "+" ->
     row = [VStr (str obs); opt_value (t_gene_id annot);
            VInt (t_identifier annot); VStr (sam_identifier sam2); VStr ds;
            VInt (vertex_identifier v1); VInt (vertex_identifier v2);
            VInt d5; VInt d3; VInt (get_length sam2)]) /\
    (sam_strand sam = "-" ->
     row = [VStr (str obs); opt_value (t_gene_id annot);
            VInt (t_identifier annot); VStr (sam_identifier sam2); VStr ds;
            VInt (vertex_identifier v2); VInt (vertex_identifier v1);
            VInt d5; VInt d3; VInt (get_length sam2)]) /\
    observed_wf st2.
Proof.
  intros Hwf Hres Hv1 Hv2 Hstrand obs.
  destruct (resolve_outcome sam ds st _ _ Hres) as ((B1 & B2 & B3) & Hok).
  destruct (Hok sam1 annot eq_refl) as [Hs _].
  assert (Hstrand1 : sam_strand sam1 = "+" \/ sam_strand sam1 = "-")
    by (rewrite Hs; exact Hstrand).
  pose proof (get_diffs_ok sam1 annot ds st1 v1 v2 Hv1 Hv2 Hstrand1) as Hd.
  cbv zeta in Hd.
  destruct (get_difference (sam_start sam1, sam_end sam1)
              (t_start annot, t_end annot) (sam_strand sam1)) as [d5 d3] eqn:Ediff.
  cbn [fst snd] in Hd.
  eexists _, _, d5, d3, _. unfold identify_one, bind. rewrite Hres, Hd.
  unfold modify, ret. split; [reflexivity|].
  cbn [counter set_abundance set_novel_ids set_counter c_observed set_c_observed
       novel_ids n_observed set_n_observed].
  rewrite B1, B2. fold obs. split; [reflexivity|].
  assert (Hfresh : ~ In (VStr (str obs)) (OD.keys (n_observed (novel_ids st))))
    by (apply observed_key_fresh; exact Hwf).
  rewrite (od_set_fresh _ _ _ Hfresh). rewrite Hs.
  split; [reflexivity|]. split; [reflexivity|].
  split; [intros ->; reflexivity|]. split; [intros ->; reflexivity|].
  intros k Hin. cbn [novel_ids set_abundance set_novel_ids n_observed
                     set_n_observed counter set_counter c_observed
                     set_c_observed] in *.
  rewrite od_keys_app in Hin. apply in_app_or in Hin as [Hin | Hin].
  - destruct (Hwf k Hin) as (n & -> & Hle). exists n. split; [reflexivity|].
    subst obs. lia.
  - cbn in Hin. destruct Hin as [<- | []]. exists obs. split; [reflexivity | lia].
Qed.

(** *** Abundance *)

Lemma add_abundance_count (id id' : Z) (d d' : string)
    (a : list (Z * list (string * Z))) :
  abundance_count id d (add_abundance id' d' a) =
    abundance_count id d a + (if bool_decide (id = id' /\ d = d') then 1 else 0).
Proof.
  unfold add_abundance, abundance_count.
  destruct (decide (id = id')) as [-> | Hid].
  - destruct (OD.get id' a) as [inner|] eqn:Ha.
    + destruct (OD.get d' inner) as [n|] eqn:Hn; rewrite od_get_set_eq.
      * destruct (decide (d = d')) as [-> | Hd].
        -- rewrite od_get_set_eq, Hn, bool_decide_true by done. reflexivity.
        -- rewrite od_get_set_ne by congruence.
           rewrite bool_decide_false by (intros [_ ?]; contradiction). lia.
      * destruct (decide (d = d')) as [-> | Hd].
        -- rewrite od_get_set_eq, Hn, bool_decide_true by done. reflexivity.
        -- rewrite od_get_set_ne by congruence.
           rewrite bool_decide_false by (intros [_ ?]; contradiction). lia.
    + rewrite od_get_set_eq. cbn [OD.set OD.get].
      destruct (decide (d = d')) as [-> | Hd].
      * rewrite bool_decide_true by done. reflexivity.
      * rewrite bool_decide_false by (intros [_ ?]; contradiction). reflexivity.
  - rewrite bool_decide_false by (intros [? _]; contradiction).
    assert (Hget : forall v, OD.get id (OD.set id' v a) = OD.get id a)
      by (intros v; apply od_get_set_ne; congruence).
    destruct (OD.get id' a) as [inner|];
      [destruct (OD.get d' inner)|]; rewrite Hget; lia.
Qed.

(** A read the loop body returns was counted once, under the transcript it
    was assigned and the dataset of the call. *)
Lemma identify_one_abundance (ds : string) (sam sam2 : SamTranscript)
    (st st2 : run_state) :
  identify_one ds sam st = (Ok sam2, st2) ->
  exists tid, sam_transcript_ID sam2 = Some tid /\
              abundance st2 = add_abundance tid ds (abundance st).
Proof.
  unfold identify_one. unfold bind at 1.
  destruct (resolve sam ds st) as [[[sam1 annot]|e] st1] eqn:Hres; [|discriminate].
  destruct (resolve_outcome sam ds st _ _ Hres) as ((_ & _ & B3) & Hok).
  destruct (Hok sam1 annot eq_refl) as [_ Htid].
  unfold bind at 1.
  destruct (get_transcript_start_and_end_diffs sam1 annot ds st1)
    as [[sam_d|e] st_d] eqn:Hd; [|discriminate].
  destruct (get_diffs_outcome _ _ _ _ _ _ Hd) as [Hab Hkeep].
  unfold bind, modify, ret. intros [= <- <-].
  exists (t_identifier annot). split.
  - rewrite (Hkeep sam_d eq_refl). exact Htid.
  - cbn [abundance set_abundance]. rewrite Hab, B3. reflexivity.
Qed.

(** C7. When [identify_sam_transcripts] returns for the reads of dataset
    [ds], every read has been counted exactly once: for every transcript
    [t] and dataset [d], the entry [abundance[t][d]] is its old value plus
    the number of processed reads assigned [t] if [d] is [ds], and its old
    value otherwise. Starting from the empty mapping the entry is the number
    of processed reads of [ds] assigned [t]; when all processed reads are
    assigned [t], it is the number of reads (1000 for 1000 reads). The state
    the function works on holds no database connection: nothing is written
    to the store here. *)
Theorem identify_sam_transcripts_abundance (ds : string)
    (reads reads' : list SamTranscript) (st st' : run_state) :
  identify_sam_transcripts reads ds st = (Ok reads', st') ->
  List.length reads' = List.length reads /\
  (forall t d,
     abundance_count t d (abundance st') =
       abundance_count t d (abundance st) +
       (if bool_decide (d = ds) then assigned_to t reads' else 0)) /\
  (forall t,
     abundance st = [] ->
     Forall (fun r => sam_transcript_ID r = Some t) reads' ->
     abundance_count t ds (abundance st') = Z.of_nat (List.length reads)).
Proof.
  intros Hrun.
  assert (Hmain :
    List.length reads' = List.length reads /\
    forall t d,
      abundance_count t d (abundance st') =
        abundance_count t d (abundance st) +
        (if bool_decide (d = ds) then assigned_to t reads' else 0)).
  { revert reads' st st' Hrun. unfold identify_sam_transcripts.
    induction reads as [|sam reads IH]; intros reads' st st'; cbn [map_loop].
    - unfold ret. intros [= <- <-]. split; [reflexivity|]. intros t d.
      unfold assigned_to. cbn. destruct (bool_decide (d = ds)); lia.
    - unfold bind at 1.
      destruct (identify_one ds sam st) as [[sam2|e] st2] eqn:Hone; [|discriminate].
      unfold bind at 1.
      destruct (map_loop (identify_one ds) reads st2) as [[rest|e] st3] eqn:Hrest;
        [|discriminate].
      unfold ret. intros [= <- <-].
      destruct (IH rest st2 st3 Hrest) as [Hlen Hcount].
      destruct (identify_one_abundance ds sam sam2 st st2 Hone) as (tid & Htid & Hab).
      split; [cbn; congruence|]. intros t d.
      rewrite Hcount, Hab, add_abundance_count.
      unfold assigned_to. cbn [List.filter]. rewrite Htid.
      destruct (decide (d = ds)) as [-> | Hd].
      + rewrite (bool_decide_true (ds = ds)) by reflexivity.
        destruct (decide (t = tid)) as [-> | Ht].
        * rewrite !bool_decide_true by done. cbn [List.length]. lia.
        * rewrite (bool_decide_false (t = tid /\ ds = ds)) by (intros [? _]; contradiction).
          rewrite (bool_decide_false (Some tid = Some t)) by congruence. lia.
      + rewrite (bool_decide_false (d = ds)) by exact Hd.
        rewrite bool_decide_false by (intros [_ ?]; contradiction). lia. }
  destruct Hmain as [Hlen Hcount]. split; [exact Hlen|]. split; [exact Hcount|].
  intros t Hempty Hall. rewrite Hcount, Hempty.
  rewrite bool_decide_true by reflexivity. unfold abundance_count. cbn [OD.get].
  unfold assigned_to. rewrite <- Hlen, Z.add_0_l. f_equal.
  clear -Hall. induction Hall as [|r l Hr _ IH]; [reflexivity|].
  cbn [List.filter]. rewrite bool_decide_true by exact Hr.
  cbn [List.length]. f_equal. exact IH.
Qed.

End WithCollaborators.
End ObservationProps.

Module PyStrProps.
Import PyStr.

Lemma app_cons (c : ascii) (a b : string) :
  String c a +:+ b = String c (a +:+ b).
Proof. reflexivity. Qed.

Lemma app_nil_left (a : string) : "" +:+ a = a.
Proof. reflexivity. Qed.

Lemma app_nil_right (a : string) : a +:+ "" = a.
Proof. induction a as [|c a IH]; [reflexivity|]. rewrite app_cons, IH. reflexivity. Qed.

Lemma app_assoc_str (a b c : string) : (a +:+ b) +:+ c = a +:+ (b +:+ c).
Proof.
  induction a as [|x a IH]; [reflexivity|]. rewrite !app_cons, IH. reflexivity.
Qed.

Lemma length_app_str (a b : string) :
  String.length (a +:+ b) = (String.length a + String.length b)%nat.
Proof. induction a as [|x a IH]; [reflexivity|]. rewrite app_cons. cbn. lia. Qed.

Lemma startswith_app (p s : string) : startswith p (p +:+ s) = true.
Proof.
  induction p as [|c p IH]; [reflexivity|]. rewrite app_cons. cbn.
  rewrite Ascii.eqb_refl. exact IH.
Qed.

Lemma startswith_app_long (p x y : string) :
  (String.length p <= String.length x)%nat ->
  startswith p (x +:+ y) = startswith p x.
Proof.
  revert x. induction p as [|c p IH]; intros x Hlen; [reflexivity|].
  destruct x as [|d x]; [cbn in Hlen; lia|]. rewrite app_cons. cbn.
  rewrite IH by (cbn in Hlen; lia). reflexivity.
Qed.

Lemma startswith_cross (key v s : string) (c : ascii) :
  startswith key (v +:+ String c s) = true ->
  startswith key v = true \/ has_char c key = true.
Proof.
  revert v. induction key as [|k key IH]; intros v H; [left; reflexivity|].
  destruct v as [|d v].
  - cbn in H. apply andb_true_iff in H as [Hk _]. right. cbn. rewrite Hk. reflexivity.
  - rewrite app_cons in H. cbn in H. apply andb_true_iff in H as [Hk H].
    destruct (IH v H) as [Hv | Hc].
    + left. cbn. rewrite Hk, Hv. reflexivity.
    + right. cbn. rewrite Hc. apply orb_true_r.
Qed.

Lemma str_find_nil (sub : string) : sub <> "" -> str_find sub "" = None.
Proof. destruct sub; [contradiction | reflexivity]. Qed.

Lemma str_find_cons_none (sub : string) (c : ascii) (s : string) :
  str_find sub (String c s) = None ->
  startswith sub (String c s) = false /\ str_find sub s = None.
Proof.
  cbn [str_find]. destruct (startswith sub (String c s)); [discriminate|].
  destruct (str_find sub s); [discriminate|]. split; reflexivity.
Qed.

Lemma str_find_cons (sub : string) (c : ascii) (s : string) :
  startswith sub (String c s) = false ->
  str_find sub (String c s) = S <$> str_find sub s.
Proof. intros H. cbn [str_find]. rewrite H. reflexivity. Qed.

Lemma str_find_here (sub s : string) :
  startswith sub s = true -> str_find sub s = Some 0%nat.
Proof. intros H. destruct s; cbn [str_find]; rewrite H; reflexivity. Qed.

(** The first occurrence of [k] followed by [a] is right after [pre] when it
    does not occur in [pre] followed by [k]. *)
Lemma str_find_app_fresh (k pre rest : string) (a : ascii) :
  str_find (k +:+ String a "") (pre +:+ k) = None ->
  str_find (k +:+ String a "") (pre +:+ (k +:+ String a "") +:+ rest) =
    Some (String.length pre).
Proof.
  set (key := k +:+ String a "").
  induction pre as [|c pre IH]; intros Hnone.
  - change (str_find key (key +:+ rest) = Some 0%nat).
    apply str_find_here, startswith_app.
  - rewrite app_cons in Hnone. apply str_find_cons_none in Hnone as [Hs Hn].
    rewrite !app_cons. rewrite str_find_cons.
    + rewrite (IH Hn). reflexivity.
    + rewrite <- Hs. 
      replace (String c (pre +:+ key +:+ rest))
        with (String c (pre +:+ k) +:+ (String a "" +:+ rest)).
      * apply startswith_app_long. subst key. rewrite length_app_str.
        cbn. rewrite length_app_str. lia.
      * rewrite app_cons. f_equal. subst key.
        rewrite !app_assoc_str. reflexivity.
Qed.

(** No occurrence of [key] starts in [v] or at the following [c] when [key]
    occurs neither in [v] nor holds [c]. *)
Lemma str_find_none_cross (key v s : string) (c : ascii) :
  key <> "" -> has_char c key = false -> str_find key v = None ->
  str_find key (v +:+ String c s) =
    (fun n => (String.length v + 1 + n)%nat) <$> str_find key s.
Proof.
  intros Hne Hc. induction v as [|d v IH]; intros Hnone.
  - rewrite app_nil_left. cbn [String.length]. rewrite str_find_cons.
    + destruct (str_find key s); reflexivity.
    + destruct key as [|k key]; [contradiction|]. cbn in Hc |- *.
      apply orb_false_iff in Hc as [Hk _]. rewrite Hk. reflexivity.
  - apply str_find_cons_none in Hnone as [Hs Hn]. rewrite app_cons.
    rewrite str_find_cons.
    + rewrite (IH Hn). destruct (str_find key s); reflexivity.
    + destruct (startswith key (String d (v +:+ String c s))) eqn:E; [|reflexivity].
      change (String d (v +:+ String c s)) with (String d v +:+ String c s) in E.
      apply startswith_cross in E as [E | E]; congruence.
Qed.

Lemma str_take_app (a b : string) : str_take (String.length a) (a +:+ b) = a.
Proof. induction a as [|c a IH]; [destruct b; reflexivity|]. rewrite app_cons. cbn. rewrite IH. reflexivity. Qed.

Lemma str_drop_app (a b : string) : str_drop (String.length a) (a +:+ b) = b.
Proof. induction a as [|c a IH]; [destruct b; reflexivity|]. rewrite app_cons. cbn. exact IH. Qed.

Lemma str_take_app_more (a b : string) (n : nat) :
  str_take (String.length a + n) (a +:+ b) = a +:+ str_take n b.
Proof.
  induction a as [|c a IH]; [reflexivity|]. rewrite app_cons. cbn. rewrite IH. reflexivity.
Qed.

Lemma str_drop_length (n : nat) (s : string) :
  String.length (str_drop n s) = (String.length s - n)%nat.
Proof.
  revert s. induction n as [|n IH]; intros s; [cbn; lia|].
  destruct s as [|c s]; [reflexivity|]. cbn. apply IH.
Qed.

Lemma startswith_length (p s : string) :
  startswith p s = true -> (String.length p <= String.length s)%nat.
Proof.
  revert s. induction p as [|c p IH]; intros s H; [cbn; lia|].
  destruct s as [|d s]; [discriminate|]. cbn in H.
  apply andb_true_iff in H as [_ H]. apply IH in H. cbn. lia.
Qed.

Lemma str_find_bound (sub s : string) (n : nat) :
  str_find sub s = Some n -> (n + String.length sub <= String.length s)%nat.
Proof.
  revert n. induction s as [|c s IH]; intros n; cbn [str_find].
  - destruct (startswith sub "") eqn:E; [|discriminate].
    intros [= <-]. apply startswith_length in E. lia.
  - destruct (startswith sub (String c s)) eqn:E.
    + intros [= <-]. apply startswith_length in E. lia.
    + destruct (str_find sub s) as [m|]; [|discriminate].
      intros [= <-]. specialize (IH m eq_refl). cbn. lia.
Qed.

Lemma split_from_enough (sep : string) (fuel : nat) (s : string) :
  sep <> "" -> (String.length s <= fuel)%nat ->
  split_from fuel sep s = split_from (String.length s) sep s.
Proof.
  intros Hne. revert s.
  induction fuel as [fuel IH] using lt_wf_ind. intros s Hlen.
  destruct (str_find sep s) as [n|] eqn:Hf.
  - pose proof (str_find_bound _ _ _ Hf) as Hb.
    assert (0 < String.length sep)%nat by (destruct sep; [contradiction | cbn; lia]).
    destruct fuel as [|fuel]; [lia|].
    destruct (String.length s) as [|len] eqn:Hl; [lia|].
    cbn [split_from]. rewrite Hf. f_equal.
    pose proof (str_drop_length (n + String.length sep) s) as Hd.
    rewrite (IH fuel) by lia. rewrite (IH len) by lia. reflexivity.
  - destruct fuel, (String.length s); cbn [split_from]; rewrite Hf; reflexivity.
Qed.

Lemma split_none (sep s : string) : str_find sep s = None -> split sep s = [s].
Proof.
  intros Hf. unfold split. destruct (String.length s); cbn [split_from];
    rewrite Hf; reflexivity.
Qed.

Lemma split_cut (sep s : string) (n : nat) :
  sep <> "" -> str_find sep s = Some n ->
  split sep s = str_take n s :: split sep (str_drop (n + String.length sep) s).
Proof.
  intros Hne Hf. unfold split.
  pose proof (str_find_bound _ _ _ Hf) as Hb.
  assert (0 < String.length sep)%nat by (destruct sep; [contradiction | cbn; lia]).
  destruct (String.length s) as [|len] eqn:Hl; [lia|].
  cbn [split_from]. rewrite Hf. f_equal.
  apply split_from_enough; [exact Hne|].
  rewrite str_drop_length. lia.
Qed.

(** The first piece of a split: the text before the first separator. *)
Lemma split_head (sep s : string) :
  sep <> "" ->
  head (split sep s) =
    Some (match str_find sep s with Some n => str_take n s | None => s end).
Proof.
  intros Hne. destruct (str_find sep s) as [n|] eqn:Hf.
  - rewrite (split_cut _ _ _ Hne Hf). reflexivity.
  - rewrite (split_none _ _ Hf). reflexivity.
Qed.

Lemma item_1_cons (x : string) (l : list string) :
  item 1 (x :: l) = match head l with Some y => Ok y | None => Raise IndexError end.
Proof. destruct l; reflexivity. Qed.

(** The quoted value that follows the first occurrence of a key. *)
Lemma quoted_after_value (k pre v post : string) :
  has_char dquote (k +:+ " ") = false ->
  str_find (k +:+ " ") (pre +:+ k) = None ->
  str_find (String dquote "") v = None ->
  str_find (k +:+ " ") v = None ->
  quoted_after (k +:+ " ")
    (pre +:+ k +:+ " " +:+ String dquote (v +:+ String dquote post)) = Ok v.
Proof.
  intros Hq Hpre Hv Hkv.
  set (key := k +:+ " ") in *.
  assert (Hne : key <> "") by (subst key; destruct k; discriminate).
  set (R := String dquote (v +:+ String dquote post)).
  assert (Hd : pre +:+ k +:+ " " +:+ R = pre +:+ key +:+ R).
  { subst key. rewrite !app_assoc_str. reflexivity. }
  rewrite Hd. unfold quoted_after.
  pose proof (str_find_app_fresh k pre R " "%char Hpre) as Hfirst.
  fold key in Hfirst.
  rewrite (split_cut _ _ _ Hne Hfirst), item_1_cons.
  replace (str_drop (String.length pre + String.length key) (pre +:+ key +:+ R))
    with R.
  2:{ rewrite <- length_app_str, <- app_assoc_str.
      symmetry. apply str_drop_app. }
  rewrite (split_head _ _ Hne).
  assert (Hrest : exists post',
            match str_find key R with Some n => str_take n R | None => R end =
            String dquote (v +:+ String dquote post')).
  { subst R.
    pose proof (str_find_none_cross key "" (v +:+ String dquote post) dquote
                  Hne Hq) as H0.
    rewrite app_nil_left in H0. cbn [String.length Nat.add] in H0.
    rewrite H0 by (apply str_find_nil; exact Hne).
    rewrite (str_find_none_cross key v post dquote Hne Hq Hkv).
    destruct (str_find key post) as [m|]; cbn [fmap option_fmap option_map].
    - exists (str_take m post). cbn [str_take Nat.add]. f_equal.
      rewrite <- Nat.add_assoc.
      rewrite (str_take_app_more v (String dquote post) (1 + m)).
      reflexivity.
    - exists post. reflexivity. }
  destruct Hrest as [post' ->].
  assert (Hq0 : str_find (String dquote "") (String dquote (v +:+ String dquote post'))
                = Some 0%nat).
  { apply str_find_here. reflexivity. }
  assert (Hdq : String dquote "" <> "") by discriminate.
  rewrite (split_cut _ _ _ Hdq Hq0), item_1_cons.
  cbn [Nat.add String.length str_drop].
  rewrite (split_head _ _ Hdq).
  assert (Hv' : str_find (String dquote "") (v +:+ String dquote post') =
                Some (String.length v)).
  { assert (H0 : str_find ("" +:+ String dquote "") (v +:+ "") = None)
      by (rewrite app_nil_right; exact Hv).
    exact (str_find_app_fresh "" v post' dquote H0). }
  rewrite Hv', str_take_app. reflexivity.
Qed.

Lemma str_in_app (k pre post : string) : str_in k (pre +:+ k +:+ post) = true.
Proof.
  unfold str_in. induction pre as [|c pre IH].
  - rewrite app_nil_left, str_find_here by apply startswith_app.
    reflexivity.
  - rewrite app_cons. cbn [str_find].
    destruct (startswith k _); [reflexivity|].
    destruct (str_find k (pre +:+ k +:+ post)); [reflexivity | discriminate].
Qed.

End PyStrProps.

Module TranscriptGtfProps.
Import PyStr PyStrProps TranscriptPy TranscriptGtf.

Lemma gives_in (key description v : string) :
  gives key description v -> str_in key description = true.
Proof.
  intros (pre & post & -> & _). apply str_in_app.
Qed.

Lemma gives_quoted (key description v : string) :
  has_char dquote (key +:+ " ") = false ->
  gives key description v ->
  quoted_after (key +:+ " ") description = Ok v.
Proof.
  intros Hq (pre & post & -> & Hpre & Hv & Hkv).
  apply quoted_after_value; assumption.
Qed.

Lemma gives_transcript_id (description t : string) :
  gives "transcript_id" description t ->
  quoted_after "transcript_id " description = Ok t.
Proof. intros H. exact (gives_quoted "transcript_id" description t eq_refl H). Qed.

Lemma gives_optional_value (key description : string) (o : option string) :
  has_char dquote (key +:+ " ") = false ->
  gives_optional key description o ->
  optional_value key description = Ok o.
Proof.
  intros Hq Ho. unfold optional_value. destruct o as [v|]; cbn in Ho.
  - rewrite (gives_in _ _ _ Ho), (gives_quoted _ _ _ Hq Ho). reflexivity.
  - rewrite Ho. reflexivity.
Qed.

Section WithInt.
Variable int : string -> result Z.

(** X1. A transcript entry whose description gives [transcript_id] a quoted
    value, and gives or lacks [transcript_name] and [gene_id], is turned into
    the transcript with exactly these values: chromosome from field 0, start
    and end from fields 3 and 4 read by [int], strand from field 6. Field by
    field: the transcript returned has that identifier, name, chromosome,
    start, end, strand and gene, and no exon yet. *)
Theorem get_transcript_from_gtf_reads_attributes
    (info : list string) (chrom description start_s end_s strand t : string)
    (s e : Z) (name gene : option string) :
  info !! 0%nat = Some chrom ->
  last info = Some description ->
  info !! 3%nat = Some start_s -> int start_s = Ok s ->
  info !! 4%nat = Some end_s -> int end_s = Ok e ->
  info !! 6%nat = Some strand ->
  gives "transcript_id" description t ->
  gives_optional "transcript_name" description name ->
  gives_optional "gene_id" description gene ->
  get_transcript_from_gtf int info = Ok (init t name chrom s e strand gene) /\
  (forall tr,
     get_transcript_from_gtf int info = Ok tr ->
     TranscriptPy.identifier tr = t /\
     TranscriptPy.name tr = name /\
     TranscriptPy.chromosome tr = chrom /\
     TranscriptPy.start tr = s /\
     TranscriptPy.end_ tr = e /\
     TranscriptPy.strand tr = strand /\
     TranscriptPy.gene_id tr = gene /\
     TranscriptPy.exons tr = []).
Proof.
  intros H0 Hl H3 Hs H4 He H6 Ht Hn Hg.
  assert (Hrun : get_transcript_from_gtf int info =
                 Ok (init t name chrom s e strand gene)).
  { unfold get_transcript_from_gtf, int_item, item, item_last.
    rewrite H0, Hl, H3, Hs, H4, He, H6.
    rewrite (gives_in _ _ _ Ht). cbn [negb].
    rewrite (gives_transcript_id _ _ Ht).
    rewrite (gives_optional_value "transcript_name" _ _ eq_refl Hn).
    rewrite (gives_optional_value "gene_id" _ _ eq_refl Hg).
    reflexivity. }
  split; [exact Hrun|]. intros tr Htr. rewrite Hrun in Htr.
  injection Htr as <-. repeat split.
Qed.

Lemma lookup_short (l : list string) (i : nat) :
  (List.length l <= i)%nat -> l !! i = None.
Proof. apply lookup_ge_None_2. Qed.

(** X2. An entry with fewer than seven fields never yields a transcript; an
    entry with its positional fields in place whose description does not
    hold the text [transcript_id] raises the ValueError that says so. *)
Theorem get_transcript_from_gtf_rejects (info : list string) :
  ((List.length info < 7)%nat ->
   is_ok (get_transcript_from_gtf int info) = false) /\
  (forall description s e,
     (7 <= List.length info)%nat ->
     last info = Some description ->
     int_item int 3 info = Ok s -> int_item int 4 info = Ok e ->
     str_in "transcript_id" description = false ->
     get_transcript_from_gtf int info =
       Raise (ValueError "GTF entry lacks a transcript_id field")).
Proof.
  split.
  - intros Hlen. unfold get_transcript_from_gtf.
    destruct (item 0 info) as [chrom|]; [|reflexivity].
    destruct (item_last info) as [description|]; [|reflexivity].
    destruct (int_item int 3 info) as [s|]; [|reflexivity].
    destruct (int_item int 4 info) as [e|]; [|reflexivity].
    unfold item at 1. rewrite lookup_short by lia. reflexivity.
  - intros description s e Hlen Hl Hs He Hin.
    unfold get_transcript_from_gtf, item, item_last. rewrite Hl, Hs, He.
    destruct (info !! 0%nat) as [chrom|] eqn:H0.
    2:{ apply lookup_ge_None in H0. lia. }
    destruct (info !! 6%nat) as [strand|] eqn:H6.
    2:{ apply lookup_ge_None in H6. lia. }
    rewrite Hin. reflexivity.
Qed.

(** X3. An exon entry is added to a transcript only under the transcript's
    own identifier: when the description gives [transcript_id] the value
    [t], the call is [add_exon] on fields 3 and 4 if [t] is the identifier
    of the transcript, and otherwise the ValueError whose message names
    both identifiers, [t] first. Whenever the call raises, for whatever
    reason, the transcript is left as it was. *)
Theorem add_exon_from_gtf_checks_owner (exon_info : list string)
    (self : Transcript) :
  (forall description t s e,
     last exon_info = Some description ->
     int_item int 3 exon_info = Ok s -> int_item int 4 exon_info = Ok e ->
     gives "transcript_id" description t ->
     add_exon_from_gtf int exon_info self =
       if String.eqb t (identifier self) then add_exon s e self
       else (Raise (ValueError
                      ("Transcript ID assigned to exon does not match transcript it is being assigned to (" +:+
                       t +:+ " != " +:+ identifier self +:+ ")")),
             self)) /\
  (forall x,
     fst (add_exon_from_gtf int exon_info self) = Raise x ->
     snd (add_exon_from_gtf int exon_info self) = self).
Proof.
  split.
  - intros description t s e Hl Hs He Ht.
    unfold add_exon_from_gtf, bind, call, raise, get, item_last.
    rewrite Hl, Hs, He, (gives_in _ _ _ Ht). cbn [negb].
    rewrite (gives_transcript_id _ _ Ht).
    destruct (String.eqb t (identifier self)); reflexivity.
  - intros x. unfold add_exon_from_gtf, bind, call, raise, get.
    destruct (item_last exon_info) as [description|]; [|reflexivity].
    destruct (int_item int 3 exon_info) as [s|]; [|reflexivity].
    destruct (int_item int 4 exon_info) as [e|]; [|reflexivity].
    destruct (str_in "transcript_id" description); [|reflexivity]. cbn [negb].
    destruct (quoted_after "transcript_id " description) as [t|]; [|reflexivity].
    destruct (String.eqb t (identifier self)); [|reflexivity]. cbn [negb].
    unfold add_exon. destruct (s >? e); [reflexivity | discriminate].
Qed.

End WithInt.
End TranscriptGtfProps.

Module TalonReadProps.
Import Talon TalonRead.

(** *** read_vertices *)

Lemma vertices_at_add (v : Vertex) (d : gmap string (gmap Z (list Vertex)))
    (chrom : string) (pos : Z) :
  vertices_at (add_vertex v d) chrom pos =
    vertices_at d chrom pos ++
    (if bool_decide (vertex_chromosome v = chrom /\ vertex_position v = pos)
     then [v] else []).
Proof.
  unfold vertices_at, add_vertex.
  set (by_pos := default ∅ (d !! vertex_chromosome v)).
  assert (Hbp : forall p, by_pos !! p =
                  d !! vertex_chromosome v ≫= fun m => m !! p).
  { intros p. subst by_pos. destruct (d !! vertex_chromosome v); [reflexivity|].
    apply lookup_empty. }
  destruct (decide (vertex_chromosome v = chrom)) as [<- | Hc].
  - rewrite lookup_insert_eq.
    change (Some ?m ≫= ?f) with (f m). cbv beta.
    destruct (decide (vertex_position v = pos)) as [<- | Hp].
    + rewrite lookup_insert_eq, bool_decide_true by done.
      rewrite <- Hbp. destruct (by_pos !! vertex_position v); reflexivity.
    + rewrite lookup_insert_ne by done.
      rewrite bool_decide_false by (intros [_ ?]; contradiction).
      rewrite app_nil_r, Hbp. reflexivity.
  - rewrite lookup_insert_ne by done.
    rewrite bool_decide_false by (intros [? _]; contradiction).
    rewrite app_nil_r. reflexivity.
Qed.

Lemma read_vertices_from (rows : list vertex_row)
    (d : gmap string (gmap Z (list Vertex))) (chrom : string) (pos : Z) :
  vertices_at
    (fold_left (fun vertex_dict v => add_vertex (vertex_of_row v) vertex_dict)
               rows d) chrom pos =
    vertices_at d chrom pos ++
    map vertex_of_row
        (List.filter (fun v => bool_decide (row_chromosome v = chrom /\
                                            row_position v = pos)) rows).
Proof.
  revert d. induction rows as [|v rows IH]; intros d; cbn [fold_left List.filter map].
  - rewrite app_nil_r. reflexivity.
  - rewrite IH, vertices_at_add. cbn [vertex_of_row vertex_chromosome vertex_position].
    rewrite <- app_assoc. f_equal.
    destruct (bool_decide (row_chromosome v = chrom /\ row_position v = pos));
      reflexivity.
Qed.

(** X4. The dictionary [read_vertices] builds lists, under a chromosome and a
    position, exactly the vertices of the fetched rows with that chromosome
    and position, in the order of the rows: no row is dropped, none is filed
    elsewhere. *)
Theorem read_vertices_groups_rows (db_vertices : list vertex_row)
    (chromosome : string) (pos : Z) :
  vertices_at (read_vertices db_vertices) chromosome pos =
    map vertex_of_row
        (List.filter (fun v => bool_decide (row_chromosome v = chromosome /\
                                            row_position v = pos)) db_vertices).
Proof.
  unfold read_vertices. rewrite read_vertices_from.
  unfold vertices_at at 1. rewrite lookup_empty. reflexivity.
Qed.

(** *** get_counters *)

Lemma find_set_count (category cat : string) (count : Z) (cs : list (string * Z)) :
  List.find (fun entry => String.eqb (fst entry) cat) (set_count category count cs) =
    if String.eqb cat category
    then (fun _ => (cat, count)) <$> List.find (fun entry => String.eqb (fst entry) cat) cs
    else List.find (fun entry => String.eqb (fst entry) cat) cs.
Proof.
  induction cs as [|[c n] cs IH]; cbn [set_count map List.find].
  - destruct (String.eqb cat category); reflexivity.
  - fold (set_count category count cs).
    destruct (String.eqb c category) eqn:Ec; cbn [fst].
    + apply String.eqb_eq in Ec. subst c.
      destruct (String.eqb category cat) eqn:Ecat.
      * apply String.eqb_eq in Ecat. subst cat. rewrite String.eqb_refl.
        reflexivity.
      * rewrite IH. rewrite (String.eqb_sym cat category), Ecat. reflexivity.
    + destruct (String.eqb c cat) eqn:Ecat.
      * apply String.eqb_eq in Ecat. subst cat. rewrite Ec. reflexivity.
      * exact IH.
Qed.

Lemma map_fst_set_count (category : string) (count : Z) (cs : list (string * Z)) :
  map fst (set_count category count cs) = map fst cs.
Proof.
  induction cs as [|[c n] cs IH]; [reflexivity|]. cbn [set_count map].
  fold (set_count category count cs). rewrite IH.
  destruct (String.eqb c category); reflexivity.
Qed.

Lemma update_counter_working (k : Counter) (c : connection) :
  counters (working (snd (update_counter k c))) =
    set_count "observed" (c_observed k)
      (set_count "dataset" (c_datasets k)
         (set_count "vertex" (c_vertices k)
            (set_count "edge" (c_edges k)
               (set_count "transcripts" (c_transcripts k)
                  (set_count "genes" (c_genes k) (counters (working c))))))).
Proof. reflexivity. Qed.

Lemma has_category_find (db : database) (cat : string) :
  has_category db cat =
    match List.find (fun entry => String.eqb (fst entry) cat) (counters db) with
    | Some _ => true | None => false end.
Proof.
  unfold has_category. induction (counters db) as [|[c n] cs IH]; [reflexivity|].
  cbn [existsb List.find fst]. destruct (String.eqb c cat); [reflexivity | exact IH].
Qed.

(** X5. Writing the counters and reading them back. [update_counter] changes
    counts only, it never adds a category; afterwards [get_counters] returns
    exactly the counter that was written when the table has a row for each
    of the six categories it reads, and raises TypeError when one of them is
    missing. *)
Theorem get_counters_after_update_counter (k : Counter) (c : connection) :
  let db := working (snd (update_counter k c)) in
  map fst (counters db) = map fst (counters (working c)) /\
  get_counters db =
    if forallb (has_category (working c)) counter_categories
    then Ok k else Raise TypeError.
Proof.
  intros db. split.
  - subst db. rewrite update_counter_working, !map_fst_set_count. reflexivity.
  - subst db. unfold get_counters, fetch_count.
    rewrite update_counter_working, !find_set_count.
    cbn [String.eqb Ascii.eqb Bool.eqb andb forallb counter_categories].
    rewrite !has_category_find.
    destruct (List.find _ (counters (working c))) as [[? ?]|];
      cbn [fmap option_fmap option_map snd andb]; [|reflexivity].
    destruct (List.find _ (counters (working c))) as [[? ?]|];
      cbn [fmap option_fmap option_map snd andb]; [|reflexivity].
    destruct (List.find (fun entry => String.eqb (fst entry) "vertex")
                (counters (working c))) as [[? ?]|];
      cbn [fmap option_fmap option_map snd andb]; [|reflexivity].
    destruct (List.find (fun entry => String.eqb (fst entry) "edge")
                (counters (working c))) as [[? ?]|];
      cbn [fmap option_fmap option_map snd andb]; [|reflexivity].
    destruct (List.find (fun entry => String.eqb (fst entry) "dataset")
                (counters (working c))) as [[? ?]|];
      cbn [fmap option_fmap option_map snd andb]; [|reflexivity].
    destruct (List.find (fun entry => String.eqb (fst entry) "observed")
                (counters (working c))) as [[? ?]|];
      cbn [fmap option_fmap option_map snd andb]; [|reflexivity].
    destruct k; reflexivity.
Qed.

End TalonReadProps.

Module SummaryProps.
Import Talon TalonRead ObservationProps.

(** *** Ordered dictionaries, continued *)

Section Dict.
Context {K V : Type} `{EqDecision K}.

Lemma od_get_none (k : K) (d : list (K * V)) :
  OD.get k d = None <-> ~ In k (OD.keys d).
Proof.
  induction d as [|[k' v'] d IH]; cbn.
  - split; [intros _ [] | reflexivity].
  - destruct (decide (k = k')) as [-> | Hne].
    + split; [discriminate | intros Hn; exfalso; apply Hn; left; reflexivity].
    + rewrite IH. split.
      * intros Hn [Heq | Hin]; [congruence | contradiction].
      * intros Hn Hin. apply Hn. right. exact Hin.
Qed.

Lemma od_set_present (k : K) (v v0 : V) (d : list (K * V)) :
  OD.get k d = Some v0 -> OD.keys (OD.set k v d) = OD.keys d.
Proof.
  unfold OD.keys. induction d as [|[k' v'] d IH]; cbn; [discriminate|].
  destruct (decide (k = k')) as [-> | Hne]; cbn; [reflexivity|].
  intros Hg. rewrite (IH Hg). reflexivity.
Qed.

Lemma od_get_in (k : K) (v : V) (d : list (K * V)) :
  NoDup (OD.keys d) -> (In (k, v) d <-> OD.get k d = Some v).
Proof.
  induction d as [|[k' v'] d IH]; cbn; intros Hnd.
  - split; [intros [] | discriminate].
  - apply NoDup_cons in Hnd as [Hnot Hnd]. destruct (decide (k = k')) as [-> | Hne].
    + split.
      * intros [Heq | Hin]; [congruence|]. exfalso. apply Hnot.
        apply list_elem_of_In. apply (in_map fst) in Hin. exact Hin.
      * intros [= ->]. left. reflexivity.
    + rewrite <- (IH Hnd). split.
      * intros [Heq | Hin]; [congruence | exact Hin].
      * intros Hin. right. exact Hin.
Qed.

End Dict.

(** *** compute_abundances *)

Lemma total_app (d1 d2 : list (option Z * Z)) : total (d1 ++ d2) = total d1 + total d2.
Proof.
  unfold total. induction d1 as [|[k v] d1 IH]; cbn; [reflexivity|]. 
  cbn in IH. rewrite IH. lia.
Qed.

Lemma total_set_present (k : option Z) (v v0 : Z) (d : list (option Z * Z)) :
  OD.get k d = Some v0 -> total (OD.set k v d) = total d - v0 + v.
Proof.
  unfold total. induction d as [|[k' v'] d IH]; cbn; [discriminate|].
  destruct (decide (k = k')) as [-> | Hne]; cbn.
  - intros [= ->]. lia.
  - intros Hg. rewrite (IH Hg). lia.
Qed.

Lemma reads_of_snoc (t : option Z) (reads : list SamTranscript) (r : SamTranscript) :
  reads_of t (reads ++ [r]) =
    reads_of t reads + (if bool_decide (sam_transcript_ID r = t) then 1 else 0).
Proof.
  unfold reads_of. rewrite List.filter_app, List.length_app. cbn [List.filter].
  destruct (bool_decide (sam_transcript_ID r = t)); cbn [List.length]; lia.
Qed.

Lemma reads_of_nonneg (t : option Z) (reads : list SamTranscript) :
  0 <= reads_of t reads.
Proof. unfold reads_of. lia. Qed.

Lemma counted_step (d : list (option Z * Z)) (reads : list SamTranscript)
    (r : SamTranscript) :
  counted d reads -> counted (count_read d r) (reads ++ [r]).
Proof.
  intros (Hnd & Hget & Htot). unfold count_read.
  set (id := sam_transcript_ID r).
  pose proof (reads_of_nonneg id reads) as Hpos.
  destruct (OD.get id d) as [n|] eqn:Hid.
  - assert (Hn : n = reads_of id reads /\ reads_of id reads <> 0).
    { rewrite Hget in Hid. destruct (Z.eqb_spec (reads_of id reads) 0);
        [discriminate|]. injection Hid as <-. split; [reflexivity | assumption]. }
    destruct Hn as [-> Hn0]. split; [|split].
    + rewrite (od_set_present _ _ _ _ Hid). exact Hnd.
    + intros t. rewrite reads_of_snoc. fold id.
      destruct (decide (id = t)) as [<- | Hne].
      * rewrite od_get_set_eq, bool_decide_true by reflexivity.
        destruct (Z.eqb_spec (reads_of id reads + 1) 0); [lia | reflexivity].
      * rewrite od_get_set_ne by exact Hne.
        rewrite bool_decide_false by exact Hne. rewrite Z.add_0_r. apply Hget.
    + rewrite (total_set_present _ _ _ _ Hid), Htot, List.length_app. cbn. lia.
  - assert (Hfresh : ~ In id (OD.keys d)) by (apply od_get_none; exact Hid).
    assert (H0 : reads_of id reads = 0).
    { rewrite Hget in Hid. destruct (Z.eqb_spec (reads_of id reads) 0);
        [assumption | discriminate]. }
    split; [|split].
    + rewrite (od_set_fresh _ _ _ Hfresh), od_keys_app. cbn.
      apply NoDup_app. split; [exact Hnd|]. split.
      * intros x Hx Hx1. apply list_elem_of_singleton in Hx1. subst x.
        apply Hfresh. apply list_elem_of_In. exact Hx.
      * apply NoDup_singleton.
    + intros t. rewrite reads_of_snoc. fold id.
      destruct (decide (id = t)) as [<- | Hne].
      * rewrite od_get_set_eq, bool_decide_true, H0 by reflexivity. reflexivity.
      * rewrite od_get_set_ne by exact Hne.
        rewrite bool_decide_false by exact Hne. rewrite Z.add_0_r. apply Hget.
    + rewrite (od_set_fresh _ _ _ Hfresh), total_app, Htot, List.length_app.
      cbn. lia.
Qed.

Lemma counted_fold (l pre : list SamTranscript) (d : list (option Z * Z)) :
  counted d pre -> counted (fold_left count_read l d) (pre ++ l).
Proof.
  revert pre d. induction l as [|r l IH]; intros pre d Hc; cbn [fold_left].
  - rewrite app_nil_r. exact Hc.
  - replace (pre ++ r :: l) with ((pre ++ [r]) ++ l)
      by (rewrite <- app_assoc; reflexivity).
    apply IH, counted_step, Hc.
Qed.

Lemma rows_of_dict (ds : string) (d l : list (option Z * Z)) :
  (forall p, In p l -> OD.get (fst p) d = Some (snd p)) ->
  map_result (fun x => match OD.get x d with
                       | Some n => Ok (x, ds, n)
                       | None => Raise (KeyError (repr_id x))
                       end) (OD.keys l) =
    Ok (map (fun p => (fst p, ds, snd p)) l).
Proof.
  induction l as [|[k v] l IH]; intros Hall; [reflexivity|].
  pose proof (Hall (k, v) (or_introl eq_refl)) as Hk. cbn [fst snd] in Hk.
  unfold OD.keys in *. cbn [map map_result fst snd]. rewrite Hk.
  rewrite IH by (intros p Hp; apply Hall; right; exact Hp).
  reflexivity.
Qed.

(** X6. [compute_abundances] returns one tuple per distinct transcript
    identifier among the reads, under the given dataset, and its count is
    the number of reads with that identifier; identifiers without reads have
    no tuple, and the counts add up to the number of reads. *)
Theorem compute_abundances_counts_reads (sam_transcripts : list SamTranscript)
    (dataset : string) :
  exists abundances,
    compute_abundances sam_transcripts dataset = Ok abundances /\
    NoDup (map (fun a => fst (fst a)) abundances) /\
    (forall t d n,
       In (t, d, n) abundances <->
       d = dataset /\ n = reads_of t sam_transcripts /\ 0 < n) /\
    fold_right Z.add 0 (map snd abundances) =
      Z.of_nat (List.length sam_transcripts).
Proof.
  assert (Hc : counted (fold_left count_read sam_transcripts []) sam_transcripts).
  { apply (counted_fold sam_transcripts [] []). split; [constructor|].
    split; [intros t; reflexivity | reflexivity]. }
  set (dict := fold_left count_read sam_transcripts []) in *.
  destruct Hc as (Hnd & Hget & Htot).
  exists (map (fun p => (fst p, dataset, snd p)) dict). split; [|split; [|split]].
  - unfold compute_abundances. fold dict. apply rows_of_dict.
    intros [k v] Hin. apply (od_get_in k v dict Hnd). exact Hin.
  - rewrite map_map. cbn [fst]. exact Hnd.
  - intros t d n. rewrite in_map_iff. split.
    + intros ([k v] & [= <- <- <-] & Hin).
      apply (od_get_in k v dict Hnd) in Hin. rewrite Hget in Hin.
      pose proof (reads_of_nonneg k sam_transcripts).
      destruct (Z.eqb_spec (reads_of k sam_transcripts) 0); [discriminate|].
      injection Hin as <-. repeat split. lia.
    + intros (-> & -> & Hpos). exists (t, reads_of t sam_transcripts).
      split; [reflexivity|]. apply (od_get_in _ _ dict Hnd). rewrite Hget.
      destruct (Z.eqb_spec (reads_of t sam_transcripts) 0); [lia | reflexivity].
  - rewrite map_map. cbn [snd]. exact Htot.
Qed.

(** *** get_annotation_status_dict and get_transcript_info *)

Lemma rows_of_snoc (ID : string) (rows : list row) (r : row) :
  rows_of ID (rows ++ [r]) =
    rows_of ID rows ++
    (if bool_decide (str_value <$> r !! 0%nat = Some ID) then [r] else []).
Proof.
  unfold rows_of. rewrite filter_app. f_equal.
  rewrite filter_cons, filter_nil.
  destruct (bool_decide (str_value <$> r !! 0%nat = Some ID));
    destruct (decide _) as [H1|H1]; try reflexivity.
  - exfalso. apply H1. exact I.
  - destruct H1.
Qed.

Lemma find_over_app {A} (f : A -> bool) (l1 l2 : list A) :
  List.find f (l1 ++ l2) =
    match List.find f l1 with Some x => Some x | None => List.find f l2 end.
Proof.
  induction l1 as [|x l1 IH]; [reflexivity|]. cbn [app List.find].
  destruct (f x); [reflexivity | exact IH].
Qed.

Lemma deciding_row_snoc (mine : list row) (r : row) :
  deciding_row (mine ++ [r]) =
    match List.find is_known mine with
    | Some x => Some x
    | None => Some r
    end.
Proof.
  unfold deciding_row. rewrite find_over_app.
  destruct (List.find is_known mine) as [x|]; [reflexivity|].
  rewrite last_snoc. cbn [List.find]. destruct (is_known r); reflexivity.
Qed.

Lemma status_entry_wide (r : row) :
  wide r ->
  exists a s, last r = Some a /\ r !! 2%nat = Some s /\ status_entry r = [a; s].
Proof.
  intros Hw. unfold wide in Hw. unfold status_entry.
  destruct (last r) as [a|] eqn:Hl.
  2:{ apply last_None in Hl. subst r. cbn in Hw. lia. }
  destruct (r !! 2%nat) as [s|] eqn:H2.
  2:{ apply lookup_ge_None in H2. lia. }
  exists a, s. repeat split.
Qed.

Lemma item_back_last (r : row) (a : value) :
  last r = Some a -> item_back 1 r = Ok a.
Proof.
  intros Hl. unfold item_back, item.
  destruct r as [|x r] using rev_ind; [discriminate|].
  rewrite last_snoc in Hl. injection Hl as ->.
  rewrite List.length_app. cbn [List.length].
  destruct (Nat.ltb_spec (List.length r + 1) 1); [lia|].
  replace (List.length r + 1 - 1)%nat with (List.length r) by lia.
  unfold row in *. rewrite (list_lookup_middle r [] a (List.length r) eq_refl).
  reflexivity.
Qed.

Lemma find_none_last (mine : list row) (r0 : row) :
  List.find is_known mine = None -> last mine = Some r0 -> is_known r0 = false.
Proof.
  intros Hf Hl. apply (List.find_none _ _ Hf).
  destruct mine as [|x mine] using rev_ind; [discriminate|].
  rewrite last_snoc in Hl. injection Hl as ->. apply in_or_app. right. left.
  reflexivity.
Qed.

Lemma deciding_row_in (mine : list row) (r0 : row) :
  deciding_row mine = Some r0 -> In r0 mine.
Proof.
  unfold deciding_row. destruct (List.find is_known mine) as [x|] eqn:Hf.
  - intros [= <-]. apply List.find_some in Hf. apply Hf.
  - destruct mine as [|y l] using rev_ind; [discriminate|].
    rewrite last_snoc. intros [= <-]. apply in_or_app. right. left. reflexivity.
Qed.

Lemma rows_of_wide (ID : string) (rows : list row) (r0 : row) :
  Forall wide rows -> In r0 (rows_of ID rows) -> wide r0.
Proof.
  intros Hrows Hin. unfold rows_of in Hin.
  apply list_elem_of_In, list_elem_of_filter in Hin. destruct Hin as [_ Hin].
  rewrite List.Forall_forall in Hrows. apply Hrows, list_elem_of_In, Hin.
Qed.

Lemma status_step_decided (d : gmap string (list value)) (rows : list row)
    (r : row) :
  Forall wide rows -> wide r -> decided d rows ->
  exists d', status_step d r = Ok d' /\ decided d' (rows ++ [r]).
Proof.
  intros Hrows Hw Hd.
  destruct (status_entry_wide r Hw) as (a & s & Hl & H2 & He).
  destruct (r !! 0%nat) as [id|] eqn:H0.
  2:{ apply lookup_ge_None in H0. unfold wide in Hw. lia. }
  unfold status_step. unfold item at 1. rewrite H0.
  rewrite (item_back_last r a Hl). unfold item at 1. rewrite H2.
  set (ID := str_value id).
  assert (Hother : forall ID', ID' <> ID ->
            rows_of ID' (rows ++ [r]) = rows_of ID' rows).
  { intros ID' Hne. rewrite rows_of_snoc, H0. cbn [fmap option_fmap option_map].
    rewrite bool_decide_false by (fold ID; congruence). apply app_nil_r. }
  assert (Hmine : rows_of ID (rows ++ [r]) = rows_of ID rows ++ [r]).
  { rewrite rows_of_snoc, H0. cbn [fmap option_fmap option_map].
    rewrite bool_decide_true by reflexivity. reflexivity. }
  assert (Hset : List.find is_known (rows_of ID rows) = None ->
            decided (<[ID := [a; s]]> d) (rows ++ [r])).
  { intros Hf ID'. destruct (decide (ID' = ID)) as [-> | Hne].
    - rewrite lookup_insert_eq, Hmine, deciding_row_snoc, Hf.
      cbn [fmap option_fmap option_map]. rewrite He. reflexivity.
    - rewrite lookup_insert_ne by congruence. rewrite (Hother ID' Hne). apply Hd. }
  pose proof (Hd ID) as HID.
  destruct (d !! ID) as [entry|] eqn:Hentry.
  - destruct (deciding_row (rows_of ID rows)) as [r0|] eqn:Hdec; [|discriminate].
    cbn [fmap option_fmap option_map] in HID.
    assert (Hw0 : wide r0)
      by (eapply rows_of_wide; [exact Hrows | apply deciding_row_in; exact Hdec]).
    destruct (status_entry_wide r0 Hw0) as (a0 & s0 & Hl0 & H20 & He0).
    rewrite He0 in HID. injection HID as ->.
    unfold item. cbn [lookup list_lookup].
    unfold deciding_row in Hdec.
    destruct (List.find is_known (rows_of ID rows)) as [x|] eqn:Hf.
    + injection Hdec as ->. pose proof (List.find_some _ _ Hf) as [_ Hk].
      unfold is_known in Hk. rewrite Hl0 in Hk.
      apply bool_decide_eq_true in Hk. injection Hk as ->.
      rewrite bool_decide_true by reflexivity.
      exists d. split; [reflexivity|]. intros ID'.
      destruct (decide (ID' = ID)) as [-> | Hne].
      * rewrite Hmine, deciding_row_snoc, Hf, Hentry.
        cbn [fmap option_fmap option_map]. rewrite He0. reflexivity.
      * rewrite (Hother ID' Hne). apply Hd.
    + pose proof (find_none_last _ _ Hf Hdec) as Hnk.
      unfold is_known in Hnk. rewrite Hl0 in Hnk.
      apply bool_decide_eq_false in Hnk.
      rewrite bool_decide_false by congruence.
      eexists. split; [reflexivity|]. apply Hset. reflexivity.
  - eexists. split; [reflexivity|]. apply Hset.
    destruct (deciding_row (rows_of ID rows)) as [r0|] eqn:Hdec; [discriminate|].
    unfold deciding_row in Hdec.
    destruct (List.find is_known (rows_of ID rows)); [discriminate | reflexivity].
Qed.

Lemma status_loop_decided (rows pre : list row) (d : gmap string (list value)) :
  Forall wide pre -> Forall wide rows -> decided d pre ->
  exists d', status_loop rows d = Ok d' /\ decided d' (pre ++ rows).
Proof.
  revert pre d. induction rows as [|r rows IH]; intros pre d Hpre Hrows Hd.
  - exists d. rewrite app_nil_r. split; [reflexivity | exact Hd].
  - apply Forall_cons in Hrows as [Hr Hrows].
    destruct (status_step_decided d pre r Hpre Hr Hd) as (d1 & Hstep & Hd1).
    cbn [status_loop]. rewrite Hstep.
    replace (pre ++ r :: rows) with ((pre ++ [r]) ++ rows)
      by (rewrite <- app_assoc; reflexivity).
    apply IH; [|exact Hrows | exact Hd1].
    apply Forall_app. split; [exact Hpre | repeat constructor; exact Hr].
Qed.

Lemma get_annotation_status_dict_decided (db : database) (cat_type : string)
    (table : list row) :
  tables db !! (cat_type +:+ "_annotations") = Some table ->
  Forall wide table ->
  exists d, get_annotation_status_dict db cat_type = Ok d /\
            decided d (status_rows cat_type table).
Proof.
  intros Ht Hw. unfold get_annotation_status_dict, select_attribute. rewrite Ht.
  fold (status_rows cat_type table).
  apply (status_loop_decided (status_rows cat_type table) [] ∅).
  - constructor.
  - unfold status_rows. rewrite List.Forall_forall in Hw |- *.
    intros r Hr. apply list_elem_of_In, list_elem_of_filter in Hr.
    apply Hw, list_elem_of_In, Hr.
  - intros ID. rewrite lookup_empty. reflexivity.
Qed.

(** X7. A ["KNOWN"] status is final. Over an annotation table whose rows have
    at least their first three columns, [get_annotation_status_dict] returns
    a dictionary that maps an identifier to [[value, source]] of the first
    status row of that identifier whose value is ["KNOWN"], and of its last
    status row when no row says ["KNOWN"]; identifiers without a status row
    are not in the dictionary. *)
Theorem get_annotation_status_dict_known_is_final (db : database)
    (cat_type : string) (table : list row) :
  tables db !! (cat_type +:+ "_annotations") = Some table ->
  Forall (fun r => (3 <= List.length r)%nat) table ->
  exists d,
    get_annotation_status_dict db cat_type = Ok d /\
    forall ID,
      d !! ID =
        status_entry <$> deciding_row (rows_of ID (status_rows cat_type table)).
Proof. apply get_annotation_status_dict_decided. Qed.

Lemma status_pair_decided (d : gmap string (list value)) (rows : list row)
    (ID : string) :
  Forall wide rows -> decided d rows ->
  let '(a, b) := status_pair d ID in [a; b] = status_or_na (rows_of ID rows).
Proof.
  intros Hw Hd. unfold status_pair, status_or_na. rewrite (Hd ID).
  destruct (deciding_row (rows_of ID rows)) as [r0|] eqn:Hdec;
    cbn [fmap option_fmap option_map]; [|reflexivity].
  assert (Hw0 : wide r0)
    by (eapply rows_of_wide; [exact Hw | apply deciding_row_in; exact Hdec]).
  destruct (status_entry_wide r0 Hw0) as (a0 & s0 & _ & _ & ->). reflexivity.
Qed.

(** X8. [get_transcript_info] on the dictionaries
    [get_annotation_status_dict] builds for genes and for transcripts: the
    gene half of the answer is the status and source of the row that decides
    the gene's status, the transcript half likewise, and a half is
    ["NA", "NA"] exactly when the identifier has no status row. *)
Theorem get_transcript_info_reports_status (db : database)
    (gene_table transcript_table : list row) :
  tables db !! "gene_annotations" = Some gene_table ->
  tables db !! "transcript_annotations" = Some transcript_table ->
  Forall (fun r => (3 <= List.length r)%nat) gene_table ->
  Forall (fun r => (3 <= List.length r)%nat) transcript_table ->
  exists gene_status transcript_status,
    get_annotation_status_dict db "gene" = Ok gene_status /\
    get_annotation_status_dict db "transcript" = Ok transcript_status /\
    forall transcript_ID gene_ID,
      get_transcript_info transcript_ID gene_ID gene_status transcript_status =
        status_or_na (rows_of gene_ID (status_rows "gene" gene_table)) ++
        status_or_na (rows_of transcript_ID
                              (status_rows "transcript" transcript_table)).
Proof.
  intros Hg Ht Hgw Htw.
  destruct (get_annotation_status_dict_decided db "gene" gene_table Hg Hgw)
    as (gs & Egs & Dgs).
  destruct (get_annotation_status_dict_decided db "transcript" transcript_table
              Ht Htw) as (ts & Ets & Dts).
  exists gs, ts. split; [exact Egs|]. split; [exact Ets|].
  intros tid gid. unfold get_transcript_info.
  assert (Wg : Forall wide (status_rows "gene" gene_table)).
  { unfold status_rows. rewrite List.Forall_forall in Hgw |- *.
    intros r Hr. apply list_elem_of_In, list_elem_of_filter in Hr.
    apply Hgw, list_elem_of_In, Hr. }
  assert (Wt : Forall wide (status_rows "transcript" transcript_table)).
  { unfold status_rows. rewrite List.Forall_forall in Htw |- *.
    intros r Hr. apply list_elem_of_In, list_elem_of_filter in Hr.
    apply Htw, list_elem_of_In, Hr. }
  pose proof (status_pair_decided gs _ gid Wg Dgs) as Pg.
  pose proof (status_pair_decided ts _ tid Wt Dts) as Pt.
  destruct (status_pair gs gid) as [ga gd].
  destruct (status_pair ts tid) as [ta td].
  rewrite <- Pg, <- Pt. reflexivity.
Qed.

End SummaryProps.

Module OrganizeProps.
Import InitDb Populate.

Section WithObjects.
Context {Gene Transcript : Type} `{GtfModules Gene Transcript}
        `{GtfObjects Gene Transcript} `{DictOrder}.

Lemma dict_keys_elem {V} (d : gmap string V) (k : string) :
  k ∈ dict_keys d <-> is_Some (d !! k).
Proof.
  rewrite (dict_keys_perm d). rewrite list_elem_of_fmap. split.
  - intros ([k' v] & -> & Hin). apply elem_of_map_to_list in Hin.
    exists v. exact Hin.
  - intros [v Hv]. exists (k, v). split; [reflexivity|].
    apply elem_of_map_to_list. exact Hv.
Qed.

(** A loop over the keys of a dictionary, seen as a loop over any list of
    keys: [inv] holds of the variables and of the keys gone through. *)
Lemma fold_result_inv {A S} (body : S -> A -> result S)
    (inv : S -> list A -> Prop) (l : list A) :
  (forall s done x, inv s done -> x ∈ l ->
     exists s', body s x = Ok s' /\ inv s' (done ++ [x])) ->
  forall s done, inv s done ->
  forall l', (forall x, x ∈ l' -> x ∈ l) ->
  exists s', fold_result body l' s = Ok s' /\ inv s' (done ++ l').
Proof.
  intros Hstep s done Hinv l'. revert s done Hinv.
  induction l' as [|x l' IH]; intros s done Hinv Hsub.
  - exists s. rewrite app_nil_r. split; [reflexivity | exact Hinv].
  - destruct (Hstep s done x Hinv) as (s1 & Hb & Hinv1).
    { apply Hsub. left. }
    cbn [fold_result]. rewrite Hb.
    replace (done ++ x :: l') with ((done ++ [x]) ++ l')
      by (rewrite <- app_assoc; reflexivity).
    apply IH; [exact Hinv1|]. intros y Hy. apply Hsub. right. exact Hy.
Qed.

(** *** filter_by_length *)

Lemma filter_step_inv (genes : gmap string Gene)
    (transcripts : gmap string Transcript) (min_length : Z)
    (filtered : gmap string Gene * gmap string Transcript)
    (done : list string) (id : string) :
  (forall id t, transcripts !! id = Some t ->
     is_ok (transcript_get_length t) = true) ->
  filtered_inv genes transcripts min_length filtered done ->
  id ∈ dict_keys transcripts ->
  exists filtered',
    filter_step genes transcripts min_length filtered id = Ok filtered' /\
    filtered_inv genes transcripts min_length filtered' (done ++ [id]).
Proof.
  intros Hlen [Hft Hfg] Hid. destruct filtered as [fg ft]. cbn [fst snd] in *.
  apply dict_keys_elem in Hid as [t Ht]. unfold filter_step. rewrite Ht.
  pose proof (Hlen id t Ht) as Hok.
  destruct (transcript_get_length t) as [n|] eqn:Hn; [|discriminate].
  assert (Hdone : forall id', id' ∈ done ++ [id] <-> id' ∈ done \/ id' = id).
  { intros id'. rewrite elem_of_app, list_elem_of_singleton. reflexivity. }
  destruct (Z.leb_spec min_length n) as [Hle | Hgt].
  - (* kept *)
    assert (Hkept : long_enough min_length t) by (exists n; split; assumption).
    assert (Hft' : forall id' t', <[id := t]> ft !! id' = Some t' <->
              id' ∈ done ++ [id] /\ transcripts !! id' = Some t' /\
              long_enough min_length t').
    { intros id' t'. rewrite Hdone. destruct (decide (id' = id)) as [-> | Hne].
      - rewrite lookup_insert_eq. split.
        + intros [= <-]. split; [right; reflexivity|]. split; assumption.
        + intros (_ & Ht' & _). congruence.
      - rewrite lookup_insert_ne by congruence. rewrite Hft. split.
        + intros (Hd & Ht' & Hk). split; [left; exact Hd|]. split; assumption.
        + intros ([Hd | Heq] & Ht' & Hk); [|contradiction].
          split; [exact Hd|]. split; assumption. }
    assert (Hgrow : forall g, 
              (exists id' t', <[id := t]> ft !! id' = Some t' /\
                              transcript_gene_id t' = Some g) <->
              (exists id' t', ft !! id' = Some t' /\
                              transcript_gene_id t' = Some g) \/
              transcript_gene_id t = Some g).
    { intros g. split.
      - intros (id' & t' & Hl & Hg). destruct (decide (id' = id)) as [-> | Hne].
        + rewrite lookup_insert_eq in Hl. injection Hl as <-. right. exact Hg.
        + rewrite lookup_insert_ne in Hl by congruence. left. exists id', t'.
          split; assumption.
      - intros [(id' & t' & Hl & Hg) | Hg].
        + destruct (decide (id' = id)) as [-> | Hne].
          * exists id, t. rewrite lookup_insert_eq. split; [reflexivity|].
            apply Hft in Hl as (_ & Ht' & _). congruence.
          * exists id', t'. rewrite lookup_insert_ne by congruence.
            split; assumption.
        + exists id, t. rewrite lookup_insert_eq. split; [reflexivity | exact Hg]. }
    destruct (transcript_gene_id t) as [g0|] eqn:Hg0.
    + destruct (genes !! g0) as [gene0|] eqn:Hgene0.
      * eexists. split; [reflexivity|]. split; cbn [fst snd]; [exact Hft'|].
        intros g gene. rewrite Hgrow. destruct (decide (g = g0)) as [-> | Hne].
        -- rewrite lookup_insert_eq. split.
           ++ intros [= <-]. split; [exact Hgene0 | right; reflexivity].
           ++ intros [Hgene _]. congruence.
        -- rewrite lookup_insert_ne by congruence. rewrite Hfg. split.
           ++ intros [Hgene Hex]. split; [exact Hgene | left; exact Hex].
           ++ intros [Hgene [Hex | Heq]]; [split; assumption | congruence].
      * eexists. split; [reflexivity|]. split; cbn [fst snd]; [exact Hft'|].
        intros g gene. rewrite Hgrow, Hfg. split.
        -- intros [Hgene Hex]. split; [exact Hgene | left; exact Hex].
        -- intros [Hgene [Hex | Heq]]; [split; assumption|].
           injection Heq as <-. congruence.
    + eexists. split; [reflexivity|]. split; cbn [fst snd]; [exact Hft'|].
      intros g gene. rewrite Hgrow, Hfg. split.
      * intros [Hgene Hex]. split; [exact Hgene | left; exact Hex].
      * intros [Hgene [Hex | Heq]]; [split; assumption | discriminate].
  - (* dropped *)
    eexists. split; [reflexivity|]. split; cbn [fst snd]; [|exact Hfg].
    intros id' t'. rewrite Hft, Hdone. split.
    + intros (Hd & Ht' & Hk). split; [left; exact Hd|]. split; assumption.
    + intros ([Hd | ->] & Ht' & Hk).
      * split; [exact Hd|]. split; assumption.
      * exfalso. destruct Hk as (n' & Hn' & Hle'). 
        assert (t' = t) by congruence. subst t'. rewrite Hn in Hn'.
        injection Hn' as <-. lia.
Qed.

(** When [get_length] does not raise, [filter_by_length] returns, and the
    invariant of its loop holds of what it returns, for all the keys. *)
Lemma filter_by_length_inv (genes : gmap string Gene)
    (transcripts : gmap string Transcript) (min_length : Z) :
  (forall id t, transcripts !! id = Some t ->
     is_ok (transcript_get_length t) = true) ->
  exists filtered,
    filter_by_length genes transcripts min_length = Ok filtered /\
    filtered_inv genes transcripts min_length filtered (dict_keys transcripts).
Proof.
  intros Hlen. unfold filter_by_length.
  destruct (fold_result_inv (filter_step genes transcripts min_length)
              (filtered_inv genes transcripts min_length)
              (dict_keys transcripts)
              (fun s done x Hinv Hx =>
                 filter_step_inv genes transcripts min_length s done x Hlen Hinv Hx)
              (∅, ∅) [])
    with (l' := dict_keys transcripts) as (filtered & Hrun & Hinv).
  - split; cbn [fst snd].
    + intros id t. rewrite lookup_empty. split; [discriminate|].
      intros (Hin & _). apply elem_of_nil in Hin. contradiction.
    + intros g gene. rewrite lookup_empty. split; [discriminate|].
      intros (_ & id & t & Hl & _). rewrite lookup_empty in Hl. discriminate.
  - intros x Hx. exact Hx.
  - exists filtered. split; [exact Hrun | exact Hinv].
Qed.

(** X9. [filter_by_length] keeps exactly the transcripts whose length is at
    least [min_length], and exactly the genes that are named by a kept
    transcript; a gene without a kept transcript is removed, whatever the
    order in which the dictionary is gone through. The lengths are taken
    from [get_length], which is assumed not to raise. *)
Theorem filter_by_length_keeps (genes : gmap string Gene)
    (transcripts : gmap string Transcript) (min_length : Z) :
  (forall id t, transcripts !! id = Some t ->
     is_ok (transcript_get_length t) = true) ->
  exists filtered_genes filtered_transcripts,
    filter_by_length genes transcripts min_length =
      Ok (filtered_genes, filtered_transcripts) /\
    (forall id t,
       filtered_transcripts !! id = Some t <->
       transcripts !! id = Some t /\ long_enough min_length t) /\
    (forall g gene,
       filtered_genes !! g = Some gene <->
       genes !! g = Some gene /\
       exists id t, filtered_transcripts !! id = Some t /\
                    transcript_gene_id t = Some g).
Proof.
  intros Hlen.
  destruct (filter_by_length_inv genes transcripts min_length Hlen)
    as ([fg ft] & Hrun & Hft & Hfg).
  cbn [fst snd] in Hft, Hfg.
  exists fg, ft. split; [exact Hrun|]. split; [|exact Hfg].
  intros id t. rewrite Hft. split.
  - intros (_ & Ht & Hk). split; assumption.
  - intros (Ht & Hk). split; [|split; assumption].
    apply dict_keys_elem. exists t. exact Ht.
Qed.

(** *** organize_by_chromosome *)

Lemma grouped_organize_step {T} (chromosome ID : string) (x : T)
    (by_chrom : gmap string (gmap string T)) (c i : string) :
  grouped (organize_step chromosome ID x by_chrom) c i =
    if bool_decide (c = chromosome /\ i = ID) then Some x
    else grouped by_chrom c i.
Proof.
  unfold grouped, organize_step.
  destruct (by_chrom !! chromosome) as [group|] eqn:Hg.
  - destruct (decide (c = chromosome)) as [-> | Hc].
    + rewrite lookup_insert_eq, Hg. cbn [mbind option_bind default].
      destruct (decide (i = ID)) as [-> | Hi].
      * rewrite lookup_insert_eq, bool_decide_true by done. reflexivity.
      * rewrite lookup_insert_ne by congruence.
        rewrite bool_decide_false by (intros [_ ?]; contradiction). reflexivity.
    + rewrite lookup_insert_ne by congruence.
      rewrite bool_decide_false by (intros [? _]; contradiction). reflexivity.
  - rewrite lookup_insert_eq. cbn [default]. rewrite insert_insert_eq.
    destruct (decide (c = chromosome)) as [-> | Hc].
    + rewrite lookup_insert_eq, Hg. cbn [mbind option_bind].
      destruct (decide (i = ID)) as [-> | Hi].
      * rewrite lookup_insert_eq, bool_decide_true by done. reflexivity.
      * rewrite lookup_insert_ne by congruence.
        rewrite bool_decide_false by (intros [_ ?]; contradiction).
        apply lookup_singleton_ne. congruence.
    + rewrite lookup_insert_ne by congruence.
      rewrite bool_decide_false by (intros [? _]; contradiction). reflexivity.
Qed.

Lemma organize_step_nonempty {T} (chromosome ID : string) (x : T)
    (by_chrom : gmap string (gmap string T)) (c : string) (group : gmap string T) :
  (forall c group, by_chrom !! c = Some group -> group <> ∅) ->
  organize_step chromosome ID x by_chrom !! c = Some group -> group <> ∅.
Proof.
  intros Hne. unfold organize_step.
  destruct (decide (c = chromosome)) as [-> | Hc].
  - rewrite lookup_insert_eq. intros [= <-]. apply insert_non_empty.
  - rewrite lookup_insert_ne by congruence.
    destruct (by_chrom !! chromosome) as [g0|] eqn:Hg; [apply Hne|].
    rewrite lookup_insert_ne by congruence. apply Hne.
Qed.

Lemma organize_loop_spec {T} (chromosome_of : T -> string)
    (objects : gmap string T) :
  exists by_chrom,
    organize_loop chromosome_of objects = Ok by_chrom /\
    (forall c i x, grouped by_chrom c i = Some x <->
       objects !! i = Some x /\ chromosome_of x = c) /\
    (forall c group, by_chrom !! c = Some group -> group <> ∅).
Proof.
  unfold organize_loop.
  destruct (fold_result_inv
              (fun by_chrom ID =>
                 match objects !! ID with
                 | None => Raise (KeyError ID)
                 | Some x => Ok (organize_step (chromosome_of x) ID x by_chrom)
                 end)
              (organized_inv chromosome_of objects) (dict_keys objects))
    with (s := (∅ : gmap string (gmap string T))) (done := @nil string)
         (l' := dict_keys objects) as (by_chrom & Hrun & Hg & Hne).
  - intros d done ID [Hg Hne] HID. apply dict_keys_elem in HID as [x Hx].
    rewrite Hx. eexists. split; [reflexivity|]. split.
    + intros c i y. rewrite grouped_organize_step.
      rewrite elem_of_app, list_elem_of_singleton.
      destruct (decide (c = chromosome_of x /\ i = ID)) as [[-> ->] | Hno].
      * rewrite bool_decide_true by done. split.
        -- intros [= <-]. split; [right; reflexivity|]. split; [exact Hx | reflexivity].
        -- intros (_ & Hy & _). congruence.
      * rewrite bool_decide_false by exact Hno. rewrite Hg. split.
        -- intros (Hd & Hy & Hc). split; [left; exact Hd|]. split; assumption.
        -- intros ([Hd | ->] & Hy & Hc).
           ++ split; [exact Hd|]. split; assumption.
           ++ exfalso. apply Hno. assert (y = x) by congruence. subst y.
              split; [symmetry; exact Hc | reflexivity].
    + intros c group. apply organize_step_nonempty. exact Hne.
  - split.
    + intros c i x. unfold grouped. rewrite lookup_empty. split; [discriminate|].
      intros (Hin & _). apply elem_of_nil in Hin. contradiction.
    + intros c group. rewrite lookup_empty. discriminate.
  - intros x Hx. exact Hx.
  - exists by_chrom. split; [exact Hrun|]. split; [|exact Hne].
    intros c i x. rewrite Hg. cbn [app]. split.
    + intros (_ & Hx & Hc). split; assumption.
    + intros (Hx & Hc). split; [|split; assumption].
      apply dict_keys_elem. exists x. exact Hx.
Qed.

(** X10. [organize_by_chromosome] returns, and files every gene and every
    transcript under its own chromosome and its own identifier, and nowhere
    else: the groups partition the two dictionaries. No chromosome gets an
    empty group. *)
Theorem organize_by_chromosome_partitions (genes : gmap string Gene)
    (transcripts : gmap string Transcript) :
  exists gene_dict transcript_dict,
    organize_by_chromosome genes transcripts = Ok (gene_dict, transcript_dict) /\
    (forall chromosome ID gene,
       grouped gene_dict chromosome ID = Some gene <->
       genes !! ID = Some gene /\ gene_chromosome gene = chromosome) /\
    (forall chromosome ID transcript,
       grouped transcript_dict chromosome ID = Some transcript <->
       transcripts !! ID = Some transcript /\
       transcript_chromosome transcript = chromosome) /\
    (forall chromosome group,
       gene_dict !! chromosome = Some group -> group <> ∅) /\
    (forall chromosome group,
       transcript_dict !! chromosome = Some group -> group <> ∅).
Proof.
  destruct (organize_loop_spec gene_chromosome genes) as (gd & Hgd & Hg & Hgne).
  destruct (organize_loop_spec transcript_chromosome transcripts)
    as (td & Htd & Ht & Htne).
  exists gd, td. unfold organize_by_chromosome. rewrite Hgd, Htd.
  split; [reflexivity|]. split; [exact Hg|]. split; [exact Ht|].
  split; [exact Hgne | exact Htne].
Qed.

(** X11. Filtering first makes the grouping safe for [populate_db]. When every
    transcript lies on the chromosome of the gene it names, then after
    [filter_by_length] and [organize_by_chromosome] every chromosome that
    has a group of genes also has a group of transcripts, so the lookup
    [chrom_transcripts[chromosome]] of [populate_db] finds its key. *)
Theorem filtered_chromosomes_have_transcripts (genes : gmap string Gene)
    (transcripts : gmap string Transcript) (min_length : Z) :
  (forall id t, transcripts !! id = Some t ->
     is_ok (transcript_get_length t) = true) ->
  (forall id t g gene,
     transcripts !! id = Some t -> transcript_gene_id t = Some g ->
     genes !! g = Some gene ->
     transcript_chromosome t = gene_chromosome gene) ->
  exists filtered_genes filtered_transcripts gene_dict transcript_dict,
    filter_by_length genes transcripts min_length =
      Ok (filtered_genes, filtered_transcripts) /\
    organize_by_chromosome filtered_genes filtered_transcripts =
      Ok (gene_dict, transcript_dict) /\
    forall chromosome,
      is_Some (gene_dict !! chromosome) ->
      is_Some (transcript_dict !! chromosome).
Proof.
  intros Hlen Hsame.
  destruct (filter_by_length_inv genes transcripts min_length Hlen)
    as ([fg ft] & Hfilter & Hft & Hfg).
  cbn [fst snd] in Hft, Hfg.
  destruct (organize_loop_spec gene_chromosome fg) as (gd & Hgd & Hg & Hgne).
  destruct (organize_loop_spec transcript_chromosome ft) as (td & Htd & Ht & _).
  exists fg, ft, gd, td. split; [exact Hfilter|]. split.
  { unfold organize_by_chromosome. rewrite Hgd, Htd. reflexivity. }
  intros c [group Hgroup].
  pose proof (Hgne c group Hgroup) as Hne.
  apply map_choose in Hne as (g & gene & Hgene).
  assert (Hgr : grouped gd c g = Some gene).
  { unfold grouped. rewrite Hgroup. exact Hgene. }
  apply Hg in Hgr as [Hfgene Hc].
  apply Hfg in Hfgene as (Hgenes & id & t & Hid & Hgid).
  pose proof Hid as Hid'. apply Hft in Hid' as (_ & Htr & _).
  assert (Htc : grouped td c id = Some t).
  { apply Ht. split; [exact Hid|]. rewrite <- Hc. eapply Hsame; eassumption. }
  unfold grouped in Htc. destruct (td !! c) as [tg|]; [eexists; reflexivity|].
  discriminate.
Qed.

End WithObjects.
End OrganizeProps.

Module AllocationProps.
Import InitDb InitDbProps Populate.

(** *** Keys *)

Lemma pretty_N_char_digit (x : N) : (x < 10)%N -> digit_or_dash (pretty_N_char x) = true.
Proof.
  intros Hlt.
  assert (Hx : (x = 0 \/ x = 1 \/ x = 2 \/ x = 3 \/ x = 4 \/ x = 5 \/ x = 6 \/
                x = 7 \/ x = 8 \/ x = 9)%N) by lia.
  repeat (destruct Hx as [-> | Hx]; [reflexivity|]). subst x. reflexivity.
Qed.

Lemma pretty_N_go_numeric (x : N) (s : string) :
  numeric s = true -> numeric (pretty_N_go x s) = true.
Proof.
  revert s. induction (N.lt_wf_0 x) as [x _ IH]. intros s Hs.
  destruct (decide (x = 0)%N) as [-> | Hx].
  - rewrite pretty_N_go_0. exact Hs.
  - rewrite pretty_N_go_step by lia. apply IH.
    + apply N.div_lt; lia.
    + cbn [numeric]. rewrite Hs, pretty_N_char_digit; [reflexivity|].
      apply N.mod_lt. lia.
Qed.

Lemma pretty_N_numeric (x : N) : numeric (pretty x) = true.
Proof.
  unfold pretty, pretty_N. destruct (decide (x = 0)%N); [reflexivity|].
  apply pretty_N_go_numeric. reflexivity.
Qed.

Lemma str_numeric (n : Z) : numeric (str n) = true.
Proof.
  unfold str. destruct n as [|p|p].
  - reflexivity.
  - apply (pretty_N_numeric (N.pos p)).
  - change (numeric (String "-" (pretty (N.pos p))) = true). cbn [numeric].
    rewrite pretty_N_numeric. reflexivity.
Qed.

Lemma numeric_no_comma (s : string) : numeric s = true -> has_comma s = false.
Proof.
  induction s as [|c s IH]; [reflexivity|]. cbn [numeric has_comma].
  intros Hn. apply andb_true_iff in Hn as [Hc Hs].
  destruct (Ascii.eqb_spec c ","%char) as [-> | _]; [discriminate | exact (IH Hs)].
Qed.

Lemma str_no_comma (n : Z) : has_comma (str n) = false.
Proof. apply numeric_no_comma, str_numeric. Qed.

Lemma str_gene_no_comma (g : gene_ref) : has_comma (str_gene g) = false.
Proof. destruct g; [apply str_no_comma | reflexivity]. Qed.

Lemma str_gene_inj (g g' : gene_ref) : str_gene g = str_gene g' -> g = g'.
Proof.
  destruct g as [n|], g' as [m|]; cbn [str_gene]; intros Heq.
  - f_equal. apply ObservationProps.str_inj. exact Heq.
  - pose proof (str_numeric n) as Hn. rewrite Heq in Hn. discriminate.
  - pose proof (str_numeric m) as Hm. rewrite <- Heq in Hm. discriminate.
  - reflexivity.
Qed.

(** Two comma-separated texts with comma-free heads are equal only if the
    heads and the rests are. *)
Lemma comma_split (a a' r r' : string) :
  has_comma a = false -> has_comma a' = false ->
  a +:+ "," +:+ r = a' +:+ "," +:+ r' -> a = a' /\ r = r'.
Proof.
  change ("," +:+ r) with (String ","%char r).
  change ("," +:+ r') with (String ","%char r').
  revert a'. induction a as [|c a IH]; intros a' Ha Ha' Heq.
  - destruct a' as [|c' a'].
    + change (String ","%char r = String ","%char r') in Heq.
      injection Heq as ->. split; reflexivity.
    + change (String ","%char r = String c' (a' +:+ String ","%char r')) in Heq.
      injection Heq as <- _. cbn in Ha'. discriminate.
  - destruct a' as [|c' a'].
    + change (String c (a +:+ String ","%char r) = String ","%char r') in Heq.
      injection Heq as -> _. cbn in Ha. discriminate.
    + change (String c (a +:+ String ","%char r) =
              String c' (a' +:+ String ","%char r')) in Heq.
      injection Heq as -> Heq. cbn [has_comma] in Ha, Ha'.
      destruct (Ascii.eqb c' ","%char); [discriminate|].
      destruct (IH a' Ha Ha' Heq) as [-> ->]. split; reflexivity.
Qed.

Lemma vertex_query_inj g b c p s g' b' c' p' s' :
  has_comma b = false -> has_comma c = false ->
  has_comma b' = false -> has_comma c' = false ->
  vertex_query g b c p s = vertex_query g' b' c' p' s' ->
  g = g' /\ b = b' /\ c = c' /\ p = p' /\ s = s'.
Proof.
  intros Hb Hc Hb' Hc'. unfold vertex_query. cbn [join]. intros Heq.
  apply comma_split in Heq as [Hg Heq]; try apply str_gene_no_comma.
  apply comma_split in Heq as [-> Heq]; try assumption.
  apply comma_split in Heq as [-> Heq]; try assumption.
  apply comma_split in Heq as [Hp ->]; try apply str_no_comma.
  apply str_gene_inj in Hg. apply ObservationProps.str_inj in Hp.
  repeat split; assumption.
Qed.

Lemma edge_query_inj v1 v2 ty v1' v2' ty' :
  edge_query v1 v2 ty = edge_query v1' v2' ty' ->
  v1 = v1' /\ v2 = v2' /\ ty = ty'.
Proof.
  unfold edge_query. cbn [join]. intros Heq.
  apply comma_split in Heq as [H1 Heq]; try apply str_no_comma.
  apply comma_split in Heq as [H2 ->]; try apply str_no_comma.
  apply ObservationProps.str_inj in H1, H2. repeat split; assumption.
Qed.

(** *** The allocation invariant *)

Lemma allocated_start {T} (id_of : T -> Z) (key_of : T -> string) (n0 : Z) :
  allocated id_of key_of n0 {["counter" := Counter n0]}.
Proof.
  exists n0. split; [apply lookup_singleton_eq|]. split; [|split; [|split]].
  - intros q t Hq. apply lookup_singleton_Some in Hq as [_ Hq]. discriminate.
  - intros q q' t t' Hq. apply lookup_singleton_Some in Hq as [_ Hq]. discriminate.
  - intros q m Hq. apply lookup_singleton_Some in Hq as [<- _]. reflexivity.
  - rewrite map_size_singleton. lia.
Qed.

(** Registering a new tuple under its key, with the next identifier. *)
Lemma allocated_insert {T} (id_of : T -> Z) (key_of : T -> string) (n0 n : Z)
    (d : gmap string (slot T)) (t : T) :
  allocated id_of key_of n0 d ->
  d !! "counter" = Some (Counter n) ->
  d !! key_of t = None -> key_of t <> "counter" -> id_of t = n + 1 ->
  allocated id_of key_of n0
    (<[key_of t := Entry t]> (<["counter" := Counter (n + 1)]> d)).
Proof.
  intros (n' & Hc & Hent & Huniq & Hcnt & Hsize) Hn Hfresh Hkey Hid.
  assert (n' = n) by congruence. subst n'.
  exists (n + 1). split; [|split; [|split; [|split]]].
  - rewrite lookup_insert_ne by exact Hkey. apply lookup_insert_eq.
  - intros q t' Hq. destruct (decide (q = key_of t)) as [-> | Hne].
    + rewrite lookup_insert_eq in Hq. injection Hq as <-.
      split; [reflexivity|]. 
      assert (size d <> 0%nat)
        by (apply (map_size_ne_0_lookup_2 d "counter"); eexists; exact Hc).
      lia.
    + rewrite lookup_insert_ne in Hq by congruence.
      destruct (decide (q = "counter")) as [-> | Hnc].
      * rewrite lookup_insert_eq in Hq. discriminate.
      * rewrite lookup_insert_ne in Hq by congruence.
        destruct (Hent q t' Hq) as [Hk Hr]. split; [exact Hk | lia].
  - assert (Hold : forall q t', 
              <[key_of t := Entry t]> (<["counter" := Counter (n + 1)]> d) !! q
                = Some (Entry t') ->
              (q = key_of t /\ t' = t) \/ (q <> key_of t /\ d !! q = Some (Entry t'))).
    { intros q t' Hq. destruct (decide (q = key_of t)) as [-> | Hne].
      - rewrite lookup_insert_eq in Hq. injection Hq as <-. left. split; reflexivity.
      - rewrite lookup_insert_ne in Hq by congruence.
        destruct (decide (q = "counter")) as [-> | Hnc].
        + rewrite lookup_insert_eq in Hq. discriminate.
        + rewrite lookup_insert_ne in Hq by congruence. right. split; assumption. }
    intros q q' t1 t2 Hq Hq' Hsame.
    apply Hold in Hq as [[-> ->] | [Hq1 Hq]];
      apply Hold in Hq' as [[-> ->] | [Hq1' Hq']].
    + reflexivity.
    + destruct (Hent _ _ Hq') as [_ Hr]. lia.
    + destruct (Hent _ _ Hq) as [_ Hr]. lia.
    + eapply Huniq; eassumption.
  - intros q m Hq. destruct (decide (q = key_of t)) as [-> | Hne].
    + rewrite lookup_insert_eq in Hq. discriminate.
    + rewrite lookup_insert_ne in Hq by congruence.
      destruct (decide (q = "counter")) as [-> | Hnc]; [reflexivity|].
      rewrite lookup_insert_ne in Hq by congruence. eapply Hcnt. exact Hq.
  - rewrite map_size_insert_None.
    + rewrite map_size_insert_Some by (eexists; exact Hc). lia.
    + rewrite lookup_insert_ne by congruence. exact Hfresh.
Qed.

(** What a call of [create_vertex] does to an allocated dictionary. *)
Lemma create_vertex_allocated (n0 : Z) g b c p s
    (vs : gmap string (slot vertex_tuple)) :
  allocated_vertices n0 vs ->
  exists id t,
    fst (create_vertex g b c p s vs) = Ok id /\
    snd (create_vertex g b c p s vs) !! vertex_query g b c p s = Some (Entry t) /\
    vertex_id_of t = id /\
    allocated_vertices n0 (snd (create_vertex g b c p s vs)).
Proof.
  intros Hall. pose proof Hall as (n & Hc & Hent & Huniq & Hcnt & Hsize).
  destruct (vs !! vertex_query g b c p s) as [[m|t]|] eqn:Hq.
  - apply Hcnt in Hq. exfalso. eapply vertex_query_not_counter. exact Hq.
  - rewrite (create_vertex_known _ _ _ _ _ _ _ Hq). cbn [fst snd].
    exists (vertex_id_of t), t. repeat split; assumption.
  - rewrite (create_vertex_fresh _ _ _ _ _ _ _ Hc Hq). cbn [fst snd].
    exists (n + 1), (n + 1, g, b, c, p, s). split; [reflexivity|].
    split; [apply lookup_insert_eq|]. split; [reflexivity|].
    apply (allocated_insert vertex_id_of vertex_key n0 n vs (n + 1, g, b, c, p, s));
      try assumption; try reflexivity.
    apply vertex_query_not_counter.
Qed.

Lemma create_edge_allocated (n0 : Z) v1 v2 ty
    (es : gmap string (slot edge_tuple)) :
  allocated_edges n0 es ->
  exists id t,
    fst (create_edge v1 v2 ty es) = Ok id /\
    snd (create_edge v1 v2 ty es) !! edge_query v1 v2 ty = Some (Entry t) /\
    edge_id_of t = id /\
    allocated_edges n0 (snd (create_edge v1 v2 ty es)).
Proof.
  intros Hall. pose proof Hall as (n & Hc & Hent & Huniq & Hcnt & Hsize).
  destruct (es !! edge_query v1 v2 ty) as [[m|t]|] eqn:Hq.
  - apply Hcnt in Hq. exfalso. eapply edge_query_not_counter. exact Hq.
  - rewrite (create_edge_known _ _ _ _ _ Hq). cbn [fst snd].
    exists (edge_id_of t), t. repeat split; assumption.
  - rewrite (create_edge_fresh _ _ _ _ _ Hc Hq). cbn [fst snd].
    exists (n + 1), (n + 1, v1, v2, ty). split; [reflexivity|].
    split; [apply lookup_insert_eq|]. split; [reflexivity|].
    apply (allocated_insert edge_id_of edge_key n0 n es (n + 1, v1, v2, ty));
      try assumption; try reflexivity.
    apply edge_query_not_counter.
Qed.

(** X12. Identifiers are allocated without gaps or reuse. After any sequence
    of [create_vertex] calls on a dictionary that started as
    [{"counter": n0}], the counter holds some [n], there are exactly
    [n - n0] vertex entries, each stored under the key of its own tuple with
    an identifier in [n0+1 .. n], and no two keys share an identifier. The
    same holds for [create_edge]. *)
Theorem allocation_is_consistent (n0 : Z) :
  (forall calls,
     allocated_vertices n0
       (create_vertices calls {["counter" := Counter n0]})) /\
  (forall calls,
     allocated_edges n0 (create_edges calls {["counter" := Counter n0]})).
Proof.
  split.
  - intros calls.
    assert (Hgen : forall vs, allocated_vertices n0 vs ->
                              allocated_vertices n0 (create_vertices calls vs)).
    { induction calls as [|[[[[g b] c] p] s] calls IH]; intros vs Hvs;
        [exact Hvs|].
      cbn [create_vertices fold_left]. apply IH.
      destruct (create_vertex_allocated n0 g b c p s vs Hvs)
        as (_ & _ & _ & _ & _ & H). exact H. }
    apply Hgen, allocated_start.
  - intros calls.
    assert (Hgen : forall es, allocated_edges n0 es ->
                              allocated_edges n0 (create_edges calls es)).
    { induction calls as [|[[v1 v2] ty] calls IH]; intros es Hes; [exact Hes|].
      cbn [create_edges fold_left]. apply IH.
      destruct (create_edge_allocated n0 v1 v2 ty es Hes)
        as (_ & _ & _ & _ & _ & H). exact H. }
    apply Hgen, allocated_start.
Qed.

(** X13. Two calls of [create_vertex] return the same identifier exactly when
    their keys are equal; and when genome build and chromosome hold no
    comma, the keys are equal exactly when the five arguments are. So
    vertices that differ in gene, build, chromosome, position or strand get
    different identifiers. *)
Theorem create_vertex_separates (n0 : Z) (vs : gmap string (slot vertex_tuple))
    g b c p s g' b' c' p' s' :
  allocated_vertices n0 vs ->
  exists i j vs1 vs2,
    create_vertex g b c p s vs = (Ok i, vs1) /\
    create_vertex g' b' c' p' s' vs1 = (Ok j, vs2) /\
    (i = j <-> vertex_query g b c p s = vertex_query g' b' c' p' s') /\
    (has_comma b = false -> has_comma c = false ->
     has_comma b' = false -> has_comma c' = false ->
     (i = j <-> (g, b, c, p, s) = (g', b', c', p', s'))).
Proof.
  intros Hvs.
  destruct (create_vertex_allocated n0 g b c p s vs Hvs)
    as (i & t & Hi & Ht & Hit & Hvs1).
  destruct (create_vertex g b c p s vs) as [r1 vs1] eqn:E1. cbn [fst snd] in *.
  subst r1.
  destruct (create_vertex_allocated n0 g' b' c' p' s' vs1 Hvs1)
    as (j & t' & Hj & Ht' & Hjt & Hvs2).
  pose proof (create_vertex_keeps g' b' c' p' s' vs1 _ _ Ht) as Hkeep.
  destruct (create_vertex g' b' c' p' s' vs1) as [r2 vs2] eqn:E2.
  cbn [fst snd] in *. subst r2.
  assert (Hiff : i = j <-> vertex_query g b c p s = vertex_query g' b' c' p' s').
  { destruct Hvs2 as (n & _ & _ & Huniq & _). split.
    - intros Heq. eapply Huniq; [exact Hkeep | exact Ht' | congruence].
    - intros Heq. rewrite Heq in Hkeep. congruence. }
  exists i, j, vs1, vs2. split; [reflexivity|]. split; [exact E2|].
  split; [exact Hiff|]. intros Hb Hc Hb' Hc'. rewrite Hiff. split.
  - intros Heq. apply vertex_query_inj in Heq; try assumption.
    destruct Heq as (-> & -> & -> & -> & ->). reflexivity.
  - intros [= -> -> -> -> ->]. reflexivity.
Qed.

End AllocationProps.

Module ProcessProps.
Import InitDb InitDbProps Populate AllocationProps OrganizeProps.

Lemma extends_refl {T} (d : gmap string (slot T)) : extends d d.
Proof. intros q t Hq. exact Hq. Qed.

Lemma extends_trans {T} (d1 d2 d3 : gmap string (slot T)) :
  extends d1 d2 -> extends d2 d3 -> extends d1 d3.
Proof. intros H12 H23 q t Hq. apply H23, H12, Hq. Qed.

Lemma vertex_at_extends vs vs' g b s at_ v :
  extends vs vs' -> vertex_at vs g b s at_ = Some v ->
  vertex_at vs' g b s at_ = Some v.
Proof.
  unfold vertex_at. intros Hext.
  destruct (vs !! vertex_query g b at_.1 at_.2 s) as [[n|t]|] eqn:Hq;
    try discriminate.
  rewrite (Hext _ _ Hq). intros H. exact H.
Qed.

Lemma edge_at_extends es es' e v :
  extends es es' -> edge_at es e = Some v -> edge_at es' e = Some v.
Proof.
  destruct e as [[x y] ty]. unfold edge_at. intros Hext.
  destruct (es !! edge_query x y ty) as [[n|t]|] eqn:Hq; try discriminate.
  rewrite (Hext _ _ Hq). intros H. exact H.
Qed.

Lemma create_vertex_step (n0 : Z) g b c p s
    (vs : gmap string (slot vertex_tuple)) :
  allocated_vertices n0 vs ->
  exists id vs',
    create_vertex g b c p s vs = (Ok id, vs') /\
    allocated_vertices n0 vs' /\ extends vs vs' /\
    vertex_at vs' g b s (c, p) = Some id.
Proof.
  intros Hvs.
  destruct (create_vertex_allocated n0 g b c p s vs Hvs) as (id & t & Hr & Hq & Hid & Hvs').
  assert (Hext : extends vs (snd (create_vertex g b c p s vs))).
  { intros q t' Hq'. apply create_vertex_keeps. exact Hq'. }
  destruct (create_vertex g b c p s vs) as [r vs']. cbn [fst snd] in *. subst r.
  exists id, vs'. split; [reflexivity|]. split; [exact Hvs'|]. split; [exact Hext|].
  unfold vertex_at. cbn [fst snd]. rewrite Hq, Hid. reflexivity.
Qed.

Lemma create_edge_step (n0 : Z) v1 v2 ty (es : gmap string (slot edge_tuple)) :
  allocated_edges n0 es ->
  exists id es',
    create_edge v1 v2 ty es = (Ok id, es') /\
    allocated_edges n0 es' /\ extends es es' /\
    edge_at es' (v1, v2, ty) = Some id.
Proof.
  intros Hes.
  destruct (create_edge_allocated n0 v1 v2 ty es Hes) as (id & t & Hr & Hq & Hid & Hes').
  assert (Hext : extends es (snd (create_edge v1 v2 ty es))).
  { intros q t' Hq'. apply create_edge_keeps. exact Hq'. }
  destruct (create_edge v1 v2 ty es) as [r es']. cbn [fst snd] in *. subst r.
  exists id, es'. split; [reflexivity|]. split; [exact Hes'|]. split; [exact Hext|].
  unfold edge_at. rewrite Hq, Hid. reflexivity.
Qed.

Lemma exon_vertices_spec (n0 : Z) g b s (exons : list Edge)
    (vs : gmap string (slot vertex_tuple)) :
  allocated_vertices n0 vs ->
  exists tv vs',
    exon_vertices g b s exons vs = (Ok tv, vs') /\
    allocated_vertices n0 vs' /\ extends vs vs' /\
    map Some tv = map (vertex_at vs' g b s) (boundaries exons).
Proof.
  revert vs. induction exons as [|e exons IH]; intros vs Hvs.
  - exists [], vs. split; [reflexivity|]. split; [exact Hvs|].
    split; [apply extends_refl | reflexivity].
  - cbn [exon_vertices]. unfold bind.
    destruct (create_vertex_step n0 g b (edge_chromosome e) (edge_start e) s vs Hvs)
      as (v1 & vs1 & E1 & Hvs1 & X1 & A1).
    rewrite E1.
    destruct (create_vertex_step n0 g b (edge_chromosome e) (edge_end e) s vs1 Hvs1)
      as (v2 & vs2 & E2 & Hvs2 & X2 & A2).
    rewrite E2.
    destruct (IH vs2 Hvs2) as (tv & vs' & E3 & Hvs' & X3 & A3).
    rewrite E3. exists (v1 :: v2 :: tv), vs'. split; [reflexivity|].
    split; [exact Hvs'|].
    split; [eapply extends_trans; [exact X1|]; eapply extends_trans; eassumption|].
    cbn [boundaries flat_map app map]. fold (boundaries exons). rewrite <- A3.
    f_equal; [|f_equal].
    + symmetry. eapply vertex_at_extends; [|exact A1].
      eapply extends_trans; eassumption.
    + symmetry. eapply vertex_at_extends; [exact X3 | exact A2].
Qed.

Lemma exon_vertices_length g b s (exons : list Edge)
    (vs vs' : gmap string (slot vertex_tuple)) (tv : list Z) :
  exon_vertices g b s exons vs = (Ok tv, vs') ->
  List.length tv = (2 * List.length exons)%nat.
Proof.
  revert vs vs' tv. induction exons as [|e exons IH]; intros vs vs' tv.
  - intros [= <- _]. reflexivity.
  - cbn [exon_vertices]. unfold bind.
    destruct (create_vertex _ _ _ _ _ vs) as [[v1|] vs1]; [|discriminate].
    destruct (create_vertex _ _ _ _ _ vs1) as [[v2|] vs2]; [|discriminate].
    destruct (exon_vertices g b s exons vs2) as [[tv'|] vs3] eqn:E; [|discriminate].
    intros [= <- _]. cbn [List.length]. rewrite (IH _ _ _ E). lia.
Qed.

(** *** The connection during [process_transcript] *)

Section WithStore.
Context `{DictOrder} `{Talon.Schema} `{SqliteErrors}.

Lemma annotated_refl (c : Talon.connection) :
  is_Some (Talon.tables (Talon.working c) !! "exon_annotations") -> annotated c c.
Proof. intros Ht. repeat split; try reflexivity. exact Ht. Qed.

Lemma annotated_trans (c1 c2 c3 : Talon.connection) :
  annotated c1 c2 -> annotated c2 c3 -> annotated c1 c3.
Proof.
  intros (D1 & C1 & T1 & S1) (D2 & C2 & T2 & S2).
  split; [congruence|]. split; [congruence|]. split; [|exact S2].
  intros t Ht. rewrite (T2 t Ht). apply T1. exact Ht.
Qed.

Lemma execute_insert_or_ignore_ok (vals : Talon.row) (c : Talon.connection) :
  is_Some (Talon.tables (Talon.working c) !! "exon_annotations") ->
  exists c', execute_insert_or_ignore "exon_annotations" vals c = (Ok tt, c') /\
             annotated c c'.
Proof.
  intros [rows Hrows].
  unfold execute_insert_or_ignore, bind, Talon.log, modify, get, put, ret.
  cbn [Talon.working Talon.tables]. rewrite Hrows.
  destruct (Talon.accepts "exon_annotations" rows vals).
  - eexists. split; [reflexivity|]. repeat split; cbn.
    + intros t Ht. rewrite lookup_insert_ne by congruence. reflexivity.
    + rewrite lookup_insert_eq. eexists. reflexivity.
  - eexists. split; [reflexivity|]. repeat split; cbn. eexists. exact Hrows.
Qed.

Lemma add_exon_annotations_ok (exon : Edge) (exon_id : Z) (annot_name : string)
    (c : Talon.connection) :
  is_Some (annotations exon !! "source") ->
  is_Some (Talon.tables (Talon.working c) !! "exon_annotations") ->
  exists c', add_exon_annotations_to_db exon exon_id annot_name c = (Ok tt, c') /\
             annotated c c'.
Proof.
  intros [source Hs] Ht. unfold add_exon_annotations_to_db. rewrite Hs.
  assert (Hkeys : forall att, att ∈ dict_keys (annotations exon) ->
            is_Some (annotations exon !! att))
    by (intros att; apply dict_keys_elem).
  revert c Ht. induction (dict_keys (annotations exon)) as [|att keys IH];
    intros c Ht.
  - exists c. split; [reflexivity | apply annotated_refl; exact Ht].
  - cbn [for_each]. unfold bind at 1.
    assert (Hstep : exists c1,
      (if bool_decide (att ∈ ["gene_id"; "gene_name"]) || PyStr.str_in "gene" att
          || PyStr.str_in "transcript" att
       then ret tt
       else match annotations exon !! att with
            | Some value =>
                execute_insert_or_ignore "exon_annotations"
                  [Talon.VInt exon_id; Talon.VStr annot_name; Talon.VStr source;
                   Talon.VStr att; Talon.VStr value]
            | None => raise (KeyError att)
            end) c = (Ok tt, c1) /\ annotated c c1).
    { destruct (_ || _ || _).
      - exists c. split; [reflexivity | apply annotated_refl; exact Ht].
      - destruct (Hkeys att) as [value Hv]; [left|]. rewrite Hv.
        apply execute_insert_or_ignore_ok. exact Ht. }
    destruct Hstep as (c1 & -> & Hc1).
    destruct (IH (fun a Ha => Hkeys a (list_elem_of_further _ _ _ Ha)) c1)
      as (c' & Hrun & Hc').
    { apply Hc1. }
    exists c'. split; [exact Hrun|]. eapply annotated_trans; eassumption.
Qed.

(** *** The second loop of [process_transcript] *)

Lemma exon_count_bound (pairs : list (Z * Z)) :
  (2 * exon_count pairs true <= List.length pairs + 1 /\
   2 * exon_count pairs false <= List.length pairs)%nat.
Proof.
  induction pairs as [|p pairs [IHt IHf]]; cbn [exon_count List.length negb];
    split; lia.
Qed.

Lemma edge_loop_spec (n0 : Z) (exons : list Edge) (annot_name : string)
    (pairs : list (Z * Z)) (is_exon : bool) (loc : edge_locals)
    (c : Talon.connection) :
  allocated_edges n0 (el_edges loc) ->
  next_edge_type (el_prev_edge_type loc) = (if is_exon then "exon" else "intron") ->
  (el_exon_index loc + exon_count pairs is_exon <= List.length exons)%nat ->
  Forall (fun e => is_Some (annotations e !! "source")) exons ->
  is_Some (Talon.tables (Talon.working c) !! "exon_annotations") ->
  exists loc' c' new_ids,
    Talon.fold_loop (edge_step exons annot_name) pairs loc c = (Ok loc', c') /\
    allocated_edges n0 (el_edges loc') /\
    extends (el_edges loc) (el_edges loc') /\
    annotated c c' /\
    el_transcript_edges loc' = el_transcript_edges loc ++ new_ids /\
    map Some new_ids = map (edge_at (el_edges loc')) (typed_pairs pairs is_exon).
Proof.
  revert is_exon loc c. induction pairs as [|[x y] pairs IH];
    intros is_exon loc c Hes Hty Hidx Hsrc Htab.
  - exists loc, c, []. split; [reflexivity|]. split; [exact Hes|].
    split; [apply extends_refl|]. split; [apply annotated_refl; exact Htab|].
    split; [rewrite app_nil_r; reflexivity | reflexivity].
  - cbn [Talon.fold_loop]. unfold bind at 1. unfold edge_step at 1. rewrite Hty.
    set (ty := if is_exon then "exon" else "intron").
    destruct (create_edge_step n0 x y ty (el_edges loc) Hes)
      as (id & es1 & E1 & Hes1 & X1 & A1).
    rewrite E1.
    assert (Hstep : exists loc1 c1,
      (if String.eqb ty "exon"
       then match exons !! el_exon_index loc with
            | Some exon =>
                bind (add_exon_annotations_to_db exon id annot_name)
                  (fun _ => ret (mkEdgeLocals es1 (Some ty) (S (el_exon_index loc))
                                   (el_transcript_edges loc ++ [id])))
            | None => raise IndexError
            end
       else ret (mkEdgeLocals es1 (Some ty) (el_exon_index loc)
                   (el_transcript_edges loc ++ [id]))) c = (Ok loc1, c1) /\
      annotated c c1 /\ el_edges loc1 = es1 /\
      el_prev_edge_type loc1 = Some ty /\
      el_transcript_edges loc1 = el_transcript_edges loc ++ [id] /\
      (el_exon_index loc1 + exon_count pairs (negb is_exon) <= List.length exons)%nat).
    { subst ty. destruct is_exon; cbn [String.eqb Ascii.eqb Bool.eqb negb exon_count] in *.
      - destruct (exons !! el_exon_index loc) as [exon|] eqn:Hex.
        2:{ apply lookup_ge_None in Hex. lia. }
        assert (Hs : is_Some (annotations exon !! "source")).
        { rewrite List.Forall_forall in Hsrc. apply Hsrc.
          apply list_elem_of_In. eapply list_elem_of_lookup_2. exact Hex. }
        destruct (add_exon_annotations_ok exon id annot_name c Hs Htab)
          as (c1 & Hrun & Hc1).
        unfold bind. rewrite Hrun. eexists _, c1. split; [reflexivity|].
        split; [exact Hc1|]. cbn. repeat split. lia.
      - eexists _, c. split; [reflexivity|].
        split; [apply annotated_refl; exact Htab|]. cbn. repeat split. lia. }
    destruct Hstep as (loc1 & c1 & -> & Hc1 & Hl1 & Hp1 & Ht1 & Hi1).
    destruct (IH (negb is_exon) loc1 c1) as (loc' & c' & ids & Hrun & Hes' & X' & Hc' & Hids & Hmap).
    + rewrite Hl1. exact Hes1.
    + rewrite Hp1. subst ty. destruct is_exon; reflexivity.
    + exact Hi1.
    + exact Hsrc.
    + apply Hc1.
    + exists loc', c', (id :: ids). split; [exact Hrun|]. split; [exact Hes'|].
      rewrite Hl1 in X'.
      split; [eapply extends_trans; eassumption|].
      split; [eapply annotated_trans; eassumption|].
      split; [rewrite Hids, Ht1, <- app_assoc; reflexivity|].
      cbn [typed_pairs map]. fold ty. rewrite <- Hmap. f_equal.
      symmetry. eapply edge_at_extends; [exact X' | exact A1].
Qed.

Lemma consecutive_length (l : list Z) :
  List.length (consecutive l) = (List.length l - 1)%nat.
Proof.
  unfold consecutive. rewrite List.length_combine.
  destruct l as [|z l]; [reflexivity|]. cbn [tail List.length]. lia.
Qed.

Section WithObjects.
Context {Gene Transcript : Type} `{GtfModules Gene Transcript}
        `{GtfObjects Gene Transcript}.

Lemma process_transcript_spec (n0 m0 : Z) (transcript : Transcript)
    (gene_id : gene_ref) (genome_build annot_name : string)
    (vertices : gmap string (slot vertex_tuple))
    (edges : gmap string (slot edge_tuple)) (c : Talon.connection) :
  allocated_vertices n0 vertices ->
  allocated_edges m0 edges ->
  Forall (fun e => is_Some (annotations e !! "source"))
         (transcript_exons transcript) ->
  is_Some (Talon.tables (Talon.working c) !! "exon_annotations") ->
  exists transcript_path vertices' edges' c' tv ids,
    process_transcript transcript gene_id genome_build annot_name vertices edges c
      = (Ok (transcript_path, vertices', edges'), c') /\
    allocated_vertices n0 vertices' /\ allocated_edges m0 edges' /\
    extends vertices vertices' /\ extends edges edges' /\
    annotated c c' /\
    map Some tv =
      map (vertex_at vertices' gene_id genome_build
                     (transcript_strand transcript))
          (ordered_boundaries transcript) /\
    map Some ids = map (edge_at edges') (typed_pairs (consecutive tv) true) /\
    transcript_path = join "," (map str ids).
Proof.
  intros Hvs Hes Hsrc Htab. unfold process_transcript.
  destruct (exon_vertices_spec n0 gene_id genome_build
              (transcript_strand transcript) (transcript_exons transcript)
              vertices Hvs) as (tv0 & vs' & Ev & Hvs' & Xv & Av).
  pose proof (exon_vertices_length _ _ _ _ _ _ _ Ev) as Hlen.
  rewrite Ev.
  set (strand := transcript_strand transcript) in *.
  set (tv := if String.eqb strand "-" then rev tv0 else tv0).
  set (exons := if String.eqb strand "-" then rev (transcript_exons transcript)
                else transcript_exons transcript).
  assert (Hpair : (if String.eqb strand "-"
                   then (rev tv0, rev (transcript_exons transcript))
                   else (tv0, transcript_exons transcript)) = (tv, exons))
    by (subst tv exons; destruct (String.eqb strand "-"); reflexivity).
  rewrite Hpair.
  assert (Htvlen : List.length tv = (2 * List.length exons)%nat).
  { subst tv exons. destruct (String.eqb strand "-");
      rewrite ?List.length_rev; exact Hlen. }
  assert (Hsrc' : Forall (fun e => is_Some (annotations e !! "source")) exons).
  { subst exons. destruct (String.eqb strand "-"); [|exact Hsrc].
    apply Forall_rev. exact Hsrc. }
  destruct (edge_loop_spec m0 exons annot_name (consecutive tv) true
              (mkEdgeLocals edges None 0 []) c) as (loc' & c' & ids & Hrun & Hes' & Xe & Hc' & Hids & Hmap);
    try assumption; try reflexivity.
  { cbn [el_exon_index]. pose proof (exon_count_bound (consecutive tv)) as [Hb _].
    rewrite consecutive_length in Hb. lia. }
  unfold bind. rewrite Hrun. cbn [el_transcript_edges app] in Hids.
  exists (join "," (map str ids)), vs', (el_edges loc'), c', tv, ids.
  rewrite Hids. split; [reflexivity|]. split; [exact Hvs'|]. split; [exact Hes'|].
  split; [exact Xv|]. split; [exact Xe|]. split; [exact Hc'|].
  split; [|split; [exact Hmap | reflexivity]].
  unfold ordered_boundaries. fold strand. subst tv.
  destruct (String.eqb strand "-"); [|exact Av].
  rewrite !List.map_rev. f_equal. exact Av.
Qed.

Lemma typed_pairs_length (pairs : list (Z * Z)) (is_exon : bool) :
  List.length (typed_pairs pairs is_exon) = List.length pairs.
Proof.
  revert is_exon. induction pairs as [|[x y] pairs IH]; intros is_exon;
    [reflexivity|]. cbn [typed_pairs List.length]. rewrite IH. reflexivity.
Qed.

(** X14. The path of a transcript follows its exons. With allocated
    dictionaries, a [source] annotation on every exon and the table
    [exon_annotations] in place, [process_transcript] returns; the vertices
    it links are the ones registered, in the returned dictionary, for the
    two ends of each exon, in exon order and for the minus strand in reverse
    order; the path lists, for each two consecutive vertices, the edge
    registered between them in the returned dictionary, of type exon and
    intron in turn, starting with an exon: [2n - 1] edges for [n] exons,
    and the empty path for a transcript without exons. *)
Theorem process_transcript_path_follows_exons (n0 m0 : Z)
    (transcript : Transcript) (gene_id : gene_ref)
    (genome_build annot_name : string)
    (vertices : gmap string (slot vertex_tuple))
    (edges : gmap string (slot edge_tuple)) (c : Talon.connection) :
  allocated_vertices n0 vertices ->
  allocated_edges m0 edges ->
  Forall (fun e => is_Some (annotations e !! "source"))
         (transcript_exons transcript) ->
  is_Some (Talon.tables (Talon.working c) !! "exon_annotations") ->
  exists transcript_path vertices' edges' c' tv ids,
    process_transcript transcript gene_id genome_build annot_name vertices edges c
      = (Ok (transcript_path, vertices', edges'), c') /\
    map Some tv =
      map (vertex_at vertices' gene_id genome_build
                     (transcript_strand transcript))
          (ordered_boundaries transcript) /\
    map Some ids = map (edge_at edges') (typed_pairs (consecutive tv) true) /\
    List.length ids = (2 * List.length (transcript_exons transcript) - 1)%nat /\
    transcript_path = join "," (map str ids).
Proof.
  intros Hvs Hes Hsrc Htab.
  destruct (process_transcript_spec n0 m0 transcript gene_id genome_build
              annot_name vertices edges c Hvs Hes Hsrc Htab)
    as (path & vs' & es' & c' & tv & ids & Hrun & _ & _ & _ & _ & _ & Htv & Hids & Hp).
  exists path, vs', es', c', tv, ids. split; [exact Hrun|]. split; [exact Htv|].
  split; [exact Hids|]. split; [|exact Hp].
  apply (f_equal (@List.length _)) in Htv, Hids.
  rewrite !List.length_map in Htv, Hids.
  rewrite typed_pairs_length, consecutive_length in Hids.
  rewrite Hids, Htv. unfold ordered_boundaries.
  assert (Hb : forall l : list Edge,
            List.length (boundaries l) = (2 * List.length l)%nat).
  { induction l as [|e l IH]; [reflexivity|].
    cbn [boundaries flat_map app List.length]. fold (boundaries l). lia. }
  destruct (String.eqb (transcript_strand transcript) "-");
    rewrite ?List.length_rev, Hb; reflexivity.
Qed.

(** X15. [process_transcript] only adds to the dictionaries and leaves the
    stored data alone. Under the same conditions the returned dictionaries
    hold every entry they held before, with the same tuple, so an exon or
    an intron shared with an earlier transcript keeps its identifier; they
    are still consistently allocated; and on the connection nothing but the
    table [exon_annotations] of the open transaction has changed. *)
Theorem process_transcript_only_adds (n0 m0 : Z)
    (transcript : Transcript) (gene_id : gene_ref)
    (genome_build annot_name : string)
    (vertices : gmap string (slot vertex_tuple))
    (edges : gmap string (slot edge_tuple)) (c : Talon.connection) :
  allocated_vertices n0 vertices ->
  allocated_edges m0 edges ->
  Forall (fun e => is_Some (annotations e !! "source"))
         (transcript_exons transcript) ->
  is_Some (Talon.tables (Talon.working c) !! "exon_annotations") ->
  exists transcript_path vertices' edges' c',
    process_transcript transcript gene_id genome_build annot_name vertices edges c
      = (Ok (transcript_path, vertices', edges'), c') /\
    extends vertices vertices' /\ extends edges edges' /\
    allocated_vertices n0 vertices' /\ allocated_edges m0 edges' /\
    Talon.durable c' = Talon.durable c /\
    Talon.counters (Talon.working c') = Talon.counters (Talon.working c) /\
    (forall t, t <> "exon_annotations" ->
       Talon.tables (Talon.working c') !! t =
       Talon.tables (Talon.working c) !! t).
Proof.
  intros Hvs Hes Hsrc Htab.
  destruct (process_transcript_spec n0 m0 transcript gene_id genome_build
              annot_name vertices edges c Hvs Hes Hsrc Htab)
    as (path & vs' & es' & c' & tv & ids & Hrun & Hvs' & Hes' & Xv & Xe &
        (Hd & Hc & Ht & _) & _).
  exists path, vs', es', c'. repeat split; assumption.
Qed.

End WithObjects.
End WithStore.
End ProcessProps.

Module PopulateProps.
Import InitDb InitDbProps Populate AllocationProps OrganizeProps ProcessProps.
Import UpdateProps TalonRead TalonReadProps.

(** *** What the statements change on a connection *)

Lemma keeps_fold_loop {T A L} (proj : Talon.connection -> T)
    (body : L -> A -> M Talon.connection L) (l : list A) (loc : L) :
  (forall loc x, Talon.keeps proj (body loc x)) ->
  Talon.keeps proj (Talon.fold_loop body l loc).
Proof.
  intros Hb. revert loc. induction l as [|x l IH]; intros loc; cbn [Talon.fold_loop].
  - apply keeps_ret.
  - apply keeps_bind; [apply Hb | intros loc'; apply IH].
Qed.

Section WithStore.
Context `{DictOrder} `{Talon.Schema} `{SqliteErrors}.

Lemma insert_rows_ok (table : string) (batch rows rows' : list Talon.row) :
  Talon.insert_rows table batch rows = (Ok tt, rows') -> rows' = rows ++ batch.
Proof.
  revert rows. induction batch as [|r batch IH]; intros rows; cbn [Talon.insert_rows].
  - intros [= <-]. rewrite app_nil_r. reflexivity.
  - destruct (Talon.accepts table rows r); [|discriminate].
    intros Hrun. rewrite (IH _ Hrun), <- app_assoc. reflexivity.
Qed.

(** An [executemany] that returns has appended the whole batch. *)
Lemma executemany_ok (table : string) (batch : list Talon.row)
    (c c' : Talon.connection) :
  Talon.executemany table batch c = (Ok tt, c') ->
  exists rows, table_of table c = Some rows /\
               table_of table c' = Some (rows ++ batch).
Proof.
  unfold Talon.executemany, bind, Talon.log, modify, get, put, raise, call, table_of.
  cbn [snd fst Talon.working Talon.tables].
  destruct (Talon.tables (Talon.working c) !! table) as [rows|]; [|discriminate].
  destruct (Talon.insert_rows table batch rows) as [[[]|e] rows'] eqn:Hins;
    [|discriminate].
  intros [= <-]. exists rows. split; [reflexivity|].
  cbn [Talon.working Talon.set_working Talon.tables]. rewrite lookup_insert_eq.
  rewrite (insert_rows_ok _ _ _ _ Hins). reflexivity.
Qed.

Lemma executemany_table (table t : string) (batch : list Talon.row) :
  t <> table -> Talon.keeps (table_of t) (Talon.executemany table batch).
Proof.
  intros Hne c.
  unfold Talon.executemany, bind, Talon.log, modify, get, put, raise, call, table_of.
  cbn [snd fst Talon.working Talon.tables].
  destruct (Talon.tables (Talon.working c) !! table) as [rows|]; [|reflexivity].
  destruct (Talon.insert_rows table batch rows) as [[[]|e] rows'];
    cbn [snd Talon.working Talon.set_working Talon.tables];
    rewrite lookup_insert_ne by congruence; reflexivity.
Qed.

Lemma executemany_count (table category : string) (batch : list Talon.row) :
  Talon.keeps (count_of category) (Talon.executemany table batch).
Proof.
  intros c.
  unfold Talon.executemany, bind, Talon.log, modify, get, put, raise, call, count_of.
  cbn [snd fst Talon.working Talon.tables].
  destruct (Talon.tables (Talon.working c) !! table) as [rows|]; [|reflexivity].
  destruct (Talon.insert_rows table batch rows) as [[[]|e] rows']; reflexivity.
Qed.

Lemma execute_update_table (category t : string) (n : Z) :
  Talon.keeps (table_of t) (Talon.execute_update category n).
Proof. intros c. reflexivity. Qed.

Lemma execute_update_count (category cat : string) (n : Z) :
  cat <> category -> Talon.keeps (count_of cat) (Talon.execute_update category n).
Proof.
  intros Hne c. unfold count_of, TalonRead.fetch_count, Talon.execute_update, bind,
    Talon.log, modify. cbn [snd Talon.working Talon.set_working Talon.counters].
  change (map _ (Talon.counters (Talon.working c)))
    with (set_count category n (Talon.counters (Talon.working c))).
  rewrite find_set_count.
  destruct (String.eqb_spec cat category) as [Heq | _]; [contradiction | reflexivity].
Qed.

(** An update of a category that has a row sets the count that is read. *)
Lemma execute_update_sets (category : string) (n m : Z) (c : Talon.connection) :
  count_of category c = Ok m ->
  count_of category (snd (Talon.execute_update category n c)) = Ok n.
Proof.
  unfold count_of, TalonRead.fetch_count, Talon.execute_update, bind,
    Talon.log, modify. cbn [snd Talon.working Talon.set_working Talon.counters].
  change (map _ (Talon.counters (Talon.working c)))
    with (set_count category n (Talon.counters (Talon.working c))).
  rewrite find_set_count, String.eqb_refl.
  destruct (List.find _ (Talon.counters (Talon.working c))); [|discriminate].
  reflexivity.
Qed.

Lemma execute_update_runs (category : string) (n : Z) (c : Talon.connection) :
  fst (Talon.execute_update category n c) = Ok tt.
Proof. reflexivity. Qed.

Lemma fetch_counter_run (category : string) (c : Talon.connection) :
  fetch_counter category c = (count_of category c, c).
Proof. reflexivity. Qed.

Lemma insert_or_ignore_table (table t : string) (vals : Talon.row) :
  t <> table -> Talon.keeps (table_of t) (execute_insert_or_ignore table vals).
Proof.
  intros Hne c. unfold execute_insert_or_ignore, bind, Talon.log, modify, get, put,
    raise, ret, table_of. cbn [snd fst Talon.working Talon.tables].
  destruct (Talon.tables (Talon.working c) !! table) as [rows|]; [|reflexivity].
  destruct (Talon.accepts table rows vals); [|reflexivity].
  cbn [snd Talon.working Talon.set_working Talon.tables].
  rewrite lookup_insert_ne by congruence. reflexivity.
Qed.

Lemma insert_or_ignore_count (table category : string) (vals : Talon.row) :
  Talon.keeps (count_of category) (execute_insert_or_ignore table vals).
Proof.
  intros c. unfold execute_insert_or_ignore, bind, Talon.log, modify, get, put,
    raise, ret, count_of. cbn [snd fst Talon.working Talon.tables].
  destruct (Talon.tables (Talon.working c) !! table) as [rows|]; [|reflexivity].
  destruct (Talon.accepts table rows vals); reflexivity.
Qed.

Lemma insert_or_ignore_durable (table : string) (vals : Talon.row) :
  Talon.keeps Talon.durable (execute_insert_or_ignore table vals).
Proof.
  intros c. unfold execute_insert_or_ignore, bind, Talon.log, modify, get, put,
    raise, ret. cbn [snd fst Talon.working Talon.tables].
  destruct (Talon.tables (Talon.working c) !! table) as [rows|]; [|reflexivity].
  destruct (Talon.accepts table rows vals); reflexivity.
Qed.

(** Writing exon annotations leaves alone the durable database, every
    counter and every table but [exon_annotations]. *)
Lemma add_exon_annotations_keeps {T} (proj : Talon.connection -> T)
    (exon : Edge) (exon_id : Z) (annot_name : string) :
  (forall vals, Talon.keeps proj (execute_insert_or_ignore "exon_annotations" vals)) ->
  Talon.keeps proj (add_exon_annotations_to_db exon exon_id annot_name).
Proof.
  intros Hins. unfold add_exon_annotations_to_db.
  destruct (annotations exon !! "source") as [source|]; [|apply keeps_raise].
  apply keeps_for_each. intros att.
  destruct (_ || _ || _); [apply keeps_ret|].
  destruct (annotations exon !! att); [apply Hins | apply keeps_raise].
Qed.

Section WithObjects.
Context {Gene Transcript : Type} `{GtfModules Gene Transcript}
        `{GtfObjects Gene Transcript}.

Lemma process_transcript_keeps {T} (proj : Talon.connection -> T)
    (transcript : Transcript) gene_id genome_build annot_name vertices edges :
  (forall vals, Talon.keeps proj (execute_insert_or_ignore "exon_annotations" vals)) ->
  Talon.keeps proj (process_transcript transcript gene_id genome_build annot_name
                                       vertices edges).
Proof.
  intros Hins. unfold process_transcript.
  destruct (exon_vertices _ _ _ _ _) as [[tv|e] vs']; [|apply keeps_raise].
  destruct (if String.eqb _ _ then _ else _) as [tv' exons].
  apply keeps_bind; [|intros loc; apply keeps_ret].
  apply keeps_fold_loop. intros loc [x y]. unfold edge_step.
  destruct (create_edge _ _ _ _) as [[id|e] es]; [|apply keeps_raise].
  destruct (String.eqb _ "exon"); [|apply keeps_ret].
  destruct (exons !! el_exon_index loc); [|apply keeps_raise].
  apply keeps_bind; [|intros _; apply keeps_ret].
  apply add_exon_annotations_keeps. exact Hins.
Qed.

Lemma edge_loop_allocated (n0 : Z) (exons : list Edge) (annot_name : string)
    (pairs : list (Z * Z)) (loc loc' : edge_locals) (c c' : Talon.connection) :
  Talon.fold_loop (edge_step exons annot_name) pairs loc c = (Ok loc', c') ->
  allocated_edges n0 (el_edges loc) -> allocated_edges n0 (el_edges loc').
Proof.
  revert loc c. induction pairs as [|[x y] pairs IH]; intros loc c;
    cbn [Talon.fold_loop].
  - intros [= <- _] Hes. exact Hes.
  - unfold bind at 1.
    destruct (edge_step exons annot_name loc (x, y) c) as [[loc1|e] c1] eqn:Hstep;
      [|discriminate].
    intros Hrun Hes. apply (IH loc1 c1 Hrun).
    unfold edge_step in Hstep.
    destruct (create_edge_step n0 x y (next_edge_type (el_prev_edge_type loc))
                (el_edges loc) Hes) as (id & es1 & E1 & Hes1 & _ & _).
    rewrite E1 in Hstep.
    destruct (String.eqb _ "exon").
    + destruct (exons !! el_exon_index loc) as [exon|]; [|discriminate].
      unfold bind in Hstep.
      destruct (add_exon_annotations_to_db exon id annot_name c) as [[[]|e] c2];
        [|discriminate].
      injection Hstep as <- _. exact Hes1.
    + injection Hstep as <- _. exact Hes1.
Qed.

(** A call of [process_transcript] that returns hands back allocated
    dictionaries. *)
Lemma process_transcript_allocated (n0 m0 : Z) (transcript : Transcript)
    gene_id genome_build annot_name vertices edges c path vertices' edges' c' :
  process_transcript transcript gene_id genome_build annot_name vertices edges c
    = (Ok (path, vertices', edges'), c') ->
  allocated_vertices n0 vertices -> allocated_edges m0 edges ->
  allocated_vertices n0 vertices' /\ allocated_edges m0 edges'.
Proof.
  unfold process_transcript. intros Hrun Hvs Hes.
  destruct (exon_vertices_spec n0 gene_id genome_build
              (transcript_strand transcript) (transcript_exons transcript)
              vertices Hvs) as (tv0 & vs' & Ev & Hvs' & _ & _).
  rewrite Ev in Hrun.
  destruct (if String.eqb _ _ then _ else _) as [tv exons].
  unfold bind in Hrun.
  destruct (Talon.fold_loop _ _ _ c) as [[loc'|e] c1] eqn:Hloop; [|discriminate].
  injection Hrun as _ <- <- _. split; [exact Hvs'|].
  apply (edge_loop_allocated m0 _ _ _ _ _ _ _ Hloop). exact Hes.
Qed.

(** *** add_genes *)

Lemma add_genes_loop (genes : gmap string Gene) (annot_name : string)
    (keys : list string) (loc loc' : gene_locals) :
  fold_result (add_gene_step genes annot_name) keys loc = Ok loc' ->
  List.length (gl_bulk_genes loc') =
    (List.length (gl_bulk_genes loc) + List.length keys)%nat /\
  gl_gene_counter loc' = gl_gene_counter loc + Z.of_nat (List.length keys).
Proof.
  revert loc. induction keys as [|k keys IH]; intros loc; cbn [fold_result].
  - intros [= <-]. cbn [List.length]. split; lia.
  - destruct (add_gene_step genes annot_name loc k) as [loc1|e] eqn:Hstep;
      [|discriminate].
    intros Hrun. destruct (IH loc1 Hrun) as [Hl Hc]. unfold add_gene_step in Hstep.
    destruct (genes !! k) as [gene|]; [|discriminate].
    destruct (gene_annotations gene !! "source") as [source|]; [|discriminate].
    injection Hstep as <-. cbn [gl_bulk_genes gl_gene_counter] in *.
    rewrite List.length_app in Hl. cbn [List.length] in *. split; lia.
Qed.

Lemma in_step_connection (category : string) (c : Talon.connection) :
  String.eqb category "counters" = false ->
  (in_step (Talon.working c) category <->
   exists rows, table_of category c = Some rows /\
                count_of category c = Ok (Z.of_nat (List.length rows))).
Proof.
  intros Hne. unfold in_step, Talon.count_rows, table_of, count_of. rewrite Hne.
  split.
  - intros (n & Hf & Hc).
    destruct (Talon.tables (Talon.working c) !! category) as [rows|];
      [|discriminate].
    cbn in Hc. injection Hc as <-. exists rows. split; [reflexivity | exact Hf].
  - intros (rows & -> & Hf). exists (Z.of_nat (List.length rows)).
    split; [exact Hf | reflexivity].
Qed.

Lemma in_step_kept (category : string) (c c' : Talon.connection) :
  String.eqb category "counters" = false ->
  table_of category c' = table_of category c ->
  count_of category c' = count_of category c ->
  in_step (Talon.working c) category -> in_step (Talon.working c') category.
Proof.
  intros Hne Ht Hc Hin. apply (in_step_connection category c Hne) in Hin.
  apply (in_step_connection category c' Hne). rewrite Ht, Hc. exact Hin.
Qed.

Lemma bulk_update_genes_keeps {T} (proj : Talon.connection -> T) genes counter :
  (forall batch, Talon.keeps proj (Talon.executemany "genes" batch)) ->
  (forall n, Talon.keeps proj (Talon.execute_update "genes" n)) ->
  Talon.keeps proj (bulk_update_genes genes counter).
Proof.
  intros He Hu. unfold bulk_update_genes. apply keeps_bind; [apply He|].
  intros _. apply Hu.
Qed.

Lemma add_genes_keeps {T} (proj : Talon.connection -> T)
    (genes : gmap string Gene) (annot_name : string) :
  (forall batch, Talon.keeps proj (Talon.executemany "genes" batch)) ->
  (forall batch, Talon.keeps proj (Talon.executemany "gene_annotations" batch)) ->
  (forall n, Talon.keeps proj (Talon.execute_update "genes" n)) ->
  Talon.keeps proj (add_genes genes annot_name).
Proof.
  intros He Ha Hu. unfold add_genes.
  apply keeps_bind; [intros c; reflexivity|]. intros n.
  apply keeps_bind; [apply keeps_call|]. intros loc.
  apply keeps_bind; [apply bulk_update_genes_keeps; assumption|]. intros _.
  apply keeps_bind; [apply Ha|]. intros _. apply keeps_ret.
Qed.

(** [add_genes] keeps the gene counter in step with the table [genes]. *)
Lemma add_genes_in_step (genes : gmap string Gene) (annot_name : string)
    (c c' : Talon.connection) (gene_id_map : gmap string Z) :
  add_genes genes annot_name c = (Ok gene_id_map, c') ->
  in_step (Talon.working c) "genes" -> in_step (Talon.working c') "genes".
Proof.
  intros Hrun Hin. apply (in_step_connection "genes" c eq_refl) in Hin
    as (rows & Hrows & Hcount).
  apply (in_step_connection "genes" c' eq_refl).
  unfold add_genes in Hrun. unfold bind at 1 in Hrun.
  rewrite fetch_counter_run, Hcount in Hrun. unfold bind at 1, call in Hrun.
  destruct (fold_result _ _ _) as [loc|e] eqn:Hloop; [|discriminate].
  destruct (add_genes_loop _ _ _ _ _ Hloop) as [Hlen Hcnt].
  cbn [gl_bulk_genes gl_gene_counter List.length Nat.add] in Hlen, Hcnt.
  unfold bind at 1 in Hrun. unfold bulk_update_genes in Hrun.
  unfold bind at 1 in Hrun.
  destruct (Talon.executemany "genes" (gl_bulk_genes loc) c) as [[[]|e] c1] eqn:E1;
    [|discriminate].
  destruct (executemany_ok _ _ _ _ E1) as (rows0 & Hr0 & Hr1).
  assert (rows0 = rows) by congruence. subst rows0.
  pose proof (executemany_count "genes" "genes" (gl_bulk_genes loc) c) as Hc1.
  rewrite E1 in Hc1. cbn [snd] in Hc1.
  pose proof (execute_update_sets "genes" (gl_gene_counter loc)
                (Z.of_nat (List.length rows)) c1) as Hset.
  rewrite Hc1 in Hset. specialize (Hset Hcount).
  pose proof (execute_update_table "genes" "genes" (gl_gene_counter loc) c1) as Ht2.
  destruct (Talon.execute_update "genes" (gl_gene_counter loc) c1)
    as [[[]|e] c2] eqn:E2; [|discriminate].
  cbn [snd] in Hset, Ht2. unfold bind at 1 in Hrun.
  unfold bulk_update_gene_annotations in Hrun.
  pose proof (executemany_table "gene_annotations" "genes"
                (gl_bulk_annotations loc) ltac:(discriminate) c2) as Ht3.
  pose proof (executemany_count "gene_annotations" "genes"
                (gl_bulk_annotations loc) c2) as Hc3.
  destruct (Talon.executemany "gene_annotations" (gl_bulk_annotations loc) c2)
    as [[[]|e] c3]; [|discriminate].
  cbn [snd] in Ht3, Hc3. unfold ret in Hrun. injection Hrun as _ <-.
  exists (rows ++ gl_bulk_genes loc). split; [congruence|].
  rewrite Hc3, Hset, List.length_app, Hlen, Hcnt. f_equal. lia.
Qed.

(** *** add_transcripts *)

Lemma add_transcript_step_keeps {T} (proj : Talon.connection -> T)
    (transcripts : gmap string Transcript) annot_name gene_id_map genome_build
    loc transcript_id :
  (forall vals, Talon.keeps proj (execute_insert_or_ignore "exon_annotations" vals)) ->
  Talon.keeps proj (add_transcript_step transcripts annot_name gene_id_map
                                        genome_build loc transcript_id).
Proof.
  intros Hins. unfold add_transcript_step.
  destruct (transcripts !! transcript_id) as [transcript|]; [|apply keeps_raise].
  destruct (transcript_annotations transcript !! "source"); [|apply keeps_raise].
  destruct (transcript_annotations transcript !! "gene_id"); [|apply keeps_raise].
  apply keeps_bind; [apply keeps_call|]. intros g.
  apply keeps_bind; [apply process_transcript_keeps; exact Hins|].
  intros [[path vs] es]. apply keeps_ret.
Qed.

Lemma add_transcripts_loop (v0 e0 : Z) (transcripts : gmap string Transcript)
    annot_name gene_id_map genome_build (keys : list string)
    (loc loc' : transcript_locals) (c c' : Talon.connection) :
  Talon.fold_loop (add_transcript_step transcripts annot_name gene_id_map
                                       genome_build) keys loc c = (Ok loc', c') ->
  allocated_vertices v0 (tl_vertices loc) -> allocated_edges e0 (tl_edges loc) ->
  allocated_vertices v0 (tl_vertices loc') /\ allocated_edges e0 (tl_edges loc') /\
  List.length (tl_bulk_transcripts loc') =
    (List.length (tl_bulk_transcripts loc) + List.length keys)%nat /\
  tl_counter loc' = tl_counter loc + Z.of_nat (List.length keys).
Proof.
  revert loc c. induction keys as [|k keys IH]; intros loc c; cbn [Talon.fold_loop].
  - intros [= <- _] Hvs Hes. cbn [List.length]. repeat split; try assumption; lia.
  - unfold bind at 1.
    destruct (add_transcript_step _ _ _ _ loc k c) as [[loc1|e] c1] eqn:Hstep;
      [|discriminate].
    intros Hrun Hvs Hes. unfold add_transcript_step in Hstep.
    destruct (transcripts !! k) as [transcript|]; [|discriminate].
    destruct (transcript_annotations transcript !! "source") as [source|];
      [|discriminate].
    destruct (transcript_annotations transcript !! "gene_id") as [native|];
      [|discriminate].
    unfold bind at 1, call in Hstep.
    destruct (db_gene_id_of gene_id_map native) as [g|]; [|discriminate].
    unfold bind at 1 in Hstep.
    destruct (process_transcript transcript g genome_build annot_name
                (tl_vertices loc) (tl_edges loc) c)
      as [[[[path vs] es]|e] c2] eqn:Hproc; [|discriminate].
    destruct (process_transcript_allocated v0 e0 _ _ _ _ _ _ _ _ _ _ _ Hproc Hvs Hes)
      as [Hvs1 Hes1].
    unfold ret in Hstep. injection Hstep as <- _.
    destruct (IH _ _ Hrun Hvs1 Hes1) as (Hvs' & Hes' & Hlen & Hcnt).
    cbn [tl_bulk_transcripts tl_counter] in Hlen, Hcnt.
    rewrite List.length_app in Hlen. cbn [List.length] in *.
    repeat split; try assumption; lia.
Qed.

Lemma dict_values_length {V} (d : gmap string V) :
  List.length (dict_values d) = size d.
Proof.
  unfold dict_values.
  assert (Hall : forall k, k ∈ dict_keys d -> is_Some (d !! k))
    by (intros k; apply dict_keys_elem).
  assert (Hlen : List.length (omap (fun k => d !! k) (dict_keys d)) =
                 List.length (dict_keys d)).
  { induction (dict_keys d) as [|k keys IH]; [reflexivity|].
    destruct (Hall k) as [v Hv]; [left|]. simpl. rewrite Hv. simpl.
    f_equal. apply IH. intros k' Hk'. apply Hall. right. exact Hk'. }
  rewrite Hlen, (dict_keys_perm d), length_fmap, length_map_to_list.
  reflexivity.
Qed.

Lemma dict_values_elem {V} (d : gmap string V) (v : V) :
  v ∈ dict_values d -> exists k, d !! k = Some v.
Proof.
  unfold dict_values. intros Hin. apply list_elem_of_omap in Hin as (k & _ & Hk).
  exists k. exact Hk.
Qed.

Lemma map_result_length {A B} (f : A -> result B) (l : list A) (l' : list B) :
  Talon.map_result f l = Ok l' -> List.length l' = List.length l.
Proof.
  revert l'. induction l as [|x l IH]; intros l'; cbn [Talon.map_result].
  - intros [= <-]. reflexivity.
  - destruct (f x); [|discriminate].
    destruct (Talon.map_result f l) as [ys|]; [|discriminate].
    intros [= <-]. cbn [List.length]. rewrite (IH ys eq_refl). reflexivity.
Qed.

Lemma leading_tuples_length {T} (l : list (slot T)) (tuples : list T) :
  leading_tuples l = (tuples, false) -> List.length tuples = List.length l.
Proof.
  revert tuples. induction l as [|[n|t] l IH]; intros tuples;
    cbn [leading_tuples].
  - intros [= <-]. reflexivity.
  - discriminate.
  - destruct (leading_tuples l) as [ts stopped]. intros [= <- ->].
    cbn [List.length]. rewrite (IH ts eq_refl). reflexivity.
Qed.

Lemma allocated_counter {T} (id_of : T -> Z) (key_of : T -> string) (n0 : Z)
    (d : gmap string (slot T)) :
  allocated id_of key_of n0 d ->
  exists n, d !! "counter" = Some (Counter n) /\
            Z.of_nat (size (delete "counter" d)) = n - n0.
Proof.
  intros (n & Hc & _ & _ & _ & Hsize). exists n. split; [exact Hc|].
  rewrite map_size_delete_Some by (eexists; exact Hc).
  assert (size d <> 0%nat)
    by (apply (map_size_ne_0_lookup_2 d "counter"); eexists; exact Hc).
  lia.
Qed.

Lemma bulk_update_vertices_keeps {T} (proj : Talon.connection -> T) vertices :
  (forall batch, Talon.keeps proj (Talon.executemany "vertex" batch)) ->
  (forall batch, Talon.keeps proj (Talon.executemany "location" batch)) ->
  (forall n, Talon.keeps proj (Talon.execute_update "vertex" n)) ->
  Talon.keeps proj (bulk_update_vertices vertices).
Proof.
  intros Hv Hl Hu. unfold bulk_update_vertices.
  destruct (vertices !! "counter") as [counter|]; [|apply keeps_raise].
  apply keeps_bind; [apply keeps_call|]. intros tuples.
  apply keeps_bind; [apply Hv|]. intros _.
  apply keeps_bind; [apply Hl|]. intros _.
  destruct counter; [apply Hu | apply keeps_raise].
Qed.

Lemma bulk_update_edges_keeps {T} (proj : Talon.connection -> T) edges :
  (forall batch, Talon.keeps proj (Talon.executemany "edge" batch)) ->
  (forall n, Talon.keeps proj (Talon.execute_update "edge" n)) ->
  Talon.keeps proj (bulk_update_edges edges).
Proof.
  intros He Hu. unfold bulk_update_edges.
  destruct (edges !! "counter") as [counter|]; [|apply keeps_raise].
  destruct (leading_tuples _) as [tuples stopped].
  apply keeps_bind; [apply He|]. intros _.
  apply keeps_bind; [destruct stopped; [apply keeps_raise | apply keeps_ret]|].
  intros _. destruct counter; [apply Hu | apply keeps_raise].
Qed.

Lemma bulk_update_transcripts_keeps {T} (proj : Talon.connection -> T) rows n :
  (forall batch, Talon.keeps proj (Talon.executemany "transcripts" batch)) ->
  (forall n, Talon.keeps proj (Talon.execute_update "transcripts" n)) ->
  Talon.keeps proj (bulk_update_transcripts rows n).
Proof.
  intros He Hu. unfold bulk_update_transcripts.
  apply keeps_bind; [apply He | intros _; apply Hu].
Qed.

(** Inserting a batch into the table of a category and then setting its
    counter to the old count plus the size of the batch keeps the category
    in step. *)
Lemma insert_then_update (category : string) (batch : list Talon.row) (n : Z)
    (c c1 : Talon.connection) :
  String.eqb category "counters" = false ->
  in_step (Talon.working c) category ->
  Talon.executemany category batch c = (Ok tt, c1) ->
  (forall m, count_of category c = Ok m -> n = m + Z.of_nat (List.length batch)) ->
  in_step (Talon.working (snd (Talon.execute_update category n c1))) category.
Proof.
  intros Hne Hin Hrun Hn.
  apply (in_step_connection category c Hne) in Hin as (rows & Hrows & Hcount).
  apply (in_step_connection category _ Hne).
  destruct (executemany_ok _ _ _ _ Hrun) as (rows0 & Hr0 & Hr1).
  assert (rows0 = rows) by congruence. subst rows0.
  pose proof (executemany_count category category batch c) as Hc1.
  rewrite Hrun in Hc1. cbn [snd] in Hc1.
  exists (rows ++ batch). split.
  - rewrite (execute_update_table category category n c1). exact Hr1.
  - rewrite (execute_update_sets category n (Z.of_nat (List.length rows)) c1)
      by congruence.
    rewrite (Hn _ Hcount), List.length_app. f_equal. lia.
Qed.

Lemma bulk_update_vertices_in_step (v0 : Z)
    (vertices : gmap string (slot vertex_tuple)) (c c' : Talon.connection) :
  bulk_update_vertices vertices c = (Ok tt, c') ->
  allocated_vertices v0 vertices ->
  count_of "vertex" c = Ok v0 ->
  in_step (Talon.working c) "vertex" -> in_step (Talon.working c') "vertex".
Proof.
  intros Hrun Hvs Hv0 Hin.
  destruct (allocated_counter _ _ _ _ Hvs) as (n & Hc & Hsize).
  unfold bulk_update_vertices in Hrun. rewrite Hc in Hrun.
  unfold bind at 1, call in Hrun.
  destruct (Talon.map_result tuple_of (dict_values (delete "counter" vertices)))
    as [tuples|] eqn:Htuples; [|discriminate].
  apply map_result_length in Htuples. rewrite dict_values_length in Htuples.
  unfold bind at 1 in Hrun.
  destruct (Talon.executemany "vertex" _ c) as [[[]|e] c1] eqn:E1; [|discriminate].
  unfold bind at 1 in Hrun.
  pose proof (executemany_table "location" "vertex"
                (map (fun '(vertex_id, _, genome_build, chromosome, pos, strand) =>
                        [Talon.VInt vertex_id; Talon.VStr genome_build;
                         Talon.VStr chromosome; Talon.VInt pos; Talon.VStr strand])
                     tuples) ltac:(discriminate) c1) as Ht2.
  pose proof (executemany_count "location" "vertex"
                (map (fun '(vertex_id, _, genome_build, chromosome, pos, strand) =>
                        [Talon.VInt vertex_id; Talon.VStr genome_build;
                         Talon.VStr chromosome; Talon.VInt pos; Talon.VStr strand])
                     tuples) c1) as Hc2.
  destruct (Talon.executemany "location" _ c1) as [[[]|e] c2] eqn:E2;
    [|discriminate].
  cbn [snd] in Ht2, Hc2. cbn [update_popped] in Hrun.
  destruct (executemany_ok _ _ _ _ E1) as (rows & Hr0 & Hr1).
  match type of E1 with
  | Talon.executemany _ ?b _ = _ =>
      pose proof (executemany_count "vertex" "vertex" b c) as Hc1
  end.
  rewrite E1 in Hc1. cbn [snd] in Hc1.
  apply (in_step_connection "vertex" c eq_refl) in Hin as (rows' & Hrows & Hcount).
  assert (rows' = rows) by congruence. subst rows'.
  apply (in_step_connection "vertex" c' eq_refl).
  pose proof (execute_update_sets "vertex" n v0 c2) as Hset.
  pose proof (execute_update_table "vertex" "vertex" n c2) as Ht3.
  destruct (Talon.execute_update "vertex" n c2) as [r c3]. injection Hrun as _ <-.
  cbn [snd] in Hset, Ht3. eexists. split.
  - rewrite Ht3, Ht2. exact Hr1.
  - rewrite Hset by congruence. rewrite List.length_app, List.length_map.
    f_equal. rewrite Hv0 in Hcount. injection Hcount as Hcount.
    unfold Talon.row, vertex_tuple in *. lia.
Qed.

Lemma bulk_update_edges_in_step (e0 : Z)
    (edges : gmap string (slot edge_tuple)) (c c' : Talon.connection) :
  bulk_update_edges edges c = (Ok tt, c') ->
  allocated_edges e0 edges ->
  count_of "edge" c = Ok e0 ->
  in_step (Talon.working c) "edge" -> in_step (Talon.working c') "edge".
Proof.
  intros Hrun Hes He0 Hin.
  destruct (allocated_counter _ _ _ _ Hes) as (n & Hc & Hsize).
  unfold bulk_update_edges in Hrun. rewrite Hc in Hrun.
  destruct (leading_tuples (dict_values (delete "counter" edges)))
    as [tuples stopped] eqn:Htuples.
  unfold bind at 1 in Hrun.
  destruct (Talon.executemany "edge" _ c) as [[[]|e] c1] eqn:E1; [|discriminate].
  destruct stopped; [discriminate|].
  apply leading_tuples_length in Htuples. rewrite dict_values_length in Htuples.
  unfold bind at 1, ret in Hrun. cbn [update_popped] in Hrun.
  pose proof (insert_then_update "edge" _ n c c1 eq_refl Hin E1) as Hstep.
  destruct (Talon.execute_update "edge" n c1) as [r c2]. injection Hrun as _ <-.
  apply Hstep. intros m Hm. rewrite List.length_map.
  assert (m = e0) by congruence. unfold Talon.row, edge_tuple in *. lia.
Qed.

Lemma in_step_through {A} (m : M Talon.connection A) (category : string)
    (c : Talon.connection) :
  String.eqb category "counters" = false ->
  Talon.keeps (table_of category) m -> Talon.keeps (count_of category) m ->
  in_step (Talon.working c) category ->
  in_step (Talon.working (snd (m c))) category.
Proof.
  intros Hne Ht Hc. apply in_step_kept; [exact Hne | apply Ht | apply Hc].
Qed.

Lemma add_transcripts_keeps {T} (proj : Talon.connection -> T)
    (transcripts : gmap string Transcript) annot_name gene_id_map genome_build :
  (forall vals, Talon.keeps proj (execute_insert_or_ignore "exon_annotations" vals)) ->
  (forall table batch, Talon.keeps proj (Talon.executemany table batch)) ->
  (forall category n, Talon.keeps proj (Talon.execute_update category n)) ->
  Talon.keeps proj (add_transcripts transcripts annot_name gene_id_map genome_build).
Proof.
  intros Hi He Hu. unfold add_transcripts.
  apply keeps_bind; [intros c; reflexivity|]. intros v0.
  apply keeps_bind; [intros c; reflexivity|]. intros e0.
  apply keeps_bind; [intros c; reflexivity|]. intros t0.
  apply keeps_bind.
  { apply keeps_fold_loop. intros loc k. apply add_transcript_step_keeps. exact Hi. }
  intros loc.
  apply keeps_bind; [apply bulk_update_transcripts_keeps; [apply He | apply Hu]|].
  intros _. apply keeps_bind; [apply He|]. intros _.
  apply keeps_bind;
    [apply bulk_update_vertices_keeps; [apply He | apply He | apply Hu]|].
  intros _. apply bulk_update_edges_keeps; [apply He | apply Hu].
Qed.

(** [add_genes] leaves the transcript, vertex and edge categories alone;
    [add_transcripts] leaves the gene category alone. *)
Lemma add_genes_other (genes : gmap string Gene) (annot_name category : string)
    (c : Talon.connection) :
  category = "transcripts" \/ category = "vertex" \/ category = "edge" ->
  in_step (Talon.working c) category ->
  in_step (Talon.working (snd (add_genes genes annot_name c))) category.
Proof.
  intros Hcat. apply in_step_through.
  - destruct Hcat as [-> | [-> | ->]]; reflexivity.
  - apply add_genes_keeps; intros;
      first [apply executemany_table | apply execute_update_table];
      destruct Hcat as [-> | [-> | ->]]; discriminate.
  - apply add_genes_keeps; intros;
      first [apply executemany_count | apply execute_update_count];
      destruct Hcat as [-> | [-> | ->]]; discriminate.
Qed.

Lemma add_transcripts_genes (transcripts : gmap string Transcript)
    annot_name gene_id_map genome_build (c c' : Talon.connection) :
  add_transcripts transcripts annot_name gene_id_map genome_build c = (Ok tt, c') ->
  in_step (Talon.working c) "genes" -> in_step (Talon.working c') "genes".
Proof.
  intros Hrun Hin.
  assert (Hc' : c' = snd (add_transcripts transcripts annot_name gene_id_map
                                          genome_build c))
    by (rewrite Hrun; reflexivity).
  rewrite Hc'. revert Hin. apply in_step_through; [reflexivity| |].
  - unfold add_transcripts.
    apply keeps_bind; [intros c0; reflexivity|]. intros v0.
    apply keeps_bind; [intros c0; reflexivity|]. intros e0.
    apply keeps_bind; [intros c0; reflexivity|]. intros t0.
    apply keeps_bind.
    { apply keeps_fold_loop. intros loc k. apply add_transcript_step_keeps.
      intros vals. apply insert_or_ignore_table. discriminate. }
    intros loc.
    apply keeps_bind.
    { apply bulk_update_transcripts_keeps; intros;
        [apply executemany_table; discriminate | apply execute_update_table]. }
    intros _. apply keeps_bind; [apply executemany_table; discriminate|].
    intros _. apply keeps_bind.
    { apply bulk_update_vertices_keeps; intros;
        [apply executemany_table; discriminate
        | apply executemany_table; discriminate | apply execute_update_table]. }
    intros _. apply bulk_update_edges_keeps; intros;
      [apply executemany_table; discriminate | apply execute_update_table].
  - unfold add_transcripts.
    apply keeps_bind; [intros c0; reflexivity|]. intros v0.
    apply keeps_bind; [intros c0; reflexivity|]. intros e0.
    apply keeps_bind; [intros c0; reflexivity|]. intros t0.
    apply keeps_bind.
    { apply keeps_fold_loop. intros loc k. apply add_transcript_step_keeps.
      intros vals. apply insert_or_ignore_count. }
    intros loc.
    apply keeps_bind.
    { apply bulk_update_transcripts_keeps; intros;
        [apply executemany_count | apply execute_update_count; discriminate]. }
    intros _. apply keeps_bind; [apply executemany_count|].
    intros _. apply keeps_bind.
    { apply bulk_update_vertices_keeps; intros;
        [apply executemany_count | apply executemany_count
        | apply execute_update_count; discriminate]. }
    intros _. apply bulk_update_edges_keeps; intros;
      [apply executemany_count | apply execute_update_count; discriminate].
Qed.

(** [add_transcripts] keeps the transcript, vertex and edge counters in step
    with their tables. *)
Lemma add_transcripts_in_step (transcripts : gmap string Transcript)
    annot_name gene_id_map genome_build (c c' : Talon.connection) :
  add_transcripts transcripts annot_name gene_id_map genome_build c = (Ok tt, c') ->
  in_step (Talon.working c) "transcripts" ->
  in_step (Talon.working c) "vertex" ->
  in_step (Talon.working c) "edge" ->
  in_step (Talon.working c') "transcripts" /\
  in_step (Talon.working c') "vertex" /\
  in_step (Talon.working c') "edge".
Proof.
  intros Hrun Ht Hv He. unfold add_transcripts in Hrun.
  unfold bind at 1 in Hrun. rewrite fetch_counter_run in Hrun.
  destruct (count_of "vertex" c) as [v0|] eqn:Hv0; [|discriminate].
  unfold bind at 1 in Hrun. rewrite fetch_counter_run in Hrun.
  destruct (count_of "edge" c) as [e0|] eqn:He0; [|discriminate].
  unfold bind at 1 in Hrun. rewrite fetch_counter_run in Hrun.
  destruct (count_of "transcripts" c) as [t0|] eqn:Ht0; [|discriminate].
  unfold bind at 1 in Hrun.
  set (body := add_transcript_step transcripts annot_name gene_id_map genome_build)
    in *.
  set (loc0 := mkTranscriptLocals [] [] {["counter" := Counter v0]}
                 {["counter" := Counter e0]} t0) in *.
  assert (Hkt : forall t, t <> "exon_annotations" ->
            Talon.keeps (table_of t)
              (Talon.fold_loop body (dict_keys transcripts) loc0)).
  { intros t Hne. apply keeps_fold_loop. intros loc k.
    apply add_transcript_step_keeps. intros vals.
    apply insert_or_ignore_table. exact Hne. }
  assert (Hkc : forall cat,
            Talon.keeps (count_of cat)
              (Talon.fold_loop body (dict_keys transcripts) loc0)).
  { intros cat. apply keeps_fold_loop. intros loc k.
    apply add_transcript_step_keeps. intros vals. apply insert_or_ignore_count. }
  pose proof (fun t Hne => Hkt t Hne c) as Hkt1.
  pose proof (fun cat => Hkc cat c) as Hkc1.
  destruct (Talon.fold_loop body (dict_keys transcripts) loc0 c)
    as [[loc|e] c1] eqn:Hloop; [|discriminate].
  cbn [snd] in Hkt1, Hkc1.
  destruct (add_transcripts_loop v0 e0 _ _ _ _ _ _ _ _ _ Hloop) as
    (Hvs & Hes & Hlen & Hcnt).
  { apply (allocated_start vertex_id_of vertex_key v0). }
  { apply (allocated_start edge_id_of edge_key e0). }
  cbn [loc0 tl_bulk_transcripts tl_counter List.length Nat.add] in Hlen, Hcnt.
  assert (Ht1 : in_step (Talon.working c1) "transcripts")
    by (eapply in_step_kept; [reflexivity | apply Hkt1; discriminate
                             | apply Hkc1 | exact Ht]).
  assert (Hv1 : in_step (Talon.working c1) "vertex")
    by (eapply in_step_kept; [reflexivity | apply Hkt1; discriminate
                             | apply Hkc1 | exact Hv]).
  assert (He1 : in_step (Talon.working c1) "edge")
    by (eapply in_step_kept; [reflexivity | apply Hkt1; discriminate
                             | apply Hkc1 | exact He]).
  assert (Hv01 : count_of "vertex" c1 = Ok v0) by (rewrite Hkc1; exact Hv0).
  assert (He01 : count_of "edge" c1 = Ok e0) by (rewrite Hkc1; exact He0).
  assert (Ht01 : count_of "transcripts" c1 = Ok t0) by (rewrite Hkc1; exact Ht0).
  clear Hkt Hkc Hkt1 Hkc1 Hloop Ht Hv He.
  (* bulk_update_transcripts *)
  unfold bind at 1 in Hrun. unfold bulk_update_transcripts at 1 in Hrun.
  unfold bind at 1 in Hrun.
  destruct (Talon.executemany "transcripts" (tl_bulk_transcripts loc) c1)
    as [[[]|e] c1a] eqn:E1; [|discriminate].
  pose proof (insert_then_update "transcripts" _ (tl_counter loc) c1 c1a
                eq_refl Ht1 E1) as Ht2.
  assert (Hv1a : in_step (Talon.working c1a) "vertex" /\
                 count_of "vertex" c1a = Ok v0).
  { pose proof (executemany_table "transcripts" "vertex"
                  (tl_bulk_transcripts loc) ltac:(discriminate) c1) as Ha.
    pose proof (executemany_count "transcripts" "vertex"
                  (tl_bulk_transcripts loc) c1) as Hb.
    rewrite E1 in Ha, Hb. cbn [snd] in Ha, Hb. split; [|congruence].
    eapply in_step_kept; [reflexivity | exact Ha | exact Hb | exact Hv1]. }
  assert (He1a : in_step (Talon.working c1a) "edge" /\
                 count_of "edge" c1a = Ok e0).
  { pose proof (executemany_table "transcripts" "edge"
                  (tl_bulk_transcripts loc) ltac:(discriminate) c1) as Ha.
    pose proof (executemany_count "transcripts" "edge"
                  (tl_bulk_transcripts loc) c1) as Hb.
    rewrite E1 in Ha, Hb. cbn [snd] in Ha, Hb. split; [|congruence].
    eapply in_step_kept; [reflexivity | exact Ha | exact Hb | exact He1]. }
  set (c2 := snd (Talon.execute_update "transcripts" (tl_counter loc) c1a)) in *.
  assert (Hrun2 : Talon.execute_update "transcripts" (tl_counter loc) c1a =
                  (Ok tt, c2)) by reflexivity.
  rewrite Hrun2 in Hrun.
  assert (Ht2' : in_step (Talon.working c2) "transcripts").
  { apply Ht2. intros m Hm. assert (m = t0) by congruence. subst m.
    rewrite Hcnt, Hlen. reflexivity. }
  assert (Hv2 : in_step (Talon.working c2) "vertex" /\
                count_of "vertex" c2 = Ok v0).
  { destruct Hv1a as [Ha Hb]. split.
    - subst c2. revert Ha. apply in_step_through;
        [reflexivity | apply execute_update_table
        | apply execute_update_count; discriminate].
    - subst c2. rewrite execute_update_count by discriminate. exact Hb. }
  assert (He2 : in_step (Talon.working c2) "edge" /\
                count_of "edge" c2 = Ok e0).
  { destruct He1a as [Ha Hb]. split.
    - subst c2. revert Ha. apply in_step_through;
        [reflexivity | apply execute_update_table
        | apply execute_update_count; discriminate].
    - subst c2. rewrite execute_update_count by discriminate. exact Hb. }
  clearbody c2. clear Ht2 Hv1a He1a Hrun2 E1 Ht1 Hv1 He1 Hv01 He01 Ht01.
  (* bulk_update_transcript_annotations *)
  unfold bind at 1 in Hrun. unfold bulk_update_transcript_annotations at 1 in Hrun.
  pose proof (fun t Hne => executemany_table "transcript_annotations" t
                (tl_bulk_annotations loc) Hne c2) as Ka.
  pose proof (fun cat => executemany_count "transcript_annotations" cat
                (tl_bulk_annotations loc) c2) as Kb.
  destruct (Talon.executemany "transcript_annotations" (tl_bulk_annotations loc) c2)
    as [[[]|e] c3]; [|discriminate].
  cbn [snd] in Ka, Kb.
  assert (Ht3 : in_step (Talon.working c3) "transcripts")
    by (eapply in_step_kept; [reflexivity | apply Ka; discriminate | apply Kb
                             | exact Ht2']).
  assert (Hv3 : in_step (Talon.working c3) "vertex")
    by (eapply in_step_kept; [reflexivity | apply Ka; discriminate | apply Kb
                             | apply Hv2]).
  assert (He3 : in_step (Talon.working c3) "edge")
    by (eapply in_step_kept; [reflexivity | apply Ka; discriminate | apply Kb
                             | apply He2]).
  assert (Hv03 : count_of "vertex" c3 = Ok v0) by (rewrite Kb; apply Hv2).
  assert (He03 : count_of "edge" c3 = Ok e0) by (rewrite Kb; apply He2).
  clear Ka Kb Ht2' Hv2 He2.
  (* bulk_update_vertices *)
  unfold bind at 1 in Hrun.
  pose proof (fun t (Hne1 : t <> "vertex") (Hne2 : t <> "location") =>
                bulk_update_vertices_keeps (table_of t) (tl_vertices loc)
                  (fun batch => executemany_table "vertex" t batch Hne1)
                  (fun batch => executemany_table "location" t batch Hne2)
                  (fun n => execute_update_table "vertex" t n) c3) as Ka.
  pose proof (fun cat (Hne : cat <> "vertex") =>
                bulk_update_vertices_keeps (count_of cat) (tl_vertices loc)
                  (fun batch => executemany_count "vertex" cat batch)
                  (fun batch => executemany_count "location" cat batch)
                  (fun n => execute_update_count "vertex" cat n Hne) c3) as Kb.
  destruct (bulk_update_vertices (tl_vertices loc) c3) as [[[]|e] c4] eqn:E4;
    [|discriminate].
  cbn [snd] in Ka, Kb.
  pose proof (bulk_update_vertices_in_step v0 _ _ _ E4 Hvs Hv03 Hv3) as Hv4.
  assert (Ht4 : in_step (Talon.working c4) "transcripts")
    by (eapply in_step_kept;
          [reflexivity | apply Ka; discriminate | apply Kb; discriminate
          | exact Ht3]).
  assert (He4 : in_step (Talon.working c4) "edge")
    by (eapply in_step_kept;
          [reflexivity | apply Ka; discriminate | apply Kb; discriminate
          | exact He3]).
  assert (He04 : count_of "edge" c4 = Ok e0)
    by (rewrite Kb by discriminate; exact He03).
  clear Ka Kb.
  (* bulk_update_edges *)
  pose proof (fun t (Hne : t <> "edge") =>
                bulk_update_edges_keeps (table_of t) (tl_edges loc)
                  (fun batch => executemany_table "edge" t batch Hne)
                  (fun n => execute_update_table "edge" t n) c4) as Ka.
  pose proof (fun cat (Hne : cat <> "edge") =>
                bulk_update_edges_keeps (count_of cat) (tl_edges loc)
                  (fun batch => executemany_count "edge" cat batch)
                  (fun n => execute_update_count "edge" cat n Hne) c4) as Kb.
  rewrite Hrun in Ka, Kb. cbn [snd] in Ka, Kb.
  split; [|split].
  - eapply in_step_kept;
      [reflexivity | apply Ka; discriminate | apply Kb; discriminate | exact Ht4].
  - eapply in_step_kept;
      [reflexivity | apply Ka; discriminate | apply Kb; discriminate | exact Hv4].
  - exact (bulk_update_edges_in_step e0 _ _ _ Hrun Hes He04 He4).
Qed.

(** *** populate_db *)

Lemma add_genes_durable (genes : gmap string Gene) (annot_name : string) :
  Talon.keeps Talon.durable (add_genes genes annot_name).
Proof.
  apply add_genes_keeps; intros;
    first [apply executemany_durable | apply execute_update_durable].
Qed.

Lemma add_transcripts_durable (transcripts : gmap string Transcript)
    annot_name gene_id_map genome_build :
  Talon.keeps Talon.durable
    (add_transcripts transcripts annot_name gene_id_map genome_build).
Proof.
  apply add_transcripts_keeps; intros;
    first [apply insert_or_ignore_durable | apply executemany_durable
          | apply execute_update_durable].
Qed.

Lemma populate_chromosome_in_step (annot_name : string)
    (chrom_genes : gmap string (gmap string Gene))
    (chrom_transcripts : gmap string (gmap string Transcript))
    (genome_build chromosome : string) (c c' : Talon.connection)
    (r : result unit) :
  populate_chromosome annot_name chrom_genes chrom_transcripts genome_build
                      chromosome c = (r, c') ->
  Talon.working c = Talon.durable c ->
  all_in_step (Talon.durable c) ->
  all_in_step (Talon.durable c') /\
  (r = Ok tt -> Talon.working c' = Talon.durable c').
Proof.
  intros Hrun Hwd Hall. unfold populate_chromosome in Hrun.
  destruct (chrom_genes !! chromosome) as [genes|].
  2:{ injection Hrun as <- <-. split; [exact Hall | discriminate]. }
  destruct (chrom_transcripts !! chromosome) as [transcripts|].
  2:{ injection Hrun as <- <-. split; [exact Hall | discriminate]. }
  unfold bind at 1 in Hrun.
  pose proof (add_genes_durable genes annot_name c) as Hd1.
  pose proof (fun cat Hcat => add_genes_other genes annot_name cat c Hcat) as Ho1.
  destruct (add_genes genes annot_name c) as [[gene_id_map|e] c1] eqn:Eg;
    cbn [snd] in Hd1, Ho1.
  2:{ injection Hrun as <- <-. rewrite Hd1. split; [exact Hall | discriminate]. }
  unfold bind at 1 in Hrun.
  pose proof (add_transcripts_durable transcripts annot_name gene_id_map
                genome_build c1) as Hd2.
  destruct (add_transcripts transcripts annot_name gene_id_map genome_build c1)
    as [[[]|e] c2] eqn:Et; cbn [snd] in Hd2.
  2:{ injection Hrun as <- <-. rewrite Hd2, Hd1.
      split; [exact Hall | discriminate]. }
  rewrite commit_conn in Hrun. injection Hrun as <- <-.
  cbn [Talon.durable Talon.working].
  split; [|reflexivity].
  rewrite <- Hwd in Hall.
  assert (Hg : in_step (Talon.working c1) "genes").
  { apply (add_genes_in_step _ _ _ _ _ Eg). apply Hall. set_solver. }
  destruct (add_transcripts_in_step _ _ _ _ _ _ Et) as (Ht2 & Hv2 & He2).
  { apply Ho1; [left; reflexivity|]. apply Hall. set_solver. }
  { apply Ho1; [right; left; reflexivity|]. apply Hall. set_solver. }
  { apply Ho1; [right; right; reflexivity|]. apply Hall. set_solver. }
  pose proof (add_transcripts_genes _ _ _ _ _ _ Et Hg) as Hg2.
  intros cat Hcat. unfold counted_categories in Hcat.
  repeat (apply elem_of_cons in Hcat as [-> | Hcat]; [assumption|]).
  apply elem_of_nil in Hcat. contradiction.
Qed.

(** X16. [populate_db] keeps the counters in step with the tables. When the
    counters of genes, transcripts, vertex and edge of a database each equal
    the number of rows of the table of the same name, the same holds of the
    database that is durable after [populate_db], whether the call returned
    or raised: every chromosome is committed whole, with as many new rows as
    its counters moved, or not at all. A call that returns has left nothing
    uncommitted. *)
Theorem populate_db_keeps_counters_in_step (db : Talon.database)
    (annot_name : string) (chrom_genes : gmap string (gmap string Gene))
    (chrom_transcripts : gmap string (gmap string Transcript))
    (genome_build : string) :
  (forall category,
     category ∈ ["genes"; "transcripts"; "vertex"; "edge"] ->
     in_step db category) ->
  let out := populate_db db annot_name chrom_genes chrom_transcripts
                         genome_build in
  (forall category,
     category ∈ ["genes"; "transcripts"; "vertex"; "edge"] ->
     in_step (Talon.durable (snd out)) category) /\
  (fst out = Ok tt -> Talon.working (snd out) = Talon.durable (snd out)).
Proof.
  intros Hall. unfold populate_db.
  assert (Hgen : forall l c,
    Talon.working c = Talon.durable c -> all_in_step (Talon.durable c) ->
    let out := for_each (populate_chromosome annot_name chrom_genes
                           chrom_transcripts genome_build) l c in
    all_in_step (Talon.durable (snd out)) /\
    (fst out = Ok tt -> Talon.working (snd out) = Talon.durable (snd out))).
  { induction l as [|chromosome l IH]; intros c Hwd Hc; cbn [for_each].
    - split; [exact Hc | intros _; exact Hwd].
    - unfold bind.
      destruct (populate_chromosome annot_name chrom_genes chrom_transcripts
                  genome_build chromosome c) as [r c1] eqn:Hrun.
      destruct (populate_chromosome_in_step _ _ _ _ _ _ _ _ Hrun Hwd Hc)
        as [Hstep Hret].
      destruct r as [[]|e]; cbn [fst snd].
      + apply IH; [apply Hret; reflexivity | exact Hstep].
      + split; [exact Hstep | discriminate]. }
  apply (Hgen (dict_keys chrom_genes) (Talon.connect db)); [reflexivity|].
  exact Hall.
Qed.

(** X17. [populate_db] needs a group of transcripts for every chromosome that
    has a group of genes: when some chromosome of [chrom_genes] is missing
    from [chrom_transcripts], the call does not return normally, whatever
    the order in which the chromosomes are gone through. *)
Theorem populate_db_needs_transcript_groups (db : Talon.database)
    (annot_name : string) (chrom_genes : gmap string (gmap string Gene))
    (chrom_transcripts : gmap string (gmap string Transcript))
    (genome_build chromosome : string) :
  is_Some (chrom_genes !! chromosome) ->
  chrom_transcripts !! chromosome = None ->
  is_ok (fst (populate_db db annot_name chrom_genes chrom_transcripts
                          genome_build)) = false.
Proof.
  intros Hgenes Hnone. unfold populate_db.
  assert (Hin : chromosome ∈ dict_keys chrom_genes)
    by (apply dict_keys_elem; exact Hgenes).
  generalize (Talon.connect db).
  induction (dict_keys chrom_genes) as [|k keys IH]; intros c.
  - apply elem_of_nil in Hin. contradiction.
  - cbn [for_each]. unfold bind.
    destruct (decide (k = chromosome)) as [-> | Hne].
    + unfold populate_chromosome at 1. destruct Hgenes as [genes ->].
      rewrite Hnone. reflexivity.
    + destruct (populate_chromosome annot_name chrom_genes chrom_transcripts
                  genome_build k c) as [[[]|e] c1]; [|reflexivity].
      apply IH. apply elem_of_cons in Hin as [-> | Hin]; [congruence | exact Hin].
Qed.

End WithObjects.
End WithStore.
End PopulateProps.

Module GtfLinesProps.
Import InitDb GtfLines.

Section WithModules.
Context {Gene Transcript : Type} `{GtfModules Gene Transcript}.

Lemma gtf_step_not_read (line : gtf_line) (st : gtf_state) :
  is_read line = false -> gtf_step line st = (Ok tt, st).
Proof.
  destruct line as [|f]; [reflexivity|]. cbn [is_read gtf_step].
  destruct (f !! 2%nat) as [ty|]; [|discriminate].
  intros Hty. apply bool_decide_eq_false in Hty.
  destruct (String.eqb ty "gene") eqn:E1.
  { apply String.eqb_eq in E1. subst ty. exfalso. apply Hty.
    unfold entry_types. set_solver. }
  destruct (String.eqb ty "transcript") eqn:E2.
  { apply String.eqb_eq in E2. subst ty. exfalso. apply Hty.
    unfold entry_types. set_solver. }
  destruct (String.eqb ty "exon") eqn:E3.
  { apply String.eqb_eq in E3. subst ty. exfalso. apply Hty.
    unfold entry_types. set_solver. }
  reflexivity.
Qed.

Lemma for_each_is_read (lines : list gtf_line) (st : gtf_state) :
  for_each gtf_step lines st = for_each gtf_step (List.filter is_read lines) st.
Proof.
  revert st. induction lines as [|line lines IH]; intros st; [reflexivity|].
  cbn [List.filter for_each]. destruct (is_read line) eqn:Hr.
  - cbn [for_each]. unfold bind.
    destruct (gtf_step line st) as [[[]|e] st1]; [apply IH | reflexivity].
  - unfold bind. rewrite (gtf_step_not_read line st Hr). apply IH.
Qed.

Lemma for_each_gtf_app (pre post : list gtf_line) (st : gtf_state) :
  for_each gtf_step (pre ++ post) st =
    match for_each gtf_step pre st with
    | (Ok _, st1) => for_each gtf_step post st1
    | (Raise e, st1) => (Raise e, st1)
    end.
Proof.
  revert st. induction pre as [|line pre IH]; intros st; [reflexivity|].
  cbn [app for_each]. unfold bind.
  destruct (gtf_step line st) as [[[]|e] st1]; [apply IH | reflexivity].
Qed.

(** X18. [read_gtf_file] acts only on gene, transcript and exon entries:
    header lines and entries of any other type (CDS, UTR, start_codon, ...)
    change nothing, so the file read with them equals the file read without
    them. A line that is not a header and has fewer than three fields stops
    the read with an IndexError, whatever was read before and whatever
    follows. *)
Theorem read_gtf_file_reads_three_entry_types (lines : list gtf_line) :
  read_gtf_file lines = read_gtf_file (List.filter is_read lines) /\
  (forall pre tab_fields post st,
     lines = pre ++ Fields tab_fields :: post ->
     read_gtf_file pre = Ok st ->
     (List.length tab_fields < 3)%nat ->
     read_gtf_file lines = Raise IndexError).
Proof.
  split.
  - unfold read_gtf_file. rewrite for_each_is_read. reflexivity.
  - intros pre f post st -> Hpre Hlen. unfold read_gtf_file in *.
    rewrite for_each_gtf_app.
    destruct (for_each gtf_step pre (mkGtf ∅ ∅ ∅)) as [[[]|e] st1];
      [|discriminate].
    cbn [for_each]. unfold bind. cbn [gtf_step].
    rewrite (lookup_ge_None_2 f 2) by lia. reflexivity.
Qed.

End WithModules.
End GtfLinesProps.

(** ** archived/talon.py: the batches of [update_database] *)

Module BatchProps.
Import Talon.

Lemma slices_cover {A} (rows : list A) (bs fuel index : nat) :
  (0 < bs)%nat -> (List.length rows - index <= fuel)%nat ->
  concat (map (fun i => slice i bs rows)
              (indices_from fuel index bs (List.length rows))) =
    skipn index rows.
Proof.
  intros Hbs. revert index.
  induction fuel as [|fuel IH]; intros index Hfuel; cbn [indices_from].
  - cbn [map concat]. symmetry. apply skipn_all2. lia.
  - destruct (index <? List.length rows)%nat eqn:Hlt.
    + cbn [map concat]. rewrite IH by (apply Nat.ltb_lt in Hlt; lia).
      unfold slice. rewrite (Nat.add_comm index bs), <- List.skipn_skipn.
      apply List.firstn_skipn.
    + apply Nat.ltb_ge in Hlt. cbn [map concat]. symmetry.
      apply skipn_all2. exact Hlt.
Qed.

Lemma slices_bounded {A} (rows : list A) (bs fuel index : nat) :
  (0 < bs)%nat ->
  Forall (fun batch : list A => batch <> [] /\ (List.length batch <= bs)%nat)
         (map (fun i => slice i bs rows)
              (indices_from fuel index bs (List.length rows))).
Proof.
  intros Hbs. revert index.
  induction fuel as [|fuel IH]; intros index; cbn [indices_from];
    [constructor|].
  destruct (index <? List.length rows)%nat eqn:Hlt; [|constructor].
  apply Nat.ltb_lt in Hlt. cbn [map]. constructor; [|apply IH].
  unfold slice. split.
  - intros Hnil. apply (f_equal (@List.length A)) in Hnil.
    rewrite List.length_firstn, List.length_skipn in Hnil.
    cbn [List.length] in Hnil. lia.
  - rewrite List.length_firstn. lia.
Qed.

Lemma for_each_map {S A B} (f : A -> B) (body : B -> M S unit) (l : list A)
    (s : S) :
  for_each (fun x => body (f x)) l s = for_each body (map f l) s.
Proof.
  revert s. induction l as [|x l IH]; intros s; [reflexivity|].
  cbn [map for_each]. unfold bind.
  destruct (body (f x) s) as [[[]|e] s1]; [apply IH | reflexivity].
Qed.

(** X19. With a positive [batch_size], the [while] loop of the batch
    functions of [update_database] hands its body consecutive batches that,
    put end to end, are exactly the rows: every row is sent once, in order.
    No batch is empty and none has more than [batch_size] rows. *)
Theorem batch_loop_sends_every_row_once {A} (rows : list A) (batch_size : Z)
    (body : list A -> M connection unit) :
  0 < batch_size ->
  exists batches,
    (forall c,
       batch_loop batch_size (List.length rows)
         (fun index => body (slice index (Z.to_nat batch_size) rows)) c =
       for_each body batches c) /\
    concat batches = rows /\
    Forall (fun batch => batch <> [] /\
                         Z.of_nat (List.length batch) <= batch_size) batches.
Proof.
  intros Hpos.
  assert (Hbs : (0 < Z.to_nat batch_size)%nat) by lia.
  exists (match rows with
          | [] => []
          | _ => map (fun i => slice i (Z.to_nat batch_size) rows)
                     (indices_from (List.length rows) 0 (Z.to_nat batch_size)
                                   (List.length rows))
          end).
  destruct rows as [|r rows]; [repeat split; constructor|].
  set (l := r :: rows). split; [|split].
  - intros c. unfold batch_loop, loop_indices, bind, call.
    cbn [List.length Nat.eqb]. fold l.
    destruct (batch_size <=? 0) eqn:Hle; [apply Z.leb_le in Hle; lia|].
    apply for_each_map.
  - rewrite (slices_cover l _ _ 0 Hbs) by lia. reflexivity.
  - eapply Forall_impl; [apply (slices_bounded l _ _ 0 Hbs)|].
    intros batch [Hne Hlen]. split; [exact Hne | lia].
Qed.

End BatchProps.

(** ** The theorems at concrete inputs *)

Module Witnesses.
Import Talon Demo.

Lemma create_twice_idempotent_witness :
  let vs : gmap string (InitDb.slot InitDb.vertex_tuple) := {["counter" := InitDb.Counter 41]} in
  let '(r1, vs1) := InitDb.create_vertex (InitDb.GeneId 7) "hg38" "chr1" 100 "+" vs in
  let '(r2, vs2) := InitDb.create_vertex (InitDb.GeneId 7) "hg38" "chr1" 100 "+" vs1 in
  r1 = Ok 42 /\ r2 = Ok 42 /\
  InitDb.read_counter vs1 = Ok 42 /\ InitDb.read_counter vs2 = Ok 42 /\
  vs2 = vs1 /\
  forall calls,
    fst (InitDb.create_vertex (InitDb.GeneId 7) "hg38" "chr1" 100 "+"
           (InitDb.create_vertices calls vs1)) = Ok 42.
Proof.
  apply (proj1 InitDbProps.create_twice_idempotent (InitDb.GeneId 7) "hg38" "chr1" 100 "+"
           {["counter" := InitDb.Counter 41]} 41).
  - reflexivity.
  - vm_compute. reflexivity.
Defined.

Lemma read_gtf_file_later_exon_wins_witness :
  InitDb.read_gtf_file two_exon_lines = Ok two_exon_result /\
  InitDb.transcript_ids <$> (InitDb.exons two_exon_result !! "E1") = Some {["T2"]}.
Proof.
  assert (Hrun : InitDb.read_gtf_file two_exon_lines = Ok two_exon_result)
    by (vm_compute; reflexivity).
  split; [exact Hrun|].
  refine (proj2 (proj2 (proj2 (proj2
    (ReadGtfProps.read_gtf_file_later_exon_wins [] [] []
       (exon_line "E1" "T1") (exon_line "E1" "T2")
       (InitDb.mkEdge "E1" "chr1" 0 0 {["T1"]} {["gene_id" := "G1"]})
       (InitDb.mkEdge "E1" "chr1" 0 0 {["T2"]} {["gene_id" := "G1"]})
       two_exon_result _ _ _ _ _ _ _))))); first [reflexivity | constructor].
Defined.

(** C10, as stated, fails on the code: the branch that adds a transcript
    identifier to a stored exon is not unreachable, it runs at every exon
    entry. Below, exon E1 is first read for transcript T1, then for T2. At
    the second entry the edge built for T2 is stored under E1 (line 506)
    before the test of line 511, so the test [not in] is false and the
    [else] block of lines 514-517 runs: it fetches the edge of T2 that was
    just stored, not the edge of T1, and adds T2 to it, which changes
    nothing. The dictionary ends with E1 used by T2 alone. *)
Lemma merge_branch_runs_on_second_exon_entry :
  let e1 := InitDb.mkEdge "E1" "chr1" 0 0 {["T1"]} {["gene_id" := "G1"]} in
  let e2 := InitDb.mkEdge "E1" "chr1" 0 0 {["T2"]} {["gene_id" := "G1"]} in
  let st1 := snd (InitDb.gtf_step (InitDb.Fields (exon_line "E1" "T1"))
                                  (InitDb.mkGtf ∅ ∅ ∅)) in
  let at_test := InitDb.set_exons (<["E1" := e2]> (InitDb.exons st1)) st1 in
  InitDb.exons st1 !! "E1" = Some e1 /\
  InitDb.create_edge_from_gtf (exon_line "E1" "T2") = Ok e2 /\
  InitDb.identifier e2 = "E1" /\
  InitDb.not_in "E1" (InitDb.exons at_test) = false /\
  InitDb.exons at_test !! "E1" = Some e2 /\
  InitDb.first_of_set (InitDb.transcript_ids e2) = Ok "T2" /\
  InitDb.add_transcript_id "T2" e2 = e2 /\
  InitDb.gtf_step (InitDb.Fields (exon_line "E1" "T2")) st1 = (Ok tt, at_test) /\
  InitDb.transcript_ids <$> (InitDb.exons at_test !! "E1") = Some {["T2"]}.
Proof. vm_compute. repeat split. Qed.

(** C4, as stated, fails on the code. The read below has one exon, no full
    and no partial match, and lies inside the known gene 7: the overlap
    search of the Gene Locus Index finds gene 7 for it. The code does not
    search: it mints gene 8 and moves the gene counter from 7 to 8. *)
Lemma single_exon_read_skips_overlap_search :
  let out := identify_one "d1" overlapping_read known_state in
  sam_n_exons overlapping_read = 1 /\
  snd (fst (fst (find_transcript_match overlapping_read (transcripts known_state)
                   (exon_tree known_state) (intron_tree known_state)))) = "none" /\
  find_gene_by_overlap (gene_tree known_state) "chr1" 120 180 "+" = Some 7 /\
  match fst out with
  | Ok sam' => sam_gene_ID sam' = Some 8 /\ sam_gene_ID sam' <> Some 7
  | Raise _ => False
  end /\
  c_genes (counter known_state) = 7 /\
  c_genes (counter (snd out)) = 8.
Proof. vm_compute. repeat split. discriminate. Qed.


Lemma update_database_commits_iff_consistent_witness :
  fst (update_database empty_db three_genes empty_novel_ids [] 10000 "hg38")
    = Raise (ValueError "Database counter for 'genes' does not match the number of entries in the table. Discarding changes to database and exiting...") /\
  durable (snd (update_database empty_db three_genes empty_novel_ids [] 10000 "hg38"))
    = empty_db.
Proof.
  pose proof (UpdateProps.update_database_commits_iff_consistent
                empty_db three_genes empty_novel_ids [] 10000 "hg38") as W.
  cbv zeta in W. destruct W as (_ & _ & _ & _ & Hkeep & Hname).
  assert (Hraise :
    fst (update_database empty_db three_genes empty_novel_ids [] 10000 "hg38")
      = Raise (ValueError "Database counter for 'genes' does not match the number of entries in the table. Discarding changes to database and exiting...")).
  { apply (Hname [] "genes" 3 0
             [("transcripts", 0); ("vertex", 0); ("edge", 0); ("dataset", 0);
              ("observed", 0)]).
    - vm_compute. reflexivity.
    - vm_compute. reflexivity.
    - intros category count [].
    - right. split; [discriminate|]. exists [].
      split; [vm_compute; reflexivity | reflexivity].
    - lia. }
  split; [exact Hraise|]. apply Hkeep. rewrite Hraise. discriminate.
Defined.

Lemma update_database_statement_order_witness :
  fst demo_update = Ok tt /\
  map phase (issued (snd demo_update)) =
    [0; 0; 1; 1; 2; 2; 3; 3; 3; 3; 4; 4; 5; 6; 6; 6; 6; 6; 6; 7; 8; 8; 8; 8; 8; 8; 8; 9]%nat /\
  last (issued (snd demo_update)) = Some Commit /\
  StronglySorted by_phase (issued (snd demo_update)).
Proof.
  pose proof (UpdateProps.update_database_statement_order
                empty_db (counter demo_run) (novel_ids demo_run)
                (abundance demo_run) 2 "hg38") as W.
  cbv zeta in W. destruct W as (Hsorted & _).
  split; [vm_compute; reflexivity|]. split; [vm_compute; reflexivity|].
  split; [vm_compute; reflexivity|]. exact Hsorted.
Defined.

Lemma assign_gene_cases_witness :
  sam_n_exons overlapping_read = 1 /\
  fst (assign_gene overlapping_read NoneString "d1" known_state)
    = Ok (set_sam_gene_ID (Some 8) overlapping_read) /\
  c_genes (counter (snd (assign_gene overlapping_read NoneString "d1" known_state))) = 8 /\
  genes (gene_tree (snd (assign_gene overlapping_read NoneString "d1" known_state))) !! 8
    = Some (mkGene 8 "chr1" 120 180 "+").
Proof.
  pose proof (MatchProps.assign_gene_cases overlapping_read NoneString "d1"
                known_state) as W.
  cbv zeta in W. destruct W as (_ & Hmint & _ & _).
  destruct (Hmint eq_refl eq_refl) as (Heq & Hc & Hg).
  rewrite Heq. split; [reflexivity|]. split; [reflexivity|].
  split; [exact Hc | exact Hg].
Defined.




Lemma identify_one_records_one_observation_witness :
  exists sam2 st2 d5 d3,
    identify_one "d1" minus_read empty_state = (Ok sam2, st2) /\
    c_observed (counter st2) = 1 /\
    n_observed (novel_ids st2) =
      [(VStr "1",
        [VStr "1"; opt_value (t_gene_id minus_annot);
         VInt (t_identifier minus_annot); VStr (sam_identifier sam2); VStr "d1";
         VInt 2; VInt 1; VInt d5; VInt d3; VInt (get_length sam2)])].
Proof.
  destruct (ObservationProps.identify_one_records_one_observation "d1"
              minus_read minus_sam minus_annot empty_state (snd minus_resolved)
              (mkVertex 1 "chr2" 5000 "-" (Some 1))
              (mkVertex 2 "chr2" 6000 "-" (Some 1)))
    as (sam2 & st2 & d5 & d3 & row & Hrun & Hc & Hrow & _ & _ & Hminus & _).
  - intros k [].
  - vm_compute. reflexivity.
  - vm_compute. reflexivity.
  - vm_compute. reflexivity.
  - right. reflexivity.
  - exists sam2, st2, d5, d3. split; [exact Hrun|]. split; [exact Hc|].
    rewrite Hrow, (Hminus eq_refl). reflexivity.
Defined.

Lemma identify_sam_transcripts_abundance_witness :
  thousand_run = (Ok thousand_out, snd thousand_run) /\
  abundance_count 1 "d1" (abundance (snd thousand_run)) = 1000 /\
  c_genes (counter (snd thousand_run)) = 1 /\
  c_transcripts (counter (snd thousand_run)) = 1.
Proof.
  assert (Hrun : thousand_run = (Ok thousand_out, snd thousand_run))
    by (vm_compute; reflexivity).
  split; [exact Hrun|].
  destruct (ObservationProps.identify_sam_transcripts_abundance "d1"
              thousand_reads thousand_out empty_state (snd thousand_run) Hrun)
    as (_ & Hcount & _).
  split; [|split; vm_compute; reflexivity].
  rewrite (Hcount 1 "d1"). vm_compute. reflexivity.
Defined.

End Witnesses.

(** ** The further properties at concrete inputs *)

Module ExampleWitnesses.
Import Demo Examples.

Lemma get_transcript_from_gtf_reads_attributes_witness :
  TranscriptGtf.get_transcript_from_gtf int transcript_entry =
    Ok (TranscriptPy.mkTranscript "chr1" 12010 13670 "+" [] "T1" (Some "N1")
                                  (Some "G1")) /\
  (forall tr,
     TranscriptGtf.get_transcript_from_gtf int transcript_entry = Ok tr ->
     TranscriptPy.identifier tr = "T1" /\
     TranscriptPy.name tr = Some "N1" /\
     TranscriptPy.chromosome tr = "chr1" /\
     TranscriptPy.start tr = 12010 /\
     TranscriptPy.end_ tr = 13670 /\
     TranscriptPy.strand tr = "+" /\
     TranscriptPy.gene_id tr = Some "G1" /\
     TranscriptPy.exons tr = []).
Proof.
  apply (TranscriptGtfProps.get_transcript_from_gtf_reads_attributes int
           transcript_entry "chr1" transcript_description "12010" "13670" "+"
           "T1" 12010 13670 (Some "N1") (Some "G1")).
  - reflexivity.
  - reflexivity.
  - reflexivity.
  - reflexivity.
  - reflexivity.
  - reflexivity.
  - reflexivity.
  - exists before_transcript_id, after_transcript_id.
    repeat split; vm_compute; reflexivity.
  - exists (before_transcript_id +:+ "transcript_id " +:+ quoted "T1" +:+ "; "),
           ";".
    repeat split; vm_compute; reflexivity.
  - exists "", ("; transcript_id " +:+ quoted "T1" +:+ after_transcript_id).
    repeat split; vm_compute; reflexivity.
Defined.

Lemma get_transcript_from_gtf_rejects_witness :
  is_ok (TranscriptGtf.get_transcript_from_gtf int short_entry) = false /\
  TranscriptGtf.get_transcript_from_gtf int anonymous_entry =
    Raise (ValueError "GTF entry lacks a transcript_id field").
Proof.
  split.
  - apply (proj1 (TranscriptGtfProps.get_transcript_from_gtf_rejects int
                    short_entry)).
    cbn. lia.
  - apply (proj2 (TranscriptGtfProps.get_transcript_from_gtf_rejects int
                    anonymous_entry) gene_only_description 12010 13670).
    + cbn. lia.
    + reflexivity.
    + reflexivity.
    + reflexivity.
    + vm_compute. reflexivity.
Defined.

Lemma add_exon_from_gtf_checks_owner_witness :
  TranscriptGtf.add_exon_from_gtf int exon_entry transcript_T1 =
    TranscriptPy.add_exon 12010 12057 transcript_T1 /\
  TranscriptGtf.add_exon_from_gtf int exon_entry transcript_T2 =
    (Raise (ValueError "Transcript ID assigned to exon does not match transcript it is being assigned to (T1 != T2)"),
     transcript_T2).
Proof.
  assert (Hgives : TranscriptGtf.gives "transcript_id" transcript_description "T1").
  { exists before_transcript_id, after_transcript_id.
    repeat split; vm_compute; reflexivity. }
  split.
  - apply (proj1 (TranscriptGtfProps.add_exon_from_gtf_checks_owner int
                    exon_entry transcript_T1) transcript_description "T1"
             12010 12057); [reflexivity | reflexivity | reflexivity | exact Hgives].
  - apply (proj1 (TranscriptGtfProps.add_exon_from_gtf_checks_owner int
                    exon_entry transcript_T2) transcript_description "T1"
             12010 12057); [reflexivity | reflexivity | reflexivity | exact Hgives].
Defined.

Lemma get_annotation_status_dict_known_is_final_witness :
  exists d,
    TalonRead.get_annotation_status_dict annotated_db "gene" = Ok d /\
    forall ID,
      d !! ID =
        TalonRead.status_entry <$>
          TalonRead.deciding_row
            (TalonRead.rows_of ID
               (TalonRead.status_rows "gene" gene_annotation_rows)).
Proof.
  apply (SummaryProps.get_annotation_status_dict_known_is_final annotated_db
           "gene" gene_annotation_rows).
  - vm_compute. reflexivity.
  - repeat constructor.
Defined.

Lemma get_transcript_info_reports_status_witness :
  exists gene_status transcript_status,
    TalonRead.get_annotation_status_dict annotated_db "gene" = Ok gene_status /\
    TalonRead.get_annotation_status_dict annotated_db "transcript" =
      Ok transcript_status /\
    forall transcript_ID gene_ID,
      TalonRead.get_transcript_info transcript_ID gene_ID gene_status
                                    transcript_status =
        TalonRead.status_or_na
          (TalonRead.rows_of gene_ID
             (TalonRead.status_rows "gene" gene_annotation_rows)) ++
        TalonRead.status_or_na
          (TalonRead.rows_of transcript_ID
             (TalonRead.status_rows "transcript" transcript_annotation_rows)).
Proof.
  apply (SummaryProps.get_transcript_info_reports_status annotated_db
           gene_annotation_rows transcript_annotation_rows).
  - vm_compute. reflexivity.
  - vm_compute. reflexivity.
  - repeat constructor.
  - repeat constructor.
Defined.

Lemma example_transcripts_lookup (id : string) (t : transcript) :
  example_transcripts !! id = Some t ->
  (id = "T1" /\ t = long_T1) \/ (id = "T2" /\ t = short_T2).
Proof.
  unfold example_transcripts. intros Hl.
  apply lookup_insert_Some in Hl as [[<- <-] | [_ Hl]]; [left; split; reflexivity|].
  apply lookup_singleton_Some in Hl as [<- <-]. right. split; reflexivity.
Qed.

Lemma example_genes_lookup (g : string) (x : gene) :
  example_genes !! g = Some x ->
  (g = "G1" /\ x = gene_G1) \/ (g = "G2" /\ x = gene_G2).
Proof.
  unfold example_genes. intros Hl.
  apply lookup_insert_Some in Hl as [[<- <-] | [_ Hl]]; [left; split; reflexivity|].
  apply lookup_singleton_Some in Hl as [<- <-]. right. split; reflexivity.
Qed.

Lemma filter_by_length_keeps_witness :
  exists filtered_genes filtered_transcripts,
    Populate.filter_by_length example_genes example_transcripts 100 =
      Ok (filtered_genes, filtered_transcripts) /\
    (forall id t,
       filtered_transcripts !! id = Some t <->
       example_transcripts !! id = Some t /\ Populate.long_enough 100 t) /\
    (forall g x,
       filtered_genes !! g = Some x <->
       example_genes !! g = Some x /\
       exists id t, filtered_transcripts !! id = Some t /\
                    InitDb.transcript_gene_id t = Some g).
Proof.
  apply (OrganizeProps.filter_by_length_keeps example_genes example_transcripts
           100).
  intros id t _. reflexivity.
Defined.

Lemma filtered_chromosomes_have_transcripts_witness :
  exists filtered_genes filtered_transcripts gene_dict transcript_dict,
    Populate.filter_by_length example_genes example_transcripts 100 =
      Ok (filtered_genes, filtered_transcripts) /\
    Populate.organize_by_chromosome filtered_genes filtered_transcripts =
      Ok (gene_dict, transcript_dict) /\
    forall chromosome,
      is_Some (gene_dict !! chromosome) ->
      is_Some (transcript_dict !! chromosome).
Proof.
  apply (OrganizeProps.filtered_chromosomes_have_transcripts example_genes
           example_transcripts 100).
  - intros id t _. reflexivity.
  - intros id t g x Ht Hg Hx.
    apply example_transcripts_lookup in Ht as [[_ ->] | [_ ->]];
      injection Hg as <-;
      apply example_genes_lookup in Hx as [[Hn ->] | [Hn ->]];
      first [reflexivity | discriminate Hn].
Defined.

Lemma create_vertex_separates_witness :
  exists i j vs1 vs2,
    InitDb.create_vertex (InitDb.GeneId 7) "hg38" "chr1" 100 "+"
                         {["counter" := InitDb.Counter 41]} = (Ok i, vs1) /\
    InitDb.create_vertex (InitDb.GeneId 7) "hg38" "chr1" 200 "+" vs1 =
      (Ok j, vs2) /\
    (i = j <->
     InitDb.vertex_query (InitDb.GeneId 7) "hg38" "chr1" 100 "+" =
     InitDb.vertex_query (InitDb.GeneId 7) "hg38" "chr1" 200 "+") /\
    (InitDbProps.has_comma "hg38" = false -> InitDbProps.has_comma "chr1" = false ->
     InitDbProps.has_comma "hg38" = false -> InitDbProps.has_comma "chr1" = false ->
     (i = j <->
      (InitDb.GeneId 7, "hg38", "chr1", 100, "+") =
      (InitDb.GeneId 7, "hg38", "chr1", 200, "+"))).
Proof.
  apply (AllocationProps.create_vertex_separates 41
           {["counter" := InitDb.Counter 41]}).
  apply AllocationProps.allocated_start.
Defined.

Lemma process_transcript_path_follows_exons_witness :
  exists transcript_path vertices' edges' c' tv ids,
    Populate.process_transcript long_T1 (InitDb.GeneId 1) "hg38" "demo"
      {["counter" := InitDb.Counter 0]} {["counter" := InitDb.Counter 0]}
      (Talon.connect empty_db)
      = (Ok (transcript_path, vertices', edges'), c') /\
    map Some tv =
      map (Populate.vertex_at vertices' (InitDb.GeneId 1) "hg38"
             (Populate.transcript_strand long_T1))
          (Populate.ordered_boundaries long_T1) /\
    map Some ids =
      map (Populate.edge_at edges')
          (Populate.typed_pairs (Populate.consecutive tv) true) /\
    List.length ids =
      (2 * List.length (Populate.transcript_exons long_T1) - 1)%nat /\
    transcript_path = join "," (map str ids).
Proof.
  apply (ProcessProps.process_transcript_path_follows_exons 0 0 long_T1
           (InitDb.GeneId 1) "hg38" "demo").
  - apply AllocationProps.allocated_start.
  - apply AllocationProps.allocated_start.
  - repeat constructor; exists "HAVANA"; vm_compute; reflexivity.
  - exists []. vm_compute. reflexivity.
Defined.

Lemma process_transcript_only_adds_witness :
  exists transcript_path vertices' edges' c',
    Populate.process_transcript long_T1 (InitDb.GeneId 1) "hg38" "demo"
      {["counter" := InitDb.Counter 0]} {["counter" := InitDb.Counter 0]}
      (Talon.connect empty_db)
      = (Ok (transcript_path, vertices', edges'), c') /\
    Populate.extends {["counter" := InitDb.Counter 0]} vertices' /\
    Populate.extends {["counter" := InitDb.Counter 0]} edges' /\
    Populate.allocated_vertices 0 vertices' /\
    Populate.allocated_edges 0 edges' /\
    Talon.durable c' = Talon.durable (Talon.connect empty_db) /\
    Talon.counters (Talon.working c') =
      Talon.counters (Talon.working (Talon.connect empty_db)) /\
    (forall t, t <> "exon_annotations" ->
       Talon.tables (Talon.working c') !! t =
       Talon.tables (Talon.working (Talon.connect empty_db)) !! t).
Proof.
  apply (ProcessProps.process_transcript_only_adds 0 0 long_T1
           (InitDb.GeneId 1) "hg38" "demo").
  - apply AllocationProps.allocated_start.
  - apply AllocationProps.allocated_start.
  - repeat constructor; exists "HAVANA"; vm_compute; reflexivity.
  - exists []. vm_compute. reflexivity.
Defined.

Lemma populate_db_keeps_counters_in_step_witness :
  let out := Populate.populate_db empty_db "demo" chr1_genes chr1_transcripts
                                  "hg38" in
  fst out = Ok tt /\
  (forall category,
     category ∈ ["genes"; "transcripts"; "vertex"; "edge"] ->
     Populate.in_step (Talon.durable (snd out)) category) /\
  Talon.working (snd out) = Talon.durable (snd out).
Proof.
  cbv zeta.
  assert (Hrun : fst (Populate.populate_db empty_db "demo" chr1_genes
                        chr1_transcripts "hg38") = Ok tt)
    by (vm_compute; reflexivity).
  destruct (PopulateProps.populate_db_keeps_counters_in_step empty_db "demo"
              chr1_genes chr1_transcripts "hg38") as [Hstep Hret].
  { intros category Hin.
    repeat (apply elem_of_cons in Hin as [-> | Hin];
            [exists 0; split; vm_compute; reflexivity|]).
    apply elem_of_nil in Hin. contradiction. }
  split; [exact Hrun|]. split; [exact Hstep | exact (Hret Hrun)].
Defined.

Lemma populate_db_needs_transcript_groups_witness :
  is_ok (fst (Populate.populate_db empty_db "demo" chr1_genes ∅ "hg38")) = false.
Proof.
  apply (PopulateProps.populate_db_needs_transcript_groups empty_db "demo"
           chr1_genes ∅ "hg38" "chr1").
  - exists {["G1" := gene_G1]}. reflexivity.
  - reflexivity.
Defined.

Lemma read_gtf_file_reads_three_entry_types_witness :
  @InitDb.read_gtf_file _ _ demo_gtf mixed_lines =
    @InitDb.read_gtf_file _ _ demo_gtf [InitDb.Fields (exon_line "E1" "T1")] /\
  @InitDb.read_gtf_file _ _ demo_gtf truncated_lines = Raise IndexError.
Proof.
  split.
  - exact (proj1 (@GtfLinesProps.read_gtf_file_reads_three_entry_types
                    _ _ demo_gtf mixed_lines)).
  - apply (proj2 (@GtfLinesProps.read_gtf_file_reads_three_entry_types
                    _ _ demo_gtf truncated_lines)
             [InitDb.Fields (exon_line "E1" "T1")] ["chr1"; "HAVANA"]
             [InitDb.Header] one_exon_result).
    + reflexivity.
    + vm_compute. reflexivity.
    + cbn. lia.
Defined.

Lemma batch_loop_sends_every_row_once_witness :
  exists batches,
    (forall c,
       Talon.batch_loop 2 (List.length five_rows)
         (fun index =>
            Talon.executemany "genes" (Talon.slice index (Z.to_nat 2) five_rows))
         c =
       for_each (Talon.executemany "genes") batches c) /\
    concat batches = five_rows /\
    Forall (fun batch => batch <> [] /\ Z.of_nat (List.length batch) <= 2)
           batches.
Proof.
  apply (BatchProps.batch_loop_sends_every_row_once five_rows 2
           (Talon.executemany "genes")).
  lia.
Defined.

End ExampleWitnesses.
